(** * The USP Broker core (src/core/usp_broker.c): a shallow embedding

    The Broker keeps a fixed array of connected USP Services.  Each Service
    owns a vector of registered top-level paths and three linked lists
    (subscription map, request map, passthru message map).  The handlers
    below are transcribed from [usp_broker.c]; the collaborators that live
    in other files of the agent (data-model store, MTP layer, request and
    subscription tables) are reached through the [Platform] interface. *)

From Stdlib Require Import ZArith String Ascii List Bool Lia DecimalString.
From Stdlib Require DecimalPos DecimalZ.
From stdpp Require Import base decidable option list strings numbers.

Local Open Scope Z_scope.
Local Open Scope string_scope.

(* ===================================================================== *)
(** * Error codes and constants *)
(* ===================================================================== *)

(** Modelled from the spec: the error taxonomy of section 7.  The header
    that numbers the codes (usp_err_codes.h) is not part of the sources;
    the numbers are those of the USP error-code table. *)
Definition USP_ERR_OK : Z := 0.
Definition USP_ERR_MESSAGE_NOT_UNDERSTOOD : Z := 7001.
Definition USP_ERR_REQUEST_DENIED : Z := 7002.
Definition USP_ERR_INTERNAL_ERROR : Z := 7003.
Definition USP_ERR_RESOURCES_EXCEEDED : Z := 7005.
Definition USP_ERR_COMMAND_FAILURE : Z := 7022.
Definition USP_ERR_REGISTER_FAILURE : Z := 7028.
Definition USP_ERR_PATH_ALREADY_REGISTERED : Z := 7029.
Definition USP_ERR_DEREGISTER_FAILURE : Z := 7030.

(** [INVALID] marks an unused slot, a failed search and a missing group id. *)
Definition INVALID : Z := -1.

(** The range of an [int]. *)
Definition INT_MAX : Z := 2 ^ 31 - 1.
Definition INT_MIN : Z := - 2 ^ 31.

(* ===================================================================== *)
(** * C strings *)
(* ===================================================================== *)

(** A [string] is the sequence of characters before the terminating NUL. *)

(** Modelled from the spec: the character classes behind "alphanumerics"
    and "instance numbers"; the macros IS_NUMERIC, IS_ALPHA and
    IS_ALPHA_NUMERIC come from common_defs.h, which is not part of the
    sources. *)
Definition IS_NUMERIC (c : ascii) : bool :=
  (("0" <=? c) && (c <=? "9"))%char.

Definition IS_ALPHA (c : ascii) : bool :=
  ((("A" <=? c) && (c <=? "Z")) || (("a" <=? c) && (c <=? "z")))%char.

Definition IS_ALPHA_NUMERIC (c : ascii) : bool :=
  IS_ALPHA c || IS_NUMERIC c.

(** [USP_SNPRINTF(dest, size, ...)], the [snprintf] of common_defs.h (a
    header that is not part of the sources): the formatted text is cut to
    the [size - 1] characters that fit in front of the terminating NUL. *)
Definition USP_SNPRINTF (size : nat) (formatted : string) : string :=
  String.substring 0 (size - 1) formatted.

(** Decimal rendering of an [int] ("%d"). *)
Definition string_of_Z (z : Z) : string :=
  NilZero.string_of_int (Z.to_int z).

(** The scanning loop [while ( *p != '\0') { if (!ok( *p)) return ...; p++; }]. *)
Fixpoint all_chars (ok : ascii -> bool) (p : string) : bool :=
  match p with
  | EmptyString => true
  | String c rest => if ok c then all_chars ok rest else false
  end.

(** The [strchr] loop of [ValidateUspServicePath]: visit every '.', step to
    the character behind it and test it for a digit.  At the end of the
    string that character is the NUL, which is no digit. *)
Fixpoint contains_instance_number (p : string) : bool :=
  match p with
  | EmptyString => false
  | String c rest =>
      if Ascii.eqb c "."
      then match rest with
           | EmptyString => false
           | String d _ =>
               if IS_NUMERIC d then true else contains_instance_number rest
           end
      else contains_instance_number rest
  end.

Definition DM_ROOT : string := "Device.".

(** [ValidateUspServicePath] (usp_broker.c:3460). *)
Definition ValidateUspServicePath (path : string) : Z :=
  (* Exit if the path does not start with 'Device.' *)
  if negb (String.prefix DM_ROOT path) then USP_ERR_REGISTER_FAILURE
  (* Exit if the path does not end in a dot *)
  else if negb (bool_decide
                  (String.get (String.length path - 1) path = Some "."%char))
  then USP_ERR_REGISTER_FAILURE
  (* Only alphanumerics and the period character are allowed *)
  else if negb (all_chars (fun c => IS_ALPHA_NUMERIC c || Ascii.eqb c ".") path)
  then USP_ERR_REGISTER_FAILURE
  (* A period immediately followed by an instance number *)
  else if contains_instance_number path then USP_ERR_REGISTER_FAILURE
  else USP_ERR_OK.

(** The textual shape the specification asks of a register path. *)
Definition valid_register_path (p : string) : Prop :=
  (exists rest, p = String.append DM_ROOT rest) /\
  (exists front, p = String.append front ".") /\
  (forall i c, String.get i p = Some c ->
               IS_ALPHA_NUMERIC c = true \/ c = "."%char) /\
  (forall i d, String.get i p = Some "."%char ->
               String.get (S i) p = Some d -> IS_NUMERIC d = false).

(* ===================================================================== *)
(** * Data model of the Broker *)
(* ===================================================================== *)

(** Modelled from the spec: the MTP connection handle.  [mtp_conn_t] is
    declared outside the sources; the Broker reads [protocol],
    [is_reply_to_specified] and, for UDS, [uds.path_type]; everything else
    in the structure is carried along as [conn_details]. *)
Inductive mtp_protocol_t :=
  | kMtpProtocol_None
  | kMtpProtocol_STOMP
  | kMtpProtocol_MQTT
  | kMtpProtocol_WebSockets
  | kMtpProtocol_UDS.

Inductive uds_path_t :=
  | kUdsPathType_Invalid
  | kUdsPathType_BrokersAgent
  | kUdsPathType_BrokersController.

Record mtp_conn_t := {
  protocol : mtp_protocol_t;
  is_reply_to_specified : bool;
  uds_path_type : uds_path_t;
  conn_details : Z;
}.

#[global] Instance mtp_protocol_eq_dec : EqDecision mtp_protocol_t.
Proof. solve_decision. Defined.
#[global] Instance uds_path_eq_dec : EqDecision uds_path_t.
Proof. solve_decision. Defined.
#[global] Instance mtp_conn_eq_dec : EqDecision mtp_conn_t.
Proof. solve_decision. Defined.

(** Row of the subscription mapping table ([subs_map_t]). *)
Record subs_map_t := {
  broker_instance : Z;     (* instance in the Broker's subscription table *)
  smap_path : string;      (* path subscribed to on the USP Service *)
  service_instance : Z;    (* instance in the Service's subscription table *)
  subscription_id : string;
}.

(** Row of the request mapping table ([req_map_t]). *)
Record req_map_t := {
  request_instance : Z;    (* instance in the Broker's Request table *)
  rmap_path : string;      (* path of the USP command that was invoked *)
  command_key : string;
}.

(** Row of the passthru message mapping table ([msg_map_t]). *)
Record msg_map_t := {
  broker_msg_id : string;
  original_msg_id : string;
  originator : string;
  mtp_conn : mtp_conn_t;
}.

#[global] Instance subs_map_eq_dec : EqDecision subs_map_t.
Proof. solve_decision. Defined.
#[global] Instance req_map_eq_dec : EqDecision req_map_t.
Proof. solve_decision. Defined.
#[global] Instance msg_map_eq_dec : EqDecision msg_map_t.
Proof. solve_decision. Defined.

(** Entry of the [usp_services] array ([usp_service_t]).  The three doubly
    linked lists are lists in head-to-tail order; a NULL [endpoint_id] is
    the empty string. *)
Record usp_service_t := {
  instance : Z;
  endpoint_id : string;
  controller_mtp : mtp_conn_t;
  agent_mtp : mtp_conn_t;
  group_id : Z;
  has_controller : bool;
  gsdm_msg_id : option string;
  registered_paths : list string;
  subs_map : list subs_map_t;
  req_map : list req_map_t;
  msg_map : list msg_map_t;
}.

(** Field updates ([us->field = v]). *)
Definition set_instance (v : Z) (us : usp_service_t) : usp_service_t :=
  {| instance := v; endpoint_id := endpoint_id us;
     controller_mtp := controller_mtp us; agent_mtp := agent_mtp us;
     group_id := group_id us; has_controller := has_controller us;
     gsdm_msg_id := gsdm_msg_id us; registered_paths := registered_paths us;
     subs_map := subs_map us; req_map := req_map us; msg_map := msg_map us |}.

Definition set_endpoint_id (v : string) (us : usp_service_t) : usp_service_t :=
  {| instance := instance us; endpoint_id := v;
     controller_mtp := controller_mtp us; agent_mtp := agent_mtp us;
     group_id := group_id us; has_controller := has_controller us;
     gsdm_msg_id := gsdm_msg_id us; registered_paths := registered_paths us;
     subs_map := subs_map us; req_map := req_map us; msg_map := msg_map us |}.

Definition set_controller_mtp (v : mtp_conn_t) (us : usp_service_t) : usp_service_t :=
  {| instance := instance us; endpoint_id := endpoint_id us;
     controller_mtp := v; agent_mtp := agent_mtp us;
     group_id := group_id us; has_controller := has_controller us;
     gsdm_msg_id := gsdm_msg_id us; registered_paths := registered_paths us;
     subs_map := subs_map us; req_map := req_map us; msg_map := msg_map us |}.

Definition set_agent_mtp (v : mtp_conn_t) (us : usp_service_t) : usp_service_t :=
  {| instance := instance us; endpoint_id := endpoint_id us;
     controller_mtp := controller_mtp us; agent_mtp := v;
     group_id := group_id us; has_controller := has_controller us;
     gsdm_msg_id := gsdm_msg_id us; registered_paths := registered_paths us;
     subs_map := subs_map us; req_map := req_map us; msg_map := msg_map us |}.

Definition set_group_id (v : Z) (us : usp_service_t) : usp_service_t :=
  {| instance := instance us; endpoint_id := endpoint_id us;
     controller_mtp := controller_mtp us; agent_mtp := agent_mtp us;
     group_id := v; has_controller := has_controller us;
     gsdm_msg_id := gsdm_msg_id us; registered_paths := registered_paths us;
     subs_map := subs_map us; req_map := req_map us; msg_map := msg_map us |}.

Definition set_has_controller (v : bool) (us : usp_service_t) : usp_service_t :=
  {| instance := instance us; endpoint_id := endpoint_id us;
     controller_mtp := controller_mtp us; agent_mtp := agent_mtp us;
     group_id := group_id us; has_controller := v;
     gsdm_msg_id := gsdm_msg_id us; registered_paths := registered_paths us;
     subs_map := subs_map us; req_map := req_map us; msg_map := msg_map us |}.

Definition set_gsdm_msg_id (v : option string) (us : usp_service_t) : usp_service_t :=
  {| instance := instance us; endpoint_id := endpoint_id us;
     controller_mtp := controller_mtp us; agent_mtp := agent_mtp us;
     group_id := group_id us; has_controller := has_controller us;
     gsdm_msg_id := v; registered_paths := registered_paths us;
     subs_map := subs_map us; req_map := req_map us; msg_map := msg_map us |}.

Definition set_registered_paths (v : list string) (us : usp_service_t) : usp_service_t :=
  {| instance := instance us; endpoint_id := endpoint_id us;
     controller_mtp := controller_mtp us; agent_mtp := agent_mtp us;
     group_id := group_id us; has_controller := has_controller us;
     gsdm_msg_id := gsdm_msg_id us; registered_paths := v;
     subs_map := subs_map us; req_map := req_map us; msg_map := msg_map us |}.

Definition set_subs_map (v : list subs_map_t) (us : usp_service_t) : usp_service_t :=
  {| instance := instance us; endpoint_id := endpoint_id us;
     controller_mtp := controller_mtp us; agent_mtp := agent_mtp us;
     group_id := group_id us; has_controller := has_controller us;
     gsdm_msg_id := gsdm_msg_id us; registered_paths := registered_paths us;
     subs_map := v; req_map := req_map us; msg_map := msg_map us |}.

Definition set_req_map (v : list req_map_t) (us : usp_service_t) : usp_service_t :=
  {| instance := instance us; endpoint_id := endpoint_id us;
     controller_mtp := controller_mtp us; agent_mtp := agent_mtp us;
     group_id := group_id us; has_controller := has_controller us;
     gsdm_msg_id := gsdm_msg_id us; registered_paths := registered_paths us;
     subs_map := subs_map us; req_map := v; msg_map := msg_map us |}.

Definition set_msg_map (v : list msg_map_t) (us : usp_service_t) : usp_service_t :=
  {| instance := instance us; endpoint_id := endpoint_id us;
     controller_mtp := controller_mtp us; agent_mtp := agent_mtp us;
     group_id := group_id us; has_controller := has_controller us;
     gsdm_msg_id := gsdm_msg_id us; registered_paths := registered_paths us;
     subs_map := subs_map us; req_map := req_map us; msg_map := v |}.

(* ===================================================================== *)
(** * USP messages *)
(* ===================================================================== *)

(** The parsed protobuf message ([Usp__Msg]), restricted to the parts the
    Broker inspects.  A NULL pointer is [None].  Payloads the Broker never
    opens (Get, Set, Add, Delete and their responses) are kept as opaque
    text.  The human-readable [err_msg] strings are not modelled. *)
Inductive Usp__Header__MsgType :=
  | USP__HEADER__MSG_TYPE__ERROR
  | USP__HEADER__MSG_TYPE__GET
  | USP__HEADER__MSG_TYPE__GET_RESP
  | USP__HEADER__MSG_TYPE__NOTIFY
  | USP__HEADER__MSG_TYPE__SET
  | USP__HEADER__MSG_TYPE__SET_RESP
  | USP__HEADER__MSG_TYPE__OPERATE
  | USP__HEADER__MSG_TYPE__OPERATE_RESP
  | USP__HEADER__MSG_TYPE__ADD
  | USP__HEADER__MSG_TYPE__ADD_RESP
  | USP__HEADER__MSG_TYPE__DELETE
  | USP__HEADER__MSG_TYPE__DELETE_RESP
  | USP__HEADER__MSG_TYPE__GET_SUPPORTED_DM
  | USP__HEADER__MSG_TYPE__GET_SUPPORTED_DM_RESP
  | USP__HEADER__MSG_TYPE__GET_INSTANCES
  | USP__HEADER__MSG_TYPE__GET_INSTANCES_RESP
  | USP__HEADER__MSG_TYPE__NOTIFY_RESP
  | USP__HEADER__MSG_TYPE__GET_SUPPORTED_PROTO
  | USP__HEADER__MSG_TYPE__GET_SUPPORTED_PROTO_RESP
  | USP__HEADER__MSG_TYPE__REGISTER
  | USP__HEADER__MSG_TYPE__REGISTER_RESP
  | USP__HEADER__MSG_TYPE__DEREGISTER
  | USP__HEADER__MSG_TYPE__DEREGISTER_RESP.

Record Usp__Header := {
  msg_id : option string;
  msg_type : Usp__Header__MsgType;
}.

Record Usp__Register := {
  allow_partial : bool;
  reg_paths : list string;
}.

Record Usp__Notify__OperationComplete := {
  obj_path : string;
  command_name : string;
  oc_command_key : string;
}.

Inductive Usp__Notify__Notification :=
  | USP__NOTIFY__NOTIFICATION__NOT_SET
  | USP__NOTIFY__NOTIFICATION_EVENT (payload : string)
  | USP__NOTIFY__NOTIFICATION_VALUE_CHANGE (param_path param_value : string)
  | USP__NOTIFY__NOTIFICATION_OBJ_CREATION (payload : string)
  | USP__NOTIFY__NOTIFICATION_OBJ_DELETION (payload : string)
  | USP__NOTIFY__NOTIFICATION_OPER_COMPLETE (op : Usp__Notify__OperationComplete)
  | USP__NOTIFY__NOTIFICATION_ON_BOARD_REQ (payload : string).

Record Usp__Notify := {
  notify_subscription_id : string;
  send_resp : bool;
  notification : Usp__Notify__Notification;
}.

Record Usp__Operate := {
  command : string;
  operate_command_key : string;
  operate_send_resp : bool;
  input_args : list (string * string);
}.

Record Usp__GetSupportedDM := {
  obj_paths : list string;
  first_level_only : bool;
  return_commands : bool;
  return_events : bool;
  return_params : bool;
}.

Inductive Usp__Request :=
  | USP__REQUEST__REQ_TYPE_REGISTER (register_ : option Usp__Register)
  | USP__REQUEST__REQ_TYPE_NOTIFY (notify : option Usp__Notify)
  | USP__REQUEST__REQ_TYPE_OPERATE (operate : Usp__Operate)
  | USP__REQUEST__REQ_TYPE_GET_SUPPORTED_DM (get_supported_dm : Usp__GetSupportedDM)
  | USP__REQUEST__REQ_TYPE_OTHER (payload : string).

(** [oper_status] of a registered path result. *)
Inductive RegisteredPathResult__OperationStatus :=
  | OPER_STATUS_OPER_SUCCESS (registered_path : string)
  | OPER_STATUS_OPER_FAILURE (err_code : Z).

Record Usp__RegisterResp__RegisteredPathResult := {
  requested_path : string;
  oper_status : RegisteredPathResult__OperationStatus;
}.

Inductive OperationResult__OperationResp :=
  | OPERATION_RESP__NOT_SET
  | OPERATION_RESP_REQ_OBJ_PATH (req_obj_path : string)
  | OPERATION_RESP_REQ_OUTPUT_ARGS (output_args : list (string * string))
  | OPERATION_RESP_CMD_FAILURE (err_code : Z).

Record Usp__OperateResp__OperationResult := {
  executed_command : string;
  operation_resp : OperationResult__OperationResp;
}.

Inductive Usp__Response :=
  | USP__RESPONSE__RESP_TYPE_REGISTER_RESP
      (registered_path_results : list Usp__RegisterResp__RegisteredPathResult)
  | USP__RESPONSE__RESP_TYPE_OPERATE_RESP
      (operate_resp : option (list Usp__OperateResp__OperationResult))
  | USP__RESPONSE__RESP_TYPE_OTHER (payload : string).

Inductive Usp__Body :=
  | USP__BODY__MSG_BODY__NOT_SET
  | USP__BODY__MSG_BODY_REQUEST (request : option Usp__Request)
  | USP__BODY__MSG_BODY_RESPONSE (response : option Usp__Response)
  | USP__BODY__MSG_BODY_ERROR (err_code : Z).

Record Usp__Msg := {
  header : option Usp__Header;
  body : option Usp__Body;
}.

#[global] Instance msg_type_eq_dec : EqDecision Usp__Header__MsgType.
Proof. solve_decision. Defined.
#[global] Instance header_eq_dec : EqDecision Usp__Header.
Proof. solve_decision. Defined.

(** [usp->header->msg_id = v] *)
Definition set_msg_id (v : string) (usp : Usp__Msg) : Usp__Msg :=
  {| header := match header usp with
               | Some h => Some {| msg_id := Some v; msg_type := msg_type h |}
               | None => None
               end;
     body := body usp |}.

(** Message constructors of msg_handler.c, as the callers below use them. *)
Definition MSG_HANDLER_CreateRequestMsg
    (id : string) (t : Usp__Header__MsgType) (req : Usp__Request) : Usp__Msg :=
  {| header := Some {| msg_id := Some id; msg_type := t |};
     body := Some (USP__BODY__MSG_BODY_REQUEST (Some req)) |}.

Definition MSG_HANDLER_CreateResponseMsg
    (id : string) (t : Usp__Header__MsgType) (resp : Usp__Response) : Usp__Msg :=
  {| header := Some {| msg_id := Some id; msg_type := t |};
     body := Some (USP__BODY__MSG_BODY_RESPONSE (Some resp)) |}.

(** [ERROR_RESP_CreateSingle(msg_id, err, resp)]: a USP ERROR message that
    replaces whatever response was under construction. *)
Definition ERROR_RESP_CreateSingle (id : string) (err : Z) : Usp__Msg :=
  {| header := Some {| msg_id := Some id; msg_type := USP__HEADER__MSG_TYPE__ERROR |};
     body := Some (USP__BODY__MSG_BODY_ERROR err) |}.

(** [CreateRegisterResp] (usp_broker.c:4081). *)
Definition CreateRegisterResp (id : string) : Usp__Msg :=
  MSG_HANDLER_CreateResponseMsg id USP__HEADER__MSG_TYPE__REGISTER_RESP
    (USP__RESPONSE__RESP_TYPE_REGISTER_RESP []).

(** [AddRegisterResp_RegisteredPathResult] (usp_broker.c:4108), on the list
    of results of the response under construction. *)
Definition AddRegisterResp_RegisteredPathResult
    (reg_resp : list Usp__RegisterResp__RegisteredPathResult)
    (path : string) (err_code : Z)
  : list Usp__RegisterResp__RegisteredPathResult :=
  reg_resp ++
  [ {| requested_path := path;
       oper_status := if bool_decide (err_code = USP_ERR_OK)
                      then OPER_STATUS_OPER_SUCCESS path
                      else OPER_STATUS_OPER_FAILURE err_code |} ].

Definition RegisterResp_msg
    (id : string) (results : list Usp__RegisterResp__RegisteredPathResult)
  : Usp__Msg :=
  MSG_HANDLER_CreateResponseMsg id USP__HEADER__MSG_TYPE__REGISTER_RESP
    (USP__RESPONSE__RESP_TYPE_REGISTER_RESP results).

(** [CreateBroker_GetSupportedDMReq] (usp_broker.c:4037). *)
Definition CreateBroker_GetSupportedDMReq (id : string) (sv : list string) : Usp__Msg :=
  MSG_HANDLER_CreateRequestMsg id USP__HEADER__MSG_TYPE__GET_SUPPORTED_DM
    (USP__REQUEST__REQ_TYPE_GET_SUPPORTED_DM
       {| obj_paths := sv; first_level_only := false; return_commands := true;
          return_events := true; return_params := true |}).

(* ===================================================================== *)
(** * The Broker's state and its collaborators *)
(* ===================================================================== *)

(** Modelled from the spec: a node of the supported data model.  The
    data-model store is outside the sources; the Broker asks it whether a
    path exists, adds a path, tags the node with a group id and removes a
    path again. *)
Inductive dm_node_type_t :=
  | kDMNodeType_Object_SingleInstance
  | kDMNodeType_Object_MultiInstance
  | kDMNodeType_Param.

Record dm_node_t := {
  node_path : string;
  node_type : dm_node_type_t;
  node_group_id : Z;
  group_writable : bool;
}.

(** Calls that leave the Broker, in the order they are made. *)
Inductive event :=
  | Ev_QueueMessage (endpoint : string) (msg : Usp__Msg) (mtpc : mtp_conn_t)
  | Ev_QueueErrorMessage (err : Z) (endpoint : string) (mtpc : mtp_conn_t) (id : string)
  | Ev_SendRequestAndWaitForResponse (endpoint : string) (req : Usp__Msg) (mtpc : mtp_conn_t)
  | Ev_RouteNotification (usp : Usp__Msg) (broker_inst : Z)
  | Ev_InformInstance (path : string)
  | Ev_NotifyInstanceDeleted (path : string)
  | Ev_RegisterGroupVendorHooks (group : Z) (in_use : bool)
  | Ev_RegisterSubscriptionVendorHooks (group : Z)
  | Ev_RegisterMultiDeleteVendorHook (group : Z)
  | Ev_RegisterCreateObjectVendorHook (group : Z)
  | Ev_FreeMTPConnection (mtpc : mtp_conn_t)
  | Ev_AddSchemaPath (path : string) (type : dm_node_type_t)
  | Ev_DeRegisterPath (path : string)
  | Ev_FreeAllVendorLayerSubsForGroup (group : Z)
  | Ev_RequestDeleteInstance (inst : Z)
  | Ev_RequestOperationComplete (inst : Z) (err : Z)
  | Ev_SignalOperationStatus (inst : Z) (status : string)
  | Ev_SignalOperationComplete (inst : Z) (err : Z) (output_args : list (string * string)).

(** Build-time constants and the answers of the collaborators.  None of
    them is defined in the sources, so the development is parametric in
    them. *)
Class Platform := {
  MAX_USP_SERVICES : nat;
  MAX_VENDOR_PARAM_GROUPS : nat;
  MAX_DM_PATH : nat;
  MAX_MSG_ID_LEN : nat;
  ONLY_CONTROLLER_CONNECTIONS : Z;
  (* text_utils *)
  TEXT_UTILS_IsPathMatch : string -> string -> bool;
  (* what the n-th USP_REGISTER_ call of USP_BROKER_Init returns *)
  USP_REGISTER_result : nat -> Z;
  (* data model *)
  USP_DM_InformInstance_result : string -> Z;
  DM_PRIV_AddSchemaPath_accepts : string -> bool;
  DATA_MODEL_GetParameterValue_result : string -> Z * string;
  (* message handler and MTP *)
  MSG_HANDLER_QueueMessage_result : string -> Usp__Msg -> mtp_conn_t -> Z;
  DM_EXEC_SendRequestAndWaitForResponse_result :
    string -> Usp__Msg -> mtp_conn_t -> option Usp__Msg;
  MSG_UTILS_ValidateUspResponse_result : Usp__Msg -> Z;
  (* subscription table *)
  DEVICE_SUBSCRIPTION_RouteNotification_result : Usp__Msg -> Z -> Z;
  (* time(NULL) at the n-th message id *)
  time_result : Z -> Z;
}.

(** The state the handlers work on: the [usp_services] array, the static
    counter of [CalcBrokerMessageId], and the collaborators' tables as far
    as the Broker changes them. *)
Record broker := {
  usp_services : list usp_service_t;
  schema : list dm_node_t;          (* supported data model *)
  groups_in_use : list Z;           (* group ids that have vendor hooks *)
  request_table : list Z;           (* rows of Device.LocalAgent.Request *)
  count : Z;                        (* static unsigned count *)
  trace : list event;
}.

Definition set_usp_services (v : list usp_service_t) (b : broker) : broker :=
  {| usp_services := v; schema := schema b; groups_in_use := groups_in_use b;
     request_table := request_table b; count := count b; trace := trace b |}.

Definition set_schema (v : list dm_node_t) (b : broker) : broker :=
  {| usp_services := usp_services b; schema := v; groups_in_use := groups_in_use b;
     request_table := request_table b; count := count b; trace := trace b |}.

Definition set_groups_in_use (v : list Z) (b : broker) : broker :=
  {| usp_services := usp_services b; schema := schema b; groups_in_use := v;
     request_table := request_table b; count := count b; trace := trace b |}.

Definition set_request_table (v : list Z) (b : broker) : broker :=
  {| usp_services := usp_services b; schema := schema b; groups_in_use := groups_in_use b;
     request_table := v; count := count b; trace := trace b |}.

Definition set_count (v : Z) (b : broker) : broker :=
  {| usp_services := usp_services b; schema := schema b; groups_in_use := groups_in_use b;
     request_table := request_table b; count := v; trace := trace b |}.

Definition set_trace (v : list event) (b : broker) : broker :=
  {| usp_services := usp_services b; schema := schema b; groups_in_use := groups_in_use b;
     request_table := request_table b; count := count b; trace := v |}.

(** ** The monad of the handlers

    A handler reads and writes the [broker] state.  [None] is the end of
    the process: a failed [USP_ASSERT], [TERMINATE_BAD_CASE], or the
    dereference of a NULL pointer. *)
Definition M (A : Type) : Type := broker -> option (A * broker).

Definition ret {A} (a : A) : M A := fun b => Some (a, b).

Definition bind {A B} (m : M A) (k : A -> M B) : M B :=
  fun b => match m b with
           | Some (a, b') => k a b'
           | None => None
           end.

Definition terminate {A} : M A := fun _ => None.

Definition get_state : M broker := fun b => Some (b, b).

Definition modify (f : broker -> broker) : M unit := fun b => Some (tt, f b).

Notation "'let*' x ':=' m 'in' k" := (bind m (fun x => k))
  (at level 10, x name, m at level 100, k at level 200, only parsing).
Notation "'let*' ' pat ':=' m 'in' k" :=
  (bind m (fun x => match x with pat => k end))
  (at level 10, pat pattern, m at level 100, k at level 200, only parsing).
Notation "'do*' m 'in' k" := (bind m (fun _ => k))
  (at level 10, m at level 100, k at level 200, only parsing).

(** Record a call to a collaborator. *)
Definition call (e : event) : M unit :=
  modify (fun b => set_trace (trace b ++ [e]) b).

(** [*us] for a pointer into [usp_services]. *)
Definition get_us (us : nat) : M usp_service_t :=
  fun b => match usp_services b !! us with
           | Some s => Some (s, b)
           | None => None
           end.

Definition update_us (us : nat) (f : usp_service_t -> usp_service_t) : M unit :=
  modify (fun b => set_usp_services (alter f us (usp_services b)) b).

(** [usp->header->msg_id], where the source dereferences it unchecked. *)
Definition header_msg_id (usp : Usp__Msg) : M string :=
  match header usp with
  | Some h => match msg_id h with
              | Some id => ret id
              | None => terminate
              end
  | None => terminate
  end.

(** [for (i=0; i<n; i++) body(v[i])] *)
Fixpoint for_each {A} (l : list A) (body : A -> M unit) : M unit :=
  match l with
  | [] => ret tt
  | x :: rest => do* body x in for_each rest body
  end.

(* ===================================================================== *)
(** * The handlers of usp_broker.c *)
(* ===================================================================== *)

Section Handlers.
Context {P : Platform}.

(** ** String vectors and the three mapping tables *)

(** [STR_VECTOR_Find]: index of the first entry equal to [str], or INVALID. *)
Definition STR_VECTOR_Find (sv : list string) (str : string) : Z :=
  match list_find (fun s => s = str) sv with
  | Some (i, _) => Z.of_nat i
  | None => INVALID
  end.

Definition STR_VECTOR_Add (sv : list string) (str : string) : list string :=
  sv ++ [str].

(** [SubsMap_FindByUspServiceSubsId] (usp_broker.c:5374): first entry, from
    the head, with the given subscription id; the pointer is the position. *)
Definition SubsMap_FindByUspServiceSubsId
    (sm : list subs_map_t) (id : string) : option (nat * subs_map_t) :=
  list_find (fun smap => subscription_id smap = id) sm.

(** [SubsMap_FindByPath] (usp_broker.c:5438). *)
Definition SubsMap_FindByPath
    (sm : list subs_map_t) (path : string) : option (nat * subs_map_t) :=
  list_find (fun smap => TEXT_UTILS_IsPathMatch path (smap_path smap) = true) sm.

(** [SubsMap_Add] (usp_broker.c:5326): link to the tail. *)
Definition SubsMap_Add (sm : list subs_map_t)
    (service_inst : Z) (path id : string) (broker_inst : Z) : list subs_map_t :=
  sm ++ [ {| broker_instance := broker_inst; smap_path := path;
             service_instance := service_inst; subscription_id := id |} ].

(** [ReqMap_Find] (usp_broker.c:5555). *)
Definition ReqMap_Find
    (rm : list req_map_t) (path key : string) : option (nat * req_map_t) :=
  list_find (fun rmap => rmap_path rmap = path /\ command_key rmap = key) rm.

(** [ReqMap_Add] (usp_broker.c:5505): link to the tail; the entry created
    is the last one. *)
Definition ReqMap_Add (rm : list req_map_t)
    (request_inst : Z) (path key : string) : list req_map_t :=
  rm ++ [ {| request_instance := request_inst; rmap_path := path;
             command_key := key |} ].

(** [ReqMap_Remove] (usp_broker.c:5531): unlink the entry pointed to. *)
Definition ReqMap_Remove (rm : list req_map_t) (rmap : nat) : list req_map_t :=
  delete rmap rm.

(** [MsgMap_Find] (usp_broker.c:5676). *)
Definition MsgMap_Find
    (mm : list msg_map_t) (id : string) : option (nat * msg_map_t) :=
  list_find (fun map => broker_msg_id map = id) mm.

(** [MsgMap_Add] (usp_broker.c:5623). *)
Definition MsgMap_Add (mm : list msg_map_t)
    (original broker_id endpoint : string) (mtpc : mtp_conn_t) : list msg_map_t :=
  mm ++ [ {| broker_msg_id := broker_id; original_msg_id := original;
             originator := endpoint; mtp_conn := mtpc |} ].

(** ** Searching the [usp_services] array *)

(** [FindUspServiceByEndpoint] (usp_broker.c:5141). *)
Definition FindUspServiceByEndpoint
    (services : list usp_service_t) (endpoint : string) : option nat :=
  fst <$> list_find
    (fun us => instance us <> INVALID /\ endpoint_id us = endpoint) services.

(** [FindUspServiceByGroupId] (usp_broker.c:5199). *)
Definition FindUspServiceByGroupId
    (services : list usp_service_t) (group : Z) : option nat :=
  fst <$> list_find
    (fun us => instance us <> INVALID /\ group_id us = group) services.

(** [FindUnusedUspService] (usp_broker.c:5228). *)
Definition FindUnusedUspService (services : list usp_service_t) : option nat :=
  fst <$> list_find (fun us => instance us = INVALID) services.

(** [CalcNextUspServiceInstanceNumber] (usp_broker.c:5257).  [max_instance]
    is an [int]: one more than [INT_MAX] comes out as [INT_MIN]. *)
Definition CalcNextUspServiceInstanceNumber (services : list usp_service_t) : Z :=
  let max_instance :=
    fold_left
      (fun max_instance us =>
         if bool_decide (instance us <> INVALID /\ instance us > max_instance)
         then instance us else max_instance)
      services 0 in
  if bool_decide (max_instance < INT_MAX) then max_instance + 1 else INT_MIN.

(** ** Collaborators *)

Definition zero_mtp_conn : mtp_conn_t :=
  {| protocol := kMtpProtocol_None; is_reply_to_specified := false;
     uds_path_type := kUdsPathType_Invalid; conn_details := 0 |}.

(** Modelled from the spec: "the Broker releases a handle before
    overwriting its slot".  [DM_EXEC_FreeMTPConnection] is outside the
    sources; the callers rely on the protocol being [kMtpProtocol_None]
    afterwards. *)
Definition freed_mtp_conn (c : mtp_conn_t) : mtp_conn_t :=
  {| protocol := kMtpProtocol_None; is_reply_to_specified := false;
     uds_path_type := uds_path_type c; conn_details := conn_details c |}.

Definition MSG_HANDLER_QueueMessage
    (endpoint : string) (msg : Usp__Msg) (mtpc : mtp_conn_t) : M Z :=
  do* call (Ev_QueueMessage endpoint msg mtpc) in
  ret (MSG_HANDLER_QueueMessage_result endpoint msg mtpc).

Definition MSG_HANDLER_QueueErrorMessage
    (err : Z) (endpoint : string) (mtpc : mtp_conn_t) (id : string) : M unit :=
  call (Ev_QueueErrorMessage err endpoint mtpc id).

Definition USP_DM_InformInstance (path : string) : M Z :=
  do* call (Ev_InformInstance path) in
  ret (USP_DM_InformInstance_result path).

(** Modelled from the spec: a group id is in use while vendor hooks are
    registered for it ("installs a get-handler stub against the group so
    other code can observe the group as in use"). *)
Definition USP_REGISTER_GroupVendorHooks (group : Z) (in_use : bool) : M unit :=
  do* call (Ev_RegisterGroupVendorHooks group in_use) in
  modify (fun b =>
    set_groups_in_use
      (if in_use then group :: groups_in_use b
       else filter (fun g => g <> group) (groups_in_use b)) b).

(** Modelled from the spec: "a fresh group_id", the first of the
    [MAX_VENDOR_PARAM_GROUPS] ids that is not in use, or INVALID. *)
Definition DATA_MODEL_FindUnusedGroupId (b : broker) : Z :=
  match list_find (fun g => Z.of_nat g ∉ groups_in_use b)
                  (seq 0 MAX_VENDOR_PARAM_GROUPS) with
  | Some (_, g) => Z.of_nat g
  | None => INVALID
  end.

(** Modelled from the spec: "it does not exist in the built-in schema".
    [DATA_MODEL_GetPathProperties(path, ...) & PP_EXISTS_IN_SCHEMA]. *)
Definition PP_EXISTS_IN_SCHEMA (b : broker) (path : string) : bool :=
  bool_decide (path ∈ node_path <$> schema b).

(** Modelled from the spec: "insert a provisional single-instance object
    node with group_id = service.group_id".  [DM_PRIV_AddSchemaPath]
    returns NULL when the store does not accept the path; otherwise the
    caller initialises the node's object info and tags it with its group. *)
Definition DM_PRIV_AddSchemaPath_and_tag
    (path : string) (type : dm_node_type_t) (group : Z) : M bool :=
  do* call (Ev_AddSchemaPath path type) in
  if DM_PRIV_AddSchemaPath_accepts path
  then do* modify (fun b =>
         set_schema
           (filter (fun n => node_path n <> path) (schema b) ++
            [ {| node_path := path; node_type := type;
                 node_group_id := group; group_writable := false |} ]) b) in
       ret true
  else ret false.

(** Modelled from the spec: "deregister the subtree from the schema". *)
Definition DATA_MODEL_DeRegisterPath (path : string) : M unit :=
  do* call (Ev_DeRegisterPath path) in
  modify (fun b =>
    set_schema
      (filter (fun n => String.prefix path (node_path n) = false) (schema b)) b).

(** Modelled from the spec: deleting a row of the Request table. *)
Definition DEVICE_REQUEST_DeleteInstance (inst : Z) : M unit :=
  do* call (Ev_RequestDeleteInstance inst) in
  modify (fun b =>
    set_request_table (filter (fun r => r <> inst) (request_table b)) b).

(** [DEVICE_REQUEST_OperationComplete]: "this also results in the entry in
    the Broker's Request table for the USP Command being deleted". *)
Definition DEVICE_REQUEST_OperationComplete (inst : Z) (err : Z) : M unit :=
  do* call (Ev_RequestOperationComplete inst err) in
  modify (fun b =>
    set_request_table (filter (fun r => r <> inst) (request_table b)) b).

(** [CalcBrokerMessageId] (usp_broker.c:5116): the static [unsigned count]
    wraps at 2^32; "%d" prints it as an [int], "%u" the time as unsigned. *)
Definition as_int (u : Z) : Z :=
  if bool_decide (u < 2 ^ 31) then u else u - 2 ^ 32.

(** "%s-%d-%u" of [broker_unique_str], [count] and [time(NULL)]. *)
Definition broker_message_id (len : nat) (c : Z) : string :=
  USP_SNPRINTF len
    (String.append "BROKER-"
      (String.append (string_of_Z (as_int c))
        (String.append "-" (string_of_Z (time_result c mod 2 ^ 32))))).

Definition CalcBrokerMessageId (len : nat) : M string :=
  let* b := get_state in
  let c := (count b + 1) mod 2 ^ 32 in
  do* modify (set_count c) in
  ret (broker_message_id len c).

(** ** The service table *)

Definition DEVICE_SERVICE_ROOT : string := "Device.USPServices.USPService".

(** [memset(us, 0, sizeof(usp_service_t))] *)
Definition zero_usp_service : usp_service_t :=
  {| instance := 0; endpoint_id := ""; controller_mtp := zero_mtp_conn;
     agent_mtp := zero_mtp_conn; group_id := 0; has_controller := false;
     gsdm_msg_id := None; registered_paths := []; subs_map := [];
     req_map := []; msg_map := [] |}.

(** The Broker before [USP_BROKER_Init]: the static array [usp_services]
    and the static [count] are zero.  The nodes of the Broker's own
    Device.USPServices table belong to the built-in schema [builtin]. *)
Definition static_broker (builtin : list dm_node_t) : broker :=
  {| usp_services := replicate MAX_USP_SERVICES zero_usp_service;
     schema := builtin; groups_in_use := []; request_table := [];
     count := 0; trace := [] |}.

(** [USP_BROKER_Init] (usp_broker.c:237): the seven registrations, their
    results or-ed together; if none failed, every entry of the array is
    marked unused.  The result and the state it leaves. *)
Definition USP_BROKER_Init (builtin : list dm_node_t) : Z * broker :=
  let err :=
    fold_left (fun err n => Z.lor err (USP_REGISTER_result n)) (seq 0 7) USP_ERR_OK in
  (* Exit if any errors occurred *)
  if bool_decide (err <> USP_ERR_OK)
  then (USP_ERR_INTERNAL_ERROR, static_broker builtin)
  else
    (* Mark all entries in the USP services array as unused *)
    (USP_ERR_OK,
     set_usp_services
       (replicate MAX_USP_SERVICES (set_instance INVALID zero_usp_service))
       (static_broker builtin)).

(** [DM_EXEC_FreeMTPConnection(&us->controller_mtp)] and the same for the
    agent side. *)
Definition free_controller_mtp (us : nat) : M unit :=
  let* s := get_us us in
  do* call (Ev_FreeMTPConnection (controller_mtp s)) in
  update_us us (set_controller_mtp (freed_mtp_conn (controller_mtp s))).

Definition free_agent_mtp (us : nat) : M unit :=
  let* s := get_us us in
  do* call (Ev_FreeMTPConnection (agent_mtp s)) in
  update_us us (set_agent_mtp (freed_mtp_conn (agent_mtp s))).

(** [UpdateUspServiceMRT] (usp_broker.c:1117), built with ENABLE_UDS. *)
Definition UpdateUspServiceMRT (us : nat) (mtpc : mtp_conn_t) : M unit :=
  let* s := get_us us in
  if bool_decide (protocol mtpc = kMtpProtocol_UDS) then
    (* UDS uses different connections for the Broker's controller and agent *)
    match uds_path_type mtpc with
    | kUdsPathType_BrokersAgent =>
        do* (if bool_decide (protocol (agent_mtp s) <> kMtpProtocol_None)
             then free_agent_mtp us else ret tt) in
        update_us us (set_agent_mtp mtpc)
    | kUdsPathType_BrokersController =>
        do* (if bool_decide (protocol (controller_mtp s) <> kMtpProtocol_None)
             then free_controller_mtp us else ret tt) in
        update_us us (set_controller_mtp mtpc)
    | kUdsPathType_Invalid => terminate   (* TERMINATE_BAD_CASE *)
    end
  else
    (* all other protocols use one connection for both directions *)
    do* (if bool_decide (protocol (controller_mtp s) <> kMtpProtocol_None)
         then free_controller_mtp us else ret tt) in
    do* update_us us (set_controller_mtp mtpc) in
    do* (if bool_decide (protocol (agent_mtp s) <> kMtpProtocol_None)
         then free_agent_mtp us else ret tt) in
    update_us us (set_agent_mtp mtpc).

(** [AddUspService] (usp_broker.c:1060). *)
Definition AddUspService (endpoint : string) (mtpc : mtp_conn_t) : M (option nat) :=
  let* b := get_state in
  match FindUnusedUspService (usp_services b) with
  | None => ret None
  | Some us =>
      let group := DATA_MODEL_FindUnusedGroupId b in
      if bool_decide (group = INVALID) then ret None
      else
        (* mark the group id as in use with a dummy get handler *)
        do* USP_REGISTER_GroupVendorHooks group true in
        (* initialise the USP Service *)
        do* update_us us (fun _ => zero_usp_service) in
        let* b1 := get_state in
        do* update_us us (fun s =>
              set_has_controller false
                (set_group_id group
                  (set_endpoint_id endpoint
                    (set_instance
                       (CalcNextUspServiceInstanceNumber (usp_services b1)) s)))) in
        (* store the connection details *)
        do* UpdateUspServiceMRT us mtpc in
        ret (Some us)
  end.

(** Mark the USP Service as having a controller, if it connected on the
    Broker's agent socket (the [exit:] block of USP_BROKER_AddUspService). *)
Definition mark_has_controller (us : nat) (mtpc : mtp_conn_t) : M unit :=
  if bool_decide (protocol mtpc = kMtpProtocol_UDS /\
                  uds_path_type mtpc = kUdsPathType_BrokersAgent)
  then update_us us (set_has_controller true)
  else ret tt.

(** The instance path "Device.USPServices.USPService.%d". *)
Definition service_instance_path (inst : Z) : string :=
  USP_SNPRINTF MAX_DM_PATH
    (String.append DEVICE_SERVICE_ROOT (String.append "." (string_of_Z inst))).

(** [USP_BROKER_AddUspService] (usp_broker.c:335). *)
Definition USP_BROKER_AddUspService (endpoint : string) (mtpc : mtp_conn_t) : M Z :=
  let* b := get_state in
  match FindUspServiceByEndpoint (usp_services b) endpoint with
  | Some us =>
      (* this endpoint is known already: save the connection details *)
      do* UpdateUspServiceMRT us mtpc in
      do* mark_has_controller us mtpc in
      ret USP_ERR_OK
  | None =>
      let* added := AddUspService endpoint mtpc in
      match added with
      | None => ret USP_ERR_RESOURCES_EXCEEDED
      | Some us =>
          let* s := get_us us in
          let* err := USP_DM_InformInstance (service_instance_path (instance s)) in
          if bool_decide (err <> USP_ERR_OK) then ret USP_ERR_INTERNAL_ERROR
          else
            do* mark_has_controller us mtpc in
            ret USP_ERR_OK
      end
  end.

(** [MsgMap_Destroy] (usp_broker.c:5600): every entry is removed from the
    head, which releases its MTP connection. *)
Definition MsgMap_Destroy (us : nat) : M unit :=
  let* s := get_us us in
  do* for_each (msg_map s) (fun map => call (Ev_FreeMTPConnection (mtp_conn map))) in
  update_us us (set_msg_map []).

(** [FreeUspService] (usp_broker.c:1318). *)
Definition FreeUspService (us : nat) : M unit :=
  do* update_us us (set_endpoint_id "") in
  do* free_controller_mtp us in
  do* free_agent_mtp us in
  do* update_us us (set_gsdm_msg_id None) in
  do* update_us us (set_registered_paths []) in
  do* update_us us (set_subs_map []) in
  do* update_us us (set_req_map []) in
  do* MsgMap_Destroy us in
  (* mark the entry as not-in-use *)
  update_us us (set_instance INVALID).

Definition DONT_FAIL_USP_COMMANDS_IN_PROGRESS : Z := 0.
Definition FAIL_USP_COMMANDS_IN_PROGRESS : Z := 1.

(** [HandleUspServiceAgentDisconnect] (usp_broker.c:3586). *)
Definition HandleUspServiceAgentDisconnect (us : nat) (flags : Z) : M unit :=
  let* s := get_us us in
  do* call (Ev_FreeAllVendorLayerSubsForGroup (group_id s)) in
  do* update_us us (set_subs_map []) in
  do* (if bool_decide (Z.land flags FAIL_USP_COMMANDS_IN_PROGRESS <> 0)
       then
         do* for_each (req_map s) (fun rmap =>
               DEVICE_REQUEST_OperationComplete
                 (request_instance rmap) USP_ERR_COMMAND_FAILURE) in
         update_us us (set_req_map [])
       else ret tt) in
  do* MsgMap_Destroy us in
  do* for_each (registered_paths s) DATA_MODEL_DeRegisterPath in
  update_us us (set_registered_paths []).

(** [USP_BROKER_HandleUspServiceDisconnect] (usp_broker.c:390). *)
Definition USP_BROKER_HandleUspServiceDisconnect
    (endpoint : string) (path_type : uds_path_t) : M unit :=
  let* b := get_state in
  match FindUspServiceByEndpoint (usp_services b) endpoint with
  | None => ret tt
  | Some us =>
      do* match path_type with
          | kUdsPathType_BrokersAgent =>
              (* USP Service's controller disconnected *)
              do* free_agent_mtp us in
              update_us us (set_has_controller false)
          | kUdsPathType_BrokersController =>
              (* USP Service's agent disconnected *)
              do* free_controller_mtp us in
              HandleUspServiceAgentDisconnect us FAIL_USP_COMMANDS_IN_PROGRESS
          | kUdsPathType_Invalid => terminate
          end in
      let* s := get_us us in
      if bool_decide (protocol (controller_mtp s) = kMtpProtocol_None /\
                      protocol (agent_mtp s) = kMtpProtocol_None)
      then
        do* USP_REGISTER_GroupVendorHooks (group_id s) false in
        do* call (Ev_RegisterSubscriptionVendorHooks (group_id s)) in
        do* call (Ev_RegisterMultiDeleteVendorHook (group_id s)) in
        do* call (Ev_RegisterCreateObjectVendorHook (group_id s)) in
        do* call (Ev_NotifyInstanceDeleted
                    (USP_SNPRINTF MAX_DM_PATH
                       (String.append DEVICE_SERVICE_ROOT
                          (String.append "." (string_of_Z (instance s)))))) in
        FreeUspService us
      else ret tt
  end.

(** [USP_BROKER_Stop] (usp_broker.c:304): every Service in use is freed;
    the commands in progress are left in the database. *)
Definition USP_BROKER_Stop : M unit :=
  for_each (seq 0 MAX_USP_SERVICES) (fun us =>
    let* s := get_us us in
    if bool_decide (instance s <> INVALID) then
      do* HandleUspServiceAgentDisconnect us DONT_FAIL_USP_COMMANDS_IN_PROGRESS in
      FreeUspService us
    else ret tt).

(** ** Registration *)

(** [RegisterUspServicePath] (usp_broker.c:1181). *)
Definition RegisterUspServicePath (us : nat) (requested_path : string) : M Z :=
  let* b := get_state in
  (* Exit if this path has already been registered by any of the USP
     Services (including this USP Service) *)
  match list_find
          (fun p => STR_VECTOR_Find (registered_paths p) requested_path <> INVALID)
          (usp_services b) with
  | Some _ => ret USP_ERR_PATH_ALREADY_REGISTERED
  | None =>
      (* Exit if requested path is not a valid data model path *)
      let err := ValidateUspServicePath requested_path in
      if bool_decide (err <> USP_ERR_OK) then ret err
      (* Exit if this path already exists in the schema *)
      else if PP_EXISTS_IN_SCHEMA b requested_path
      then ret USP_ERR_PATH_ALREADY_REGISTERED
      else
        (* Add the requested path *)
        do* update_us us (fun s =>
              set_registered_paths
                (STR_VECTOR_Add (registered_paths s) requested_path) s) in
        ret USP_ERR_OK
  end.

(** [QueueGetSupportedDMToUspService] (usp_broker.c:1347). *)
Definition QueueGetSupportedDMToUspService (us : nat) : M unit :=
  let* s := get_us us in
  (* Exit if this USP Service hasn't registered any paths *)
  if bool_decide (registered_paths s = []) then ret tt
  (* Exit if there is no connection to the USP Service anymore *)
  else if bool_decide (protocol (controller_mtp s) = kMtpProtocol_None) then ret tt
  else
    (* Create the GSDM request *)
    let* id := CalcBrokerMessageId MAX_MSG_ID_LEN in
    do* update_us us (set_gsdm_msg_id (Some id)) in
    let req := CreateBroker_GetSupportedDMReq id (registered_paths s) in
    (* Queue the GSDM request *)
    let* _ := MSG_HANDLER_QueueMessage (endpoint_id s) req (controller_mtp s) in
    (* Register all paths owned by the USP Service into the data model as
       single instance objects *)
    for_each (registered_paths s) (fun path =>
      let* _ := DM_PRIV_AddSchemaPath_and_tag
                  path kDMNodeType_Object_SingleInstance (group_id s) in
      ret tt).

(** The loop over the paths of a Register request (usp_broker.c:529-547).
    [inl err]: a path failed and partial registration is not allowed;
    [inr (reg_resp, count)]: all paths were looked at. *)
Fixpoint HandleRegister_paths
    (us : nat) (allow : bool) (paths : list string)
    (reg_resp : list Usp__RegisterResp__RegisteredPathResult) (cnt : nat)
  : M (Z + list Usp__RegisterResp__RegisteredPathResult * nat) :=
  match paths with
  | [] => ret (inr (reg_resp, cnt))
  | rp :: rest =>
      let* err := RegisterUspServicePath us rp in
      if bool_decide (err <> USP_ERR_OK) && negb allow then
        (* no paths were registered *)
        do* update_us us (set_registered_paths []) in
        ret (inl err)
      else
        HandleRegister_paths us allow rest
          (AddRegisterResp_RegisteredPathResult reg_resp rp err) (S cnt)
  end.

(** The [exit:] block of USP_BROKER_HandleRegister (usp_broker.c:549-562). *)
Definition HandleRegister_exit
    (endpoint : string) (mtpc : mtp_conn_t)
    (resp : Usp__Msg) (cnt : nat) (us : nat) : M unit :=
  (* Queue the response *)
  let* _ := MSG_HANDLER_QueueMessage endpoint resp mtpc in
  (* If any paths were accepted, register the paths into the data model and
     kick off a query to get the supported data model *)
  if bool_decide (0 < cnt)%nat then QueueGetSupportedDMToUspService us
  else ret tt.

(** [USP_BROKER_HandleRegister] (usp_broker.c:454). *)
Definition USP_BROKER_HandleRegister
    (usp : Usp__Msg) (endpoint : string) (mtpc : mtp_conn_t) : M unit :=
  let error_exit (err : Z) : M unit :=
    let* id := header_msg_id usp in
    HandleRegister_exit endpoint mtpc (ERROR_RESP_CreateSingle id err) 0 0 in
  let register_paths (us : nat) (reg : Usp__Register) : M unit :=
    (* Create a Register Response message *)
    let* id := header_msg_id usp in
    let* r := HandleRegister_paths us (allow_partial reg) (reg_paths reg) [] 0 in
    match r with
    | inl err =>
        HandleRegister_exit endpoint mtpc (ERROR_RESP_CreateSingle id err) 0 us
    | inr (reg_resp, cnt) =>
        HandleRegister_exit endpoint mtpc (RegisterResp_msg id reg_resp) cnt us
    end in
  match body usp with
  | Some (USP__BODY__MSG_BODY_REQUEST
            (Some (USP__REQUEST__REQ_TYPE_REGISTER (Some reg)))) =>
      (* Exit if there are no paths to register *)
      if bool_decide (reg_paths reg = []) then error_exit USP_ERR_REGISTER_FAILURE
      else
        let* b := get_state in
        match FindUspServiceByEndpoint (usp_services b) endpoint with
        | Some us =>
            (* Exit if it has already successfully registered some paths *)
            let* s := get_us us in
            if bool_decide (registered_paths s <> [])
            then error_exit USP_ERR_REGISTER_FAILURE
            else register_paths us reg
        | None =>
            (* USP Service has not been added yet, so add it *)
            let* added := AddUspService endpoint mtpc in
            match added with
            | None => error_exit USP_ERR_REGISTER_FAILURE
            | Some us =>
                let* s := get_us us in
                let* err := USP_DM_InformInstance (service_instance_path (instance s)) in
                if bool_decide (err <> USP_ERR_OK)
                then error_exit USP_ERR_REGISTER_FAILURE
                else register_paths us reg
            end
        end
  | _ =>
      (* message is invalid or failed to parse *)
      error_exit USP_ERR_MESSAGE_NOT_UNDERSTOOD
  end.

(** ** Notifications and asynchronous commands *)

(** The buffer [char command_path[MAX_DM_PATH]] filled with "%s%s". *)
Definition command_path_of (obj_path command_name : string) : string :=
  USP_SNPRINTF MAX_DM_PATH (String.append obj_path command_name).

(** [DeleteMatchingOperateRequest] (usp_broker.c:2328). *)
Definition DeleteMatchingOperateRequest
    (us : nat) (obj_path command_name key : string) : M unit :=
  let* s := get_us us in
  (* Form the full path to the USP Command *)
  let command_path := command_path_of obj_path command_name in
  (* Exit if unable to find a match for this USP command *)
  match ReqMap_Find (req_map s) command_path key with
  | None => ret tt
  | Some (rmap, entry) =>
      (* Delete the request from the Broker's request table *)
      do* DEVICE_REQUEST_DeleteInstance (request_instance entry) in
      (* Remove the request from the request mapping table *)
      update_us us (fun s => set_req_map (ReqMap_Remove (req_map s) rmap) s)
  end.

Definition DEVICE_SUBSCRIPTION_RouteNotification (usp : Usp__Msg) (broker_inst : Z) : M Z :=
  do* call (Ev_RouteNotification usp broker_inst) in
  ret (DEVICE_SUBSCRIPTION_RouteNotification_result usp broker_inst).

(** [USP_BROKER_HandleNotification] (usp_broker.c:751). *)
Definition USP_BROKER_HandleNotification
    (usp : Usp__Msg) (endpoint : string) (mtpc : mtp_conn_t) : M unit :=
  let* err :=
    match body usp with
    | Some (USP__BODY__MSG_BODY_REQUEST
              (Some (USP__REQUEST__REQ_TYPE_NOTIFY (Some notify)))) =>
        (* Exit if the notification is expecting a response *)
        if send_resp notify then ret USP_ERR_REQUEST_DENIED
        else
          let* b := get_state in
          (* Exit if endpoint is not a USP Service *)
          match FindUspServiceByEndpoint (usp_services b) endpoint with
          | None => ret USP_ERR_REQUEST_DENIED
          | Some us =>
              let* s := get_us us in
              (* Exit if the subscription_id doesn't match any that we are
                 expecting *)
              match SubsMap_FindByUspServiceSubsId
                      (subs_map s) (notify_subscription_id notify) with
              | None => ret USP_ERR_REQUEST_DENIED
              | Some (_, smap) =>
                  (* Forward the notification back to the controller that
                     set up the subscription on the Broker *)
                  let* err := DEVICE_SUBSCRIPTION_RouteNotification
                                usp (broker_instance smap) in
                  do* match notification notify with
                      | USP__NOTIFY__NOTIFICATION_OPER_COMPLETE op =>
                          DeleteMatchingOperateRequest us
                            (obj_path op) (command_name op) (oc_command_key op)
                      | _ => ret tt
                      end in
                  ret err
              end
          end
    | _ =>
        (* Notification is invalid or inconsistent *)
        ret USP_ERR_REQUEST_DENIED
    end in
  (* Send a USP ERROR response if an error was detected *)
  if bool_decide (err <> USP_ERR_OK)
  then
    let* id := header_msg_id usp in
    MSG_HANDLER_QueueErrorMessage err endpoint mtpc id
  else ret tt.

(** [dm_req_t], as far as the operate hooks read it. *)
Record dm_req_t := {
  req_path : string;
  req_group_id : Z;
}.

(** [CreateBroker_OperateReq] (usp_broker.c:3940). *)
Definition CreateBroker_OperateReq
    (path key : string) (args : list (string * string)) : M Usp__Msg :=
  let* id := CalcBrokerMessageId MAX_MSG_ID_LEN in
  ret (MSG_HANDLER_CreateRequestMsg id USP__HEADER__MSG_TYPE__OPERATE
         (USP__REQUEST__REQ_TYPE_OPERATE
            {| command := path; operate_command_key := key;
               operate_send_resp := true; input_args := args |})).

(** [ProcessOperateResponse] (usp_broker.c:2996): the error code, the
    output arguments and [*is_complete]. *)
Definition ProcessOperateResponse
    (resp : Usp__Msg) (path : string) (is_sync : bool)
  : M (Z * list (string * string) * bool) :=
  (* Exit if the Message body contained an Error response, or the response
     failed to validate *)
  let err := MSG_UTILS_ValidateUspResponse_result resp in
  if bool_decide (err <> USP_ERR_OK) then ret (err, [], false)
  else
    match body resp with
    | Some (USP__BODY__MSG_BODY_RESPONSE
              (Some (USP__RESPONSE__RESP_TYPE_OPERATE_RESP oper))) =>
        match oper with
        | None => ret (USP_ERR_INTERNAL_ERROR, [], false)
        | Some [res] =>
            (* Exit if the operation wasn't the one we requested *)
            if bool_decide (executed_command res <> path)
            then ret (USP_ERR_INTERNAL_ERROR, [], false)
            else
              match operation_resp res with
              | OPERATION_RESP_REQ_OBJ_PATH _ =>
                  if is_sync then ret (USP_ERR_INTERNAL_ERROR, [], false)
                  else ret (USP_ERR_OK, [], false)
              | OPERATION_RESP_REQ_OUTPUT_ARGS args =>
                  ret (USP_ERR_OK, args, true)
              | OPERATION_RESP_CMD_FAILURE code =>
                  (* err = fail->err_code: a uint32_t stored in an int *)
                  ret (as_int (code mod 2 ^ 32), [], false)
              | OPERATION_RESP__NOT_SET => ret (err, [], false)
              end
        | Some _ =>
            (* the number of operation_results is not the expected one *)
            ret (USP_ERR_INTERNAL_ERROR, [], false)
        end
    | _ => terminate   (* resp->body->response->operate_resp of no response *)
    end.

(** [SendOperateAndProcessResponse] (usp_broker.c:2937); [is_complete]
    keeps the caller's initial [false] on the early exits. *)
Definition SendOperateAndProcessResponse
    (group : Z) (path : string) (is_sync : bool) (key : string)
    (args : list (string * string))
  : M (Z * list (string * string) * bool) :=
  let* b := get_state in
  match FindUspServiceByGroupId (usp_services b) group with
  | None => terminate   (* USP_ASSERT(us != NULL) *)
  | Some us =>
      let* s := get_us us in
      (* Exit if there is no connection to the USP Service anymore *)
      if bool_decide (protocol (controller_mtp s) = kMtpProtocol_None)
      then ret (USP_ERR_INTERNAL_ERROR, [], false)
      else
        (* Form the USP Operate Request message *)
        let* req := CreateBroker_OperateReq path key args in
        (* Send the request and wait for a response *)
        do* call (Ev_SendRequestAndWaitForResponse
                    (endpoint_id s) req (controller_mtp s)) in
        match DM_EXEC_SendRequestAndWaitForResponse_result
                (endpoint_id s) req (controller_mtp s) with
        | None => ret (USP_ERR_INTERNAL_ERROR, [], false)
        | Some resp => ProcessOperateResponse resp path is_sync
        end
  end.

(** "Device.LocalAgent.Request.%d.CommandKey" *)
Definition request_command_key_path (inst : Z) : string :=
  USP_SNPRINTF MAX_DM_PATH
    (String.append "Device.LocalAgent.Request."
       (String.append (string_of_Z inst) ".CommandKey")).

(** [Broker_AsyncOperate] (usp_broker.c:1796), with [send] for the call of
    [SendOperateAndProcessResponse]. *)
Definition Broker_AsyncOperate_sending
    (send : Z -> string -> bool -> string -> list (string * string) ->
            M (Z * list (string * string) * bool))
    (req : dm_req_t) (args : list (string * string)) (inst : Z) : M Z :=
  let* b := get_state in
  (* Find USP Service associated with the group_id *)
  match FindUspServiceByGroupId (usp_services b) (req_group_id req) with
  | None => terminate   (* USP_ASSERT(us != NULL) *)
  | Some us =>
      let* s := get_us us in
      (* Exit if no subscription was setup on the USP service for an
         OperateComplete *)
      match SubsMap_FindByPath (subs_map s) (req_path req) with
      | None => ret USP_ERR_REQUEST_DENIED
      | Some _ =>
          (* Exit if unable to get the value of the command key *)
          let '(err, key) :=
            DATA_MODEL_GetParameterValue_result (request_command_key_path inst) in
          if bool_decide (err <> USP_ERR_OK) then ret err
          else
            (* Exit if the combination of path and command_key are not unique *)
            match ReqMap_Find (req_map s) (req_path req) key with
            | Some _ => ret USP_ERR_REQUEST_DENIED
            | None =>
                (* Add the request to the request mapping table, before
                   sending the OperateRequest *)
                let rmap := length (req_map s) in
                do* update_us us (fun s =>
                      set_req_map (ReqMap_Add (req_map s) inst (req_path req) key) s) in
                let* '(err, output_args, is_complete) :=
                  send (req_group_id req) (req_path req) false key args in
                if bool_decide (err <> USP_ERR_OK) then
                  do* update_us us (fun s =>
                        set_req_map (ReqMap_Remove (req_map s) rmap) s) in
                  ret err
                else
                  (* change the Status in the Request table to active *)
                  do* call (Ev_SignalOperationStatus inst "Active") in
                  do* (if is_complete then
                         do* call (Ev_SignalOperationComplete
                                     inst USP_ERR_OK output_args) in
                         update_us us (fun s =>
                           set_req_map (ReqMap_Remove (req_map s) rmap) s)
                       else ret tt) in
                  ret USP_ERR_OK
            end
      end
  end.

Definition Broker_AsyncOperate
    (req : dm_req_t) (args : list (string * string)) (inst : Z) : M Z :=
  Broker_AsyncOperate_sending SendOperateAndProcessResponse req args inst.

(** ** Passthru *)

(** [PassThruToUspService] (usp_broker.c:5069). *)
Definition PassThruToUspService
    (us : nat) (usp : Usp__Msg) (endpoint : string) (mtpc : mtp_conn_t) : M Z :=
  let* s := get_us us in
  (* Remap the messageID from that in the original message *)
  let* broker_id := CalcBrokerMessageId MAX_MSG_ID_LEN in
  match header usp with
  | None => terminate
  | Some h =>
      let original := msg_id h in
      let usp' := set_msg_id broker_id usp in
      (* Exit if unable to send the message to the USP service *)
      let* err := MSG_HANDLER_QueueMessage (endpoint_id s) usp' (controller_mtp s) in
      if bool_decide (err <> USP_ERR_OK) then ret err
      else
        (* Save the details of where to route the response back to *)
        match original with
        | None => terminate   (* USP_STRDUP(NULL) *)
        | Some original =>
            do* update_us us (fun s =>
                  set_msg_map
                    (MsgMap_Add (msg_map s) original broker_id endpoint mtpc) s) in
            ret USP_ERR_OK
        end
  end.

(** [AttemptPassThruForResponse] (usp_broker.c:4408). *)
Definition AttemptPassThruForResponse (usp : Usp__Msg) (endpoint : string) : M bool :=
  let well_formed :=
    match body usp, header usp with
    | Some (USP__BODY__MSG_BODY_RESPONSE _), Some h
    | Some (USP__BODY__MSG_BODY_ERROR _), Some h => msg_id h
    | _, _ => None
    end in
  match well_formed with
  | None => ret false   (* badly formed: left to the normal handlers *)
  | Some id =>
      let* b := get_state in
      (* Exit if this response did not come from a USP Service *)
      match FindUspServiceByEndpoint (usp_services b) endpoint with
      | None => ret false
      | Some us =>
          let* s := get_us us in
          (* Exit if this is not a response to any of the request messages
             which have been passed through to the USP Service *)
          match MsgMap_Find (msg_map s) id with
          | None => ret false
          | Some (i, map) =>
              (* Remap the message_id in the response back to the original *)
              let usp' := set_msg_id (original_msg_id map) usp in
              (* Send the message back to the originator *)
              let* _ := MSG_HANDLER_QueueMessage (originator map) usp' (mtp_conn map) in
              (* Remove the message map *)
              do* call (Ev_FreeMTPConnection (mtp_conn map)) in
              do* update_us us (fun s => set_msg_map (delete i (msg_map s)) s) in
              ret true
          end
      end
  end.

(** ** Lookup for the rest of the agent *)

(** [USP_BROKER_GetUspServiceInstance] (usp_broker.c:871).  [flags] is an
    [unsigned]; the comparison [us->has_controller==false] is the [int]
    0 or 1, and both [&] are bitwise. *)
Definition USP_BROKER_GetUspServiceInstance
    (b : broker) (endpoint : string) (flags : Z) : Z :=
  match FindUspServiceByEndpoint (usp_services b) endpoint with
  | None => INVALID
  | Some us =>
      match usp_services b !! us with
      | None => INVALID
      | Some s =>
          if bool_decide
               (Z.land (Z.land flags ONLY_CONTROLLER_CONNECTIONS)
                       (if bool_decide (has_controller s = false) then 1 else 0)
                <> 0)
          then INVALID
          else instance s
      end
  end.

End Handlers.

(* ===================================================================== *)
(** * Vocabulary of the properties *)
(* ===================================================================== *)

Local Close Scope string_scope.

(** A message as the MTP layer hands it to the handlers: with a header
    that carries a message id. *)
Definition received
    (id : string) (t : Usp__Header__MsgType) (bd : option Usp__Body) : Usp__Msg :=
  {| header := Some {| msg_id := Some id; msg_type := t |}; body := bd |}.

(** A Register request. *)
Definition Register_msg (id : string) (reg : Usp__Register) : Usp__Msg :=
  received id USP__HEADER__MSG_TYPE__REGISTER
    (Some (USP__BODY__MSG_BODY_REQUEST
             (Some (USP__REQUEST__REQ_TYPE_REGISTER (Some reg))))).

(** A Notify request. *)
Definition Notify_body (notify : Usp__Notify) : option Usp__Body :=
  Some (USP__BODY__MSG_BODY_REQUEST
          (Some (USP__REQUEST__REQ_TYPE_NOTIFY (Some notify)))).

(** The connected Service behind an endpoint id: the first live entry of
    the array with that endpoint id. *)
Definition service_of (b : broker) (endpoint : string) : option usp_service_t :=
  match FindUspServiceByEndpoint (usp_services b) endpoint with
  | Some us => usp_services b !! us
  | None => None
  end.

(** The events a run added to the trace. *)
Definition emitted (b b' : broker) (evs : list event) : Prop :=
  trace b' = trace b ++ evs.

(** All paths registered by the Services, slot by slot. *)
Definition all_registered_paths (b : broker) : list string :=
  mjoin (registered_paths <$> usp_services b).

(** No path is owned twice, neither by two Services nor twice by one. *)
Definition paths_owned_once (b : broker) : Prop :=
  NoDup (all_registered_paths b).

(** Some Service (the requester included) owns [path]. *)
Definition owned_by_a_service (b : broker) (path : string) : Prop :=
  exists p, p ∈ usp_services b /\ path ∈ registered_paths p.

(** An unused slot of the array holds no registered paths. *)
Definition unused_slots_empty (b : broker) : Prop :=
  Forall (fun s => instance s = INVALID -> registered_paths s = []) (usp_services b).

(** What a handler may do to a slot without admitting a path: leave its
    registered paths (and not mark the slot unused), or clear them. *)
Definition slot_not_grown (s s' : usp_service_t) : Prop :=
  (registered_paths s' = registered_paths s /\
   (instance s' = INVALID -> instance s = INVALID)) \/
  registered_paths s' = [].

Definition paths_not_grown (b b' : broker) : Prop :=
  Forall2 slot_not_grown (usp_services b) (usp_services b').

(** A computation that admits no path, whatever it returns. *)
Definition admits_nothing {A} (m : M A) : Prop :=
  forall b r b', m b = Some (r, b') -> paths_not_grown b b'.

(** The three conditions under which the specification lets a Notify
    through: the sender is a known Service, [send_resp] is false, and the
    Service's subscription map has an entry with the notification's
    subscription id. *)
Definition notify_accepted
    (b : broker) (endpoint : string) (bd : option Usp__Body) : Prop :=
  exists notify s e,
    bd = Notify_body notify /\
    service_of b endpoint = Some s /\
    send_resp notify = false /\
    e ∈ subs_map s /\ subscription_id e = notify_subscription_id notify.

(** The body of a response or of a USP ERROR. *)
Definition is_response_or_error (bd : option Usp__Body) : Prop :=
  (exists r, bd = Some (USP__BODY__MSG_BODY_RESPONSE r)) \/
  (exists c, bd = Some (USP__BODY__MSG_BODY_ERROR c)).

(** Which of the two handles of a Service a new connection goes to: UDS
    tells the Broker's controller socket from its agent socket, every other
    transport serves both directions. *)
Definition stored_as_controller (mtpc : mtp_conn_t) : bool :=
  bool_decide (protocol mtpc <> kMtpProtocol_UDS \/
               uds_path_type mtpc = kUdsPathType_BrokersController).

Definition stored_as_agent (mtpc : mtp_conn_t) : bool :=
  bool_decide (protocol mtpc <> kMtpProtocol_UDS \/
               uds_path_type mtpc = kUdsPathType_BrokersAgent).

Definition on_brokers_agent_socket (mtpc : mtp_conn_t) : bool :=
  bool_decide (protocol mtpc = kMtpProtocol_UDS /\
               uds_path_type mtpc = kUdsPathType_BrokersAgent).

(** Releasing the handle that was in a slot, if there was one. *)
Definition released (old : mtp_conn_t) : list event :=
  if bool_decide (protocol old <> kMtpProtocol_None)
  then [Ev_FreeMTPConnection old] else [].

(** The Operate request the Broker sends for a command. *)
Definition Operate_msg
    (id path key : string) (args : list (string * string)) : Usp__Msg :=
  MSG_HANDLER_CreateRequestMsg id USP__HEADER__MSG_TYPE__OPERATE
    (USP__REQUEST__REQ_TYPE_OPERATE
       {| command := path; operate_command_key := key;
          operate_send_resp := true; input_args := args |}).

(** An Operate response that carries one operation result. *)
Definition carries_result
    (resp : Usp__Msg) (res : Usp__OperateResp__OperationResult) : Prop :=
  body resp = Some (USP__BODY__MSG_BODY_RESPONSE
                      (Some (USP__RESPONSE__RESP_TYPE_OPERATE_RESP (Some [res])))).

(** The request-map entry of an asynchronous command. *)
Definition ReqMapEntry (inst : Z) (path key : string) : req_map_t :=
  {| request_instance := inst; rmap_path := path; command_key := key |}.

(** What is left of a slot once the Service is freed. *)
Definition freed_service (s : usp_service_t) : usp_service_t :=
  {| instance := INVALID; endpoint_id := "";
     controller_mtp := freed_mtp_conn (controller_mtp s);
     agent_mtp := freed_mtp_conn (agent_mtp s);
     group_id := group_id s; has_controller := has_controller s;
     gsdm_msg_id := None; registered_paths := []; subs_map := [];
     req_map := []; msg_map := [] |}.

(** The entry [AddUspService] makes for a new endpoint. *)
Definition new_service (b : broker) (us : nat) (endpoint : string)
    (mtpc : mtp_conn_t) (group : Z) : usp_service_t :=
  {| instance :=
       CalcNextUspServiceInstanceNumber (<[us := zero_usp_service]> (usp_services b));
     endpoint_id := endpoint;
     controller_mtp := if stored_as_controller mtpc then mtpc else zero_mtp_conn;
     agent_mtp := if stored_as_agent mtpc then mtpc else zero_mtp_conn;
     group_id := group; has_controller := false;
     gsdm_msg_id := None; registered_paths := []; subs_map := [];
     req_map := []; msg_map := [] |}.

(** A connection [UpdateUspServiceMRT] can file: not a UDS connection of
    unknown path type, on which it gives up the process. *)
Definition connection_usable (mtpc : mtp_conn_t) : Prop :=
  ~ (protocol mtpc = kMtpProtocol_UDS /\ uds_path_type mtpc = kUdsPathType_Invalid).

(** The invariant of the registry. *)
Definition registry_consistent (b : broker) : Prop :=
  paths_owned_once b /\ unused_slots_empty b.

(** The state in which the Service in slot [us] owns the paths [l]. *)
Definition set_paths (b : broker) (us : nat) (s : usp_service_t)
    (l : list string) : broker :=
  set_usp_services (<[us := set_registered_paths l s]> (usp_services b)) b.

(** The answer to the request to register [path], when the paths [earlier]
    of the same message have been accepted already: a path that a Service
    owns is refused first, then a path of the wrong shape, then a path of
    the schema. *)
Definition register_answer (b : broker) (earlier : list string) (path : string) : Z :=
  if bool_decide (path ∈ all_registered_paths b ++ earlier)
  then USP_ERR_PATH_ALREADY_REGISTERED
  else if bool_decide (ValidateUspServicePath path <> USP_ERR_OK)
  then ValidateUspServicePath path
  else if PP_EXISTS_IN_SCHEMA b path then USP_ERR_PATH_ALREADY_REGISTERED
  else USP_ERR_OK.

(** The paths of a Register request, one after the other: the error that
    ends the request, or the results and their number; and the paths that
    are registered in the end. *)
Fixpoint register_outcome (b : broker) (allow : bool)
    (earlier paths : list string)
    (reg_resp : list Usp__RegisterResp__RegisteredPathResult) (cnt : nat)
  : (Z + list Usp__RegisterResp__RegisteredPathResult * nat) * list string :=
  match paths with
  | [] => (inr (reg_resp, cnt), earlier)
  | p :: rest =>
      let err := register_answer b earlier p in
      if bool_decide (err <> USP_ERR_OK) && negb allow then (inl err, [])
      else register_outcome b allow
             (if bool_decide (err = USP_ERR_OK) then earlier ++ [p] else earlier)
             rest (AddRegisterResp_RegisteredPathResult reg_resp p err) (S cnt)
  end.

(** A path of a Register request fails: its shape is wrong, a Service owns
    it, the schema has it, or it repeats an earlier path of the request. *)
Definition path_fails (b : broker) (paths : list string) (i : nat) (p : string) : Prop :=
  paths !! i = Some p /\
  (ValidateUspServicePath p <> USP_ERR_OK \/
   PP_EXISTS_IN_SCHEMA b p = true \/
   p ∈ all_registered_paths b \/
   p ∈ take i paths).

Section PlatformVocabulary.
Context {P : Platform}.

(** The schema after the provisional nodes for [paths] went in. *)
Fixpoint schema_with (sch : list dm_node_t) (group : Z) (paths : list string)
  : list dm_node_t :=
  match paths with
  | [] => sch
  | path :: rest =>
      schema_with
        (if DM_PRIV_AddSchemaPath_accepts path
         then filter (fun n => node_path n <> path) sch ++
              [ {| node_path := path; node_type := kDMNodeType_Object_SingleInstance;
                   node_group_id := group; group_writable := false |} ]
         else sch)
        group rest
  end.

(** The message id the Broker gives its next message. *)
Definition next_message_id (b : broker) : string :=
  broker_message_id MAX_MSG_ID_LEN ((count b + 1) mod 2 ^ 32).

(** The state in which the Operate request for a command has gone out to
    the Service [s]. *)
Definition operate_sent (b : broker) (s : usp_service_t)
    (path key : string) (args : list (string * string)) : broker :=
  set_trace
    (trace b ++
       [Ev_SendRequestAndWaitForResponse (endpoint_id s)
          (Operate_msg (next_message_id b) path key args) (controller_mtp s)])
    (set_count ((count b + 1) mod 2 ^ 32) b).

(** What the Service answers to it ([None]: nothing within the timeout). *)
Definition operate_answer (b : broker) (s : usp_service_t)
    (path key : string) (args : list (string * string)) : option Usp__Msg :=
  DM_EXEC_SendRequestAndWaitForResponse_result (endpoint_id s)
    (Operate_msg (next_message_id b) path key args) (controller_mtp s).

(** The state with the request-map entry of the command in place. *)
Definition with_request (b : broker) (us : nat) (s : usp_service_t)
    (entry : req_map_t) : broker :=
  set_usp_services
    (<[us := set_req_map (req_map s ++ [entry]) s]> (usp_services b)) b.

(** The state after a GetSupportedDM request for the registered paths of
    the Service [s] in slot [us] went out and the provisional nodes went
    into the schema. *)
Definition gsdm_issued (b : broker) (us : nat) (s : usp_service_t) : broker :=
  set_usp_services
    (<[us := set_gsdm_msg_id (Some (next_message_id b)) s]> (usp_services b))
    (set_schema (schema_with (schema b) (group_id s) (registered_paths s))
       (set_count ((count b + 1) mod 2 ^ 32)
          (set_trace
             (trace b ++
                [Ev_QueueMessage (endpoint_id s)
                   (CreateBroker_GetSupportedDMReq (next_message_id b) (registered_paths s))
                   (controller_mtp s)] ++
                ((fun path => Ev_AddSchemaPath path kDMNodeType_Object_SingleInstance)
                   <$> registered_paths s))
             b))).

(** The state after a reply was queued to the sender of a request. *)
Definition replied (b : broker) (endpoint : string) (mtpc : mtp_conn_t)
    (resp : Usp__Msg) : broker :=
  set_trace (trace b ++ [Ev_QueueMessage endpoint resp mtpc]) b.

(** The paths of a Register request are gone through for the Service [s]
    in slot [us], which has no registered paths yet. *)
Definition paths_registered (b : broker) (us : nat) (s : usp_service_t)
    (id : string) (reg : Usp__Register) (endpoint : string) (mtpc : mtp_conn_t)
  : broker :=
  match register_outcome b (allow_partial reg) [] (reg_paths reg) [] 0 with
  | (inl err, _) => replied b endpoint mtpc (ERROR_RESP_CreateSingle id err)
  | (inr (results, cnt), accepted) =>
      let b1 := replied (set_paths b us s accepted) endpoint mtpc
                  (RegisterResp_msg id results) in
      if bool_decide (accepted = [] \/
                      protocol (controller_mtp s) = kMtpProtocol_None)
      then b1
      else gsdm_issued b1 us (set_registered_paths accepted s)
  end.

(** The state with a new Service for [endpoint] in the unused slot [us],
    announced to the data model. *)
Definition service_added (b : broker) (us : nat) (endpoint : string)
    (mtpc : mtp_conn_t) : broker :=
  let group := DATA_MODEL_FindUnusedGroupId b in
  set_usp_services
    (<[us := new_service b us endpoint mtpc group]> (usp_services b))
    (set_groups_in_use (group :: groups_in_use b)
       (set_trace
          (trace b ++
             [Ev_RegisterGroupVendorHooks group true;
              Ev_InformInstance
                (service_instance_path
                   (instance (new_service b us endpoint mtpc group)))]) b)).

(** The state [USP_BROKER_HandleRegister] leaves behind. *)
Definition register_handled (b : broker) (id : string) (reg : Usp__Register)
    (endpoint : string) (mtpc : mtp_conn_t) : broker :=
  let refused b0 :=
    replied b0 endpoint mtpc (ERROR_RESP_CreateSingle id USP_ERR_REGISTER_FAILURE) in
  if bool_decide (reg_paths reg = []) then refused b
  else
    match FindUspServiceByEndpoint (usp_services b) endpoint with
    | Some us =>
        match usp_services b !! us with
        | Some s =>
            if bool_decide (registered_paths s <> []) then refused b
            else paths_registered b us s id reg endpoint mtpc
        | None => b
        end
    | None =>
        match FindUnusedUspService (usp_services b) with
        | None => refused b
        | Some us =>
            let group := DATA_MODEL_FindUnusedGroupId b in
            if bool_decide (group = INVALID) then refused b
            else
              let s := new_service b us endpoint mtpc group in
              let b1 := service_added b us endpoint mtpc in
              if bool_decide
                   (USP_DM_InformInstance_result (service_instance_path (instance s))
                    <> USP_ERR_OK)
              then refused b1
              else paths_registered b1 us s id reg endpoint mtpc
        end
    end.

(** The events by which a new Service is taken in: its group id is marked
    as in use and its row of the Service table is announced. *)
Definition announces_service (e : event) : Prop :=
  (exists group, e = Ev_RegisterGroupVendorHooks group true) \/
  (exists path, e = Ev_InformInstance path).

(** The provisional node of a registered path. *)
Definition provisional_node (path : string) (group : Z) : dm_node_t :=
  {| node_path := path; node_type := kDMNodeType_Object_SingleInstance;
     node_group_id := group; group_writable := false |}.

(** A slot in use. *)
Definition live (us : nat) (b : broker) : Prop :=
  exists s, usp_services b !! us = Some s /\ instance s <> INVALID.

(** Partial correctness of a computation of the monad. *)
Definition triple {A} (Pre : broker -> Prop) (m : M A)
    (Post : A -> broker -> Prop) : Prop :=
  forall b a b', Pre b -> m b = Some (a, b') -> Post a b'.

(** One step of the Broker: a handler runs to its end on some input.
    [step_RegisterUspServicePath] gets to the states inside the path loop
    of [USP_BROKER_HandleRegister], between two calls of
    [RegisterUspServicePath] for a Service in use.
    [step_DeRegisterUspServicePath] is what [DeRegisterUspServicePath]
    (usp_broker.c:1234) does to the array on success: the Service in the slot
    loses the registered path at [index] (usp_broker.c:1302) and stays in
    use; what becomes of its maps and of the collaborators' tables is left
    open.  Besides [USP_BROKER_Init], no other function of the Broker
    writes [registered_paths] or [instance]. *)
Inductive step : broker -> broker -> Prop :=
  | step_AddUspService endpoint mtpc err b b' :
      USP_BROKER_AddUspService endpoint mtpc b = Some (err, b') -> step b b'
  | step_HandleUspServiceDisconnect endpoint path_type b b' :
      USP_BROKER_HandleUspServiceDisconnect endpoint path_type b = Some (tt, b') ->
      step b b'
  | step_HandleRegister usp endpoint mtpc b b' :
      USP_BROKER_HandleRegister usp endpoint mtpc b = Some (tt, b') -> step b b'
  | step_HandleNotification usp endpoint mtpc b b' :
      USP_BROKER_HandleNotification usp endpoint mtpc b = Some (tt, b') -> step b b'
  | step_AsyncOperate req args inst err b b' :
      Broker_AsyncOperate req args inst b = Some (err, b') -> step b b'
  | step_PassThruToUspService us usp endpoint mtpc err b b' :
      PassThruToUspService us usp endpoint mtpc b = Some (err, b') -> step b b'
  | step_AttemptPassThruForResponse usp endpoint r b b' :
      AttemptPassThruForResponse usp endpoint b = Some (r, b') -> step b b'
  | step_RegisterUspServicePath us path err b b' :
      live us b ->
      RegisterUspServicePath us path b = Some (err, b') -> step b b'
  | step_Stop b b' :
      USP_BROKER_Stop b = Some (tt, b') -> step b b'
  | step_DeRegisterUspServicePath us index s s' b b' :
      usp_services b !! us = Some s ->
      usp_services b' = <[us := s']> (usp_services b) ->
      instance s' = instance s ->
      registered_paths s' = delete index (registered_paths s) ->
      step b b'.

(** The states the Broker gets to from the one that [USP_BROKER_Init]
    leaves, whether its registrations succeeded or not. *)
Inductive reachable : broker -> Prop :=
  | reachable_Init builtin : reachable (USP_BROKER_Init builtin).2
  | reachable_step b b' : reachable b -> step b b' -> reachable b'.

End PlatformVocabulary.
(* ===================================================================== *)
(** * A small configuration to run the handlers on *)
(* ===================================================================== *)

Local Open Scope string_scope.

(** A Broker with room for two Services.  The collaborators accept what
    they are given; no Service answers within the timeout. *)
Definition example_platform : Platform := {|
  MAX_USP_SERVICES := 2;
  MAX_VENDOR_PARAM_GROUPS := 4;
  MAX_DM_PATH := 256;
  MAX_MSG_ID_LEN := 64;
  ONLY_CONTROLLER_CONNECTIONS := 1;
  TEXT_UTILS_IsPathMatch := String.eqb;
  USP_REGISTER_result := fun _ => USP_ERR_OK;
  USP_DM_InformInstance_result := fun _ => USP_ERR_OK;
  DM_PRIV_AddSchemaPath_accepts := fun _ => true;
  DATA_MODEL_GetParameterValue_result := fun _ => (USP_ERR_OK, "key1");
  MSG_HANDLER_QueueMessage_result := fun _ _ _ => USP_ERR_OK;
  DM_EXEC_SendRequestAndWaitForResponse_result := fun _ _ _ => None;
  MSG_UTILS_ValidateUspResponse_result := fun _ => USP_ERR_OK;
  DEVICE_SUBSCRIPTION_RouteNotification_result := fun _ _ => USP_ERR_OK;
  time_result := fun _ => 1700000000;
|}.

(** The connection of a Service to the Broker's controller socket, and the
    connection of a Controller over WebSockets. *)
Definition brokers_controller_socket : mtp_conn_t :=
  {| protocol := kMtpProtocol_UDS; is_reply_to_specified := false;
     uds_path_type := kUdsPathType_BrokersController; conn_details := 7 |}.

Definition controller_websocket : mtp_conn_t :=
  {| protocol := kMtpProtocol_WebSockets; is_reply_to_specified := true;
     uds_path_type := kUdsPathType_Invalid; conn_details := 9 |}.

(** The state a run ends in ([otherwise] if it does not end). *)
Definition state_after {A} (run : option (A * broker)) (otherwise : broker) : broker :=
  match run with
  | Some (_, b) => b
  | None => otherwise
  end.

Definition repeat_char (c : ascii) : nat -> string :=
  fix go n := match n with O => EmptyString | S n => String c (go n) end.

Section ExampleStates.
#[local] Existing Instance example_platform.

(** The built-in schema has a parameter of the Broker's own. *)
Definition example_builtin : list dm_node_t :=
  [ {| node_path := "Device.DeviceInfo.SoftwareVersion";
       node_type := kDMNodeType_Param; node_group_id := -1;
       group_writable := false |} ].

Definition example_initial : broker := (USP_BROKER_Init example_builtin).2.

(** The Service "svc1" has connected. *)
Definition example_connected : broker :=
  state_after
    (USP_BROKER_AddUspService "svc1" brokers_controller_socket example_initial)
    example_initial.

(** It has registered "Device.Foo.". *)
Definition example_register : Usp__Register :=
  {| allow_partial := false; reg_paths := ["Device.Foo."] |}.

Definition example_registered : broker :=
  state_after
    (USP_BROKER_HandleRegister (Register_msg "reg-1" example_register)
       "svc1" brokers_controller_socket example_connected)
    example_connected.

(** A second Service, "svc2", has connected after that. *)
Definition example_second_connected : broker :=
  state_after
    (USP_BROKER_AddUspService "svc2" brokers_controller_socket example_registered)
    example_registered.

(** A Register request whose second path lacks the trailing dot. *)
Definition example_register_bad : Usp__Register :=
  {| allow_partial := false; reg_paths := ["Device.Bar."; "Device.Baz"] |}.

(** A Get request of a Controller has been passed through to it. *)
Definition example_get : Usp__Msg :=
  received "ctrl-42" USP__HEADER__MSG_TYPE__GET
    (Some (USP__BODY__MSG_BODY_REQUEST
             (Some (USP__REQUEST__REQ_TYPE_OTHER "Device.Foo.Enable")))).

Definition example_passed_through : broker :=
  state_after
    (PassThruToUspService 0 example_get "controller1" controller_websocket
       example_registered)
    example_registered.

Definition example_get_resp_body : option Usp__Body :=
  Some (USP__BODY__MSG_BODY_RESPONSE
          (Some (USP__RESPONSE__RESP_TYPE_OTHER "Device.Foo.Enable=true"))).

(** A Service with a subscription to the completion of its command
    "Device.Foo.Reboot()" and the request-map entries [rm]. *)
Definition example_reboot : string := "Device.Foo.Reboot()".

Definition example_service (rm : list req_map_t) : usp_service_t :=
  {| instance := 1; endpoint_id := "svc1";
     controller_mtp := brokers_controller_socket; agent_mtp := zero_mtp_conn;
     group_id := 0; has_controller := false; gsdm_msg_id := None;
     registered_paths := ["Device.Foo."];
     subs_map := [ {| broker_instance := 3; smap_path := example_reboot;
                      service_instance := 1; subscription_id := "sub-1" |} ];
     req_map := rm; msg_map := [] |}.

Definition example_broker (rm : list req_map_t) (rows : list Z) : broker :=
  {| usp_services := [example_service rm; set_instance INVALID zero_usp_service];
     schema := example_builtin; groups_in_use := [0]; request_table := rows;
     count := 0; trace := [] |}.

Definition example_request : dm_req_t :=
  {| req_path := example_reboot; req_group_id := 0 |}.

(** The command with the command key "key1" is running as request 5. *)
Definition example_running : broker :=
  example_broker [ReqMapEntry 5 example_reboot "key1"] [5].

(** An object path of 248 characters: with the command name "Reboot()"
    it is one character longer than the buffer for the command path
    holds. *)
Definition example_long_object : string :=
  String.append "Device." (String.append (repeat_char "A" 240) ".").

(** A command whose path is the 255 characters that fit is running as
    request 5. *)
Definition example_long_running : broker :=
  example_broker
    [ReqMapEntry 5 (String.append example_long_object "Reboot(") "key1"] [5].

End ExampleStates.

Local Close Scope string_scope.
(* ===================================================================== *)
(** * More of the Broker: lookups, permissions, passthru of notifications *)
(* ===================================================================== *)

(** [FindUspServiceByInstance] (usp_broker.c:5170): the first entry with
    the instance number, in use or not. *)
Definition FindUspServiceByInstance
    (services : list usp_service_t) (inst : Z) : option nat :=
  fst <$> list_find (fun us => instance us = inst) services.

(** [SubsMap_FindByBrokerInstanceAndPath] (usp_broker.c:5406). *)
Definition SubsMap_FindByBrokerInstanceAndPath
    (sm : list subs_map_t) (broker_inst : Z) (path : string)
  : option (nat * subs_map_t) :=
  list_find (fun smap => broker_instance smap = broker_inst /\ smap_path smap = path) sm.

(** [SubsMap_Remove] (usp_broker.c:5351): unlink the entry pointed to. *)
Definition SubsMap_Remove (sm : list subs_map_t) (smap : nat) : list subs_map_t :=
  delete smap sm.

(** The message types that [USP_BROKER_GetNotifyDestForEndpoint] sends from
    the Broker's controller connection, and those it sends from the Broker's
    agent connection (the two groups of [case] labels, usp_broker.c:928-954). *)
Definition sent_from_controller (t : Usp__Header__MsgType) : bool :=
  match t with
  | USP__HEADER__MSG_TYPE__GET
  | USP__HEADER__MSG_TYPE__SET
  | USP__HEADER__MSG_TYPE__ADD
  | USP__HEADER__MSG_TYPE__DELETE
  | USP__HEADER__MSG_TYPE__OPERATE
  | USP__HEADER__MSG_TYPE__GET_SUPPORTED_DM
  | USP__HEADER__MSG_TYPE__GET_INSTANCES
  | USP__HEADER__MSG_TYPE__NOTIFY_RESP
  | USP__HEADER__MSG_TYPE__GET_SUPPORTED_PROTO
  | USP__HEADER__MSG_TYPE__REGISTER_RESP
  | USP__HEADER__MSG_TYPE__DEREGISTER_RESP => true
  | _ => false
  end.

Definition sent_from_agent (t : Usp__Header__MsgType) : bool :=
  match t with
  | USP__HEADER__MSG_TYPE__GET_RESP
  | USP__HEADER__MSG_TYPE__SET_RESP
  | USP__HEADER__MSG_TYPE__ADD_RESP
  | USP__HEADER__MSG_TYPE__DELETE_RESP
  | USP__HEADER__MSG_TYPE__OPERATE_RESP
  | USP__HEADER__MSG_TYPE__NOTIFY
  | USP__HEADER__MSG_TYPE__GET_SUPPORTED_DM_RESP
  | USP__HEADER__MSG_TYPE__GET_INSTANCES_RESP
  | USP__HEADER__MSG_TYPE__GET_SUPPORTED_PROTO_RESP
  | USP__HEADER__MSG_TYPE__REGISTER
  | USP__HEADER__MSG_TYPE__DEREGISTER => true
  | _ => false
  end.

(** [USP_BROKER_GetNotifyDestForEndpoint] (usp_broker.c:904).  The pointer
    it returns is read by the caller; [None] is NULL.  USP_ASSERT stops the
    process on an ERROR message for a known endpoint. *)
Definition USP_BROKER_GetNotifyDestForEndpoint
    (endpoint : string) (usp_msg_type : Usp__Header__MsgType)
  : M (option mtp_conn_t) :=
  let* b := get_state in
  (* Exit if destination endpoint is not connected as a USP Service *)
  match FindUspServiceByEndpoint (usp_services b) endpoint with
  | None => ret None
  | Some us =>
      let* s := get_us us in
      let* mtpc :=
        match usp_msg_type with
        | USP__HEADER__MSG_TYPE__ERROR => terminate
        | USP__HEADER__MSG_TYPE__GET
        | USP__HEADER__MSG_TYPE__SET
        | USP__HEADER__MSG_TYPE__ADD
        | USP__HEADER__MSG_TYPE__DELETE
        | USP__HEADER__MSG_TYPE__OPERATE
        | USP__HEADER__MSG_TYPE__GET_SUPPORTED_DM
        | USP__HEADER__MSG_TYPE__GET_INSTANCES
        | USP__HEADER__MSG_TYPE__NOTIFY_RESP
        | USP__HEADER__MSG_TYPE__GET_SUPPORTED_PROTO
        | USP__HEADER__MSG_TYPE__REGISTER_RESP
        | USP__HEADER__MSG_TYPE__DEREGISTER_RESP => ret (controller_mtp s)
        | USP__HEADER__MSG_TYPE__GET_RESP
        | USP__HEADER__MSG_TYPE__SET_RESP
        | USP__HEADER__MSG_TYPE__ADD_RESP
        | USP__HEADER__MSG_TYPE__DELETE_RESP
        | USP__HEADER__MSG_TYPE__OPERATE_RESP
        | USP__HEADER__MSG_TYPE__NOTIFY
        | USP__HEADER__MSG_TYPE__GET_SUPPORTED_DM_RESP
        | USP__HEADER__MSG_TYPE__GET_INSTANCES_RESP
        | USP__HEADER__MSG_TYPE__GET_SUPPORTED_PROTO_RESP
        | USP__HEADER__MSG_TYPE__REGISTER
        | USP__HEADER__MSG_TYPE__DEREGISTER => ret (agent_mtp s)
        end in
      (* Exit if the USP service has connected to the Broker, but not via
         the correct UDS socket for the message type *)
      if bool_decide (is_reply_to_specified mtpc = false) then ret None
      else ret (Some mtpc)
  end.

(** A node of the data model as [CheckPassThruPermissions] walks it.
    [dm_node_t] is declared outside the sources; of a node the function
    reads the permissions that the originator's roles have on it
    ([DM_PRIV_GetPermissions(node, combined_role)], an unsigned short) and
    the list of its child nodes. *)
#[local] Unset Elimination Schemes.
Inductive dm_perm_node :=
  | PermNode (permission_bitmask : Z) (child_nodes : list dm_perm_node).
#[local] Set Elimination Schemes.

Definition permission_bitmask (node : dm_perm_node) : Z :=
  match node with PermNode bitmask _ => bitmask end.

Definition child_nodes (node : dm_perm_node) : list dm_perm_node :=
  match node with PermNode _ children => children end.

(** [CheckPassThruPermissions] (usp_broker.c:5017): the recursion follows
    the child lists of the tree. *)
Fixpoint CheckPassThruPermissions
    (node : dm_perm_node) (depth : Z) (required_permissions : Z) : bool :=
  match node with
  | PermNode bitmask children =>
      (* Exit if the originator does not have permission *)
      if bool_decide (Z.land bitmask required_permissions <> required_permissions)
      then false
      (* Exit if there are no more hierarchical levels to traverse *)
      else if bool_decide (depth <= 1) then true
      (* Recursively check the permissions of all child nodes *)
      else forallb
             (fun child => CheckPassThruPermissions child (depth - 1) required_permissions)
             children
  end.

(** The nodes [k] levels below a node. *)
Fixpoint nodes_at_level (k : nat) (node : dm_perm_node) : list dm_perm_node :=
  match k with
  | O => [node]
  | S k' => flat_map (nodes_at_level k') (child_nodes node)
  end.

(** The originator may do all of [required] on the node. *)
Definition permits (required : Z) (node : dm_perm_node) : Prop :=
  Z.land (permission_bitmask node) required = required.

(** What a handler leaves of the identity of a slot: its instance number,
    endpoint and group, unless it frees the slot. *)
Definition slot_identity_kept (s s' : usp_service_t) : Prop :=
  (instance s' = instance s /\ endpoint_id s' = endpoint_id s /\
   group_id s' = group_id s) \/
  instance s' = INVALID.

Definition keeps_identity {A} (m : M A) : Prop :=
  forall b r b', m b = Some (r, b') ->
    Forall2 slot_identity_kept (usp_services b) (usp_services b').

(** The same for a handler that may take an unused slot into use. *)
Definition slot_in_use_kept (s s' : usp_service_t) : Prop :=
  instance s = INVALID \/ slot_identity_kept s s'.

Definition keeps_identity_in_use {A} (m : M A) : Prop :=
  forall b r b', m b = Some (r, b') ->
    Forall2 slot_in_use_kept (usp_services b) (usp_services b').

(** The Services in use have instance numbers of their own. *)
Definition instances_distinct (services : list usp_service_t) : Prop :=
  forall i j si sj,
    services !! i = Some si -> services !! j = Some sj ->
    instance si <> INVALID -> instance si = instance sj -> i = j.

(** The instance numbers in use count from 1. *)
Definition instances_positive (services : list usp_service_t) : Prop :=
  forall i s, services !! i = Some s -> instance s <> INVALID -> 1 <= instance s.

(** The Services in use have endpoints of their own. *)
Definition endpoints_distinct (services : list usp_service_t) : Prop :=
  forall i j si sj,
    services !! i = Some si -> services !! j = Some sj ->
    instance si <> INVALID -> instance sj <> INVALID ->
    endpoint_id si = endpoint_id sj -> i = j.

(** No instance number in use has reached [INT_MAX]. *)
Definition instances_below_max (services : list usp_service_t) : Prop :=
  forall i s, services !! i = Some s -> instance s <> INVALID -> instance s < INT_MAX.

(** The largest instance number in use (0 if none is positive), as the loop
    of [CalcNextUspServiceInstanceNumber] computes it. *)
Definition max_instance (services : list usp_service_t) : Z :=
  fold_left
    (fun max_instance us =>
       if bool_decide (instance us <> INVALID /\ instance us > max_instance)
       then instance us else max_instance)
    services 0.

(** The Request table after the loop that completes the requests of a
    request map, and the schema after the loop that deregisters the paths
    of a Service. *)
Definition requests_completed (rows : list Z) (rm : list req_map_t) : list Z :=
  fold_left (fun rows rmap => filter (fun r => r <> request_instance rmap) rows) rm rows.

Definition schema_without (sch : list dm_node_t) (paths : list string) : list dm_node_t :=
  fold_left
    (fun sch path => filter (fun n => String.prefix path (node_path n) = false) sch)
    paths sch.

(** What [HandleUspServiceAgentDisconnect] leaves of a Service. *)
Definition agent_gone (fail : bool) (s : usp_service_t) : usp_service_t :=
  set_registered_paths []
    (set_msg_map []
       (set_req_map (if fail then [] else req_map s) (set_subs_map [] s))).

(** The state after [HandleUspServiceAgentDisconnect] for the Service [s]
    in slot [us]. *)
Definition agent_disconnected (b : broker) (us : nat) (s : usp_service_t)
    (flags : Z) : broker :=
  let fail := bool_decide (Z.land flags FAIL_USP_COMMANDS_IN_PROGRESS <> 0) in
  set_usp_services (<[us := agent_gone fail s]> (usp_services b))
    (set_schema (schema_without (schema b) (registered_paths s))
       (set_request_table
          (if fail then requests_completed (request_table b) (req_map s)
           else request_table b)
          (set_trace
             (trace b ++
                [Ev_FreeAllVendorLayerSubsForGroup (group_id s)] ++
                (if fail
                 then (fun rmap =>
                         Ev_RequestOperationComplete
                           (request_instance rmap) USP_ERR_COMMAND_FAILURE)
                        <$> req_map s
                 else []) ++
                ((fun map => Ev_FreeMTPConnection (mtp_conn map)) <$> msg_map s) ++
                (Ev_DeRegisterPath <$> registered_paths s))
             b))).

(** The characters of a decimal number. *)
Definition is_digit (a : ascii) : bool :=
  match a with
  | "0" | "1" | "2" | "3" | "4" | "5" | "6" | "7" | "8" | "9" => true
  | _ => false
  end%char.

(** What [USP_BROKER_Stop] leaves of a slot. *)
Definition stopped (s : usp_service_t) : usp_service_t :=
  if bool_decide (instance s <> INVALID)
  then freed_service (agent_gone false s) else s.

(** The path at [i] of the paths left of a Register request fails, the
    paths [earlier] having been accepted already. *)
Definition fails_after (b : broker) (earlier paths : list string)
    (i : nat) (p : string) : Prop :=
  ValidateUspServicePath p <> USP_ERR_OK \/
  PP_EXISTS_IN_SCHEMA b p = true \/
  p ∈ all_registered_paths b \/
  p ∈ earlier \/
  p ∈ take i paths.

(** What a function that passes no request on leaves of the message maps:
    the entries of each, or fewer. *)
Definition msg_maps_kept (l l' : list usp_service_t) : Prop :=
  Forall2 (fun s s' => sublist (msg_map s') (msg_map s)) l l'.

(** A computation that does not call [CalcBrokerMessageId] and adds to no
    message map. *)
Definition uses_no_id {A} (m : M A) : Prop :=
  forall b r b', m b = Some (r, b') ->
    count b' = count b /\ msg_maps_kept (usp_services b) (usp_services b').

(** The message map of a slot after a request may have been passed on
    under the message id [id]: as before or with fewer entries, and
    possibly with one new entry for [id] at the end. *)
Definition slot_id_added (id : string) (s s' : usp_service_t) : Prop :=
  sublist (msg_map s') (msg_map s) \/
  exists kept e,
    msg_map s' = kept ++ [e] /\ sublist kept (msg_map s) /\ broker_msg_id e = id.

(** The notifications that the passthru leaves to the normal handler
    whoever sent them. *)
Definition left_to_handler
    (current_msg_type : Usp__Header__MsgType) (notify : Usp__Notify) : bool :=
  send_resp notify ||
  match notification notify with
  | USP__NOTIFY__NOTIFICATION_OPER_COMPLETE _
  | USP__NOTIFY__NOTIFICATION_ON_BOARD_REQ _ => true
  | USP__NOTIFY__NOTIFICATION_OBJ_CREATION _
  | USP__NOTIFY__NOTIFICATION_OBJ_DELETION _ =>
      bool_decide (current_msg_type = USP__HEADER__MSG_TYPE__ADD)
  | _ => false
  end.

Section MoreHandlers.
Context {P : Platform}.

(** The text of a message id of the Broker, "%s-%d-%u", before it is cut
    to the buffer. *)
Definition broker_message_id_text (c : Z) : string :=
  String.append "BROKER-"
    (String.append (string_of_Z (as_int c))
       (String.append "-" (string_of_Z (time_result c mod 2 ^ 32)))).

(** The tail of [USP_BROKER_HandleUspServiceDisconnect]: a Service [s] in
    slot [us] that is connected on neither socket is removed from the
    table. *)
Definition unconnected (s : usp_service_t) : bool :=
  bool_decide (protocol (controller_mtp s) = kMtpProtocol_None /\
               protocol (agent_mtp s) = kMtpProtocol_None).

Definition service_removed (b : broker) (us : nat) (s : usp_service_t) : broker :=
  set_usp_services (<[us := freed_service s]> (usp_services b))
    (set_groups_in_use (filter (fun g => g <> group_id s) (groups_in_use b))
       (set_trace
          (trace b ++
             [Ev_RegisterGroupVendorHooks (group_id s) false;
              Ev_RegisterSubscriptionVendorHooks (group_id s);
              Ev_RegisterMultiDeleteVendorHook (group_id s);
              Ev_RegisterCreateObjectVendorHook (group_id s);
              Ev_NotifyInstanceDeleted
                (USP_SNPRINTF MAX_DM_PATH
                   (String.append DEVICE_SERVICE_ROOT
                      (String.append "." (string_of_Z (instance s)))));
              Ev_FreeMTPConnection (controller_mtp s);
              Ev_FreeMTPConnection (agent_mtp s)] ++
             ((fun map => Ev_FreeMTPConnection (mtp_conn map)) <$> msg_map s))
          b)).

Definition removed_if_unconnected (b : broker) (us : nat) (s : usp_service_t) : broker :=
  if unconnected s then service_removed b us s else b.

(** The Service after its agent, and after its controller, disconnected. *)
Definition agent_side_closed (s : usp_service_t) : usp_service_t :=
  agent_gone true (set_controller_mtp (freed_mtp_conn (controller_mtp s)) s).

Definition controller_side_closed (s : usp_service_t) : usp_service_t :=
  set_has_controller false (set_agent_mtp (freed_mtp_conn (agent_mtp s)) s).

(** The array has its [MAX_USP_SERVICES] slots, and the instance numbers
    in use differ and count from 1. *)
Definition well_formed_list (l : list usp_service_t) : Prop :=
  length l = MAX_USP_SERVICES /\ instances_distinct l /\ instances_positive l.

Definition table_well_formed (b : broker) : Prop :=
  well_formed_list (usp_services b).

(** [AttemptPassThruForNotification] (usp_broker.c:4921).
    [MSG_HANDLER_GetMsgType()], the type of the message that the agent is
    processing, is read from the message handler; it is the first
    argument here. *)
Definition AttemptPassThruForNotification
    (current_msg_type : Usp__Header__MsgType)
    (usp : Usp__Msg) (endpoint : string) (mtpc : mtp_conn_t) : M bool :=
  match body usp with
  | Some (USP__BODY__MSG_BODY_REQUEST
            (Some (USP__REQUEST__REQ_TYPE_NOTIFY (Some notify)))) =>
      (* Exit if the notification is expecting a response *)
      if send_resp notify then ret false
      else
        match notification notify with
        (* Operation Complete and OnBoardRequest are left to the normal
           handler *)
        | USP__NOTIFY__NOTIFICATION_OPER_COMPLETE _
        | USP__NOTIFY__NOTIFICATION_ON_BOARD_REQ _ => ret false
        | kind =>
            (* Object creation/deletion is held back while an Add request
               is being processed *)
            let held_back :=
              match kind with
              | USP__NOTIFY__NOTIFICATION_OBJ_CREATION _
              | USP__NOTIFY__NOTIFICATION_OBJ_DELETION _ =>
                  bool_decide (current_msg_type = USP__HEADER__MSG_TYPE__ADD)
              | _ => false
              end in
            if held_back then ret false
            else
              let* b := get_state in
              (* Exit if originator endpoint is not a USP Service *)
              match FindUspServiceByEndpoint (usp_services b) endpoint with
              | None => ret false
              | Some us =>
                  let* s := get_us us in
                  (* Exit if the subscription_id doesn't match any that we
                     are expecting *)
                  match SubsMap_FindByUspServiceSubsId
                          (subs_map s) (notify_subscription_id notify) with
                  | None => ret false
                  | Some (_, smap) =>
                      (* Forward the notification back to the controller
                         that set up the subscription on the Broker *)
                      let* err := DEVICE_SUBSCRIPTION_RouteNotification
                                    usp (broker_instance smap) in
                      if bool_decide (err <> USP_ERR_OK) then ret false
                      else ret true
                  end
              end
        end
  | _ => ret false   (* badly formed: left to the normal handlers *)
  end.

(** [Broker_SyncOperate] (usp_broker.c:1771): the error code and the output
    arguments; [is_complete] is dropped. *)
Definition Broker_SyncOperate
    (req : dm_req_t) (key : string) (args : list (string * string))
  : M (Z * list (string * string)) :=
  let* r := SendOperateAndProcessResponse
              (req_group_id req) (req_path req) true key args in
  ret (r.1.1, r.1.2).

(** The requests that [USP_BROKER_HandleRegister] refuses before it looks
    at a path, and the error code of each. *)
Inductive register_refused (b : broker) (usp : Usp__Msg) (endpoint : string)
  : Z -> Prop :=
  | refused_not_understood :
      (forall reg, body usp <>
         Some (USP__BODY__MSG_BODY_REQUEST
                 (Some (USP__REQUEST__REQ_TYPE_REGISTER (Some reg))))) ->
      register_refused b usp endpoint USP_ERR_MESSAGE_NOT_UNDERSTOOD
  | refused_no_paths reg :
      body usp = Some (USP__BODY__MSG_BODY_REQUEST
                         (Some (USP__REQUEST__REQ_TYPE_REGISTER (Some reg)))) ->
      reg_paths reg = [] ->
      register_refused b usp endpoint USP_ERR_REGISTER_FAILURE
  | refused_registered_before reg s :
      body usp = Some (USP__BODY__MSG_BODY_REQUEST
                         (Some (USP__REQUEST__REQ_TYPE_REGISTER (Some reg)))) ->
      service_of b endpoint = Some s ->
      registered_paths s <> [] ->
      register_refused b usp endpoint USP_ERR_REGISTER_FAILURE
  | refused_table_full reg :
      body usp = Some (USP__BODY__MSG_BODY_REQUEST
                         (Some (USP__REQUEST__REQ_TYPE_REGISTER (Some reg)))) ->
      FindUspServiceByEndpoint (usp_services b) endpoint = None ->
      FindUnusedUspService (usp_services b) = None \/
      DATA_MODEL_FindUnusedGroupId b = INVALID ->
      register_refused b usp endpoint USP_ERR_REGISTER_FAILURE.

(** One call of a function of the Broker that runs to its end. *)
Inductive handled : broker -> broker -> Prop :=
  | handled_AddUspService endpoint mtpc err b b' :
      USP_BROKER_AddUspService endpoint mtpc b = Some (err, b') -> handled b b'
  | handled_HandleUspServiceDisconnect endpoint path_type b b' :
      USP_BROKER_HandleUspServiceDisconnect endpoint path_type b = Some (tt, b') ->
      handled b b'
  | handled_HandleRegister usp endpoint mtpc b b' :
      USP_BROKER_HandleRegister usp endpoint mtpc b = Some (tt, b') -> handled b b'
  | handled_HandleNotification usp endpoint mtpc b b' :
      USP_BROKER_HandleNotification usp endpoint mtpc b = Some (tt, b') -> handled b b'
  | handled_AttemptPassThruForNotification current usp endpoint mtpc r b b' :
      AttemptPassThruForNotification current usp endpoint mtpc b = Some (r, b') ->
      handled b b'
  | handled_AsyncOperate req args inst err b b' :
      Broker_AsyncOperate req args inst b = Some (err, b') -> handled b b'
  | handled_SyncOperate req key args r b b' :
      Broker_SyncOperate req key args b = Some (r, b') -> handled b b'
  | handled_PassThruToUspService us usp endpoint mtpc err b b' :
      PassThruToUspService us usp endpoint mtpc b = Some (err, b') -> handled b b'
  | handled_AttemptPassThruForResponse usp endpoint r b b' :
      AttemptPassThruForResponse usp endpoint b = Some (r, b') -> handled b b'
  | handled_GetNotifyDestForEndpoint endpoint t r b b' :
      USP_BROKER_GetNotifyDestForEndpoint endpoint t b = Some (r, b') -> handled b b'
  | handled_Stop b b' :
      USP_BROKER_Stop b = Some (tt, b') -> handled b b'.

(** The states the Broker gets to by such calls once [USP_BROKER_Init]
    has succeeded. *)
Inductive served : broker -> Prop :=
  | served_Init builtin :
      (USP_BROKER_Init builtin).1 = USP_ERR_OK -> served (USP_BROKER_Init builtin).2
  | served_handled b b' : served b -> handled b b' -> served b'.

(** The message id for the counter value [c] is not cut by its buffer. *)
Definition id_fits (c : Z) : Prop :=
  (String.length (broker_message_id_text c) < MAX_MSG_ID_LEN)%nat.

(** The next message id is whole: the counter does not wrap at it and the
    id is not cut. *)
Definition next_id_whole (b : broker) : Prop :=
  count b + 1 < 2 ^ 32 /\ id_fits (count b + 1).

(** The message maps hold message ids that [CalcBrokerMessageId] has given
    out since the counter was 0, none of them cut, and no two entries of a
    map have the same. *)
Definition message_ids_counted (b : broker) : Prop :=
  0 <= count b < 2 ^ 32 /\
  forall us s,
    usp_services b !! us = Some s ->
    NoDup (broker_msg_id <$> msg_map s) /\
    forall e, e ∈ msg_map s ->
      exists c, 1 <= c <= count b /\ id_fits c /\
                broker_msg_id e = broker_message_id MAX_MSG_ID_LEN c.

(** What one call leaves of the counter and the message maps when it calls
    [CalcBrokerMessageId] at most once. *)
Definition one_id_used (b b' : broker) : Prop :=
  (count b' = count b /\ msg_maps_kept (usp_services b) (usp_services b')) \/
  (count b' = (count b + 1) mod 2 ^ 32 /\
   Forall2 (slot_id_added (next_message_id b)) (usp_services b) (usp_services b')).

Definition uses_one_id {A} (m : M A) : Prop :=
  forall b r b', m b = Some (r, b') -> one_id_used b b'.

(** The states it gets to while its message ids are whole. *)
Inductive counted : broker -> Prop :=
  | counted_Init builtin :
      (USP_BROKER_Init builtin).1 = USP_ERR_OK -> counted (USP_BROKER_Init builtin).2
  | counted_handled b b' :
      counted b -> next_id_whole b -> handled b b' -> counted b'.

(** The states it gets to while no instance number in use has reached
    [INT_MAX]. *)
Inductive numbered : broker -> Prop :=
  | numbered_Init builtin :
      (USP_BROKER_Init builtin).1 = USP_ERR_OK -> numbered (USP_BROKER_Init builtin).2
  | numbered_handled b b' :
      numbered b -> instances_below_max (usp_services b) -> handled b b' ->
      numbered b'.

End MoreHandlers.
(* ===================================================================== *)
(** * More of the small configuration *)
(* ===================================================================== *)

Local Open Scope string_scope.

(** The connection of a Service to the Broker's agent socket. *)
Definition brokers_agent_socket : mtp_conn_t :=
  {| protocol := kMtpProtocol_UDS; is_reply_to_specified := true;
     uds_path_type := kUdsPathType_BrokersAgent; conn_details := 8 |}.

(** A Register request that allows partial registration; its second path
    lacks the trailing dot. *)
Definition example_register_partial : Usp__Register :=
  {| allow_partial := true; reg_paths := ["Device.Bar."; "Device.Baz"] |}.

(** The Service answers that the command "Device.Foo.Reboot()" is running
    as its request 1. *)
Definition example_operation_result : Usp__OperateResp__OperationResult :=
  {| executed_command := "Device.Foo.Reboot()";
     operation_resp := OPERATION_RESP_REQ_OBJ_PATH "Device.LocalAgent.Request.1." |}.

Definition example_operate_resp : Usp__Msg :=
  {| header := Some {| msg_id := Some "svc1-resp-1";
                       msg_type := USP__HEADER__MSG_TYPE__OPERATE_RESP |};
     body := Some (USP__BODY__MSG_BODY_RESPONSE
                     (Some (USP__RESPONSE__RESP_TYPE_OPERATE_RESP
                              (Some [example_operation_result])))) |}.

(** The OperationComplete notification of that command, on the
    subscription "sub-1". *)
Definition example_operation_complete : Usp__Notify :=
  {| notify_subscription_id := "sub-1"; send_resp := false;
     notification :=
       USP__NOTIFY__NOTIFICATION_OPER_COMPLETE
         {| obj_path := "Device.Foo."; command_name := "Reboot()";
            oc_command_key := "key1" |} |}.

(** A Broker whose Services answer an Operate request at once, and whose
    message queue takes no message. *)
Definition busy_platform : Platform := {|
  MAX_USP_SERVICES := 2;
  MAX_VENDOR_PARAM_GROUPS := 4;
  MAX_DM_PATH := 256;
  MAX_MSG_ID_LEN := 64;
  ONLY_CONTROLLER_CONNECTIONS := 1;
  TEXT_UTILS_IsPathMatch := String.eqb;
  USP_REGISTER_result := fun _ => USP_ERR_OK;
  USP_DM_InformInstance_result := fun _ => USP_ERR_OK;
  DM_PRIV_AddSchemaPath_accepts := fun _ => true;
  DATA_MODEL_GetParameterValue_result := fun _ => (USP_ERR_OK, "key1");
  MSG_HANDLER_QueueMessage_result := fun _ _ _ => USP_ERR_INTERNAL_ERROR;
  DM_EXEC_SendRequestAndWaitForResponse_result := fun _ _ _ => Some example_operate_resp;
  MSG_UTILS_ValidateUspResponse_result := fun _ => USP_ERR_OK;
  DEVICE_SUBSCRIPTION_RouteNotification_result := fun _ _ => USP_ERR_OK;
  time_result := fun _ => 1700000000;
|}.

(** A Broker whose buffer for a message id holds seven characters. *)
Definition short_id_platform : Platform := {|
  MAX_USP_SERVICES := 2;
  MAX_VENDOR_PARAM_GROUPS := 4;
  MAX_DM_PATH := 256;
  MAX_MSG_ID_LEN := 8;
  ONLY_CONTROLLER_CONNECTIONS := 1;
  TEXT_UTILS_IsPathMatch := String.eqb;
  USP_REGISTER_result := fun _ => USP_ERR_OK;
  USP_DM_InformInstance_result := fun _ => USP_ERR_OK;
  DM_PRIV_AddSchemaPath_accepts := fun _ => true;
  DATA_MODEL_GetParameterValue_result := fun _ => (USP_ERR_OK, "key1");
  MSG_HANDLER_QueueMessage_result := fun _ _ _ => USP_ERR_OK;
  DM_EXEC_SendRequestAndWaitForResponse_result := fun _ _ _ => None;
  MSG_UTILS_ValidateUspResponse_result := fun _ => USP_ERR_OK;
  DEVICE_SUBSCRIPTION_RouteNotification_result := fun _ _ => USP_ERR_OK;
  time_result := fun _ => 1700000000;
|}.


(** A tree of three levels: the originator may read and write the root
    and its first child, and nothing of the grandchild. *)
Definition example_permissions : dm_perm_node :=
  PermNode 7 [PermNode 3 []; PermNode 7 [PermNode 0 []]].

Section MoreExampleStates.
#[local] Existing Instance example_platform.

(** "svc1" has registered "Device.Foo." and has then connected to the
    Broker's agent socket as well. *)
Definition example_both_connected : broker :=
  state_after
    (USP_BROKER_AddUspService "svc1" brokers_agent_socket example_registered)
    example_registered.

(** A Service that has connected over WebSockets. *)
Definition example_websocket_connected : broker :=
  state_after
    (USP_BROKER_AddUspService "svc3" controller_websocket example_initial)
    example_initial.

End MoreExampleStates.

Section ShortIdStates.
#[local] Existing Instance short_id_platform.




End ShortIdStates.

Section BusyStates.
#[local] Existing Instance busy_platform.

(** "svc1" has connected to the Broker whose message queue takes no
    message. *)
Definition busy_connected : broker :=
  state_after
    (USP_BROKER_AddUspService "svc1" brokers_controller_socket (USP_BROKER_Init []).2)
    (USP_BROKER_Init []).2.

End BusyStates.

Local Close Scope string_scope.

(* ===================================================================== *)
(** * Textual validation of register paths *)
(* ===================================================================== *)

Local Open Scope string_scope.

Lemma append_cons (c : ascii) (a r : string) :
  String.append (String c a) r = String c (String.append a r).
Proof. reflexivity. Qed.

Lemma prefix_append (a s : string) :
  String.prefix a s = true <-> exists r, s = String.append a r.
Proof.
  revert s. induction a as [|c a IH]; intros s.
  - destruct s; simpl; (split; [intros _; by eexists | done]).
  - destruct s as [|d s]; simpl.
    + split; [done | intros [r Hr]; rewrite append_cons in Hr; discriminate].
    + destruct (ascii_dec c d) as [->|Hne].
      * rewrite IH. split; intros [r Hr]; exists r; rewrite ?append_cons in *; congruence.
      * split; [done | intros [r Hr]; rewrite append_cons in Hr; congruence].
Qed.

Lemma append_nil (r : string) : String.append "" r = r.
Proof. reflexivity. Qed.

Lemma last_char_append (p : string) (c : ascii) :
  String.get (String.length p - 1) p = Some c <->
  exists front, p = String.append front (String c EmptyString).
Proof.
  induction p as [|d p IH].
  - split; [done | intros [[|e f] Hf]; discriminate].
  - destruct p as [|e p].
    + split.
      * intros [= ->]. by exists "".
      * intros [[|e [|e' f]] Hf]; rewrite ?append_cons, ?append_nil in Hf;
          simpl; congruence.
    + replace (String.length (String d (String e p)) - 1)%nat
        with (S (String.length (String e p) - 1)) by (simpl; lia).
      cbn [String.get]. rewrite IH. split.
      * intros [f Hf]. exists (String d f). rewrite append_cons. by rewrite Hf.
      * intros [[|d' f] Hf]; rewrite ?append_cons, ?append_nil in Hf;
          [discriminate|].
        exists f. congruence.
Qed.

Lemma all_chars_get (ok : ascii -> bool) (p : string) :
  all_chars ok p = true <-> forall i c, String.get i p = Some c -> ok c = true.
Proof.
  induction p as [|d p IH]; simpl.
  - split; [intros _ i c; by destruct i | done].
  - destruct (ok d) eqn:Hd.
    + rewrite IH. split.
      * intros H [|i] c; simpl; [intros [= <-]; done | apply H].
      * intros H i c Hi. apply (H (S i) c). done.
    + split; [done|]. intros H. rewrite <- Hd. apply (H 0%nat). done.
Qed.

Lemma contains_instance_number_get (p : string) :
  contains_instance_number p = false <->
  forall i d, String.get i p = Some "."%char ->
              String.get (S i) p = Some d -> IS_NUMERIC d = false.
Proof.
  induction p as [|c p IH]; simpl.
  - split; [intros _ i d; by destruct i | done].
  - destruct (Ascii.eqb_spec c ".") as [->|Hne].
    + destruct p as [|e p].
      * split; [|done]. intros _ [|i] d; simpl; [done | by destruct i].
      * destruct (IS_NUMERIC e) eqn:He.
        -- split; [done|]. intros H. rewrite <- He. apply (H 0%nat); done.
        -- rewrite IH. split.
           ++ intros H [|i] d ? ?; [simpl in *; congruence | by apply (H i)].
           ++ intros H i d ? ?. by apply (H (S i)).
    + rewrite IH. split.
      * intros H [|i] d ? ?; [simpl in *; congruence | by apply (H i)].
      * intros H i d ? ?. by apply (H (S i)).
Qed.

(** The paths [ValidateUspServicePath] lets through. *)
Lemma ValidateUspServicePath_OK (p : string) :
  ValidateUspServicePath p = USP_ERR_OK <-> valid_register_path p.
Proof.
  unfold ValidateUspServicePath, valid_register_path.
  rewrite <- prefix_append, <- last_char_append.
  rewrite <- contains_instance_number_get.
  destruct (String.prefix DM_ROOT p) eqn:Hp; simpl; [|split; [done | intros [? _]; done]].
  case_bool_decide as Hl; simpl; [|split; [done | intros (_ & ? & _); done]].
  destruct (all_chars _ p) eqn:Ha; simpl.
  - destruct (contains_instance_number p) eqn:Hc.
    + split; [done | intros (_ & _ & _ & ?); done].
    + split; [|done]. intros _. repeat split; try done.
      intros i c Hi. apply all_chars_get with (i := i) (c := c) in Ha; [|done].
      apply orb_true_iff in Ha as [?|Hd]; [by left | right].
      by apply Ascii.eqb_eq in Hd.
  - split; [done|]. intros (_ & _ & H & _).
    assert (all_chars (fun c => IS_ALPHA_NUMERIC c || Ascii.eqb c ".") p = true); [|congruence].
    apply all_chars_get. intros i c Hi. apply orb_true_iff.
    destruct (H i c Hi) as [?| ->]; [by left | right; apply Ascii.eqb_refl].
Qed.

(** It has one error code. *)
Lemma ValidateUspServicePath_error (p : string) :
  ValidateUspServicePath p <> USP_ERR_OK ->
  ValidateUspServicePath p = USP_ERR_REGISTER_FAILURE.
Proof.
  unfold ValidateUspServicePath.
  repeat match goal with
  | |- context [if ?b then _ else _] => destruct b eqn:?
  end; done.
Qed.

(** C3. [ValidateUspServicePath] returns USP_ERR_OK exactly for the paths
    that begin with "Device.", end with '.', consist of alphanumerics and
    '.' only and have no '.' immediately followed by a digit; every other
    path is answered with USP_ERR_REGISTER_FAILURE. *)
Theorem ValidateUspServicePath_spec (p : string) :
  (ValidateUspServicePath p = USP_ERR_OK <-> valid_register_path p) /\
  (~ valid_register_path p -> ValidateUspServicePath p = USP_ERR_REGISTER_FAILURE).
Proof.
  split; [apply ValidateUspServicePath_OK|].
  intros Hn. apply ValidateUspServicePath_error.
  by rewrite ValidateUspServicePath_OK.
Qed.

(** The boundary cases of the specification. *)
Example reject_missing_trailing_dot :
  ValidateUspServicePath "Device.Foo" = USP_ERR_REGISTER_FAILURE.
Proof. reflexivity. Qed.

Example reject_instance_placeholder :
  ValidateUspServicePath "Device.Foo.{i}." = USP_ERR_REGISTER_FAILURE.
Proof. reflexivity. Qed.

Example reject_foreign_root :
  ValidateUspServicePath "InternetGatewayDevice.Foo." = USP_ERR_REGISTER_FAILURE.
Proof. reflexivity. Qed.

Example reject_instance_number :
  ValidateUspServicePath "Device.Foo.1.Bar." = USP_ERR_REGISTER_FAILURE.
Proof. reflexivity. Qed.

Example accept_top_level_object :
  ValidateUspServicePath "Device.Foo." = USP_ERR_OK.
Proof. reflexivity. Qed.

Local Close Scope string_scope.

(* ===================================================================== *)
(** * Lists, strings and the array of Services *)
(* ===================================================================== *)

Lemma alter_insert {A} (f : A -> A) (l : list A) (i : nat) (x : A) :
  l !! i = Some x -> alter f i l = <[i := f x]> l.
Proof.
  intros Hx. apply list_eq. intros j.
  rewrite list_lookup_alter, list_lookup_insert.
  pose proof (lookup_lt_Some _ _ _ Hx).
  repeat case_decide; subst; try lia; try done.
  by rewrite Hx.
Qed.

Lemma substring_all (s : string) (n : nat) :
  (String.length s <= n)%nat -> String.substring 0 n s = s.
Proof.
  revert n. induction s as [|c s IH]; intros [|n] Hn; simpl in *; try done; try lia.
  f_equal. apply IH. lia.
Qed.

(** The searches by endpoint read the instance number and the endpoint id
    of the slots and nothing else. *)
Lemma FindUspServiceByEndpoint_ext (l l' : list usp_service_t) endpoint :
  (fun s => (instance s, endpoint_id s)) <$> l' =
  (fun s => (instance s, endpoint_id s)) <$> l ->
  FindUspServiceByEndpoint l' endpoint = FindUspServiceByEndpoint l endpoint.
Proof.
  intros Hkeys. unfold FindUspServiceByEndpoint.
  pose (Q := fun k : Z * string => k.1 <> INVALID /\ k.2 = endpoint).
  assert (Hfind : forall m : list usp_service_t,
    fst <$> list_find (fun us => instance us <> INVALID /\ endpoint_id us = endpoint) m =
    fst <$> list_find Q ((fun s => (instance s, endpoint_id s)) <$> m)).
  { intros m. rewrite list_find_fmap. unfold Q, compose. simpl.
    destruct (list_find _ m) as [[? ?]|]; done. }
  by rewrite !Hfind, Hkeys.
Qed.

Lemma FindUspServiceByEndpoint_insert (l : list usp_service_t) us s s' endpoint :
  l !! us = Some s -> instance s' = instance s -> endpoint_id s' = endpoint_id s ->
  FindUspServiceByEndpoint (<[us := s']> l) endpoint = FindUspServiceByEndpoint l endpoint.
Proof.
  intros Hs Hi He. apply FindUspServiceByEndpoint_ext.
  rewrite list_fmap_insert, Hi, He.
  apply list_insert_id. by rewrite list_lookup_fmap, Hs.
Qed.

Lemma NoDup_fmap_lookup_inj {A B} (f : A -> B) (l : list A) i j x y :
  NoDup (f <$> l) -> l !! i = Some x -> l !! j = Some y -> f x = f y -> i = j.
Proof.
  intros Hnd Hi Hj Hf.
  eapply NoDup_lookup; [exact Hnd| |]; rewrite list_lookup_fmap.
  - by rewrite Hi.
  - by rewrite Hj, Hf.
Qed.

Lemma service_of_Some b endpoint s :
  service_of b endpoint = Some s <->
  exists us, FindUspServiceByEndpoint (usp_services b) endpoint = Some us /\
             usp_services b !! us = Some s.
Proof.
  unfold service_of. destruct (FindUspServiceByEndpoint _ _) as [us|].
  - split; [eauto|]. intros (? & [= <-] & ?). done.
  - split; [done|]. intros (? & ? & _). done.
Qed.

Lemma FindUspServiceByEndpoint_lookup services endpoint us :
  FindUspServiceByEndpoint services endpoint = Some us ->
  is_Some (services !! us).
Proof.
  unfold FindUspServiceByEndpoint. intros H.
  apply fmap_Some in H as [[i s] [H ->]].
  apply list_find_Some in H as (? & _). eauto.
Qed.

Lemma FindUspServiceByEndpoint_Some services endpoint us :
  FindUspServiceByEndpoint services endpoint = Some us ->
  exists s, services !! us = Some s /\ instance s <> INVALID /\
            endpoint_id s = endpoint /\
            forall j y, services !! j = Some y -> (j < us)%nat ->
                        ~ (instance y <> INVALID /\ endpoint_id y = endpoint).
Proof.
  unfold FindUspServiceByEndpoint. intros H.
  apply fmap_Some in H as [[i s] [H ->]].
  apply list_find_Some in H as (? & [? ?] & ?). exists s. simpl. eauto.
Qed.


Lemma lookup_insert_same {A} (l : list A) i x y :
  l !! i = Some x -> <[i := y]> l !! i = Some y.
Proof. intros H. apply list_lookup_insert_eq. by eapply lookup_lt_Some. Qed.

(** ** Running the primitives of the monad *)

Lemma bind_run {A B} (m : M A) (k : A -> M B) b a b' :
  m b = Some (a, b') -> bind m k b = k a b'.
Proof. intros H. unfold bind. by rewrite H. Qed.

Lemma get_us_run b us s :
  usp_services b !! us = Some s -> get_us us b = Some (s, b).
Proof. intros H. unfold get_us. by rewrite H. Qed.

Lemma update_us_run b us s f :
  usp_services b !! us = Some s ->
  update_us us f b =
    Some (tt, set_usp_services (<[us := f s]> (usp_services b)) b).
Proof. intros H. unfold update_us, modify. by erewrite alter_insert. Qed.

Lemma call_run b e : call e b = Some (tt, set_trace (trace b ++ [e]) b).
Proof. reflexivity. Qed.

(** Projections of updated states. *)
Ltac simpl_state :=
  cbn [usp_services schema groups_in_use request_table count trace
       set_usp_services set_schema set_groups_in_use set_request_table
       set_count set_trace].

Ltac lookup_us H :=
  simpl_state; first [ exact H | eapply lookup_insert_same; lookup_us H ].

(** Symbolic execution: push the state through the next [bind]. *)
Ltac run_with H :=
  first
    [ erewrite (bind_run (get_us _)) by (apply get_us_run; exact H)
    | erewrite (bind_run (update_us _ _)) by (apply update_us_run; exact H)
    | erewrite (bind_run (call _)) by apply call_run
    | erewrite (bind_run get_state) by reflexivity
    | erewrite (bind_run (ret _)) by reflexivity ].


Lemma FindUspServiceByGroupId_ext (l l' : list usp_service_t) group :
  (fun s => (instance s, group_id s)) <$> l' =
  (fun s => (instance s, group_id s)) <$> l ->
  FindUspServiceByGroupId l' group = FindUspServiceByGroupId l group.
Proof.
  intros Hkeys. unfold FindUspServiceByGroupId.
  pose (Q := fun k : Z * Z => k.1 <> INVALID /\ k.2 = group).
  assert (Hfind : forall m : list usp_service_t,
    fst <$> list_find (fun us => instance us <> INVALID /\ group_id us = group) m =
    fst <$> list_find Q ((fun s => (instance s, group_id s)) <$> m)).
  { intros m. rewrite list_find_fmap. unfold Q, compose. simpl.
    destruct (list_find _ m) as [[? ?]|]; done. }
  by rewrite !Hfind, Hkeys.
Qed.

Lemma FindUspServiceByGroupId_insert (l : list usp_service_t) us s s' group :
  l !! us = Some s -> instance s' = instance s -> group_id s' = group_id s ->
  FindUspServiceByGroupId (<[us := s']> l) group = FindUspServiceByGroupId l group.
Proof.
  intros Hs Hi He. apply FindUspServiceByGroupId_ext.
  rewrite list_fmap_insert, Hi, He.
  apply list_insert_id. by rewrite list_lookup_fmap, Hs.
Qed.


(* ===================================================================== *)
(** * Completion of asynchronous commands *)
(* ===================================================================== *)

Section Requests.
Context {P : Platform}.

(** The buffer holds the whole command path when that is shorter than
    MAX_DM_PATH. *)
Lemma command_path_of_fits obj cmd :
  (String.length (String.append obj cmd) < MAX_DM_PATH)%nat ->
  command_path_of obj cmd = String.append obj cmd.
Proof.
  intros H. unfold command_path_of, USP_SNPRINTF. apply substring_all. lia.
Qed.

(** Running [DeleteMatchingOperateRequest]: either nothing matches and the
    state stays, or the first matching entry goes together with its row. *)
Lemma DeleteMatchingOperateRequest_run b us s obj cmd key :
  usp_services b !! us = Some s ->
  match ReqMap_Find (req_map s) (command_path_of obj cmd) key with
  | None => DeleteMatchingOperateRequest us obj cmd key b = Some (tt, b)
  | Some (i, e) =>
      DeleteMatchingOperateRequest us obj cmd key b =
        Some (tt,
          set_usp_services
            (alter (fun s => set_req_map (ReqMap_Remove (req_map s) i) s) us
                   (usp_services b))
            (set_request_table
               (filter (fun r => r <> request_instance e) (request_table b))
               (set_trace (trace b ++ [Ev_RequestDeleteInstance (request_instance e)]) b)))
  end.
Proof.
  intros Hs. unfold DeleteMatchingOperateRequest, bind, get_us. rewrite Hs.
  destruct (ReqMap_Find _ _ _) as [[i e]|]; done.
Qed.

(** C10. An OperationComplete whose command path, as the Broker forms it in
    its MAX_DM_PATH buffer, and command key match no entry of the sending
    Service's request map leaves the request map, the Request table and
    the rest of the state as they are; whenever the call changes the state,
    it removes one request-map entry with that path and key together with
    the Request-table row the entry names, and nothing else. *)
Theorem DeleteMatchingOperateRequest_frame b us s obj cmd key :
  usp_services b !! us = Some s ->
  ((forall e, e ∈ req_map s ->
      ~ (rmap_path e = command_path_of obj cmd /\ command_key e = key)) ->
   DeleteMatchingOperateRequest us obj cmd key b = Some (tt, b)) /\
  (forall b', DeleteMatchingOperateRequest us obj cmd key b = Some (tt, b') ->
      b' <> b ->
      exists i e,
        req_map s !! i = Some e /\
        rmap_path e = command_path_of obj cmd /\ command_key e = key /\
        usp_services b' = <[us := set_req_map (delete i (req_map s)) s]> (usp_services b) /\
        request_table b' = filter (fun r => r <> request_instance e) (request_table b) /\
        emitted b b' [Ev_RequestDeleteInstance (request_instance e)] /\
        schema b' = schema b /\ groups_in_use b' = groups_in_use b /\
        count b' = count b).
Proof.
  intros Hs. pose proof (DeleteMatchingOperateRequest_run b us s obj cmd key Hs) as Hrun.
  destruct (ReqMap_Find _ _ _) as [[i e]|] eqn:Hfind.
  - apply list_find_Some in Hfind as (Hi & [Hp Hk] & _). split.
    + intros Hno. exfalso. apply (Hno e); [|done].
      apply list_elem_of_lookup. eauto.
    + intros b' Hb' _. rewrite Hrun in Hb'. injection Hb' as <-.
      exists i, e. repeat split; try done. simpl.
      unfold ReqMap_Remove. by erewrite alter_insert.
  - split; [done|]. intros b' Hb' Hne. congruence.
Qed.


End Requests.

(* ===================================================================== *)
(** * Routing of inbound notifications *)
(* ===================================================================== *)

Section Notifications.
Context {P : Platform}.

Lemma DeleteMatchingOperateRequest_emits b us s obj cmd key :
  usp_services b !! us = Some s ->
  exists b' evs,
    DeleteMatchingOperateRequest us obj cmd key b = Some (tt, b') /\
    emitted b b' evs /\
    (evs = [] \/ exists inst, evs = [Ev_RequestDeleteInstance inst]).
Proof.
  intros Hs. pose proof (DeleteMatchingOperateRequest_run b us s obj cmd key Hs) as Hrun.
  destruct (ReqMap_Find _ _ _) as [[i e]|].
  - eexists _, _. split; [exact Hrun|]. split; [reflexivity|]. right. eauto.
  - exists b, []. split; [done|]. split; [|by left].
    unfold emitted. by rewrite app_nil_r.
Qed.

(** The outcome of [USP_BROKER_HandleNotification] on a message with a
    header. *)
Lemma HandleNotification_run b id t bd endpoint mtpc :
  let usp := received id t bd in
  (notify_accepted b endpoint bd /\
   exists notify s i smap b' evs,
     bd = Notify_body notify /\
     service_of b endpoint = Some s /\
     SubsMap_FindByUspServiceSubsId (subs_map s) (notify_subscription_id notify)
       = Some (i, smap) /\
     USP_BROKER_HandleNotification usp endpoint mtpc b = Some (tt, b') /\
     emitted b b' (Ev_RouteNotification usp (broker_instance smap) :: evs) /\
     forall u bi, Ev_RouteNotification u bi ∉ evs) \/
  (~ notify_accepted b endpoint bd /\
   USP_BROKER_HandleNotification usp endpoint mtpc b =
     Some (tt, set_trace
                 (trace b ++ [Ev_QueueErrorMessage USP_ERR_REQUEST_DENIED endpoint mtpc id])
                 b)).
Proof.
  intros usp.
  assert (Hdeny : forall (m : M Z),
    m = ret USP_ERR_REQUEST_DENIED ->
    bind m (fun err =>
      if bool_decide (err <> USP_ERR_OK)
      then bind (header_msg_id usp) (fun id => MSG_HANDLER_QueueErrorMessage err endpoint mtpc id)
      else ret tt) b =
    Some (tt, set_trace
                (trace b ++ [Ev_QueueErrorMessage USP_ERR_REQUEST_DENIED endpoint mtpc id]) b)).
  { intros m ->. reflexivity. }
  unfold USP_BROKER_HandleNotification.
  destruct bd as [[| [[| [notify|] | | |]|] | |]|];
    try (right; split; [intros (n & s & e & Hbd & _); discriminate Hbd | by apply Hdeny]).
  change (body usp) with (Notify_body notify). cbn [Notify_body].
  destruct (send_resp notify) eqn:Hsend.
  { right. split; [|by apply Hdeny].
    intros (n & s & e & [= <-] & _ & ? & _). congruence. }
  destruct (service_of b endpoint) as [s|] eqn:Hsvc.
  2: { right. split.
       - intros (n & s & e & _ & ? & _). congruence.
       - unfold service_of in Hsvc.
         destruct (FindUspServiceByEndpoint _ _) as [us|] eqn:Hfind.
         + apply FindUspServiceByEndpoint_lookup in Hfind as [? ?]. congruence.
         + unfold bind, get_state. rewrite Hfind. reflexivity. }
  apply service_of_Some in Hsvc as Hsvc'. destruct Hsvc' as (us & Hfind & Hs).
  destruct (SubsMap_FindByUspServiceSubsId (subs_map s) (notify_subscription_id notify))
    as [[i smap]|] eqn:Hsub.
  2: { right. split.
       - intros (n & s' & e & [= <-] & Hs' & _ & He & Hid).
         assert (s' = s) as -> by congruence.
         apply list_find_None in Hsub. rewrite list.Forall_forall in Hsub.
         eapply Hsub; eauto.
       - unfold bind, get_state, get_us. rewrite Hfind, Hs, Hsub. reflexivity. }
  left. split.
  { exists notify, s, smap. repeat split; try done.
    - apply list_find_Some in Hsub as (? & _). apply list_elem_of_lookup; eauto.
    - by apply list_find_Some in Hsub as (_ & ? & _). }
  set (b1 := set_trace (trace b ++ [Ev_RouteNotification usp (broker_instance smap)]) b).
  assert (Hs1 : usp_services b1 !! us = Some s) by done.
  assert (exists b2 evs2,
    match notification notify with
    | USP__NOTIFY__NOTIFICATION_OPER_COMPLETE op =>
        DeleteMatchingOperateRequest us (obj_path op) (command_name op) (oc_command_key op)
    | _ => ret tt
    end b1 = Some (tt, b2) /\ emitted b1 b2 evs2 /\
    (evs2 = [] \/ exists inst, evs2 = [Ev_RequestDeleteInstance inst]))
    as (b2 & evs2 & Hdel & Hem2 & Hevs2).
  { destruct (notification notify);
      try (exists b1, []; split; [done|]; split; [|by left];
           unfold emitted; by rewrite app_nil_r).
    by eapply DeleteMatchingOperateRequest_emits. }
  set (err := DEVICE_SUBSCRIPTION_RouteNotification_result usp (broker_instance smap)).
  exists notify, s, i, smap.
  destruct (bool_decide (err <> USP_ERR_OK)) eqn:Herr.
  - exists (set_trace (trace b2 ++ [Ev_QueueErrorMessage err endpoint mtpc id]) b2),
           (evs2 ++ [Ev_QueueErrorMessage err endpoint mtpc id]).
    repeat split; try done.
    + unfold ret in Hdel.
      unfold DEVICE_SUBSCRIPTION_RouteNotification, bind, get_state, get_us, call, modify, ret.
      rewrite Hfind, Hs, Hsub. cbv beta iota. fold b1. rewrite Hdel.
      fold err. rewrite Herr. reflexivity.
    + unfold emitted in *. simpl. rewrite Hem2. subst b1. simpl.
      rewrite <- !app_assoc. done.
    + intros u bi Hin. apply elem_of_app in Hin as [Hin|Hin].
      * destruct Hevs2 as [->|[inst ->]]; [by apply elem_of_nil in Hin|].
        apply list_elem_of_singleton in Hin. discriminate.
      * apply list_elem_of_singleton in Hin. discriminate.
  - exists b2, evs2. repeat split; try done.
    + unfold ret in Hdel.
      unfold DEVICE_SUBSCRIPTION_RouteNotification, bind, get_state, get_us, call, modify, ret.
      rewrite Hfind, Hs, Hsub. cbv beta iota. fold b1. rewrite Hdel.
      fold err. rewrite Herr. reflexivity.
    + unfold emitted in *. rewrite Hem2. subst b1. simpl.
      rewrite <- !app_assoc. done.
    + intros u bi Hin.
      destruct Hevs2 as [->|[inst ->]]; [by apply elem_of_nil in Hin|].
      apply list_elem_of_singleton in Hin. discriminate.
Qed.

(** C5. A Notify reaches the subscription router, under the Broker
    instance of the matching map entry, exactly when the sender is a known
    Service, [send_resp] is false and the Service's subscription map holds
    an entry with the notification's subscription id; in every other case
    (a notification with [send_resp] set among them) the only effect is a
    USP ERROR with code REQUEST_DENIED queued back to the sender. *)
Theorem HandleNotification_routing b id t bd endpoint mtpc :
  let usp := received id t bd in
  exists b' evs,
    USP_BROKER_HandleNotification usp endpoint mtpc b = Some (tt, b') /\
    emitted b b' evs /\
    ((exists bi, Ev_RouteNotification usp bi ∈ evs) <-> notify_accepted b endpoint bd) /\
    (forall bi, Ev_RouteNotification usp bi ∈ evs ->
       exists notify s i smap,
         bd = Notify_body notify /\ service_of b endpoint = Some s /\
         SubsMap_FindByUspServiceSubsId (subs_map s) (notify_subscription_id notify)
           = Some (i, smap) /\
         bi = broker_instance smap) /\
    (~ notify_accepted b endpoint bd ->
       evs = [Ev_QueueErrorMessage USP_ERR_REQUEST_DENIED endpoint mtpc id] /\
       b' = set_trace (trace b ++ evs) b) /\
    (forall notify, bd = Notify_body notify -> send_resp notify = true ->
       ~ notify_accepted b endpoint bd).
Proof.
  intros usp.
  assert (Hresp : forall notify, bd = Notify_body notify -> send_resp notify = true ->
                    ~ notify_accepted b endpoint bd).
  { intros notify -> Htrue (n & s & e & [= <-] & _ & Hfalse & _). congruence. }
  destruct (HandleNotification_run b id t bd endpoint mtpc)
    as [(Hacc & notify & s & i & smap & b' & evs & Hbd & Hs & Hsub & Hrun & Hem & Hno)
       |(Hnacc & Hrun)].
  - exists b', (Ev_RouteNotification usp (broker_instance smap) :: evs).
    repeat split; try done.
    + exists (broker_instance smap). apply elem_of_cons. by left.
    + intros bi Hin. exists notify, s, i, smap. repeat split; try done.
      apply elem_of_cons in Hin as [[= ->]|Hin]; [done|].
      by apply Hno in Hin.
  - eexists _, _. split; [exact Hrun|]. split; [reflexivity|].
    repeat split; try done.
    + intros [bi Hin]. apply list_elem_of_singleton in Hin. discriminate.
    + intros bi Hin. apply list_elem_of_singleton in Hin. discriminate.
Qed.
End Notifications.

(* ===================================================================== *)
(** * The asynchronous Operate vendor hook *)
(* ===================================================================== *)

Section AsyncCommands.
Context {P : Platform}.

(** [ProcessOperateResponse] leaves the state alone. *)
Lemma ProcessOperateResponse_state resp path is_sync b r b' :
  ProcessOperateResponse resp path is_sync b = Some (r, b') -> b' = b.
Proof.
  unfold ProcessOperateResponse, ret, terminate.
  repeat (case_match; try done); by intros [= _ <-].
Qed.

Lemma SendOperateAndProcessResponse_run b group path key args us s :
  FindUspServiceByGroupId (usp_services b) group = Some us ->
  usp_services b !! us = Some s ->
  SendOperateAndProcessResponse group path false key args b =
    if bool_decide (protocol (controller_mtp s) = kMtpProtocol_None)
    then Some ((USP_ERR_INTERNAL_ERROR, [], false), b)
    else match operate_answer b s path key args with
         | None => Some ((USP_ERR_INTERNAL_ERROR, [], false), operate_sent b s path key args)
         | Some resp =>
             ProcessOperateResponse resp path false (operate_sent b s path key args)
         end.
Proof.
  intros Hfind Hs. unfold SendOperateAndProcessResponse.
  erewrite (bind_run get_state) by reflexivity. rewrite Hfind.
  erewrite (bind_run (get_us _)) by (by apply get_us_run).
  case_bool_decide; [done|].
  unfold CreateBroker_OperateReq, CalcBrokerMessageId.
  unfold bind at 1 2 3. unfold get_state, modify, ret, call. simpl.
  unfold operate_answer, operate_sent, next_message_id, Operate_msg, bind, modify.
  destruct (DM_EXEC_SendRequestAndWaitForResponse_result _ _ _); done.
Qed.

(** The guards of [Broker_AsyncOperate]. *)
Lemma Broker_AsyncOperate_guards b req args inst us s :
  FindUspServiceByGroupId (usp_services b) (req_group_id req) = Some us ->
  usp_services b !! us = Some s ->
  Broker_AsyncOperate req args inst b =
    match SubsMap_FindByPath (subs_map s) (req_path req) with
    | None => Some (USP_ERR_REQUEST_DENIED, b)
    | Some _ =>
        let '(err, key) :=
          DATA_MODEL_GetParameterValue_result (request_command_key_path inst) in
        if bool_decide (err <> USP_ERR_OK) then Some (err, b)
        else match ReqMap_Find (req_map s) (req_path req) key with
             | Some _ => Some (USP_ERR_REQUEST_DENIED, b)
             | None =>
                 let b1 := with_request b us s (ReqMapEntry inst (req_path req) key) in
                 match SendOperateAndProcessResponse
                         (req_group_id req) (req_path req) false key args b1 with
                 | None => None
                 | Some ((err, out, complete), b2) =>
                     if bool_decide (err <> USP_ERR_OK)
                     then Some (err, set_usp_services (usp_services b) b2)
                     else if complete
                     then Some (USP_ERR_OK,
                            set_usp_services (usp_services b)
                              (set_trace
                                 (trace b2 ++
                                    [Ev_SignalOperationStatus inst "Active";
                                     Ev_SignalOperationComplete inst USP_ERR_OK out])
                                 b2))
                     else Some (USP_ERR_OK,
                            set_trace
                              (trace b2 ++ [Ev_SignalOperationStatus inst "Active"]) b2)
                 end
             end
    end.
Proof.
  intros Hfind Hs. unfold Broker_AsyncOperate, Broker_AsyncOperate_sending.
  erewrite (bind_run get_state) by reflexivity. rewrite Hfind.
  erewrite (bind_run (get_us _)) by (by apply get_us_run).
  destruct (SubsMap_FindByPath _ _) as [?|]; [|done].
  destruct (DATA_MODEL_GetParameterValue_result _) as [err key].
  case_bool_decide; [done|].
  destruct (ReqMap_Find _ _ _) as [?|] eqn:Hreq; [done|].
  erewrite (bind_run (update_us _ _)) by (by apply update_us_run).
  cbn zeta.
  change (set_usp_services _ b)
    with (with_request b us s (ReqMapEntry inst (req_path req) key)).
  set (b1 := with_request b us s (ReqMapEntry inst (req_path req) key)).
  assert (Hfind1 : FindUspServiceByGroupId (usp_services b1) (req_group_id req) = Some us).
  { subst b1. unfold with_request. simpl_state.
    erewrite FindUspServiceByGroupId_insert; eauto. }
  assert (Hs1 : usp_services b1 !! us
                = Some (set_req_map (req_map s ++ [ReqMapEntry inst (req_path req) key]) s)).
  { subst b1. unfold with_request. lookup_us Hs. }
  pose proof (SendOperateAndProcessResponse_run b1 _ (req_path req) key args us _ Hfind1 Hs1) as Hsend.
  assert (Hframe : forall r b2,
    SendOperateAndProcessResponse (req_group_id req) (req_path req) false key args b1
      = Some (r, b2) -> usp_services b2 = usp_services b1).
  { intros r b2. rewrite Hsend. case_bool_decide; [by intros [= _ <-]|].
    destruct (operate_answer _ _ _ _ _); [|by intros [= _ <-]].
    intros ->%ProcessOperateResponse_state. done. }
  unfold bind at 1.
  destruct (SendOperateAndProcessResponse _ _ _ _ _ b1) as [[[[err' out] complete] b2]|] eqn:Hrun;
    [|done].
  specialize (Hframe _ _ eq_refl).
  assert (Hs2 : usp_services b2 !! us
                = Some (set_req_map (req_map s ++ [ReqMapEntry inst (req_path req) key]) s))
    by (by rewrite Hframe).
  assert (Hback : <[us := set_req_map
                     (ReqMap_Remove (req_map s ++ [ReqMapEntry inst (req_path req) key])
                        (length (req_map s)))
                     (set_req_map (req_map s ++ [ReqMapEntry inst (req_path req) key]) s)]>
                    (usp_services b2) = usp_services b).
  { unfold ReqMap_Remove. rewrite delete_middle, app_nil_r, Hframe.
    subst b1. unfold with_request. simpl_state. rewrite list_insert_insert_eq.
    apply list_insert_id. rewrite Hs. by destruct s. }
  clear Hsend. destruct (bool_decide (err' <> USP_ERR_OK)).
  - erewrite (bind_run (update_us _ _)) by (apply update_us_run; exact Hs2).
    cbn [req_map set_req_map]. by rewrite Hback.
  - erewrite (bind_run (call _)) by apply call_run.
    destruct complete.
    + unfold bind at 1. unfold bind at 1. rewrite call_run.
      erewrite update_us_run by (simpl_state; exact Hs2).
      simpl_state. cbn [req_map set_req_map]. rewrite Hback.
      unfold ret. by rewrite <- app_assoc.
    + reflexivity.
Qed.

(** Whatever [send] does with the request, [Broker_AsyncOperate_sending]
    runs it from the state in which the entry is in the request map. *)
Lemma Broker_AsyncOperate_sending_order b req args inst us s key :
  FindUspServiceByGroupId (usp_services b) (req_group_id req) = Some us ->
  usp_services b !! us = Some s ->
  SubsMap_FindByPath (subs_map s) (req_path req) <> None ->
  DATA_MODEL_GetParameterValue_result (request_command_key_path inst)
    = (USP_ERR_OK, key) ->
  ReqMap_Find (req_map s) (req_path req) key = None ->
  exists finish : Z * list (string * string) * bool -> M Z,
    forall send,
      Broker_AsyncOperate_sending send req args inst b =
        (let* r := send (req_group_id req) (req_path req) false key args in finish r)
          (with_request b us s (ReqMapEntry inst (req_path req) key)).
Proof.
  intros Hfind Hs Hsub Hkey Hnew.
  exists (fun r : Z * list (string * string) * bool =>
    let '(err, output_args, is_complete) := r in
    if bool_decide (err <> USP_ERR_OK) then
      do* update_us us (fun s0 =>
            set_req_map (ReqMap_Remove (req_map s0) (length (req_map s))) s0) in
      ret err
    else
      do* call (Ev_SignalOperationStatus inst "Active") in
      do* (if is_complete then
             do* call (Ev_SignalOperationComplete inst USP_ERR_OK output_args) in
             update_us us (fun s0 =>
               set_req_map (ReqMap_Remove (req_map s0) (length (req_map s))) s0)
           else ret tt) in
      ret USP_ERR_OK).
  intros send. unfold Broker_AsyncOperate_sending.
  erewrite (bind_run get_state) by reflexivity. rewrite Hfind.
  erewrite (bind_run (get_us _)) by (by apply get_us_run).
  destruct (SubsMap_FindByPath _ _) as [?|]; [|done].
  rewrite Hkey. rewrite bool_decide_false by (intros ?; done). rewrite Hnew.
  erewrite (bind_run (update_us _ _)) by (by apply update_us_run).
  reflexivity.
Qed.

(** The answers of the Service to an Operate request. *)
Lemma ProcessOperateResponse_result resp path is_sync res b :
  MSG_UTILS_ValidateUspResponse_result resp = USP_ERR_OK ->
  carries_result resp res -> executed_command res = path ->
  ProcessOperateResponse resp path is_sync b =
    Some (match operation_resp res with
          | OPERATION_RESP_REQ_OBJ_PATH _ =>
              (if is_sync then USP_ERR_INTERNAL_ERROR else USP_ERR_OK, [], false)
          | OPERATION_RESP_REQ_OUTPUT_ARGS out => (USP_ERR_OK, out, true)
          | OPERATION_RESP_CMD_FAILURE code => (as_int (code mod 2 ^ 32), [], false)
          | OPERATION_RESP__NOT_SET => (USP_ERR_OK, [], false)
          end, b).
Proof.
  intros Hv Hres Hcmd. unfold ProcessOperateResponse, carries_result in *.
  rewrite Hv, Hres. rewrite bool_decide_false by (intros ?; done).
  rewrite bool_decide_false by (intros ?; done).
  by destruct (operation_resp res), is_sync.
Qed.

Lemma ProcessOperateResponse_invalid resp path is_sync err b :
  MSG_UTILS_ValidateUspResponse_result resp = err -> err <> USP_ERR_OK ->
  ProcessOperateResponse resp path is_sync b = Some ((err, [], false), b).
Proof.
  intros Hv Herr. unfold ProcessOperateResponse. rewrite Hv.
  by rewrite bool_decide_true.
Qed.

(** A response that validates but has no OperateResp, not exactly one
    operation result, or the result of another command. *)
Lemma ProcessOperateResponse_unexpected resp path is_sync oper b :
  MSG_UTILS_ValidateUspResponse_result resp = USP_ERR_OK ->
  body resp = Some (USP__BODY__MSG_BODY_RESPONSE
                      (Some (USP__RESPONSE__RESP_TYPE_OPERATE_RESP oper))) ->
  (forall results, oper = Some results ->
     length results <> 1%nat \/
     exists res, results = [res] /\ executed_command res <> path) ->
  ProcessOperateResponse resp path is_sync b
    = Some ((USP_ERR_INTERNAL_ERROR, [], false), b).
Proof.
  intros Hv Hbody Hodd. unfold ProcessOperateResponse.
  rewrite Hv, Hbody. rewrite bool_decide_false by (intros ?; done).
  destruct oper as [[|res [|res' rest]]|]; try done.
  destruct (Hodd [res] eq_refl) as [Hlen|(res0 & [= <-] & Hcmd)]; [done|].
  by rewrite bool_decide_true.
Qed.

(** C4. An asynchronous Operate is refused with REQUEST_DENIED, nothing
    sent and the request map untouched, when the owning Service has no
    subscription entry whose path matches the command.  With such an entry,
    a readable command key and a (path, command key) pair that is not yet
    in the request map, the entry (request instance, path, command key) is
    put into the request map before the Operate request is sent: whatever
    [send] does in the place of [SendOperateAndProcessResponse], it is run
    from the state that holds the entry.  The Request row is marked Active
    on a [req_obj_path] response (and on a result that is not set or is a
    command failure with the code 0), and completion is signalled in
    addition on an output-arguments response.  The entry is taken out
    again after an immediate completion and when sending or the processing of the
    response fails: no connection, no response, a response that does not
    validate, that has no OperateResp, not exactly one operation result or
    the result of another command, and a command failure, whose [uint32]
    code is returned as an [int]. *)
Theorem Broker_AsyncOperate_spec b req args inst us s :
  FindUspServiceByGroupId (usp_services b) (req_group_id req) = Some us ->
  usp_services b !! us = Some s ->
  let path := req_path req in
  (SubsMap_FindByPath (subs_map s) path = None ->
     Broker_AsyncOperate req args inst b = Some (USP_ERR_REQUEST_DENIED, b)) /\
  (forall key,
     SubsMap_FindByPath (subs_map s) path <> None ->
     DATA_MODEL_GetParameterValue_result (request_command_key_path inst)
       = (USP_ERR_OK, key) ->
     ReqMap_Find (req_map s) path key = None ->
     let entry := ReqMapEntry inst path key in
     let sent := operate_sent b s path key args in
     (* the Request row is Active and the entry stays *)
     let started :=
       Some (USP_ERR_OK,
             set_trace (trace sent ++ [Ev_SignalOperationStatus inst "Active"])
               (with_request sent us s entry)) in
     (* the request is sent from the state that holds the entry *)
     (ReqMap_Find (req_map s ++ [entry]) path key = Some (length (req_map s), entry) /\
      (exists finish : Z * list (string * string) * bool -> M Z,
         forall send,
           Broker_AsyncOperate_sending send req args inst b =
             (let* r := send (req_group_id req) path false key args in finish r)
               (with_request b us s entry)) /\
      forall r b2,
        SendOperateAndProcessResponse (req_group_id req) path false key args
          (with_request b us s entry) = Some (r, b2) ->
        b2 = with_request b us s entry \/ b2 = with_request sent us s entry) /\
     (SendOperateAndProcessResponse (req_group_id req) path false key args
        (with_request b us s entry) = None ->
      Broker_AsyncOperate req args inst b = None) /\
     (* sending fails *)
     (protocol (controller_mtp s) = kMtpProtocol_None ->
      Broker_AsyncOperate req args inst b = Some (USP_ERR_INTERNAL_ERROR, b)) /\
     (protocol (controller_mtp s) <> kMtpProtocol_None ->
      (operate_answer b s path key args = None ->
       Broker_AsyncOperate req args inst b = Some (USP_ERR_INTERNAL_ERROR, sent)) /\
      (forall resp, operate_answer b s path key args = Some resp ->
         (* the response does not validate *)
         (forall err, MSG_UTILS_ValidateUspResponse_result resp = err ->
            err <> USP_ERR_OK ->
            Broker_AsyncOperate req args inst b = Some (err, sent)) /\
         (* it has no OperateResp, or not exactly one operation result *)
         (forall oper,
            MSG_UTILS_ValidateUspResponse_result resp = USP_ERR_OK ->
            body resp = Some (USP__BODY__MSG_BODY_RESPONSE
                                (Some (USP__RESPONSE__RESP_TYPE_OPERATE_RESP oper))) ->
            (forall results, oper = Some results -> length results <> 1%nat) ->
            Broker_AsyncOperate req args inst b = Some (USP_ERR_INTERNAL_ERROR, sent)) /\
         (forall res,
            MSG_UTILS_ValidateUspResponse_result resp = USP_ERR_OK ->
            carries_result resp res ->
            (* the result is that of another command *)
            (executed_command res <> path ->
             Broker_AsyncOperate req args inst b = Some (USP_ERR_INTERNAL_ERROR, sent)) /\
            (executed_command res = path ->
             (forall p, operation_resp res = OPERATION_RESP_REQ_OBJ_PATH p ->
                Broker_AsyncOperate req args inst b = started) /\
             (forall out, operation_resp res = OPERATION_RESP_REQ_OUTPUT_ARGS out ->
                Broker_AsyncOperate req args inst b =
                  Some (USP_ERR_OK,
                        set_trace
                          (trace sent ++
                             [Ev_SignalOperationStatus inst "Active";
                              Ev_SignalOperationComplete inst USP_ERR_OK out]) sent)) /\
             (forall code, operation_resp res = OPERATION_RESP_CMD_FAILURE code ->
                let err := as_int (code mod 2 ^ 32) in
                (err <> USP_ERR_OK ->
                 Broker_AsyncOperate req args inst b = Some (err, sent)) /\
                (err = USP_ERR_OK ->
                 Broker_AsyncOperate req args inst b = started)) /\
             (operation_resp res = OPERATION_RESP__NOT_SET ->
              Broker_AsyncOperate req args inst b = started)))))).
Proof.
  intros Hfind Hs path.
  pose proof (Broker_AsyncOperate_guards b req args inst us s Hfind Hs) as Hrun.
  fold path in Hrun. split.
  { intros Hnone. by rewrite Hrun, Hnone. }
  intros key Hsub Hkey Hnew entry sent started.
  pose proof (Broker_AsyncOperate_sending_order b req args inst us s key
                Hfind Hs Hsub Hkey Hnew) as Horder.
  destruct (SubsMap_FindByPath (subs_map s) path) as [m|] eqn:Hm; [clear Hsub|done].
  rewrite Hkey, Hnew in Hrun. rewrite bool_decide_false in Hrun by (intros ?; done).
  cbn zeta in Hrun. fold entry in Hrun.
  set (b1 := with_request b us s entry) in *.
  assert (Hfind1 : FindUspServiceByGroupId (usp_services b1) (req_group_id req) = Some us).
  { subst b1. unfold with_request. simpl_state.
    erewrite FindUspServiceByGroupId_insert; eauto. }
  assert (Hs1 : usp_services b1 !! us = Some (set_req_map (req_map s ++ [entry]) s)).
  { subst b1. unfold with_request. lookup_us Hs. }
  pose proof (SendOperateAndProcessResponse_run b1 _ path key args us _ Hfind1 Hs1) as Hsend.
  cbn [controller_mtp set_req_map] in Hsend.
  change (operate_answer b1 (set_req_map (req_map s ++ [entry]) s) path key args)
    with (operate_answer b s path key args) in Hsend.
  change (operate_sent b1 (set_req_map (req_map s ++ [entry]) s) path key args)
    with (with_request sent us s entry) in Hsend.
  assert (Hbackb : set_usp_services (usp_services b) b1 = b) by (by destruct b).
  assert (Hbacks : set_usp_services (usp_services b) (with_request sent us s entry) = sent)
    by reflexivity.
  split; [split; [|split]|split; [|split; [|intros Hup; split; [|intros resp Hresp]]]].
  - apply list_find_Some. repeat split.
    + by apply list_lookup_middle.
    + intros j y Hj Hlt Hy. rewrite lookup_app_l in Hj by done.
      apply list_find_None in Hnew. rewrite list.Forall_forall in Hnew.
      apply (Hnew y); [|done]. apply list_elem_of_lookup. eauto.
  - exact Horder.
  - intros r b2. rewrite Hsend. case_bool_decide; [intros [= _ <-]; by left|].
    destruct (operate_answer _ _ _ _ _); [|intros [= _ <-]; by right].
    intros ->%ProcessOperateResponse_state. by right.
  - intros Hnone. by rewrite Hrun, Hnone.
  - intros Hdown. rewrite Hrun, Hsend. rewrite bool_decide_true by done.
    rewrite bool_decide_true by done. by rewrite Hbackb.
  - intros Hnone. rewrite Hrun, Hsend. rewrite bool_decide_false by done.
    rewrite Hnone. rewrite bool_decide_true by done. by rewrite Hbacks.
  - rewrite Hsend in Hrun. rewrite bool_decide_false in Hrun by done.
    rewrite Hresp in Hrun. clear Hsend.
    split; [|split].
    + intros err Hv Herr. rewrite Hrun.
      erewrite ProcessOperateResponse_invalid by done.
      rewrite bool_decide_true by done. by rewrite Hbacks.
    + intros oper Hv Hbody Hodd. rewrite Hrun.
      erewrite ProcessOperateResponse_unexpected; [|done|done|].
      * rewrite bool_decide_true by done. by rewrite Hbacks.
      * intros results ->. left. by apply Hodd.
    + intros res Hv Hres. split.
      * intros Hcmd. rewrite Hrun.
        erewrite ProcessOperateResponse_unexpected; [|done|exact Hres|].
        -- rewrite bool_decide_true by done. by rewrite Hbacks.
        -- intros results [= <-]. right. by exists res.
      * intros Hcmd. erewrite ProcessOperateResponse_result in Hrun by done.
        split; [|split; [|split]].
        -- intros p Hp. rewrite Hrun, Hp.
           rewrite bool_decide_false by (intros ?; done). done.
        -- intros out Hp. rewrite Hrun, Hp.
           rewrite bool_decide_false by (intros ?; done). done.
        -- intros code Hp err. rewrite Hrun, Hp. fold err. split.
           ++ intros Herr. rewrite bool_decide_true by done. by rewrite Hbacks.
           ++ intros Herr. rewrite bool_decide_false by (intros ?; done). done.
        -- intros Hp. rewrite Hrun, Hp.
           rewrite bool_decide_false by (intros ?; done). done.
Qed.
End AsyncCommands.

(* ===================================================================== *)
(** * Passthru of responses *)
(* ===================================================================== *)

Section Passthru.
Context {P : Platform}.

Lemma AttemptPassThruForResponse_hit b id t bd endpoint us s i map :
  is_response_or_error bd ->
  FindUspServiceByEndpoint (usp_services b) endpoint = Some us ->
  usp_services b !! us = Some s ->
  MsgMap_Find (msg_map s) id = Some (i, map) ->
  AttemptPassThruForResponse (received id t bd) endpoint b =
    Some (true,
      set_usp_services
        (<[us := set_msg_map (delete i (msg_map s)) s]> (usp_services b))
        (set_trace
           (trace b ++
              [Ev_QueueMessage (originator map)
                 (received (original_msg_id map) t bd) (mtp_conn map);
               Ev_FreeMTPConnection (mtp_conn map)]) b)).
Proof.
  intros Hbd Hfind Hs Hmap.
  unfold AttemptPassThruForResponse, MSG_HANDLER_QueueMessage,
    bind, get_state, get_us, call, modify, update_us, ret.
  destruct Hbd as [[r ->]|[c ->]]; simpl; rewrite Hfind, Hs, Hmap; simpl;
    rewrite <- app_assoc; simpl;
    erewrite alter_insert by done; reflexivity.
Qed.

Lemma AttemptPassThruForResponse_miss b id t bd endpoint us s :
  FindUspServiceByEndpoint (usp_services b) endpoint = Some us ->
  usp_services b !! us = Some s ->
  MsgMap_Find (msg_map s) id = None ->
  AttemptPassThruForResponse (received id t bd) endpoint b = Some (false, b).
Proof.
  intros Hfind Hs Hmap.
  unfold AttemptPassThruForResponse, bind, get_state, get_us, ret.
  destruct bd as [[| | |]|]; simpl; try done; by rewrite Hfind, Hs, Hmap.
Qed.


(** The request side: the message goes to the Service under the next
    message id of the Broker, and the map remembers where the answer
    belongs. *)
Lemma PassThruToUspService_run b us s id t bd endpoint mtpc :
  usp_services b !! us = Some s ->
  let c := (count b + 1) mod 2 ^ 32 in
  let broker_id := broker_message_id MAX_MSG_ID_LEN c in
  MSG_HANDLER_QueueMessage_result
    (endpoint_id s) (received broker_id t bd) (controller_mtp s) = USP_ERR_OK ->
  PassThruToUspService us (received id t bd) endpoint mtpc b =
    Some (USP_ERR_OK,
      set_usp_services
        (<[us := set_msg_map (MsgMap_Add (msg_map s) id broker_id endpoint mtpc) s]>
           (usp_services b))
        (set_trace
           (trace b ++
              [Ev_QueueMessage (endpoint_id s) (received broker_id t bd) (controller_mtp s)])
           (set_count c b))).
Proof.
  intros Hs c broker_id Hq.
  unfold PassThruToUspService, CalcBrokerMessageId, MSG_HANDLER_QueueMessage,
    bind, get_state, get_us, call, modify, update_us, ret.
  rewrite Hs. simpl.
  fold c. fold broker_id.
  change (set_msg_id broker_id (received id t bd)) with (received broker_id t bd).
  rewrite Hq. simpl. erewrite alter_insert by done. reflexivity.
Qed.

End Passthru.

(* ===================================================================== *)
(** * The service table: connections of a known endpoint *)
(* ===================================================================== *)

Section ServiceTable.
Context {P : Platform}.

Lemma free_controller_mtp_run b us s :
  usp_services b !! us = Some s ->
  free_controller_mtp us b =
    Some (tt,
      set_usp_services
        (<[us := set_controller_mtp (freed_mtp_conn (controller_mtp s)) s]> (usp_services b))
        (set_trace (trace b ++ [Ev_FreeMTPConnection (controller_mtp s)]) b)).
Proof.
  intros Hs. unfold free_controller_mtp.
  run_with Hs. run_with Hs. by erewrite update_us_run.
Qed.

Lemma free_agent_mtp_run b us s :
  usp_services b !! us = Some s ->
  free_agent_mtp us b =
    Some (tt,
      set_usp_services
        (<[us := set_agent_mtp (freed_mtp_conn (agent_mtp s)) s]> (usp_services b))
        (set_trace (trace b ++ [Ev_FreeMTPConnection (agent_mtp s)]) b)).
Proof.
  intros Hs. unfold free_agent_mtp.
  run_with Hs. run_with Hs. by erewrite update_us_run.
Qed.

(** [UpdateUspServiceMRT] on a live slot. *)
Lemma UpdateUspServiceMRT_run b us s mtpc :
  usp_services b !! us = Some s ->
  if bool_decide (protocol mtpc = kMtpProtocol_UDS /\
                  uds_path_type mtpc = kUdsPathType_Invalid)
  then UpdateUspServiceMRT us mtpc b = None
  else
    UpdateUspServiceMRT us mtpc b =
      Some (tt,
        set_usp_services
          (<[us := set_agent_mtp
                     (if stored_as_agent mtpc then mtpc else agent_mtp s)
                     (set_controller_mtp
                        (if stored_as_controller mtpc then mtpc else controller_mtp s) s)]>
             (usp_services b))
          (set_trace
             (trace b ++
                (if stored_as_controller mtpc then released (controller_mtp s) else []) ++
                (if stored_as_agent mtpc then released (agent_mtp s) else [])) b)).
Proof.
  intros Hs.
  assert (Hl := lookup_insert_same (usp_services b) us s).
  unfold UpdateUspServiceMRT, stored_as_agent, stored_as_controller, released.
  run_with Hs.
  destruct (protocol mtpc) eqn:Hp, (uds_path_type mtpc) eqn:Hpt; simpl;
    destruct (bool_decide (protocol (controller_mtp s) <> kMtpProtocol_None)) eqn:Hc;
    destruct (bool_decide (protocol (agent_mtp s) <> kMtpProtocol_None)) eqn:Ha;
    simpl; try reflexivity.
  all: repeat first
    [ erewrite (bind_run (free_controller_mtp _)) by (apply free_controller_mtp_run; lookup_us Hs)
    | erewrite (bind_run (free_agent_mtp _)) by (apply free_agent_mtp_run; lookup_us Hs)
    | erewrite (bind_run (update_us _ _)) by (apply update_us_run; lookup_us Hs)
    | erewrite (bind_run (ret _)) by reflexivity
    | erewrite update_us_run by lookup_us Hs ].
  all: simpl_state; rewrite ?list_insert_insert_eq, ?app_nil_r, <- ?app_assoc; simpl.
  all: try (destruct s; reflexivity).
Qed.

(** C9. Adding an endpoint that already has a live entry allocates
    nothing: the array keeps its entries, the entry keeps its instance
    number, group id, registered paths and its three maps; the connection
    is stored in the handle (or, off UDS, the two handles) of its role, the
    handle it replaces being released first; and a connection on the
    Broker's agent socket sets [has_controller]. *)
Theorem AddUspService_known_endpoint b endpoint mtpc us s :
  FindUspServiceByEndpoint (usp_services b) endpoint = Some us ->
  usp_services b !! us = Some s ->
  (protocol mtpc = kMtpProtocol_UDS /\ uds_path_type mtpc = kUdsPathType_Invalid /\
   USP_BROKER_AddUspService endpoint mtpc b = None) \/
  (exists b' s',
     USP_BROKER_AddUspService endpoint mtpc b = Some (USP_ERR_OK, b') /\
     usp_services b' = <[us := s']> (usp_services b) /\
     instance s' = instance s /\ endpoint_id s' = endpoint_id s /\
     group_id s' = group_id s /\ gsdm_msg_id s' = gsdm_msg_id s /\
     registered_paths s' = registered_paths s /\ subs_map s' = subs_map s /\
     req_map s' = req_map s /\ msg_map s' = msg_map s /\
     controller_mtp s' = (if stored_as_controller mtpc then mtpc else controller_mtp s) /\
     agent_mtp s' = (if stored_as_agent mtpc then mtpc else agent_mtp s) /\
     has_controller s' = (if on_brokers_agent_socket mtpc then true else has_controller s) /\
     emitted b b'
       ((if stored_as_controller mtpc then released (controller_mtp s) else []) ++
        (if stored_as_agent mtpc then released (agent_mtp s) else [])) /\
     schema b' = schema b /\ groups_in_use b' = groups_in_use b /\
     request_table b' = request_table b /\ count b' = count b).
Proof.
  intros Hfind Hs.
  pose proof (UpdateUspServiceMRT_run b us s mtpc Hs) as Hrun.
  unfold USP_BROKER_AddUspService.
  erewrite (bind_run get_state) by reflexivity. rewrite Hfind.
  case_bool_decide as Hbad.
  - left. destruct Hbad as [? ?]. repeat split; try done.
    unfold bind. by rewrite Hrun.
  - right. erewrite bind_run by exact Hrun.
    unfold mark_has_controller, on_brokers_agent_socket.
    case_bool_decide as Hag.
    + erewrite (bind_run (update_us _ _)) by (apply update_us_run; lookup_us Hs).
      eexists _, _. split; [reflexivity|]. simpl_state.
      rewrite list_insert_insert_eq. split; [reflexivity|].
      repeat split; by destruct s.
    + erewrite (bind_run (ret _)) by reflexivity.
      eexists _, _. split; [reflexivity|]. simpl_state.
      split; [reflexivity|]. repeat split; by destruct s.
Qed.
End ServiceTable.

(* ===================================================================== *)
(** * Lookup of the instance number by endpoint *)
(* ===================================================================== *)

Section Lookup.
Context {P : Platform}.

(** C8. For a connected Service, the lookup by endpoint returns INVALID
    when the caller passed ONLY_CONTROLLER_CONNECTIONS and the Service has
    no controller, and the Service's instance number otherwise.  The flag
    is bit 0 of the [flags] word. *)
Theorem GetUspServiceInstance_controller_only
    (b : broker) (endpoint : string) (flags : Z) (us : nat) (s : usp_service_t) :
  ONLY_CONTROLLER_CONNECTIONS = 1 ->
  FindUspServiceByEndpoint (usp_services b) endpoint = Some us ->
  usp_services b !! us = Some s ->
  USP_BROKER_GetUspServiceInstance b endpoint flags =
    if bool_decide (Z.land flags ONLY_CONTROLLER_CONNECTIONS <> 0 /\
                    has_controller s = false)
    then INVALID else instance s.
Proof.
  intros Hflag Hfind Hs. unfold USP_BROKER_GetUspServiceInstance.
  rewrite Hfind, Hs, Hflag.
  destruct (has_controller s); simpl.
  - rewrite Z.land_0_r. rewrite bool_decide_false by lia.
    rewrite bool_decide_false; [done | intros [_ ?]; done].
  - rewrite <- Z.land_assoc. change (Z.land 1 1) with 1.
    rewrite (bool_decide_ext (Z.land flags 1 <> 0)
               (Z.land flags 1 <> 0 /\ false = false)); [done | tauto].
Qed.

(** Were the flag any bit other than bit 0, the test could never fire. *)
Lemma GetUspServiceInstance_other_bit
    (b : broker) (endpoint : string) (flags : Z) (us : nat) (s : usp_service_t) :
  Z.land ONLY_CONTROLLER_CONNECTIONS 1 = 0 ->
  FindUspServiceByEndpoint (usp_services b) endpoint = Some us ->
  usp_services b !! us = Some s ->
  USP_BROKER_GetUspServiceInstance b endpoint flags = instance s.
Proof.
  intros Hflag Hfind Hs. unfold USP_BROKER_GetUspServiceInstance.
  rewrite Hfind, Hs.
  destruct (has_controller s); simpl.
  - rewrite Z.land_0_r. by rewrite bool_decide_false by lia.
  - rewrite <- Z.land_assoc, Hflag, Z.land_0_r. by rewrite bool_decide_false by lia.
Qed.
End Lookup.

(* ===================================================================== *)
(** * Handlers that admit no path *)
(* ===================================================================== *)

(** ** Joining the slots of an array *)

Lemma join_insert_perm {A} (L : list (list A)) i l l' :
  L !! i = Some l -> mjoin (<[i := l']> L) ≡ₚ l' ++ mjoin (<[i := []]> L).
Proof.
  intros Hi. pose proof (lookup_lt_Some _ _ _ Hi) as Hlt.
  rewrite !insert_take_drop by done. rewrite !join_app. simpl.
  rewrite !app_assoc. f_equiv. apply Permutation_app_comm.
Qed.

Lemma join_lookup_perm {A} (L : list (list A)) i l :
  L !! i = Some l -> mjoin L ≡ₚ l ++ mjoin (<[i := []]> L).
Proof.
  intros Hi. rewrite <- (join_insert_perm L i l l Hi).
  by rewrite list_insert_id.
Qed.

Lemma join_sublist {A} (L L' : list (list A)) :
  Forall2 sublist L' L -> sublist (mjoin L') (mjoin L).
Proof.
  induction 1 as [|l' l L' L Hl _ IH]; simpl; [constructor|].
  by apply sublist_app.
Qed.

(** ** Handlers that admit no path *)

Lemma slot_not_grown_refl s : slot_not_grown s s.
Proof. by left. Qed.

Lemma slot_not_grown_trans s1 s2 s3 :
  slot_not_grown s1 s2 -> slot_not_grown s2 s3 -> slot_not_grown s1 s3.
Proof.
  unfold slot_not_grown.
  intros [[Hp Hi]|Hc] [[Hp' Hi']|Hc']; try (by right).
  - left. split; [congruence | auto].
  - right. congruence.
Qed.

Lemma paths_not_grown_refl b : paths_not_grown b b.
Proof. apply Forall2_same_length_lookup. split; [done|]. intros i x y ? ?. simplify_eq. apply slot_not_grown_refl. Qed.

Lemma paths_not_grown_trans b1 b2 b3 :
  paths_not_grown b1 b2 -> paths_not_grown b2 b3 -> paths_not_grown b1 b3.
Proof.
  unfold paths_not_grown. intros H12 H23.
  apply Forall2_same_length_lookup. split.
  - etrans; by eapply Forall2_length.
  - intros i x z Hx Hz.
    destruct (Forall2_lookup_l _ _ _ _ _ H12 Hx) as (y & Hy & Hxy).
    pose proof (Forall2_lookup_lr _ _ _ _ _ _ H23 Hy Hz). by eapply slot_not_grown_trans.
Qed.

Lemma paths_not_grown_same b b' :
  usp_services b' = usp_services b -> paths_not_grown b b'.
Proof. unfold paths_not_grown. intros ->. apply paths_not_grown_refl. Qed.

Lemma paths_not_grown_alter b b' us f :
  usp_services b' = alter f us (usp_services b) ->
  (forall s, slot_not_grown s (f s)) ->
  paths_not_grown b b'.
Proof.
  unfold paths_not_grown. intros -> Hf.
  apply Forall2_same_length_lookup. split; [by rewrite length_alter|].
  intros i x y Hx Hy. destruct (decide (i = us)) as [->|Hne].
  - erewrite alter_insert in Hy by done.
    erewrite lookup_insert_same in Hy by done. simplify_eq. apply Hf.
  - rewrite list_lookup_alter_ne in Hy by done. simplify_eq. apply slot_not_grown_refl.
Qed.

Lemma admits_nothing_ret {A} (a : A) : admits_nothing (ret a).
Proof. intros b r b' [= _ <-]. apply paths_not_grown_refl. Qed.

Lemma admits_nothing_terminate {A} : admits_nothing (@terminate A).
Proof. intros b r b' [=]. Qed.

Lemma admits_nothing_bind {A B} (m : M A) (k : A -> M B) :
  admits_nothing m -> (forall a, admits_nothing (k a)) -> admits_nothing (bind m k).
Proof.
  intros Hm Hk b r b'. unfold bind.
  destruct (m b) as [[a b1]|] eqn:Hmb; [|done]. intros Hkb.
  eapply paths_not_grown_trans; [by eapply Hm | by eapply Hk].
Qed.

Lemma admits_nothing_get_state : admits_nothing get_state.
Proof. intros b r b' [= _ <-]. apply paths_not_grown_refl. Qed.

Lemma admits_nothing_get_us us : admits_nothing (get_us us).
Proof.
  intros b r b'. unfold get_us. destruct (_ !! _); [|done].
  intros [= _ <-]. apply paths_not_grown_refl.
Qed.

Lemma admits_nothing_call e : admits_nothing (call e).
Proof. intros b r b' [= _ <-]. by apply paths_not_grown_same. Qed.

Lemma admits_nothing_modify f :
  (forall b, usp_services (f b) = usp_services b) -> admits_nothing (modify f).
Proof. intros Hf b r b' [= _ <-]. by apply paths_not_grown_same. Qed.

Lemma admits_nothing_update_us us f :
  (forall s, slot_not_grown s (f s)) -> admits_nothing (update_us us f).
Proof. intros Hf b r b' [= _ <-]. by eapply paths_not_grown_alter. Qed.

Lemma admits_nothing_for_each {A} (l : list A) (body : A -> M unit) :
  (forall x, admits_nothing (body x)) -> admits_nothing (for_each l body).
Proof.
  intros Hbody. induction l as [|x l IH]; simpl.
  - apply admits_nothing_ret.
  - apply admits_nothing_bind; [apply Hbody | intros _; apply IH].
Qed.

Lemma slot_kept s s' :
  registered_paths s' = registered_paths s -> instance s' = instance s ->
  slot_not_grown s s'.
Proof. intros ? Hi. left. split; [done | by rewrite Hi]. Qed.

Create HintDb admits discriminated.
#[global] Hint Resolve admits_nothing_ret admits_nothing_terminate
  admits_nothing_get_state admits_nothing_get_us admits_nothing_call : admits.

(** Decompose a computation along its binds and case distinctions. *)
Ltac admits_step :=
  match goal with
  | |- admits_nothing (bind _ _) => apply admits_nothing_bind; [|intros ?]
  | |- admits_nothing (for_each _ _) => apply admits_nothing_for_each; intros ?
  | |- admits_nothing (modify _) => apply admits_nothing_modify; intros ?; reflexivity
  | |- admits_nothing (update_us _ _) =>
      apply admits_nothing_update_us; intros ?;
      first [ apply slot_kept; reflexivity | right; reflexivity ]
  | |- admits_nothing (if ?c then _ else _) => destruct c
  | |- admits_nothing (match ?x with _ => _ end) => destruct x
  | |- admits_nothing (let '(_, _) := ?x in _) => destruct x
  | |- _ => solve [auto with admits]
  end.

Ltac admits := repeat admits_step.

Section NoPathAdmitted.
Context {P : Platform}.

Lemma admits_nothing_CalcBrokerMessageId len : admits_nothing (CalcBrokerMessageId len).
Proof. unfold CalcBrokerMessageId. admits. Qed.

Lemma admits_nothing_QueueMessage e m c : admits_nothing (MSG_HANDLER_QueueMessage e m c).
Proof. unfold MSG_HANDLER_QueueMessage. admits. Qed.

Lemma admits_nothing_DeleteMatchingOperateRequest us o c k :
  admits_nothing (DeleteMatchingOperateRequest us o c k).
Proof. unfold DeleteMatchingOperateRequest, DEVICE_REQUEST_DeleteInstance. admits. Qed.

Lemma admits_nothing_HandleNotification usp endpoint mtpc :
  admits_nothing (USP_BROKER_HandleNotification usp endpoint mtpc).
Proof.
  unfold USP_BROKER_HandleNotification, DEVICE_SUBSCRIPTION_RouteNotification,
    header_msg_id, MSG_HANDLER_QueueErrorMessage.
  admits; apply admits_nothing_DeleteMatchingOperateRequest.
Qed.

Lemma admits_nothing_SendOperate g p sy k a :
  admits_nothing (SendOperateAndProcessResponse g p sy k a).
Proof.
  unfold SendOperateAndProcessResponse, CreateBroker_OperateReq, ProcessOperateResponse.
  admits; apply admits_nothing_CalcBrokerMessageId.
Qed.

Lemma admits_nothing_AsyncOperate req args inst :
  admits_nothing (Broker_AsyncOperate req args inst).
Proof.
  unfold Broker_AsyncOperate, Broker_AsyncOperate_sending. admits; apply admits_nothing_SendOperate.
Qed.

Lemma admits_nothing_PassThruToUspService us usp e c :
  admits_nothing (PassThruToUspService us usp e c).
Proof.
  unfold PassThruToUspService.
  admits; first [apply admits_nothing_CalcBrokerMessageId | apply admits_nothing_QueueMessage].
Qed.

Lemma admits_nothing_AttemptPassThruForResponse usp e :
  admits_nothing (AttemptPassThruForResponse usp e).
Proof.
  unfold AttemptPassThruForResponse. admits; apply admits_nothing_QueueMessage.
Qed.

Lemma admits_nothing_free_controller us : admits_nothing (free_controller_mtp us).
Proof. unfold free_controller_mtp. admits. Qed.

Lemma admits_nothing_free_agent us : admits_nothing (free_agent_mtp us).
Proof. unfold free_agent_mtp. admits. Qed.

Lemma admits_nothing_UpdateUspServiceMRT us mtpc :
  admits_nothing (UpdateUspServiceMRT us mtpc).
Proof.
  unfold UpdateUspServiceMRT.
  admits; first [apply admits_nothing_free_controller | apply admits_nothing_free_agent].
Qed.

Lemma admits_nothing_MsgMap_Destroy us : admits_nothing (MsgMap_Destroy us).
Proof. unfold MsgMap_Destroy. admits. Qed.

Lemma admits_nothing_AgentDisconnect us flags :
  admits_nothing (HandleUspServiceAgentDisconnect us flags).
Proof.
  unfold HandleUspServiceAgentDisconnect, DEVICE_REQUEST_OperationComplete,
    DATA_MODEL_DeRegisterPath.
  admits; apply admits_nothing_MsgMap_Destroy.
Qed.
End NoPathAdmitted.

Lemma paths_not_grown_insert b b' us s s' :
  usp_services b !! us = Some s ->
  usp_services b' = <[us := s']> (usp_services b) ->
  slot_not_grown s s' ->
  paths_not_grown b b'.
Proof.
  unfold paths_not_grown. intros Hs -> Hss.
  apply Forall2_same_length_lookup. split; [by rewrite length_insert|].
  intros i x y Hx Hy. destruct (decide (i = us)) as [->|Hne].
  - erewrite lookup_insert_same in Hy by done. by simplify_eq.
  - rewrite list_lookup_insert_ne in Hy by done. simplify_eq. apply slot_not_grown_refl.
Qed.

Lemma for_each_call {A} (l : list A) (f : A -> event) b :
  for_each l (fun x => call (f x)) b = Some (tt, set_trace (trace b ++ (f <$> l)) b).
Proof.
  revert b. induction l as [|x l IH]; intros b; simpl.
  - unfold ret. rewrite app_nil_r. by destruct b.
  - unfold bind. rewrite call_run, IH. simpl_state. by rewrite <- app_assoc.
Qed.

Lemma CalcNextUspServiceInstanceNumber_pos services :
  0 < CalcNextUspServiceInstanceNumber services \/
  CalcNextUspServiceInstanceNumber services = INT_MIN.
Proof.
  unfold CalcNextUspServiceInstanceNumber.
  assert (H : forall acc, 0 <= acc ->
    0 <= fold_left
           (fun max_instance us =>
              if bool_decide (instance us <> INVALID /\ instance us > max_instance)
              then instance us else max_instance) services acc).
  { induction services as [|s l IH]; intros acc Hacc; simpl; [done|].
    apply IH. case_bool_decide; lia. }
  specialize (H 0). cbn zeta. case_bool_decide; [left; lia|by right].
Qed.

Lemma CalcNextUspServiceInstanceNumber_live services :
  CalcNextUspServiceInstanceNumber services <> INVALID.
Proof.
  destruct (CalcNextUspServiceInstanceNumber_pos services) as [H|H];
    rewrite ?H; unfold INVALID, INT_MIN; lia.
Qed.

Section Slots.
Context {P : Platform}.

Lemma FreeUspService_run b us s :
  usp_services b !! us = Some s ->
  FreeUspService us b =
    Some (tt,
      set_usp_services (<[us := freed_service s]> (usp_services b))
        (set_trace
           (trace b ++
              [Ev_FreeMTPConnection (controller_mtp s);
               Ev_FreeMTPConnection (agent_mtp s)] ++
              ((fun map => Ev_FreeMTPConnection (mtp_conn map)) <$> msg_map s)) b)).
Proof.
  intros Hs. unfold FreeUspService, MsgMap_Destroy.
  erewrite (bind_run (update_us _ _)) by (apply update_us_run; lookup_us Hs).
  erewrite (bind_run (free_controller_mtp _)) by (apply free_controller_mtp_run; lookup_us Hs).
  erewrite (bind_run (free_agent_mtp _)) by (apply free_agent_mtp_run; lookup_us Hs).
  do 4 erewrite (bind_run (update_us _ _)) by (apply update_us_run; lookup_us Hs).
  erewrite (bind_run (bind _ _)).
  2: { erewrite (bind_run (get_us _)) by (apply get_us_run; lookup_us Hs).
       erewrite (bind_run (for_each _ _)) by apply for_each_call.
       apply update_us_run. lookup_us Hs. }
  erewrite update_us_run by lookup_us Hs.
  simpl_state. rewrite !list_insert_insert_eq. cbn. rewrite <- !app_assoc. reflexivity.
Qed.

Lemma FreeUspService_fails b us :
  usp_services b !! us = None -> FreeUspService us b = None.
Proof.
  intros Hs. unfold FreeUspService, free_controller_mtp, bind, update_us, modify, get_us.
  simpl_state. rewrite list_lookup_alter. case_decide; by rewrite ?Hs.
Qed.

Lemma admits_nothing_FreeUspService us : admits_nothing (FreeUspService us).
Proof.
  intros b r b' Hrun. destruct (usp_services b !! us) as [s|] eqn:Hs.
  - rewrite (FreeUspService_run b us s Hs) in Hrun. injection Hrun as _ <-.
    eapply paths_not_grown_insert; [exact Hs|reflexivity|]. by right.
  - by rewrite FreeUspService_fails in Hrun.
Qed.

Lemma admits_nothing_HandleUspServiceDisconnect endpoint path_type :
  admits_nothing (USP_BROKER_HandleUspServiceDisconnect endpoint path_type).
Proof.
  unfold USP_BROKER_HandleUspServiceDisconnect, USP_REGISTER_GroupVendorHooks.
  admits; first [ apply admits_nothing_free_agent | apply admits_nothing_free_controller
                | apply admits_nothing_AgentDisconnect | apply admits_nothing_FreeUspService ].
Qed.

Lemma admits_nothing_Stop : admits_nothing USP_BROKER_Stop.
Proof.
  unfold USP_BROKER_Stop.
  admits; first [apply admits_nothing_AgentDisconnect | apply admits_nothing_FreeUspService].
Qed.

Lemma FindUnusedUspService_Some services us :
  FindUnusedUspService services = Some us ->
  exists s, services !! us = Some s /\ instance s = INVALID.
Proof.
  unfold FindUnusedUspService. intros H.
  apply fmap_Some in H as [[i s] [H ->]].
  apply list_find_Some in H as (? & ? & ?). exists s. eauto.
Qed.

Lemma AddUspService_outcome b endpoint mtpc :
  match FindUnusedUspService (usp_services b) with
  | None => AddUspService endpoint mtpc b = Some (None, b)
  | Some us =>
      let group := DATA_MODEL_FindUnusedGroupId b in
      if bool_decide (group = INVALID)
      then AddUspService endpoint mtpc b = Some (None, b)
      else AddUspService endpoint mtpc b =
             if bool_decide (protocol mtpc = kMtpProtocol_UDS /\
                             uds_path_type mtpc = kUdsPathType_Invalid)
             then None
             else
             Some (Some us,
               set_usp_services
                 (<[us := new_service b us endpoint mtpc group]> (usp_services b))
                 (set_groups_in_use (group :: groups_in_use b)
                    (set_trace (trace b ++ [Ev_RegisterGroupVendorHooks group true]) b)))
  end.
Proof.
  unfold AddUspService.
  erewrite (bind_run get_state) by reflexivity.
  destruct (FindUnusedUspService _) as [us|] eqn:Hfree; [|done].
  apply FindUnusedUspService_Some in Hfree as (s0 & Hs0 & _).
  cbn zeta. case_bool_decide; [done|].
  unfold USP_REGISTER_GroupVendorHooks.
  erewrite (bind_run (bind _ _)).
  2: { erewrite (bind_run (call _)) by apply call_run. reflexivity. }
  erewrite (bind_run (update_us _ _)) by (apply update_us_run; lookup_us Hs0).
  erewrite (bind_run get_state) by reflexivity.
  erewrite (bind_run (update_us _ _)) by (apply update_us_run; lookup_us Hs0).
  simpl_state. rewrite list_insert_insert_eq.
  match goal with
  | |- bind (UpdateUspServiceMRT _ _) _ ?st = _ =>
      pose proof (UpdateUspServiceMRT_run st us _ mtpc
                    ltac:(simpl_state; eapply lookup_insert_same; exact Hs0)) as Hup
  end.
  destruct (bool_decide (protocol mtpc = kMtpProtocol_UDS /\ _)) eqn:Hconn.
  { unfold bind at 1. by rewrite Hup. }
  erewrite bind_run by exact Hup.
  simpl_state. rewrite list_insert_insert_eq. cbn.
  unfold released. cbn.
  rewrite (bool_decide_false (kMtpProtocol_None <> kMtpProtocol_None)) by (intros H'; by apply H').
  unfold ret, new_service.
  destruct (stored_as_controller mtpc), (stored_as_agent mtpc);
    cbn; rewrite ?app_nil_r; reflexivity.
Qed.

Lemma AddUspService_run b endpoint mtpc :
  connection_usable mtpc ->
  match FindUnusedUspService (usp_services b) with
  | None => AddUspService endpoint mtpc b = Some (None, b)
  | Some us =>
      let group := DATA_MODEL_FindUnusedGroupId b in
      if bool_decide (group = INVALID)
      then AddUspService endpoint mtpc b = Some (None, b)
      else AddUspService endpoint mtpc b =
             Some (Some us,
               set_usp_services
                 (<[us := new_service b us endpoint mtpc group]> (usp_services b))
                 (set_groups_in_use (group :: groups_in_use b)
                    (set_trace (trace b ++ [Ev_RegisterGroupVendorHooks group true]) b)))
  end.
Proof.
  intros Hconn. pose proof (AddUspService_outcome b endpoint mtpc) as H.
  destruct (FindUnusedUspService _); [|done]. cbn zeta in *.
  destruct (bool_decide (DATA_MODEL_FindUnusedGroupId b = INVALID)); [done|].
  by rewrite bool_decide_false in H by done.
Qed.

Lemma admits_nothing_AddUspService endpoint mtpc :
  admits_nothing (AddUspService endpoint mtpc).
Proof.
  unfold AddUspService, USP_REGISTER_GroupVendorHooks.
  admits; try apply admits_nothing_UpdateUspServiceMRT.
  apply admits_nothing_update_us. intros s. left. split; [done|].
  cbn. intros Hinv.
  by apply CalcNextUspServiceInstanceNumber_live in Hinv.
Qed.

Lemma admits_nothing_USP_BROKER_AddUspService endpoint mtpc :
  admits_nothing (USP_BROKER_AddUspService endpoint mtpc).
Proof.
  unfold USP_BROKER_AddUspService, mark_has_controller, USP_DM_InformInstance.
  admits; first [apply admits_nothing_UpdateUspServiceMRT | apply admits_nothing_AddUspService].
Qed.
End Slots.
Lemma STR_VECTOR_Find_found sv str :
  STR_VECTOR_Find sv str <> INVALID <-> str ∈ sv.
Proof.
  unfold STR_VECTOR_Find. destruct (list_find _ sv) as [[i x]|] eqn:Hf.
  - apply list_find_Some in Hf as (Hi & -> & _). split.
    + intros _. apply list_elem_of_lookup. eauto.
    + intros _. unfold INVALID. lia.
  - apply list_find_None in Hf. rewrite list.Forall_forall in Hf. split; [done|].
    intros Hin. exfalso. by eapply Hf.
Qed.

Lemma elem_of_all_registered_paths b path :
  path ∈ all_registered_paths b <-> owned_by_a_service b path.
Proof.
  unfold all_registered_paths, owned_by_a_service.
  rewrite list_elem_of_join. split.
  - intros (l & Hp & Hl). apply list_elem_of_fmap in Hl as (s & -> & Hs). eauto.
  - intros (s & Hs & Hp). exists (registered_paths s). split; [done|].
    apply list_elem_of_fmap. eauto.
Qed.

Lemma registered_by_any_None b path :
  list_find (fun p => STR_VECTOR_Find (registered_paths p) path <> INVALID) (usp_services b)
    = None <-> path ∉ all_registered_paths b.
Proof.
  rewrite list_find_None, list.Forall_forall, elem_of_all_registered_paths.
  unfold owned_by_a_service. split.
  - intros H (s & Hs & Hp). apply (H s Hs). by apply STR_VECTOR_Find_found.
  - intros H s Hs Hp%STR_VECTOR_Find_found. apply H. eauto.
Qed.

Lemma all_registered_paths_set_paths b us s l :
  usp_services b !! us = Some s ->
  all_registered_paths (set_paths b us s l) ≡ₚ
    l ++ mjoin (<[us := []]> (registered_paths <$> usp_services b)).
Proof.
  intros Hs. unfold all_registered_paths, set_paths. simpl_state.
  rewrite list_fmap_insert. cbn [registered_paths set_registered_paths].
  eapply join_insert_perm. by rewrite list_lookup_fmap, Hs.
Qed.

Lemma all_registered_paths_lookup b us s :
  usp_services b !! us = Some s ->
  all_registered_paths b ≡ₚ
    registered_paths s ++ mjoin (<[us := []]> (registered_paths <$> usp_services b)).
Proof.
  intros Hs. unfold all_registered_paths.
  eapply join_lookup_perm. by rewrite list_lookup_fmap, Hs.
Qed.

Lemma elem_of_all_registered_paths_set_paths b us s earlier path :
  usp_services b !! us = Some s ->
  path ∈ all_registered_paths (set_paths b us s (registered_paths s ++ earlier)) <->
  path ∈ all_registered_paths b ++ earlier.
Proof.
  intros Hs.
  rewrite (all_registered_paths_set_paths b us s _ Hs).
  rewrite (all_registered_paths_lookup b us s Hs).
  rewrite !elem_of_app. tauto.
Qed.

Lemma set_paths_lookup b us s l :
  usp_services b !! us = Some s ->
  usp_services (set_paths b us s l) !! us = Some (set_registered_paths l s).
Proof. intros Hs. unfold set_paths. lookup_us Hs. Qed.

Lemma set_paths_set_paths b us s l l' :
  set_paths (set_paths b us s l) us (set_registered_paths l s) l' = set_paths b us s l'.
Proof.
  unfold set_paths. simpl_state. rewrite list_insert_insert_eq. by destruct s.
Qed.

Lemma set_paths_same b us s :
  usp_services b !! us = Some s -> set_paths b us s (registered_paths s) = b.
Proof.
  intros Hs. unfold set_paths.
  replace (set_registered_paths (registered_paths s) s) with s by (by destruct s).
  rewrite list_insert_id by done. by destruct b.
Qed.

Section Registration.
Context {P : Platform}.

(** [RegisterUspServicePath], with the paths [earlier] of the message
    already in the vector of the Service. *)
Lemma RegisterUspServicePath_run b us s earlier path :
  usp_services b !! us = Some s ->
  let err := register_answer b earlier path in
  RegisterUspServicePath us path (set_paths b us s (registered_paths s ++ earlier)) =
    Some (err,
          set_paths b us s
            (registered_paths s ++
             if bool_decide (err = USP_ERR_OK) then earlier ++ [path] else earlier)).
Proof.
  intros Hs err. subst err. unfold RegisterUspServicePath, register_answer.
  erewrite (bind_run get_state) by reflexivity.
  pose proof (elem_of_all_registered_paths_set_paths b us s earlier path Hs) as Hmem.
  destruct (list_find _ _) as [?|] eqn:Hfind.
  - rewrite (bool_decide_true (path ∈ all_registered_paths b ++ earlier)); [done|].
    apply Hmem.
    destruct (decide (path ∈ all_registered_paths (set_paths b us s (registered_paths s ++ earlier))))
      as [?|Hn]; [done|].
    apply registered_by_any_None in Hn. congruence.
  - apply registered_by_any_None in Hfind.
    rewrite (bool_decide_false (path ∈ all_registered_paths b ++ earlier))
      by (intros Hin; by apply Hmem in Hin).
    cbn zeta. case_bool_decide as Hv.
    { by rewrite bool_decide_false by done. }
    change (PP_EXISTS_IN_SCHEMA (set_paths b us s (registered_paths s ++ earlier)) path)
      with (PP_EXISTS_IN_SCHEMA b path).
    destruct (PP_EXISTS_IN_SCHEMA b path).
    { by rewrite bool_decide_false by done. }
    erewrite (bind_run (update_us _ _))
      by (apply update_us_run; by apply set_paths_lookup).
    unfold ret. rewrite bool_decide_true by done.
    unfold STR_VECTOR_Add. cbn [registered_paths set_registered_paths].
    change (set_usp_services _ _)
      with (set_paths (set_paths b us s (registered_paths s ++ earlier)) us
              (set_registered_paths (registered_paths s ++ earlier) s)
              ((registered_paths s ++ earlier) ++ [path])).
    rewrite set_paths_set_paths. by rewrite <- app_assoc.
Qed.

(** The loop over the paths of a Register request. *)
Lemma HandleRegister_paths_run b us s allow paths :
  usp_services b !! us = Some s ->
  forall earlier reg_resp cnt,
    HandleRegister_paths us allow paths reg_resp cnt
      (set_paths b us s (registered_paths s ++ earlier)) =
    let '(r, final) := register_outcome b allow earlier paths reg_resp cnt in
    Some (r, set_paths b us s
               (match r with inl _ => [] | inr _ => registered_paths s ++ final end)).
Proof.
  intros Hs. induction paths as [|p rest IH]; intros earlier reg_resp cnt; [done|].
  cbn [HandleRegister_paths register_outcome].
  erewrite bind_run by (by apply RegisterUspServicePath_run).
  destruct (bool_decide (register_answer b earlier p <> USP_ERR_OK) && negb allow) eqn:Hstop.
  - apply andb_true_iff in Hstop as [Herr _]. apply bool_decide_eq_true in Herr.
    rewrite bool_decide_false by done.
    erewrite (bind_run (update_us _ _))
      by (apply update_us_run; by apply set_paths_lookup).
    cbn [set_registered_paths]. unfold ret.
    change (set_usp_services _ _)
      with (set_paths (set_paths b us s (registered_paths s ++ earlier)) us
              (set_registered_paths (registered_paths s ++ earlier) s) []).
    by rewrite set_paths_set_paths.
  - apply IH.
Qed.

Lemma register_outcome_count b allow paths :
  forall earlier reg_resp cnt r final results n,
    register_outcome b allow earlier paths reg_resp cnt = (r, final) ->
    r = inr (results, n) -> n = (cnt + length paths)%nat.
Proof.
  induction paths as [|p rest IH]; intros earlier reg_resp cnt r final results n; simpl.
  - intros [= <- _] [= _ <-]. lia.
  - destruct (_ && _); [intros [= <- _]; done|].
    intros Hout Hr. rewrite (IH _ _ _ _ _ _ _ Hout Hr). lia.
Qed.

(** The loop that puts the provisional nodes into the schema. *)
Lemma add_schema_paths_run group paths :
  forall b,
    for_each paths (fun path =>
      bind (DM_PRIV_AddSchemaPath_and_tag path kDMNodeType_Object_SingleInstance group)
           (fun _ => ret tt)) b =
    Some (tt,
      set_schema (schema_with (schema b) group paths)
        (set_trace
           (trace b ++
              ((fun path => Ev_AddSchemaPath path kDMNodeType_Object_SingleInstance)
                 <$> paths)) b)).
Proof.
  induction paths as [|p rest IH]; intros b.
  - simpl. unfold ret. rewrite app_nil_r. by destruct b.
  - cbn [for_each schema_with fmap list_fmap].
    unfold DM_PRIV_AddSchemaPath_and_tag at 1.
    unfold bind at 1 2 3. rewrite call_run.
    destruct (DM_PRIV_AddSchemaPath_accepts p).
    + unfold bind at 1. unfold modify at 1. unfold ret at 1 2. rewrite IH.
      simpl_state. by rewrite <- app_assoc.
    + unfold ret at 1 2. rewrite IH. simpl_state. by rewrite <- app_assoc.
Qed.

Lemma QueueGetSupportedDMToUspService_run b us s :
  usp_services b !! us = Some s ->
  QueueGetSupportedDMToUspService us b =
    Some (tt,
      if bool_decide (registered_paths s = [] \/
                      protocol (controller_mtp s) = kMtpProtocol_None)
      then b else gsdm_issued b us s).
Proof.
  intros Hs. unfold QueueGetSupportedDMToUspService.
  erewrite (bind_run (get_us _)) by (by apply get_us_run).
  case_bool_decide as Hnil.
  { rewrite bool_decide_true by (by left). done. }
  case_bool_decide as Hdown.
  { rewrite bool_decide_true by (by right). done. }
  rewrite bool_decide_false by (intros [?|?]; done).
  unfold CalcBrokerMessageId, MSG_HANDLER_QueueMessage.
  unfold bind at 1 2 3. unfold get_state, modify at 1, ret at 1.
  erewrite (bind_run (update_us _ _)) by (apply update_us_run; lookup_us Hs).
  unfold bind at 1 2. rewrite call_run. unfold ret at 1.
  rewrite add_schema_paths_run. unfold gsdm_issued, next_message_id.
  simpl_state. by rewrite <- app_assoc.
Qed.

Lemma HandleRegister_exit_run b us s endpoint mtpc resp cnt :
  usp_services b !! us = Some s ->
  HandleRegister_exit endpoint mtpc resp cnt us b =
    Some (tt,
      let b1 := replied b endpoint mtpc resp in
      if bool_decide (0 < cnt)%nat
      then if bool_decide (registered_paths s = [] \/
                           protocol (controller_mtp s) = kMtpProtocol_None)
           then b1 else gsdm_issued b1 us s
      else b1).
Proof.
  intros Hs. unfold HandleRegister_exit, MSG_HANDLER_QueueMessage.
  unfold bind at 1 2. rewrite call_run. unfold ret at 1. fold (replied b endpoint mtpc resp).
  case_bool_decide; [|done].
  by erewrite QueueGetSupportedDMToUspService_run by (unfold replied; lookup_us Hs).
Qed.

Lemma HandleRegister_refused b endpoint mtpc id err us :
  bind (header_msg_id (received id USP__HEADER__MSG_TYPE__REGISTER
                         (Some (USP__BODY__MSG_BODY_REQUEST
                                  (Some (USP__REQUEST__REQ_TYPE_REGISTER None))))))
       (fun id => HandleRegister_exit endpoint mtpc (ERROR_RESP_CreateSingle id err) 0 us) b =
    Some (tt, replied b endpoint mtpc (ERROR_RESP_CreateSingle id err)).
Proof. reflexivity. Qed.

(** The paths of the request, then the reply, then the discovery. *)
Lemma register_paths_run b us s id reg endpoint mtpc :
  usp_services b !! us = Some s -> registered_paths s = [] ->
  reg_paths reg <> [] ->
  bind (header_msg_id (Register_msg id reg)) (fun id =>
    bind (HandleRegister_paths us (allow_partial reg) (reg_paths reg) [] 0) (fun r =>
      match r with
      | inl err => HandleRegister_exit endpoint mtpc (ERROR_RESP_CreateSingle id err) 0 us
      | inr (reg_resp, cnt) =>
          HandleRegister_exit endpoint mtpc (RegisterResp_msg id reg_resp) cnt us
      end)) b =
  Some (tt, paths_registered b us s id reg endpoint mtpc).
Proof.
  intros Hs Hnil Hpaths. unfold bind at 1. cbn [header_msg_id Register_msg received header msg_id].
  unfold ret at 1.
  pose proof (HandleRegister_paths_run b us s (allow_partial reg) (reg_paths reg) Hs [] [] 0%nat)
    as Hloop.
  rewrite Hnil in Hloop. cbn [app] in Hloop.
  assert (Hb : set_paths b us s [] = b).
  { rewrite <- Hnil. by apply set_paths_same. }
  rewrite Hb in Hloop. unfold paths_registered.
  destruct (register_outcome b (allow_partial reg) [] (reg_paths reg) [] 0)
    as [[err|[results cnt]] accepted] eqn:Hout.
  - erewrite bind_run by exact Hloop. rewrite Hb. reflexivity.
  - erewrite bind_run by exact Hloop. cbv beta iota.
    erewrite HandleRegister_exit_run by (by apply set_paths_lookup).
    cbn zeta. cbn [registered_paths set_registered_paths controller_mtp].
    pose proof (register_outcome_count _ _ _ _ _ _ _ _ _ _ Hout eq_refl) as ->.
    rewrite bool_decide_true; [done|].
    destruct (reg_paths reg); [done|simpl; lia].
Qed.

(** [USP_BROKER_HandleRegister] always returns on a well-formed request,
    in the state [register_handled]. *)
Lemma HandleRegister_run b id reg endpoint mtpc :
  connection_usable mtpc ->
  USP_BROKER_HandleRegister (Register_msg id reg) endpoint mtpc b =
    Some (tt, register_handled b id reg endpoint mtpc).
Proof.
  intros Hconn. unfold USP_BROKER_HandleRegister, register_handled.
  cbn [body Register_msg received].
  case_bool_decide as Hpaths; [reflexivity|].
  erewrite (bind_run get_state) by reflexivity.
  destruct (FindUspServiceByEndpoint _ _) as [us|] eqn:Hfind.
  - destruct (FindUspServiceByEndpoint_Some _ _ _ Hfind) as (s & Hs & _).
    rewrite Hs. erewrite (bind_run (get_us _)) by (by apply get_us_run).
    case_bool_decide as Hreg; [reflexivity|].
    by apply register_paths_run.
  - pose proof (AddUspService_run b endpoint mtpc Hconn) as Hadd.
    destruct (FindUnusedUspService _) as [us|] eqn:Hfree.
    + cbn zeta in Hadd. cbn zeta.
      destruct (bool_decide (DATA_MODEL_FindUnusedGroupId b = INVALID)) eqn:Hgroup.
      * erewrite bind_run by exact Hadd. reflexivity.
      * erewrite bind_run by exact Hadd.
        apply FindUnusedUspService_Some in Hfree as (s0 & Hs0 & _).
        erewrite (bind_run (get_us _))
          by (apply get_us_run; simpl_state; by apply list_lookup_insert_eq, lookup_lt_Some in Hs0 || eapply lookup_insert_same; eauto).
        unfold USP_DM_InformInstance. unfold bind at 1 2. rewrite call_run.
        unfold ret at 1.
        match goal with
        | |- ?m ?st = _ =>
            replace st with (service_added b us endpoint mtpc)
              by (unfold service_added; simpl_state; by rewrite <- app_assoc)
        end.
        apply bool_decide_eq_false in Hgroup.
        case_bool_decide as Hinf; [reflexivity|].
        apply register_paths_run; try done.
        unfold service_added. simpl_state. eapply lookup_insert_same; eauto.
    + erewrite bind_run by exact Hadd. reflexivity.
Qed.
End Registration.

(* ===================================================================== *)
(** * The invariant of the registry *)
(* ===================================================================== *)

Lemma slot_not_grown_sublist s s' :
  slot_not_grown s s' -> sublist (registered_paths s') (registered_paths s).
Proof. intros [[-> _]| ->]; [done|apply sublist_nil_l]. Qed.

Lemma registry_consistent_not_grown b b' :
  registry_consistent b -> paths_not_grown b b' -> registry_consistent b'.
Proof.
  intros [Hnd Hun] Hng. split.
  - unfold paths_owned_once in *. eapply sublist_NoDup; [exact Hnd|].
    unfold all_registered_paths. apply join_sublist.
    apply Forall2_fmap, Forall2_flip. unfold paths_not_grown in Hng.
    induction Hng; constructor; [by apply slot_not_grown_sublist|done].
  - unfold unused_slots_empty in *. rewrite list.Forall_forall in Hun.
    apply list.Forall_forall. intros s' Hs' Hinv.
    apply list_elem_of_lookup in Hs' as [i Hi].
    destruct (Forall2_lookup_r _ _ _ _ _ Hng Hi) as (s & Hs & [[Heq Hinst]|Hnil]); [|done].
    rewrite Heq. apply Hun; [|by apply Hinst].
    apply list_elem_of_lookup. eauto.
Qed.

Section Invariant.
Context {P : Platform}.

(** Whether its registrations succeed or not, [USP_BROKER_Init] leaves an
    array without registered paths. *)
Lemma registry_consistent_Init builtin :
  registry_consistent (USP_BROKER_Init builtin).2.
Proof.
  unfold USP_BROKER_Init. case_bool_decide; split.
  - unfold paths_owned_once, all_registered_paths. cbn.
    induction MAX_USP_SERVICES; cbn; [constructor|done].
  - unfold unused_slots_empty. cbn. apply Forall_replicate. done.
  - unfold paths_owned_once, all_registered_paths. cbn.
    induction MAX_USP_SERVICES; cbn; [constructor|done].
  - unfold unused_slots_empty. cbn. apply Forall_replicate. done.
Qed.

Lemma triple_bind {A B} Pre Mid Post (m : M A) (k : A -> M B) :
  triple Pre m Mid -> (forall a, triple (Mid a) (k a) Post) ->
  triple Pre (bind m k) Post.
Proof.
  intros Hm Hk b r b' Hpre. unfold bind.
  destruct (m b) as [[a b1]|] eqn:Hmb; [|done]. intros Hkb.
  eapply Hk; [|exact Hkb]. eapply Hm; eauto.
Qed.

Lemma triple_weaken {A} (Pre Pre' : broker -> Prop) (Post Post' : A -> broker -> Prop) m :
  triple Pre' m Post' -> (forall b, Pre b -> Pre' b) ->
  (forall a b, Post' a b -> Post a b) -> triple Pre m Post.
Proof. intros Hm Hpre Hpost b a b' Hb Hrun. eapply Hpost, Hm; eauto. Qed.

(** A computation that admits no path keeps the registry consistent. *)
Lemma triple_admits_nothing {A} (m : M A) :
  admits_nothing m -> triple registry_consistent m (fun _ => registry_consistent).
Proof.
  intros Hm b a b' Hb Hrun. eapply registry_consistent_not_grown; [exact Hb|].
  eapply Hm; eauto.
Qed.

(** [RegisterUspServicePath] outside of a loop. *)
Lemma RegisterUspServicePath_outcome b us s path :
  usp_services b !! us = Some s ->
  RegisterUspServicePath us path b =
    Some (register_answer b [] path,
          if bool_decide (register_answer b [] path = USP_ERR_OK)
          then set_paths b us s (registered_paths s ++ [path]) else b).
Proof.
  intros Hs.
  pose proof (RegisterUspServicePath_run b us s [] path Hs) as Hrun.
  cbn zeta in Hrun. rewrite app_nil_r, (set_paths_same b us s Hs) in Hrun.
  rewrite Hrun. case_bool_decide; [done|].
  by rewrite app_nil_r, (set_paths_same b us s Hs).
Qed.

Lemma register_answer_OK b earlier path :
  register_answer b earlier path = USP_ERR_OK <->
  (path ∉ all_registered_paths b ++ earlier) /\
  ValidateUspServicePath path = USP_ERR_OK /\
  PP_EXISTS_IN_SCHEMA b path = false.
Proof.
  unfold register_answer.
  case_bool_decide as Hown.
  { split; [done|]. by intros [? _]. }
  case_bool_decide as Hval.
  { split; [done|]. by intros (_ & ? & _). }
  destruct (PP_EXISTS_IN_SCHEMA b path).
  { split; [done|]. by intros (_ & _ & ?). }
  split; [|done]. intros _. split; [done|]. split; [|done].
  destruct (decide (ValidateUspServicePath path = USP_ERR_OK)); [done|by destruct Hval].
Qed.

(** Registering a path nobody owns in a slot in use keeps the registry
    consistent. *)
Lemma registry_consistent_set_paths b us s path :
  registry_consistent b ->
  usp_services b !! us = Some s -> instance s <> INVALID ->
  path ∉ all_registered_paths b ->
  registry_consistent (set_paths b us s (registered_paths s ++ [path])).
Proof.
  intros [Hnd Hun] Hs Hlive Hfresh. split.
  - unfold paths_owned_once in *.
    rewrite (all_registered_paths_set_paths b us s _ Hs).
    rewrite (all_registered_paths_lookup b us s Hs) in Hnd, Hfresh.
    rewrite <- app_assoc, (Permutation_app_comm [path]), app_assoc.
    apply list.NoDup_app. split; [done|]. split.
    + intros x Hx ->%list_elem_of_singleton. done.
    + apply NoDup_singleton.
  - unfold unused_slots_empty, set_paths in *. simpl_state.
    rewrite list.Forall_forall in Hun. apply list.Forall_forall.
    intros s' [i Hi]%list_elem_of_lookup.
    destruct (decide (i = us)) as [->|Hne].
    + rewrite (lookup_insert_same _ _ _ _ Hs) in Hi. injection Hi as <-. done.
    + rewrite list_lookup_insert_ne in Hi by done.
      apply Hun. apply list_elem_of_lookup. eauto.
Qed.

Lemma RegisterUspServicePath_consistent us path :
  triple (fun b => registry_consistent b /\ live us b)
         (RegisterUspServicePath us path)
         (fun _ b => registry_consistent b /\ live us b).
Proof.
  intros b err b' [Hinv (s & Hs & Hlive)] Hrun.
  rewrite (RegisterUspServicePath_outcome b us s path Hs) in Hrun.
  injection Hrun as _ <-. case_bool_decide as Hok.
  - apply register_answer_OK in Hok as (Hfresh & _ & _). rewrite app_nil_r in Hfresh.
    split; [by apply registry_consistent_set_paths|].
    exists (set_registered_paths (registered_paths s ++ [path]) s).
    split; [by apply set_paths_lookup|done].
  - split; [done|]. by exists s.
Qed.

Lemma HandleRegister_paths_consistent us allow paths :
  forall reg_resp cnt,
    triple (fun b => registry_consistent b /\ live us b)
           (HandleRegister_paths us allow paths reg_resp cnt)
           (fun _ => registry_consistent).
Proof.
  induction paths as [|rp rest IH]; intros reg_resp cnt; cbn [HandleRegister_paths].
  - intros b r b' [Hinv _] [= _ <-]. done.
  - eapply triple_bind; [apply RegisterUspServicePath_consistent|].
    intros err. destruct (_ && _); [|apply IH].
    eapply triple_weaken with (Pre' := registry_consistent);
      [apply triple_admits_nothing| |].
    + admits.
    + by intros b [? _].
    + done.
Qed.

Lemma admits_nothing_QueueGetSupportedDMToUspService us :
  admits_nothing (QueueGetSupportedDMToUspService us).
Proof.
  unfold QueueGetSupportedDMToUspService, DM_PRIV_AddSchemaPath_and_tag.
  admits; first [apply admits_nothing_CalcBrokerMessageId | apply admits_nothing_QueueMessage].
Qed.

Lemma admits_nothing_HandleRegister_exit endpoint mtpc resp cnt us :
  admits_nothing (HandleRegister_exit endpoint mtpc resp cnt us).
Proof.
  unfold HandleRegister_exit.
  admits; first [apply admits_nothing_QueueGetSupportedDMToUspService
                | apply admits_nothing_QueueMessage].
Qed.

Lemma AddUspService_live endpoint mtpc :
  triple registry_consistent (AddUspService endpoint mtpc)
         (fun r b => registry_consistent b /\ forall us, r = Some us -> live us b).
Proof.
  intros b r b' Hinv Hrun. split.
  { eapply triple_admits_nothing; [apply admits_nothing_AddUspService|exact Hinv|exact Hrun]. }
  intros us ->. pose proof (AddUspService_outcome b endpoint mtpc) as Hout.
  destruct (FindUnusedUspService _) as [us'|] eqn:Hfree; [|congruence].
  apply FindUnusedUspService_Some in Hfree as (s0 & Hs0 & _). cbn zeta in Hout.
  destruct (bool_decide (DATA_MODEL_FindUnusedGroupId b = INVALID)); [congruence|].
  destruct (bool_decide (_ /\ _)); [congruence|].
  rewrite Hout in Hrun. injection Hrun as <- <-.
  eexists. split; [simpl_state; eapply lookup_insert_same; exact Hs0|].
  cbn [new_service instance].
  apply CalcNextUspServiceInstanceNumber_live.
Qed.

Lemma HandleRegister_error_exit_consistent usp endpoint mtpc err us :
  triple registry_consistent
    (bind (header_msg_id usp) (fun id =>
       HandleRegister_exit endpoint mtpc (ERROR_RESP_CreateSingle id err) 0 us))
    (fun _ => registry_consistent).
Proof.
  apply triple_admits_nothing. unfold header_msg_id.
  admits; apply admits_nothing_HandleRegister_exit.
Qed.

Lemma HandleRegister_register_paths_consistent usp endpoint mtpc us reg :
  triple (fun b => registry_consistent b /\ live us b)
    (bind (header_msg_id usp) (fun id =>
       bind (HandleRegister_paths us (allow_partial reg) (reg_paths reg) [] 0) (fun r =>
         match r with
         | inl err =>
             HandleRegister_exit endpoint mtpc (ERROR_RESP_CreateSingle id err) 0 us
         | inr (reg_resp, cnt) =>
             HandleRegister_exit endpoint mtpc (RegisterResp_msg id reg_resp) cnt us
         end)))
    (fun _ => registry_consistent).
Proof.
  eapply triple_bind with (Mid := fun _ b => registry_consistent b /\ live us b).
  { intros b id b' Hpre Hrun. unfold header_msg_id in Hrun.
    repeat case_match; simplify_eq; try done.
    unfold ret in Hrun. by simplify_eq. }
  intros id. eapply triple_bind; [apply HandleRegister_paths_consistent|].
  intros [err|[reg_resp cnt]]; apply triple_admits_nothing, admits_nothing_HandleRegister_exit.
Qed.

(** [USP_BROKER_HandleRegister] keeps the registry consistent, whatever
    the message. *)
Lemma HandleRegister_consistent usp endpoint mtpc :
  triple registry_consistent (USP_BROKER_HandleRegister usp endpoint mtpc)
         (fun _ => registry_consistent).
Proof.
  unfold USP_BROKER_HandleRegister.
  repeat case_match; try apply HandleRegister_error_exit_consistent.
  eapply triple_bind with (Mid := fun b0 b => b0 = b /\ registry_consistent b).
  { intros b b0 b' Hinv [= <- <-]. done. }
  intros b0. destruct (FindUspServiceByEndpoint _ _) as [us|] eqn:Hfind.
  - eapply triple_bind
      with (Mid := fun s b => registry_consistent b /\ live us b /\ True).
    { intros b s b' [<- Hinv] Hrun. unfold get_us in Hrun.
      destruct (FindUspServiceByEndpoint_Some _ _ _ Hfind) as (s' & Hs' & Hlive & _).
      rewrite Hs' in Hrun. injection Hrun as <- <-. split; [done|]. split; [|done].
      by exists s'. }
    intros s. case_match.
    + eapply triple_weaken; [apply HandleRegister_error_exit_consistent| |done].
      by intros b [? _].
    + eapply triple_weaken; [apply HandleRegister_register_paths_consistent| |done].
      intros b (? & ? & _). done.
  - eapply triple_bind; [eapply triple_weaken; [apply AddUspService_live| |]|].
    { by intros b [_ ?]. }
    { intros a b Hpost. exact Hpost. }
    intros [us|]; cbn beta.
    + eapply triple_bind
        with (Mid := fun _ b => registry_consistent b /\ live us b).
      { intros b s b' [Hinv Hlive] Hrun. unfold get_us in Hrun.
        destruct (_ !! _); [|done]. injection Hrun as _ <-. split; [done|]. by apply Hlive. }
      intros s.
      eapply triple_bind
        with (Mid := fun _ b => registry_consistent b /\ live us b).
      { intros b e b' [Hinv Hlive] [= _ <-]. done. }
      intros err. case_match.
      * eapply triple_weaken; [apply HandleRegister_error_exit_consistent| |done].
        by intros b [? _].
      * apply HandleRegister_register_paths_consistent.
    + eapply triple_weaken; [apply HandleRegister_error_exit_consistent| |done].
      by intros b [? _].
Qed.

(** Taking a path away from a Service keeps the registry consistent. *)
Lemma registry_consistent_delete b b' us index s s' :
  registry_consistent b ->
  usp_services b !! us = Some s ->
  usp_services b' = <[us := s']> (usp_services b) ->
  instance s' = instance s ->
  registered_paths s' = delete index (registered_paths s) ->
  registry_consistent b'.
Proof.
  intros [Hnd Hun] Hs Hb' Hinst Hpaths. split.
  - unfold paths_owned_once in *. eapply sublist_NoDup; [exact Hnd|].
    unfold all_registered_paths. rewrite Hb', list_fmap_insert, Hpaths.
    apply join_sublist, Forall2_same_length_lookup.
    split; [by rewrite length_insert|].
    intros i l' l Hl' Hl. destruct (decide (i = us)) as [->|Hne].
    + rewrite list_lookup_fmap, Hs in Hl. injection Hl as <-.
      rewrite list_lookup_insert_eq in Hl'
        by (rewrite length_fmap; by eapply lookup_lt_Some).
      injection Hl' as <-. apply sublist_delete.
    + rewrite list_lookup_insert_ne in Hl' by done. by simplify_eq.
  - unfold unused_slots_empty in *. rewrite list.Forall_forall in Hun.
    apply list.Forall_forall. rewrite Hb'.
    intros x [i Hi]%list_elem_of_lookup.
    destruct (decide (i = us)) as [->|Hne].
    + rewrite (lookup_insert_same _ _ _ _ Hs) in Hi. injection Hi as <-.
      rewrite Hinst, Hpaths. intros Hfree.
      rewrite (Hun s); [by destruct index| |done].
      apply list_elem_of_lookup. eauto.
    + rewrite list_lookup_insert_ne in Hi by done.
      apply Hun. apply list_elem_of_lookup. eauto.
Qed.

(** Every step keeps the registry consistent. *)
Lemma step_consistent b b' :
  step b b' -> registry_consistent b -> registry_consistent b'.
Proof.
  intros Hstep Hinv. destruct Hstep as
    [endpoint mtpc err b b' Hrun | endpoint path_type b b' Hrun
    | usp endpoint mtpc b b' Hrun | usp endpoint mtpc b b' Hrun
    | req args inst err b b' Hrun | us usp endpoint mtpc err b b' Hrun
    | usp endpoint r b b' Hrun | us path err b b' Hlive Hrun
    | b b' Hrun | us index s s' b b' Hs Hb' Hinst Hpaths].
  - eapply triple_admits_nothing; [apply admits_nothing_USP_BROKER_AddUspService|..]; eauto.
  - eapply triple_admits_nothing; [apply admits_nothing_HandleUspServiceDisconnect|..]; eauto.
  - eapply HandleRegister_consistent; eauto.
  - eapply triple_admits_nothing; [apply admits_nothing_HandleNotification|..]; eauto.
  - eapply triple_admits_nothing; [apply admits_nothing_AsyncOperate|..]; eauto.
  - eapply triple_admits_nothing; [apply admits_nothing_PassThruToUspService|..]; eauto.
  - eapply triple_admits_nothing; [apply admits_nothing_AttemptPassThruForResponse|..]; eauto.
  - eapply RegisterUspServicePath_consistent; [|exact Hrun]. done.
  - eapply triple_admits_nothing; [apply admits_nothing_Stop|..]; eauto.
  - by eapply registry_consistent_delete.
Qed.

Lemma reachable_consistent b : reachable b -> registry_consistent b.
Proof.
  induction 1 as [builtin|b b' _ IH Hstep].
  - apply registry_consistent_Init.
  - by eapply step_consistent.
Qed.
End Invariant.

(* ===================================================================== *)
(** * Register requests *)
(* ===================================================================== *)

Lemma FindUspServiceByEndpoint_None services endpoint j y :
  FindUspServiceByEndpoint services endpoint = None ->
  services !! j = Some y ->
  ~ (instance y <> INVALID /\ endpoint_id y = endpoint).
Proof.
  unfold FindUspServiceByEndpoint. intros H Hj.
  apply fmap_None, list_find_None in H. rewrite list.Forall_forall in H.
  apply H. apply list_elem_of_lookup. eauto.
Qed.

(** A new entry for an endpoint that had none is the one the search by
    endpoint finds. *)
Lemma FindUspServiceByEndpoint_new services us s0 s' endpoint :
  services !! us = Some s0 ->
  FindUspServiceByEndpoint services endpoint = None ->
  instance s' <> INVALID -> endpoint_id s' = endpoint ->
  FindUspServiceByEndpoint (<[us := s']> services) endpoint = Some us.
Proof.
  intros Hs0 Hnone Hlive Hep. unfold FindUspServiceByEndpoint.
  apply fmap_Some. exists (us, s'). split; [|done].
  apply list_find_Some. split; [by eapply lookup_insert_same|]. split; [done|].
  intros j y Hj Hlt. rewrite list_lookup_insert_ne in Hj by lia.
  by eapply FindUspServiceByEndpoint_None.
Qed.

(** Without partial registration the first path that fails ends the
    request. *)
Lemma register_outcome_refuses b paths :
  forall earlier reg_resp cnt i p,
    paths !! i = Some p ->
    ValidateUspServicePath p <> USP_ERR_OK \/
    PP_EXISTS_IN_SCHEMA b p = true \/
    p ∈ all_registered_paths b \/
    p ∈ earlier \/
    p ∈ take i paths ->
    exists err, err <> USP_ERR_OK /\
      register_outcome b false earlier paths reg_resp cnt = (inl err, []).
Proof.
  induction paths as [|p0 rest IH]; intros earlier reg_resp cnt i p Hi Hfail; [done|].
  cbn [register_outcome]. cbn zeta.
  destruct (decide (register_answer b earlier p0 = USP_ERR_OK)) as [Hok|Hbad].
  - rewrite (bool_decide_false (register_answer b earlier p0 <> USP_ERR_OK)) by (intros H; by apply H).
    rewrite (bool_decide_true _ Hok). cbn [andb].
    apply register_answer_OK in Hok as (Hfresh & Hval & Hsch).
    rewrite elem_of_app in Hfresh.
    destruct i as [|j]; cbn in Hi.
    + injection Hi as ->. exfalso.
      destruct Hfail as [?|[?|[?|[?|Hin]]]]; try tauto; try congruence.
      cbn in Hin. by apply elem_of_nil in Hin.
    + apply (IH _ _ _ j p Hi).
      destruct Hfail as [?|[?|[?|[?|Hin]]]]; try tauto.
      * right. right. right. left. apply elem_of_app. tauto.
      * cbn in Hin. apply elem_of_cons in Hin as [->|Hin]; [|tauto].
        right. right. right. left. apply elem_of_app. right. by apply list_elem_of_singleton.
  - rewrite (bool_decide_true _ Hbad). cbn [andb negb]. eauto.
Qed.

Section Schema.
Context {P : Platform}.

Lemma schema_with_keeps group paths :
  forall sch n, n ∈ sch -> node_path n ∉ paths -> n ∈ schema_with sch group paths.
Proof.
  induction paths as [|q rest IH]; intros sch n Hn Hfresh; cbn [schema_with]; [done|].
  apply not_elem_of_cons in Hfresh as [Hne Hfresh].
  apply IH; [|done]. destruct (DM_PRIV_AddSchemaPath_accepts q); [|done].
  apply elem_of_app. left. apply list_elem_of_filter. done.
Qed.

(** Every registered path the data model accepts has its provisional
    node in the schema. *)
Lemma schema_with_elem group paths :
  forall sch path, path ∈ paths -> DM_PRIV_AddSchemaPath_accepts path = true ->
    provisional_node path group ∈ schema_with sch group paths.
Proof.
  induction paths as [|q rest IH]; intros sch path Hin Hacc; cbn [schema_with].
  { by apply elem_of_nil in Hin. }
  destruct (decide (path ∈ rest)) as [Hrest|Hrest]; [by apply IH|].
  apply elem_of_cons in Hin as [->|?]; [|done].
  rewrite Hacc. apply schema_with_keeps; [|done].
  apply elem_of_app. right. by apply list_elem_of_singleton.
Qed.
End Schema.

Section RegisterRequests.
Context {P : Platform}.

Lemma service_of_same b b' endpoint :
  usp_services b' = usp_services b -> service_of b' endpoint = service_of b endpoint.
Proof. unfold service_of. by intros ->. Qed.

(** Taking in a new Service changes no registered path, when the unused
    slots are empty. *)
Lemma service_added_paths b us s0 endpoint mtpc :
  unused_slots_empty b ->
  usp_services b !! us = Some s0 -> instance s0 = INVALID ->
  registered_paths <$> usp_services (service_added b us endpoint mtpc) =
  registered_paths <$> usp_services b.
Proof.
  intros Hun Hs0 Hfree. unfold service_added. simpl_state.
  rewrite list_fmap_insert. apply list_insert_id.
  rewrite list_lookup_fmap, Hs0. cbn. f_equal.
  unfold unused_slots_empty in Hun. rewrite list.Forall_forall in Hun.
  apply Hun; [|done]. apply list_elem_of_lookup. eauto.
Qed.

Lemma new_service_live b us endpoint mtpc group :
  instance (new_service b us endpoint mtpc group) <> INVALID.
Proof.
  cbn.
  apply CalcNextUspServiceInstanceNumber_live.
Qed.

Lemma service_added_service_of b us s0 endpoint mtpc :
  usp_services b !! us = Some s0 ->
  FindUspServiceByEndpoint (usp_services b) endpoint = None ->
  FindUspServiceByEndpoint (usp_services (service_added b us endpoint mtpc)) endpoint
    = Some us /\
  usp_services (service_added b us endpoint mtpc) !! us =
    Some (new_service b us endpoint mtpc (DATA_MODEL_FindUnusedGroupId b)).
Proof.
  intros Hs0 Hnone. unfold service_added. simpl_state. split.
  - eapply FindUspServiceByEndpoint_new; eauto using new_service_live.
  - by eapply lookup_insert_same.
Qed.

(** C2. A Register request without partial registration in which a path
    fails (its shape is wrong, the schema has it, a Service owns it, or it
    repeats an earlier path of the request) is answered by one ERROR
    message and nothing else: no RegisterResp and no GetSupportedDM request
    is queued, the schema keeps its nodes, and every slot keeps its
    registered paths.  The registered paths of the requester are what they
    were before the request: none, unless it had registered paths before. *)
Theorem HandleRegister_all_or_nothing b id reg endpoint mtpc i p :
  reachable b -> connection_usable mtpc ->
  allow_partial reg = false ->
  path_fails b (reg_paths reg) i p ->
  exists err evs b',
    USP_BROKER_HandleRegister (Register_msg id reg) endpoint mtpc b = Some (tt, b') /\
    err <> USP_ERR_OK /\
    Forall announces_service evs /\
    emitted b b'
      (evs ++ [Ev_QueueMessage endpoint (ERROR_RESP_CreateSingle id err) mtpc]) /\
    schema b' = schema b /\
    registered_paths <$> usp_services b' = registered_paths <$> usp_services b /\
    forall s', service_of b' endpoint = Some s' ->
      registered_paths s' =
        match service_of b endpoint with
        | Some s => registered_paths s
        | None => []
        end.
Proof.
  intros Hreach Hconn Hallow [Hi Hfail].
  apply reachable_consistent in Hreach as [_ Hun].
  rewrite (HandleRegister_run b id reg endpoint mtpc Hconn).
  unfold register_handled.
  rewrite bool_decide_false by (intros Hnil; by rewrite Hnil in Hi).
  assert (Hrefused : forall b0 evs err,
    err <> USP_ERR_OK ->
    Forall announces_service evs ->
    trace b0 = trace b ++ evs -> schema b0 = schema b ->
    registered_paths <$> usp_services b0 = registered_paths <$> usp_services b ->
    (forall s', service_of b0 endpoint = Some s' ->
       registered_paths s' =
         match service_of b endpoint with
         | Some s => registered_paths s
         | None => []
         end) ->
    exists err' evs b',
      Some (tt, replied b0 endpoint mtpc (ERROR_RESP_CreateSingle id err)) = Some (tt, b') /\
      err' <> USP_ERR_OK /\
      Forall announces_service evs /\
      emitted b b'
        (evs ++ [Ev_QueueMessage endpoint (ERROR_RESP_CreateSingle id err') mtpc]) /\
      schema b' = schema b /\
      registered_paths <$> usp_services b' = registered_paths <$> usp_services b /\
      forall s', service_of b' endpoint = Some s' ->
        registered_paths s' =
          match service_of b endpoint with
          | Some s => registered_paths s
          | None => []
          end).
  { intros b0 evs err Herr Hevs Htrace Hschema Hpaths Hsvc.
    exists err, evs, (replied b0 endpoint mtpc (ERROR_RESP_CreateSingle id err)).
    split; [done|]. split; [done|]. split; [done|]. split.
    { unfold emitted, replied. cbn. by rewrite Htrace, <- app_assoc. }
    split; [done|]. split; [done|]. intros s' Hs'. apply Hsvc.
    by rewrite <- Hs'. }
  assert (Hsame : forall s', service_of b endpoint = Some s' ->
            registered_paths s' =
              match service_of b endpoint with
              | Some s => registered_paths s
              | None => []
              end).
  { by intros s' ->. }
  assert (Hfailure : USP_ERR_REGISTER_FAILURE <> USP_ERR_OK) by done.
  destruct (FindUspServiceByEndpoint (usp_services b) endpoint) as [us|] eqn:Hfind.
  - destruct (FindUspServiceByEndpoint_Some _ _ _ Hfind) as (s & Hs & _).
    rewrite Hs. case_bool_decide as Hreg.
    + apply (Hrefused b []); try done. by rewrite app_nil_r.
    + unfold paths_registered. rewrite Hallow.
      destruct (register_outcome_refuses b (reg_paths reg) [] [] 0%nat i p Hi)
        as (err & Herr & ->).
      { destruct Hfail as [?|[?|[?|?]]]; tauto. }
      apply (Hrefused b []); try done. by rewrite app_nil_r.
  - destruct (FindUnusedUspService (usp_services b)) as [us|] eqn:Hfree.
    2: { apply (Hrefused b []); try done. by rewrite app_nil_r. }
    cbn zeta. case_bool_decide as Hgroup.
    { apply (Hrefused b []); try done. by rewrite app_nil_r. }
    apply FindUnusedUspService_Some in Hfree as (s0 & Hs0 & Hfree).
    pose proof (service_added_paths b us s0 endpoint mtpc Hun Hs0 Hfree) as Hpaths.
    destruct (service_added_service_of b us s0 endpoint mtpc Hs0 Hfind) as [Hfind1 Hs1].
    assert (Hnew : forall s', service_of (service_added b us endpoint mtpc) endpoint = Some s' ->
              registered_paths s' =
                match service_of b endpoint with
                | Some s => registered_paths s
                | None => []
                end).
    { intros s'. unfold service_of. rewrite Hfind1, Hs1, Hfind. by intros [= <-]. }
    assert (Hevs : Forall announces_service
              [Ev_RegisterGroupVendorHooks (DATA_MODEL_FindUnusedGroupId b) true;
               Ev_InformInstance
                 (service_instance_path
                    (instance (new_service b us endpoint mtpc
                                 (DATA_MODEL_FindUnusedGroupId b))))]).
    { constructor; [left; eauto|]. constructor; [right; eauto|]. constructor. }
    case_bool_decide as Hinf.
    + eapply (Hrefused (service_added b us endpoint mtpc)); try done.
    + unfold paths_registered. rewrite Hallow.
      destruct (register_outcome_refuses (service_added b us endpoint mtpc)
                  (reg_paths reg) [] [] 0%nat i p Hi) as (err & Herr & ->).
      { unfold all_registered_paths. rewrite Hpaths.
        destruct Hfail as [?|[?|[?|?]]]; tauto. }
      eapply (Hrefused (service_added b us endpoint mtpc)); try done.
Qed.

(** What the path loop and the [exit:] block leave behind for a Service
    that ends up with registered paths. *)
Lemma paths_registered_discovery b0 us s id reg endpoint mtpc s' :
  usp_services b0 !! us = Some s ->
  FindUspServiceByEndpoint (usp_services b0) endpoint = Some us ->
  registered_paths s = [] ->
  let b' := paths_registered b0 us s id reg endpoint mtpc in
  service_of b' endpoint = Some s' -> registered_paths s' <> [] ->
  exists results,
    if bool_decide (protocol (controller_mtp s') = kMtpProtocol_None)
    then trace b' = trace b0 ++ [Ev_QueueMessage endpoint (RegisterResp_msg id results) mtpc] /\
         schema b' = schema b0
    else
      exists gsdm_id, gsdm_msg_id s' = Some gsdm_id /\
        trace b' =
          trace b0 ++
            [Ev_QueueMessage endpoint (RegisterResp_msg id results) mtpc;
             Ev_QueueMessage endpoint
               (CreateBroker_GetSupportedDMReq gsdm_id (registered_paths s'))
               (controller_mtp s')] ++
            ((fun path => Ev_AddSchemaPath path kDMNodeType_Object_SingleInstance)
               <$> registered_paths s') /\
        schema b' = schema_with (schema b0) (group_id s') (registered_paths s').
Proof.
  intros Hs Hfind Hnil b'. subst b'. unfold paths_registered.
  destruct (FindUspServiceByEndpoint_Some _ _ _ Hfind) as (s1 & Hs1 & _ & Hep & _).
  rewrite Hs in Hs1. injection Hs1 as <-.
  destruct (register_outcome _ _ _ _ _ _) as [[err|[results cnt]] accepted].
  { rewrite (service_of_same b0) by done. unfold service_of. rewrite Hfind, Hs.
    intros [= <-] Hne. by destruct Hne. }
  destruct (bool_decide (accepted = [] \/ _)) eqn:Hdown.
  - apply bool_decide_eq_true in Hdown.
    unfold service_of, replied, set_paths. simpl_state.
    erewrite FindUspServiceByEndpoint_insert by (try exact Hs; done).
    rewrite Hfind, (lookup_insert_same _ _ _ _ Hs).
    intros [= <-] Hne. cbn in Hne. destruct Hdown as [?|Hdown]; [done|].
    exists results. cbn [controller_mtp set_registered_paths].
    by rewrite bool_decide_true by done.
  - apply bool_decide_eq_false in Hdown.
    unfold service_of, gsdm_issued, replied, set_paths. simpl_state.
    rewrite list_insert_insert_eq.
    erewrite FindUspServiceByEndpoint_insert by (try exact Hs; done).
    rewrite Hfind, (lookup_insert_same _ _ _ _ Hs).
    intros [= <-] Hne. exists results.
    cbn [controller_mtp set_registered_paths set_gsdm_msg_id gsdm_msg_id
         registered_paths group_id endpoint_id].
    rewrite bool_decide_false by tauto.
    eexists. split; [reflexivity|]. split; [|reflexivity].
    rewrite <- app_assoc. cbn [app]. by rewrite Hep.
Qed.

(** C7. A Register request from a Service that has no registered paths
    yet, after which it has some: the RegisterResp is queued first; if the
    Service's controller connection is up, the GetSupportedDM request for
    the registered paths is queued next, and only then the data model is
    asked to add a single-instance object node for each registered path, in
    the group of the Service; each path it accepts has its node in the
    schema.  If the connection is down, the RegisterResp is all there is,
    and the schema keeps its nodes. *)
Theorem HandleRegister_discovery b id reg endpoint mtpc :
  connection_usable mtpc ->
  (forall s, service_of b endpoint = Some s -> registered_paths s = []) ->
  exists b',
    USP_BROKER_HandleRegister (Register_msg id reg) endpoint mtpc b = Some (tt, b') /\
    forall s', service_of b' endpoint = Some s' -> registered_paths s' <> [] ->
      exists evs results,
        Forall announces_service evs /\
        if bool_decide (protocol (controller_mtp s') = kMtpProtocol_None)
        then
          emitted b b'
            (evs ++ [Ev_QueueMessage endpoint (RegisterResp_msg id results) mtpc]) /\
          schema b' = schema b
        else
          exists gsdm_id, gsdm_msg_id s' = Some gsdm_id /\
            emitted b b'
              (evs ++
               [Ev_QueueMessage endpoint (RegisterResp_msg id results) mtpc;
                Ev_QueueMessage endpoint
                  (CreateBroker_GetSupportedDMReq gsdm_id (registered_paths s'))
                  (controller_mtp s')] ++
               ((fun path => Ev_AddSchemaPath path kDMNodeType_Object_SingleInstance)
                  <$> registered_paths s')) /\
            schema b' = schema_with (schema b) (group_id s') (registered_paths s') /\
            forall path, path ∈ registered_paths s' ->
              DM_PRIV_AddSchemaPath_accepts path = true ->
              provisional_node path (group_id s') ∈ schema b'.
Proof.
  intros Hconn Hfirst. eexists. split; [by apply HandleRegister_run|].
  unfold register_handled.
  assert (Hrefused : forall b0 err s',
    (forall s, service_of b0 endpoint = Some s -> registered_paths s = []) ->
    service_of (replied b0 endpoint mtpc (ERROR_RESP_CreateSingle id err)) endpoint
      = Some s' ->
    registered_paths s' = []).
  { intros b0 err s' Hb0 Hs'. apply Hb0. by rewrite <- Hs'. }
  assert (Hfinish : forall b0 us s evs s',
    usp_services b0 !! us = Some s ->
    FindUspServiceByEndpoint (usp_services b0) endpoint = Some us ->
    registered_paths s = [] ->
    trace b0 = trace b ++ evs -> schema b0 = schema b ->
    Forall announces_service evs ->
    service_of (paths_registered b0 us s id reg endpoint mtpc) endpoint = Some s' ->
    registered_paths s' <> [] ->
    exists evs results,
      Forall announces_service evs /\
      if bool_decide (protocol (controller_mtp s') = kMtpProtocol_None)
      then
        emitted b (paths_registered b0 us s id reg endpoint mtpc)
          (evs ++ [Ev_QueueMessage endpoint (RegisterResp_msg id results) mtpc]) /\
        schema (paths_registered b0 us s id reg endpoint mtpc) = schema b
      else
        exists gsdm_id, gsdm_msg_id s' = Some gsdm_id /\
          emitted b (paths_registered b0 us s id reg endpoint mtpc)
            (evs ++
             [Ev_QueueMessage endpoint (RegisterResp_msg id results) mtpc;
              Ev_QueueMessage endpoint
                (CreateBroker_GetSupportedDMReq gsdm_id (registered_paths s'))
                (controller_mtp s')] ++
             ((fun path => Ev_AddSchemaPath path kDMNodeType_Object_SingleInstance)
                <$> registered_paths s')) /\
          schema (paths_registered b0 us s id reg endpoint mtpc) =
            schema_with (schema b) (group_id s') (registered_paths s') /\
          forall path, path ∈ registered_paths s' ->
            DM_PRIV_AddSchemaPath_accepts path = true ->
            provisional_node path (group_id s') ∈
              schema (paths_registered b0 us s id reg endpoint mtpc)).
  { intros b0 us s evs s' Hs Hfind Hnil Htrace Hschema Hevs Hs' Hne.
    destruct (paths_registered_discovery b0 us s id reg endpoint mtpc s'
                Hs Hfind Hnil Hs' Hne) as [results Hres].
    exists evs, results. split; [done|]. unfold emitted.
    destruct (bool_decide (protocol (controller_mtp s') = kMtpProtocol_None)).
    - destruct Hres as [-> ->]. by rewrite Htrace, Hschema, <- app_assoc.
    - destruct Hres as (gsdm_id & Hid & -> & ->). exists gsdm_id.
      split; [done|]. split; [by rewrite Htrace, <- app_assoc|].
      rewrite Hschema. split; [done|]. intros path. apply schema_with_elem. }
  case_bool_decide as Hpaths.
  { intros s' Hs' Hne. by rewrite (Hrefused b USP_ERR_REGISTER_FAILURE s' Hfirst Hs') in Hne. }
  destruct (FindUspServiceByEndpoint (usp_services b) endpoint) as [us|] eqn:Hfind.
  - destruct (FindUspServiceByEndpoint_Some _ _ _ Hfind) as (s & Hs & _).
    rewrite Hs.
    assert (Hnil : registered_paths s = []).
    { apply Hfirst. unfold service_of. by rewrite Hfind. }
    rewrite bool_decide_false by (intros Hne; by apply Hne).
    intros s'. apply (Hfinish b us s []); try done. by rewrite app_nil_r.
  - assert (Hnone : forall s' b0, usp_services b0 = usp_services b ->
                      service_of b0 endpoint = Some s' -> False).
    { intros s' b0 Hb0. unfold service_of. by rewrite Hb0, Hfind. }
    destruct (FindUnusedUspService (usp_services b)) as [us|] eqn:Hfree.
    2: { intros s' Hs'. by destruct (Hnone s' _ eq_refl Hs'). }
    cbn zeta. case_bool_decide as Hgroup.
    { intros s' Hs'. by destruct (Hnone s' _ eq_refl Hs'). }
    apply FindUnusedUspService_Some in Hfree as (s0 & Hs0 & Hfree).
    destruct (service_added_service_of b us s0 endpoint mtpc Hs0 Hfind) as [Hfind1 Hs1].
    case_bool_decide as Hinf.
    + intros s' Hs' Hne.
      rewrite (Hrefused (service_added b us endpoint mtpc) USP_ERR_REGISTER_FAILURE s')
        in Hne; [done| |done].
      intros s2. unfold service_of. rewrite Hfind1, Hs1. by intros [= <-].
    + intros s'. eapply (Hfinish (service_added b us endpoint mtpc)); try done.
      constructor; [left; eauto|]. constructor; [right; eauto|]. constructor.
Qed.
End RegisterRequests.

(* ===================================================================== *)
(** * Ownership of the registered paths *)
(* ===================================================================== *)

Lemma NoDup_join_lookup {A} (L : list (list A)) :
  NoDup (mjoin L) ->
  forall i j l k x, L !! i = Some l -> L !! j = Some k -> x ∈ l -> x ∈ k -> i = j.
Proof.
  induction L as [|l0 L IH]; intros Hnd i j l k x Hi Hj Hl Hk; [done|].
  cbn in Hnd. apply list.NoDup_app in Hnd as (_ & Hdisj & Hnd).
  destruct i as [|i], j as [|j]; cbn in Hi, Hj; simplify_eq; try done.
  - destruct (Hdisj x Hl). apply list_elem_of_join. exists k. split; [done|].
    apply list_elem_of_lookup. eauto.
  - destruct (Hdisj x Hk). apply list_elem_of_join. exists l. split; [done|].
    apply list_elem_of_lookup. eauto.
  - f_equal. eapply IH; eauto.
Qed.

Section Ownership.
Context {P : Platform}.

(** C1. At every state the Broker gets to, no path is registered twice:
    neither by two Services nor twice by one.  There,
    [RegisterUspServicePath] for a Service in use answers a path that some
    Service owns with PATH_ALREADY_REGISTERED; a path nobody owns whose
    shape is wrong with REGISTER_FAILURE, whether the schema has it or
    not; a well-shaped path nobody owns that the schema has with
    PATH_ALREADY_REGISTERED; in these cases nothing changes.  Every other
    path it adds to the registered paths of the requester, and of nobody
    else, and the state it gets to is again one without a path registered
    twice. *)
Theorem RegisterUspServicePath_ownership b us path :
  reachable b -> live us b ->
  paths_owned_once b /\
  (forall i j si sj p,
     usp_services b !! i = Some si -> usp_services b !! j = Some sj ->
     p ∈ registered_paths si -> p ∈ registered_paths sj -> i = j) /\
  (owned_by_a_service b path ->
     RegisterUspServicePath us path b = Some (USP_ERR_PATH_ALREADY_REGISTERED, b)) /\
  (~ owned_by_a_service b path -> ~ valid_register_path path ->
     RegisterUspServicePath us path b = Some (USP_ERR_REGISTER_FAILURE, b)) /\
  (~ owned_by_a_service b path -> valid_register_path path ->
     PP_EXISTS_IN_SCHEMA b path = true ->
     RegisterUspServicePath us path b = Some (USP_ERR_PATH_ALREADY_REGISTERED, b)) /\
  (~ owned_by_a_service b path -> valid_register_path path ->
     PP_EXISTS_IN_SCHEMA b path = false ->
     exists b',
       RegisterUspServicePath us path b = Some (USP_ERR_OK, b') /\
       reachable b' /\ paths_owned_once b' /\
       forall i s', usp_services b' !! i = Some s' ->
         (path ∈ registered_paths s' <-> i = us)).
Proof.
  intros Hreach Hlive.
  pose proof (reachable_consistent b Hreach) as [Hnd Hun].
  destruct Hlive as (s & Hs & Hinst).
  pose proof (RegisterUspServicePath_outcome b us s path Hs) as Hrun.
  unfold register_answer in Hrun. rewrite app_nil_r in Hrun.
  split; [done|]. split.
  { intros i j si sj p Hi Hj Hpi Hpj.
    apply (NoDup_join_lookup _ Hnd i j (registered_paths si) (registered_paths sj) p);
      [by rewrite list_lookup_fmap, Hi|by rewrite list_lookup_fmap, Hj|done|done]. }
  split.
  { intros Hown%elem_of_all_registered_paths.
    by rewrite bool_decide_true in Hrun by done. }
  split.
  { intros Hown Hshape. rewrite <- elem_of_all_registered_paths in Hown.
    rewrite <- ValidateUspServicePath_OK in Hshape.
    rewrite bool_decide_false, bool_decide_true in Hrun by done.
    rewrite (ValidateUspServicePath_error path Hshape) in Hrun. done. }
  split.
  { intros Hown Hshape Hschema. rewrite <- elem_of_all_registered_paths in Hown.
    rewrite <- ValidateUspServicePath_OK in Hshape.
    rewrite bool_decide_false in Hrun by done.
    rewrite (bool_decide_false (ValidateUspServicePath path <> USP_ERR_OK)) in Hrun
      by (intros H; by apply H).
    by rewrite Hschema in Hrun. }
  intros Hown Hshape Hschema. rewrite <- elem_of_all_registered_paths in Hown.
  rewrite <- ValidateUspServicePath_OK in Hshape.
  rewrite bool_decide_false in Hrun by done.
  rewrite (bool_decide_false (ValidateUspServicePath path <> USP_ERR_OK)) in Hrun
    by (intros H; by apply H).
  rewrite Hschema in Hrun. rewrite bool_decide_true in Hrun by done.
  eexists. split; [exact Hrun|].
  assert (Hstep : reachable (set_paths b us s (registered_paths s ++ [path]))).
  { eapply reachable_step; [exact Hreach|].
    eapply step_RegisterUspServicePath; [by exists s|exact Hrun]. }
  split; [done|]. split; [by apply reachable_consistent|].
  intros i s' Hi. unfold set_paths in Hi. cbn [usp_services set_usp_services] in Hi.
  destruct (decide (i = us)) as [->|Hne].
  - rewrite (lookup_insert_same _ _ _ _ Hs) in Hi. injection Hi as <-.
    split; [done|]. intros _. cbn. apply elem_of_app. right.
    by apply list_elem_of_singleton.
  - rewrite list_lookup_insert_ne in Hi by done. split; [|done].
    intros Hin. destruct Hown. apply elem_of_all_registered_paths.
    exists s'. split; [|done]. apply list_elem_of_lookup. eauto.
Qed.
End Ownership.

(* ===================================================================== *)
(** * The handlers on the example configuration *)
(* ===================================================================== *)

Section Runs.
#[local] Existing Instance example_platform.

Lemma brokers_controller_socket_usable : connection_usable brokers_controller_socket.
Proof. intros [_ H]. discriminate H. Qed.

Lemma example_connected_reachable : reachable example_connected.
Proof.
  eapply reachable_step; [apply (reachable_Init example_builtin)|].
  apply (step_AddUspService "svc1" brokers_controller_socket USP_ERR_OK).
  vm_compute. reflexivity.
Qed.

Lemma example_registered_run :
  USP_BROKER_HandleRegister (Register_msg "reg-1" example_register)
    "svc1" brokers_controller_socket example_connected
  = Some (tt, example_registered).
Proof. vm_compute. reflexivity. Qed.

Lemma example_registered_reachable : reachable example_registered.
Proof.
  eapply reachable_step; [apply example_connected_reachable|].
  eapply step_HandleRegister. apply example_registered_run.
Qed.

Lemma example_connected_live : live 0 example_connected.
Proof. eexists. split; [vm_compute; reflexivity|]. vm_compute. discriminate. Qed.

Lemma example_connected_owns_nothing path :
  ~ owned_by_a_service example_connected path.
Proof.
  intros H%elem_of_all_registered_paths. vm_compute in H. inversion H.
Qed.

(** The shape of a path is looked at before the schema is: a path of the
    schema that lacks the trailing dot is refused with REGISTER_FAILURE,
    not with PATH_ALREADY_REGISTERED; and a path that nobody owns and the
    schema does not have is not added when its shape is wrong. *)
Lemma RegisterUspServicePath_shape_first :
  reachable example_connected /\ live 0 example_connected /\
  PP_EXISTS_IN_SCHEMA example_connected "Device.DeviceInfo.SoftwareVersion" = true /\
  RegisterUspServicePath 0 "Device.DeviceInfo.SoftwareVersion" example_connected
    = Some (USP_ERR_REGISTER_FAILURE, example_connected) /\
  USP_ERR_REGISTER_FAILURE <> USP_ERR_PATH_ALREADY_REGISTERED /\
  ~ owned_by_a_service example_connected "Device.Foo" /\
  PP_EXISTS_IN_SCHEMA example_connected "Device.Foo" = false /\
  RegisterUspServicePath 0 "Device.Foo" example_connected
    = Some (USP_ERR_REGISTER_FAILURE, example_connected).
Proof.
  split; [apply example_connected_reachable|].
  split; [apply example_connected_live|].
  split; [vm_compute; reflexivity|].
  split; [vm_compute; reflexivity|].
  split; [discriminate|].
  split; [apply example_connected_owns_nothing|].
  split; vm_compute; reflexivity.
Qed.

Lemma RegisterUspServicePath_ownership_example :
  exists b',
    RegisterUspServicePath 0 "Device.Foo." example_connected = Some (USP_ERR_OK, b') /\
    paths_owned_once b'.
Proof.
  destruct (RegisterUspServicePath_ownership example_connected 0 "Device.Foo."
              example_connected_reachable example_connected_live)
    as (_ & _ & _ & _ & _ & Hadd).
  destruct Hadd as (b' & Hrun & _ & Hnd & _).
  - apply example_connected_owns_nothing.
  - apply ValidateUspServicePath_OK. reflexivity.
  - vm_compute. reflexivity.
  - exists b'. split; [exact Hrun|exact Hnd].
Defined.

(** Registered paths are compared as they are written: while the schema
    has no node for it, a path below the registered path of another
    Service is accepted. *)
Lemma registered_paths_may_nest :
  exists b',
    RegisterUspServicePath 1 "Device.Foo.Bar." example_second_connected
      = Some (USP_ERR_OK, b') /\
    registered_paths <$> usp_services b' =
      [["Device.Foo."%string]; ["Device.Foo.Bar."%string]].
Proof. eexists. split; vm_compute; reflexivity. Qed.

(** A Service that has registered "Device.Foo." asks for it once more,
    without partial registration: the request is refused, and the Service
    keeps the path it had. *)
Lemma HandleRegister_registered_before :
  reachable example_registered /\
  allow_partial example_register = false /\
  path_fails example_registered (reg_paths example_register) 0 "Device.Foo." /\
  exists b' s',
    USP_BROKER_HandleRegister (Register_msg "reg-2" example_register)
      "svc1" brokers_controller_socket example_registered = Some (tt, b') /\
    service_of b' "svc1" = Some s' /\
    registered_paths s' = ["Device.Foo."%string] /\
    registered_paths s' <> [].
Proof.
  split; [apply example_registered_reachable|].
  split; [reflexivity|].
  split.
  { split; [reflexivity|]. right. left. vm_compute. reflexivity. }
  eexists. eexists. split; [vm_compute; reflexivity|].
  split; [vm_compute; reflexivity|]. split; [reflexivity|discriminate].
Qed.

Lemma HandleRegister_all_or_nothing_example :
  exists err b',
    USP_BROKER_HandleRegister (Register_msg "reg-2" example_register_bad)
      "svc1" brokers_controller_socket example_connected = Some (tt, b') /\
    err <> USP_ERR_OK /\
    schema b' = schema example_connected /\
    registered_paths <$> usp_services b' =
      registered_paths <$> usp_services example_connected.
Proof.
  destruct (HandleRegister_all_or_nothing example_connected "reg-2"
              example_register_bad "svc1" brokers_controller_socket 1 "Device.Baz"
              example_connected_reachable brokers_controller_socket_usable)
    as (err & evs & b' & Hrun & Herr & _ & _ & Hschema & Hpaths & _).
  - reflexivity.
  - split; [reflexivity|]. left. vm_compute. discriminate.
  - exists err, b'. repeat split; assumption.
Defined.

(** The RegisterResp is queued before the data model is asked for the
    node of the registered path; the GetSupportedDM request goes out in
    between. *)
Lemma HandleRegister_reply_first :
  USP_BROKER_HandleRegister (Register_msg "reg-1" example_register)
    "svc1" brokers_controller_socket example_connected
  = Some (tt, example_registered) /\
  PP_EXISTS_IN_SCHEMA example_connected "Device.Foo." = false /\
  emitted example_connected example_registered
    [Ev_QueueMessage "svc1"
       (RegisterResp_msg "reg-1"
          [ {| requested_path := "Device.Foo.";
               oper_status := OPER_STATUS_OPER_SUCCESS "Device.Foo." |} ])
       brokers_controller_socket;
     Ev_QueueMessage "svc1"
       (CreateBroker_GetSupportedDMReq "BROKER-1-1700000000" ["Device.Foo."%string])
       brokers_controller_socket;
     Ev_AddSchemaPath "Device.Foo." kDMNodeType_Object_SingleInstance].
Proof.
  split; [apply example_registered_run|].
  split; vm_compute; reflexivity.
Qed.

Lemma HandleRegister_discovery_example :
  exists b',
    USP_BROKER_HandleRegister (Register_msg "reg-1" example_register)
      "svc1" brokers_controller_socket example_connected = Some (tt, b') /\
    provisional_node "Device.Foo." 0 ∈ schema b'.
Proof.
  destruct (HandleRegister_discovery example_connected "reg-1" example_register
              "svc1" brokers_controller_socket brokers_controller_socket_usable)
    as (b' & Hrun & Hpost).
  - intros s Hs. vm_compute in Hs. injection Hs as <-. reflexivity.
  - exists b'. split; [exact Hrun|].
    rewrite example_registered_run in Hrun. injection Hrun as <-.
    edestruct Hpost as (evs & results & _ & H);
      [vm_compute; reflexivity|vm_compute; discriminate|].
    rewrite bool_decide_false in H by (vm_compute; discriminate).
    destruct H as (gsdm_id & _ & _ & _ & Hnode).
    apply (Hnode "Device.Foo."%string); [|reflexivity].
    vm_compute. constructor.
Defined.

(** The Service has the subscription, but the command with the command
    key "key1" is running already: the request is denied, nothing is put
    into the request map and nothing is sent. *)
Lemma Broker_AsyncOperate_key_in_use :
  FindUspServiceByGroupId (usp_services example_running) (req_group_id example_request)
    = Some 0%nat /\
  SubsMap_FindByPath
    (subs_map (example_service [ReqMapEntry 5 example_reboot "key1"]))
    (req_path example_request) <> None /\
  Broker_AsyncOperate example_request [] 6 example_running
    = Some (USP_ERR_REQUEST_DENIED, example_running).
Proof.
  split; [vm_compute; reflexivity|].
  split; [vm_compute; discriminate|].
  vm_compute. reflexivity.
Qed.

Lemma Broker_AsyncOperate_example :
  Broker_AsyncOperate example_request [] 6 (example_broker [] [])
    = Some (USP_ERR_INTERNAL_ERROR,
            operate_sent (example_broker [] []) (example_service [])
              example_reboot "key1" []).
Proof.
  destruct (Broker_AsyncOperate_spec (example_broker [] []) example_request [] 6
              0%nat (example_service []))
    as [_ Hstart]; [vm_compute; reflexivity|reflexivity|].
  destruct (Hstart "key1"%string) as (_ & _ & _ & Hup);
    [vm_compute; discriminate|reflexivity|vm_compute; reflexivity|].
  destruct Hup as [Hsilent _]; [vm_compute; discriminate|].
  apply Hsilent. reflexivity.
Defined.

Lemma example_passed_through_run :
  PassThruToUspService 0 example_get "controller1" controller_websocket
    example_registered
  = Some (USP_ERR_OK, example_passed_through).
Proof. vm_compute. reflexivity. Qed.


Lemma GetUspServiceInstance_controller_only_example :
  USP_BROKER_GetUspServiceInstance example_connected "svc1" 1 = INVALID /\
  USP_BROKER_GetUspServiceInstance example_connected "svc1" 0 = 1.
Proof.
  split.
  - erewrite (GetUspServiceInstance_controller_only example_connected "svc1" 1 0%nat);
      [|reflexivity|vm_compute; reflexivity|vm_compute; reflexivity].
    vm_compute. reflexivity.
  - erewrite (GetUspServiceInstance_controller_only example_connected "svc1" 0 0%nat);
      [|reflexivity|vm_compute; reflexivity|vm_compute; reflexivity].
    vm_compute. reflexivity.
Defined.

Lemma AddUspService_known_endpoint_example :
  exists b' s',
    USP_BROKER_AddUspService "svc1" controller_websocket example_registered
      = Some (USP_ERR_OK, b') /\
    usp_services b' !! 0%nat = Some s' /\
    instance s' = 1 /\ registered_paths s' = ["Device.Foo."%string] /\
    controller_mtp s' = controller_websocket /\
    agent_mtp s' = controller_websocket.
Proof.
  edestruct (AddUspService_known_endpoint example_registered "svc1"
               controller_websocket 0%nat)
    as [(Huds & _)|(b' & s' & Hrun & Hslots & Hinst & _ & _ & _ & Hpaths & _ & _ & _ &
                    Hctrl & Hagent & _)].
  - vm_compute. reflexivity.
  - vm_compute. reflexivity.
  - discriminate Huds.
  - exists b', s'. split; [exact Hrun|]. split.
    { rewrite Hslots. apply list_lookup_insert_eq. vm_compute. lia. }
    split; [exact Hinst|]. split; [exact Hpaths|]. split; [exact Hctrl|exact Hagent].
Defined.

(** The Service sends an OperationComplete whose object path and command
    name are 256 characters together, one more than the buffer for the
    command path holds.  No entry of the request map has that path; the
    entry whose path is its first 255 characters is removed, and its row of
    the Request table with it. *)
Lemma DeleteMatchingOperateRequest_long_path :
  (forall e,
     e ∈ req_map (example_service
                    [ReqMapEntry 5 (String.append example_long_object "Reboot(") "key1"]) ->
     ~ (rmap_path e = String.append example_long_object "Reboot()" /\
        command_key e = "key1"%string)) /\
  exists b' s',
    DeleteMatchingOperateRequest 0 example_long_object "Reboot()" "key1"
      example_long_running = Some (tt, b') /\
    usp_services b' !! 0%nat = Some s' /\
    req_map s' = [] /\
    request_table example_long_running = [5] /\ request_table b' = [].
Proof.
  split.
  - intros e He [Hpath _]. apply list_elem_of_singleton in He as ->.
    apply (f_equal String.length) in Hpath. vm_compute in Hpath. discriminate Hpath.
  - eexists. eexists. split; [vm_compute; reflexivity|].
    split; [vm_compute; reflexivity|]. repeat split.
Qed.

Lemma DeleteMatchingOperateRequest_frame_example :
  DeleteMatchingOperateRequest 0 "Device.Foo." "Reboot()" "key2" example_running
    = Some (tt, example_running).
Proof.
  apply (DeleteMatchingOperateRequest_frame example_running 0
           (example_service [ReqMapEntry 5 example_reboot "key1"])
           "Device.Foo." "Reboot()" "key2").
  - reflexivity.
  - intros e He [_ Hkey]. apply list_elem_of_singleton in He as ->.
    discriminate Hkey.
Defined.
End Runs.

Section ShortIds.
#[local] Existing Instance short_id_platform.

End ShortIds.

(* ===================================================================== *)
(** * The permission check of the passthru *)
(* ===================================================================== *)

(** Induction over a node and the nodes below it. *)
Lemma dm_perm_node_ind (Q : dm_perm_node -> Prop) :
  (forall bitmask children, Forall Q children -> Q (PermNode bitmask children)) ->
  forall node, Q node.
Proof.
  intros Hstep. fix IH 1. intros [bitmask children]. apply Hstep.
  induction children as [|child rest IHrest]; constructor; [apply IH|exact IHrest].
Qed.

Lemma CheckPassThruPermissions_unfold node depth required :
  CheckPassThruPermissions node depth required =
    if bool_decide (Z.land (permission_bitmask node) required <> required) then false
    else if bool_decide (depth <= 1) then true
    else forallb (fun child => CheckPassThruPermissions child (depth - 1) required)
                 (child_nodes node).
Proof. by destruct node. Qed.

(** The check passes exactly when every node it gets to has the
    permissions: the node itself, and the nodes less than [depth] levels
    below it. *)
Lemma CheckPassThruPermissions_levels node :
  forall depth required,
    CheckPassThruPermissions node depth required = true <->
    forall k n, Z.of_nat k < Z.max depth 1 -> n ∈ nodes_at_level k node ->
                permits required n.
Proof.
  induction node as [bitmask children IH] using dm_perm_node_ind.
  intros depth required. rewrite CheckPassThruPermissions_unfold.
  cbn [permission_bitmask child_nodes].
  case_bool_decide as Hown.
  { split; [done|]. intros Hall. exfalso. apply Hown.
    apply (Hall 0%nat (PermNode bitmask children)); [lia|].
    by apply list_elem_of_singleton. }
  assert (Hroot : permits required (PermNode bitmask children)).
  { unfold permits. cbn. first [done | by apply dec_stable]. }
  case_bool_decide as Hdepth.
  { split; [|done]. intros _ k n Hk Hn.
    assert (k = 0%nat) as -> by lia. cbn in Hn.
    apply list_elem_of_singleton in Hn as ->. done. }
  rewrite forallb_forall. split.
  - intros Hchildren [|k] n Hk Hn.
    + cbn in Hn. apply list_elem_of_singleton in Hn as ->. done.
    + cbn in Hn. apply list_elem_of_In, in_flat_map in Hn as (child & Hchild & Hn).
      apply list_elem_of_In in Hchild, Hn.
      rewrite list.Forall_forall in IH.
      apply (IH child Hchild (depth - 1) required) with (k := k); [|lia|done].
      apply Hchildren. by apply list_elem_of_In.
  - intros Hall child Hchild%list_elem_of_In.
    rewrite list.Forall_forall in IH. apply (IH child Hchild).
    intros k n Hk Hn. apply (Hall (S k)); [lia|].
    cbn. apply list_elem_of_In, in_flat_map. exists child.
    split; by apply list_elem_of_In.
Qed.

(** X1. [CheckPassThruPermissions] lets a request through exactly when the
    originator has all the required permissions on the node and on every
    node less than [depth] levels below it; a depth of 1 or less looks at
    the node alone. *)
Theorem CheckPassThruPermissions_spec node depth required :
  (CheckPassThruPermissions node depth required = true <->
   forall k n, Z.of_nat k < Z.max depth 1 -> n ∈ nodes_at_level k node ->
               permits required n) /\
  (depth <= 1 ->
   CheckPassThruPermissions node depth required =
     bool_decide (Z.land (permission_bitmask node) required = required)).
Proof.
  split; [apply CheckPassThruPermissions_levels|].
  intros Hdepth. rewrite CheckPassThruPermissions_unfold. unfold permits.
  case_bool_decide as Hown.
  - by rewrite bool_decide_false.
  - rewrite (bool_decide_true (depth <= 1)) by done.
    rewrite bool_decide_true; [done|]. first [done | by apply dec_stable].
Qed.

Lemma permits_subset required required' node :
  Z.land required' required = required' ->
  permits required node -> permits required' node.
Proof.
  unfold permits. intros Hsub Hall.
  rewrite <- Hsub at 1. rewrite Z.land_assoc.
  rewrite (Z.land_comm (permission_bitmask node)), <- Z.land_assoc, Hall. done.
Qed.

(** X2. A request that passes the permission check passes it for every
    smaller depth and for every subset of the required permissions. *)
Theorem CheckPassThruPermissions_monotone node depth depth' required required' :
  depth' <= depth ->
  Z.land required' required = required' ->
  CheckPassThruPermissions node depth required = true ->
  CheckPassThruPermissions node depth' required' = true.
Proof.
  intros Hdepth Hsub. rewrite !CheckPassThruPermissions_levels.
  intros Hall k n Hk Hn.
  apply (permits_subset required); [done|].
  apply (Hall k); [lia|done].
Qed.

(* ===================================================================== *)
(** * The identity of the Services in use *)
(* ===================================================================== *)

Lemma slot_identity_kept_refl s : slot_identity_kept s s.
Proof. by left. Qed.

Lemma slot_identity_kept_trans s1 s2 s3 :
  slot_identity_kept s1 s2 -> slot_identity_kept s2 s3 -> slot_identity_kept s1 s3.
Proof.
  intros [(Hi & He & Hg)|Hfree] [(Hi' & He' & Hg')|Hfree'].
  - left. by rewrite Hi', He', Hg'.
  - by right.
  - right. by rewrite Hi'.
  - by right.
Qed.

Lemma identity_kept_refl l : Forall2 slot_identity_kept l l.
Proof.
  apply Forall2_same_length_lookup. split; [done|].
  intros i x y ? ?. simplify_eq. apply slot_identity_kept_refl.
Qed.

Lemma identity_kept_trans l1 l2 l3 :
  Forall2 slot_identity_kept l1 l2 -> Forall2 slot_identity_kept l2 l3 ->
  Forall2 slot_identity_kept l1 l3.
Proof.
  intros H12 H23. apply Forall2_same_length_lookup. split.
  - etrans; by eapply list.Forall2_length.
  - intros i x z Hx Hz.
    destruct (Forall2_lookup_l _ _ _ _ _ H12 Hx) as (y & Hy & Hxy).
    destruct (Forall2_lookup_l _ _ _ _ _ H23 Hy) as (z' & Hz' & Hyz).
    simplify_eq. by eapply slot_identity_kept_trans.
Qed.

Lemma identity_kept_alter l us f :
  (forall s, slot_identity_kept s (f s)) ->
  Forall2 slot_identity_kept l (alter f us l).
Proof.
  intros Hf. apply Forall2_same_length_lookup. split; [by rewrite length_alter|].
  intros i x y Hx Hy. destruct (decide (i = us)) as [->|Hne].
  - rewrite list_lookup_alter_eq, Hx in Hy. cbn in Hy. simplify_eq. apply Hf.
  - rewrite list_lookup_alter_ne in Hy by done. simplify_eq.
    apply slot_identity_kept_refl.
Qed.

Lemma identity_kept_insert l us s s' :
  l !! us = Some s -> slot_identity_kept s s' ->
  Forall2 slot_identity_kept l (<[us := s']> l).
Proof.
  intros Hs Hss. apply Forall2_same_length_lookup. split; [by rewrite length_insert|].
  intros i x y Hx Hy. destruct (decide (i = us)) as [->|Hne].
  - erewrite lookup_insert_same in Hy by done. by simplify_eq.
  - rewrite list_lookup_insert_ne in Hy by done. simplify_eq.
    apply slot_identity_kept_refl.
Qed.

Lemma keeps_identity_ret {A} (a : A) : keeps_identity (ret a).
Proof. intros b r b' [= _ <-]. apply identity_kept_refl. Qed.

Lemma keeps_identity_terminate {A} : keeps_identity (@terminate A).
Proof. intros b r b' [=]. Qed.

Lemma keeps_identity_bind {A B} (m : M A) (k : A -> M B) :
  keeps_identity m -> (forall a, keeps_identity (k a)) -> keeps_identity (bind m k).
Proof.
  intros Hm Hk b r b'. unfold bind.
  destruct (m b) as [[a b1]|] eqn:Hmb; [|done]. intros Hkb.
  eapply identity_kept_trans; [by eapply Hm | by eapply Hk].
Qed.

Lemma keeps_identity_get_state : keeps_identity get_state.
Proof. intros b r b' [= _ <-]. apply identity_kept_refl. Qed.

Lemma keeps_identity_get_us us : keeps_identity (get_us us).
Proof.
  intros b r b'. unfold get_us. destruct (_ !! _); [|done].
  intros [= _ <-]. apply identity_kept_refl.
Qed.

Lemma keeps_identity_modify f :
  (forall b, usp_services (f b) = usp_services b) -> keeps_identity (modify f).
Proof. intros Hf b r b' [= _ <-]. rewrite Hf. apply identity_kept_refl. Qed.

Lemma keeps_identity_call e : keeps_identity (call e).
Proof. by apply keeps_identity_modify. Qed.

Lemma keeps_identity_update_us us f :
  (forall s, slot_identity_kept s (f s)) -> keeps_identity (update_us us f).
Proof. intros Hf b r b' [= _ <-]. by apply identity_kept_alter. Qed.

Lemma keeps_identity_for_each {A} (l : list A) (body : A -> M unit) :
  (forall x, keeps_identity (body x)) -> keeps_identity (for_each l body).
Proof.
  intros Hbody. induction l as [|x l IH]; simpl.
  - apply keeps_identity_ret.
  - apply keeps_identity_bind; [apply Hbody | intros _; apply IH].
Qed.

Create HintDb identity discriminated.
#[global] Hint Resolve keeps_identity_ret keeps_identity_terminate
  keeps_identity_get_state keeps_identity_get_us keeps_identity_call : identity.

(** Decompose a computation along its binds and case distinctions. *)
Ltac identity_step :=
  match goal with
  | |- keeps_identity (bind _ _) => apply keeps_identity_bind; [|intros ?]
  | |- keeps_identity (for_each _ _) => apply keeps_identity_for_each; intros ?
  | |- keeps_identity (modify _) => apply keeps_identity_modify; intros ?; reflexivity
  | |- keeps_identity (update_us _ _) =>
      apply keeps_identity_update_us; intros ?; left; repeat split; reflexivity
  | |- keeps_identity (if ?c then _ else _) => destruct c
  | |- keeps_identity (match ?x with _ => _ end) => destruct x
  | |- keeps_identity (let '(_, _) := ?x in _) => destruct x
  | |- _ => solve [auto with identity]
  end.

Ltac identity := repeat identity_step.

Section IdentityKept.
Context {P : Platform}.

Lemma keeps_identity_CalcBrokerMessageId len : keeps_identity (CalcBrokerMessageId len).
Proof. unfold CalcBrokerMessageId. identity. Qed.

Lemma keeps_identity_QueueMessage e m c : keeps_identity (MSG_HANDLER_QueueMessage e m c).
Proof. unfold MSG_HANDLER_QueueMessage. identity. Qed.

Lemma keeps_identity_DeleteMatchingOperateRequest us o c k :
  keeps_identity (DeleteMatchingOperateRequest us o c k).
Proof. unfold DeleteMatchingOperateRequest, DEVICE_REQUEST_DeleteInstance. identity. Qed.

Lemma keeps_identity_HandleNotification usp endpoint mtpc :
  keeps_identity (USP_BROKER_HandleNotification usp endpoint mtpc).
Proof.
  unfold USP_BROKER_HandleNotification, DEVICE_SUBSCRIPTION_RouteNotification,
    header_msg_id, MSG_HANDLER_QueueErrorMessage.
  identity; apply keeps_identity_DeleteMatchingOperateRequest.
Qed.

Lemma keeps_identity_AttemptPassThruForNotification current usp endpoint mtpc :
  keeps_identity (AttemptPassThruForNotification current usp endpoint mtpc).
Proof.
  unfold AttemptPassThruForNotification, DEVICE_SUBSCRIPTION_RouteNotification.
  identity.
Qed.

Lemma keeps_identity_SendOperate g p sy k a :
  keeps_identity (SendOperateAndProcessResponse g p sy k a).
Proof.
  unfold SendOperateAndProcessResponse, CreateBroker_OperateReq, ProcessOperateResponse.
  identity; apply keeps_identity_CalcBrokerMessageId.
Qed.

Lemma keeps_identity_AsyncOperate req args inst :
  keeps_identity (Broker_AsyncOperate req args inst).
Proof.
  unfold Broker_AsyncOperate, Broker_AsyncOperate_sending. identity; apply keeps_identity_SendOperate.
Qed.

Lemma keeps_identity_SyncOperate req key args :
  keeps_identity (Broker_SyncOperate req key args).
Proof.
  unfold Broker_SyncOperate. identity; apply keeps_identity_SendOperate.
Qed.

Lemma keeps_identity_PassThruToUspService us usp e c :
  keeps_identity (PassThruToUspService us usp e c).
Proof.
  unfold PassThruToUspService.
  identity; first [apply keeps_identity_CalcBrokerMessageId | apply keeps_identity_QueueMessage].
Qed.

Lemma keeps_identity_AttemptPassThruForResponse usp e :
  keeps_identity (AttemptPassThruForResponse usp e).
Proof.
  unfold AttemptPassThruForResponse. identity; apply keeps_identity_QueueMessage.
Qed.

Lemma keeps_identity_GetNotifyDest endpoint t :
  keeps_identity (USP_BROKER_GetNotifyDestForEndpoint endpoint t).
Proof. unfold USP_BROKER_GetNotifyDestForEndpoint. identity. Qed.

Lemma keeps_identity_free_controller us : keeps_identity (free_controller_mtp us).
Proof. unfold free_controller_mtp. identity. Qed.

Lemma keeps_identity_free_agent us : keeps_identity (free_agent_mtp us).
Proof. unfold free_agent_mtp. identity. Qed.

Lemma keeps_identity_UpdateUspServiceMRT us mtpc :
  keeps_identity (UpdateUspServiceMRT us mtpc).
Proof.
  unfold UpdateUspServiceMRT.
  identity; first [apply keeps_identity_free_controller | apply keeps_identity_free_agent].
Qed.

Lemma keeps_identity_MsgMap_Destroy us : keeps_identity (MsgMap_Destroy us).
Proof. unfold MsgMap_Destroy. identity. Qed.

Lemma keeps_identity_AgentDisconnect us flags :
  keeps_identity (HandleUspServiceAgentDisconnect us flags).
Proof.
  unfold HandleUspServiceAgentDisconnect, DEVICE_REQUEST_OperationComplete,
    DATA_MODEL_DeRegisterPath.
  identity; apply keeps_identity_MsgMap_Destroy.
Qed.

Lemma keeps_identity_FreeUspService us : keeps_identity (FreeUspService us).
Proof.
  intros b r b' Hrun. destruct (usp_services b !! us) as [s|] eqn:Hs.
  - rewrite (FreeUspService_run b us s Hs) in Hrun. injection Hrun as _ <-.
    simpl_state. eapply identity_kept_insert; [exact Hs|]. by right.
  - by rewrite FreeUspService_fails in Hrun.
Qed.

Lemma keeps_identity_HandleUspServiceDisconnect endpoint path_type :
  keeps_identity (USP_BROKER_HandleUspServiceDisconnect endpoint path_type).
Proof.
  unfold USP_BROKER_HandleUspServiceDisconnect, USP_REGISTER_GroupVendorHooks.
  identity; first [ apply keeps_identity_free_agent | apply keeps_identity_free_controller
                  | apply keeps_identity_AgentDisconnect | apply keeps_identity_FreeUspService ].
Qed.

Lemma keeps_identity_Stop : keeps_identity USP_BROKER_Stop.
Proof.
  unfold USP_BROKER_Stop.
  identity; first [apply keeps_identity_AgentDisconnect | apply keeps_identity_FreeUspService].
Qed.

Lemma keeps_identity_RegisterUspServicePath us path :
  keeps_identity (RegisterUspServicePath us path).
Proof. unfold RegisterUspServicePath. identity. Qed.

Lemma keeps_identity_HandleRegister_paths us allow paths :
  forall reg_resp cnt, keeps_identity (HandleRegister_paths us allow paths reg_resp cnt).
Proof.
  induction paths as [|rp rest IH]; intros reg_resp cnt; cbn [HandleRegister_paths].
  - identity.
  - apply keeps_identity_bind; [apply keeps_identity_RegisterUspServicePath|].
    intros err. destruct (_ && _); [identity|apply IH].
Qed.

Lemma keeps_identity_QueueGetSupportedDMToUspService us :
  keeps_identity (QueueGetSupportedDMToUspService us).
Proof.
  unfold QueueGetSupportedDMToUspService, DM_PRIV_AddSchemaPath_and_tag.
  identity; first [apply keeps_identity_CalcBrokerMessageId | apply keeps_identity_QueueMessage].
Qed.

Lemma keeps_identity_HandleRegister_exit endpoint mtpc resp cnt us :
  keeps_identity (HandleRegister_exit endpoint mtpc resp cnt us).
Proof.
  unfold HandleRegister_exit.
  identity; first [apply keeps_identity_QueueGetSupportedDMToUspService
                  | apply keeps_identity_QueueMessage].
Qed.

Lemma keeps_identity_mark_has_controller us mtpc :
  keeps_identity (mark_has_controller us mtpc).
Proof. unfold mark_has_controller. identity. Qed.
End IdentityKept.

(** ** Instance numbers *)

Lemma instances_distinct_kept l l' :
  Forall2 slot_identity_kept l l' -> instances_distinct l -> instances_distinct l'.
Proof.
  intros Hkept Hl i j si' sj' Hi Hj Hlive Heq.
  destruct (Forall2_lookup_r _ _ _ _ _ Hkept Hi) as (si & Hsi & Ri).
  destruct (Forall2_lookup_r _ _ _ _ _ Hkept Hj) as (sj & Hsj & Rj).
  destruct Ri as [(Ii & _)|Ifree]; [|done].
  destruct Rj as [(Ij & _)|Jfree]; [|congruence].
  apply (Hl i j si sj); congruence.
Qed.

(** The loop of [CalcNextUspServiceInstanceNumber]. *)
Lemma max_instance_fold services :
  forall acc,
    acc <= fold_left
             (fun max_instance us =>
                if bool_decide (instance us <> INVALID /\ instance us > max_instance)
                then instance us else max_instance) services acc /\
    forall i s, services !! i = Some s -> instance s <> INVALID ->
      instance s <= fold_left
             (fun max_instance us =>
                if bool_decide (instance us <> INVALID /\ instance us > max_instance)
                then instance us else max_instance) services acc.
Proof.
  induction services as [|s0 l IH]; intros acc; cbn [fold_left].
  - split; [lia|]. intros i s Hi. done.
  - destruct (IH (if bool_decide (instance s0 <> INVALID /\ instance s0 > acc)
                  then instance s0 else acc)) as [Hacc Hall].
    split.
    + case_bool_decide; lia.
    + intros [|i] s Hi Hlive; cbn in Hi.
      * injection Hi as ->. case_bool_decide as Hcase; [lia|].
        assert (instance s <= acc) by (apply Z.nlt_ge; intros ?; apply Hcase; split; [done|lia]).
        lia.
      * by apply (Hall i).
Qed.

Lemma CalcNextUspServiceInstanceNumber_max services :
  CalcNextUspServiceInstanceNumber services =
    if bool_decide (max_instance services < INT_MAX)
    then max_instance services + 1 else INT_MIN.
Proof. reflexivity. Qed.

Lemma max_instance_above services i s :
  services !! i = Some s -> instance s <> INVALID -> instance s <= max_instance services.
Proof.
  intros Hi Hlive. destruct (max_instance_fold services 0) as [_ Hall].
  by apply (Hall i s).
Qed.

Lemma max_instance_below services :
  instances_below_max services -> max_instance services < INT_MAX.
Proof.
  intros Hbelow. unfold max_instance.
  assert (H : forall acc, acc < INT_MAX ->
    fold_left
      (fun max_instance us =>
         if bool_decide (instance us <> INVALID /\ instance us > max_instance)
         then instance us else max_instance) services acc < INT_MAX);
    [|apply H; unfold INT_MAX; lia].
  induction services as [|s0 l IH]; intros acc Hacc; cbn [fold_left]; [done|].
  apply IH.
  - intros i s Hi. by apply (Hbelow (S i)).
  - case_bool_decide as Hcase; [|done]. apply (Hbelow 0%nat); [done|]. by destruct Hcase.
Qed.

(** While no instance number in use has reached [INT_MAX], the next one is
    above them all. *)
Lemma CalcNextUspServiceInstanceNumber_above services i s :
  instances_below_max services ->
  services !! i = Some s -> instance s <> INVALID ->
  instance s < CalcNextUspServiceInstanceNumber services.
Proof.
  intros Hbelow Hi Hlive. rewrite CalcNextUspServiceInstanceNumber_max.
  rewrite bool_decide_true by (by apply max_instance_below).
  pose proof (max_instance_above services i s Hi Hlive). lia.
Qed.

Lemma CalcNextUspServiceInstanceNumber_least services :
  instances_below_max services -> 1 <= CalcNextUspServiceInstanceNumber services.
Proof.
  intros Hbelow. rewrite CalcNextUspServiceInstanceNumber_max.
  rewrite bool_decide_true by (by apply max_instance_below).
  destruct (max_instance_fold services 0) as [Hacc _]. unfold max_instance. lia.
Qed.

Lemma instances_below_max_zeroed services us :
  instances_below_max services ->
  instances_below_max (<[us := zero_usp_service]> services).
Proof.
  intros Hbelow i s Hi Hlive. destruct (decide (i = us)) as [->|Hne].
  - apply list_lookup_insert_Some in Hi as [(_ & <- & _)|[? _]]; [|done].
    cbn. unfold INT_MAX. lia.
  - rewrite list_lookup_insert_ne in Hi by done. by apply (Hbelow i).
Qed.

(** The largest instance number in use is the instance number of a
    Service in use, unless it is 0. *)
Lemma max_instance_attained services :
  forall acc,
    let m := fold_left
               (fun max_instance us =>
                  if bool_decide (instance us <> INVALID /\ instance us > max_instance)
                  then instance us else max_instance) services acc in
    m = acc \/ exists i s, services !! i = Some s /\ instance s <> INVALID /\ instance s = m.
Proof.
  induction services as [|s0 l IH]; intros acc; cbn [fold_left]; [by left|].
  cbn zeta in *.
  destruct (IH (if bool_decide (instance s0 <> INVALID /\ instance s0 > acc)
                then instance s0 else acc)) as [Heq|(i & s & Hi & Hlive & Hm)].
  - rewrite Heq. case_bool_decide as Hcase; [|by left].
    right. exists 0%nat, s0. by destruct Hcase.
  - right. exists (S i), s. done.
Qed.

Lemma instances_positive_kept l l' :
  Forall2 slot_identity_kept l l' -> instances_positive l -> instances_positive l'.
Proof.
  intros Hkept Hl i s' Hi Hlive.
  destruct (Forall2_lookup_r _ _ _ _ _ Hkept Hi) as (s & Hs & [(Ii & _)|Ifree]); [|done].
  rewrite Ii. apply (Hl i s Hs). congruence.
Qed.

(** ** Endpoints *)

Lemma endpoints_distinct_kept l l' :
  Forall2 slot_identity_kept l l' -> endpoints_distinct l -> endpoints_distinct l'.
Proof.
  intros Hkept Hl i j si' sj' Hi Hj Hlivei Hlivej Heq.
  destruct (Forall2_lookup_r _ _ _ _ _ Hkept Hi) as (si & Hsi & Ri).
  destruct (Forall2_lookup_r _ _ _ _ _ Hkept Hj) as (sj & Hsj & Rj).
  destruct Ri as [(Ii & Ei & _)|Ifree]; [|done].
  destruct Rj as [(Ij & Ej & _)|Jfree]; [|done].
  apply (Hl i j si sj); congruence.
Qed.

(** ** Properties of the table that the handlers keep *)

Section IdentityInvariant.
Context {P : Platform}.
(** [I] is kept when the identity of the slots is, and when a new Service
    is added to a table within the bounds [B]. *)
Variable I B : list usp_service_t -> Prop.
Hypothesis I_kept :
  forall l l', Forall2 slot_identity_kept l l' -> I l -> I l'.
Hypothesis I_new :
  forall b us s0 endpoint mtpc group,
    usp_services b !! us = Some s0 -> instance s0 = INVALID ->
    FindUspServiceByEndpoint (usp_services b) endpoint = None ->
    B (usp_services b) -> I (usp_services b) ->
    I (<[us := new_service b us endpoint mtpc group]> (usp_services b)).

Lemma triple_keeps_identity {A} (m : M A) :
  keeps_identity m ->
  triple (fun b => I (usp_services b)) m (fun _ b => I (usp_services b)).
Proof. intros Hm b a b' Hb Hrun. eapply I_kept; [|exact Hb]. by eapply Hm. Qed.

Lemma triple_keeps_identity_within {A} (m : M A) :
  keeps_identity m ->
  triple (fun b => B (usp_services b) /\ I (usp_services b)) m
         (fun _ b => I (usp_services b)).
Proof. intros Hm b a b' [_ Hb] Hrun. eapply I_kept; [|exact Hb]. by eapply Hm. Qed.

Lemma AddUspService_kept endpoint mtpc :
  triple (fun b => FindUspServiceByEndpoint (usp_services b) endpoint = None /\
                   B (usp_services b) /\ I (usp_services b))
         (AddUspService endpoint mtpc) (fun _ b => I (usp_services b)).
Proof.
  intros b r b' (Hnone & Hbound & Hinv) Hrun.
  pose proof (AddUspService_outcome b endpoint mtpc) as Hout.
  destruct (FindUnusedUspService _) as [us|] eqn:Hfree.
  2: { rewrite Hout in Hrun. by injection Hrun as _ <-. }
  apply FindUnusedUspService_Some in Hfree as (s0 & Hs0 & Hfree). cbn zeta in Hout.
  destruct (bool_decide (DATA_MODEL_FindUnusedGroupId b = INVALID)).
  { rewrite Hout in Hrun. by injection Hrun as _ <-. }
  destruct (bool_decide (_ /\ _)); [congruence|].
  rewrite Hout in Hrun. injection Hrun as _ <-. simpl_state. by eapply I_new.
Qed.

Lemma USP_BROKER_AddUspService_kept endpoint mtpc :
  triple (fun b => B (usp_services b) /\ I (usp_services b))
         (USP_BROKER_AddUspService endpoint mtpc)
         (fun _ b => I (usp_services b)).
Proof.
  unfold USP_BROKER_AddUspService.
  eapply triple_bind
    with (Mid := fun b0 b => b0 = b /\ B (usp_services b) /\ I (usp_services b)).
  { intros b b0 b' Hinv [= <- <-]. done. }
  intros b0. destruct (FindUspServiceByEndpoint _ _) as [us|] eqn:Hfind.
  - eapply triple_weaken; [apply triple_keeps_identity| |done].
    + identity; first [apply keeps_identity_UpdateUspServiceMRT
                      | apply keeps_identity_mark_has_controller].
    + by intros b (_ & _ & ?).
  - eapply triple_bind; [eapply triple_weaken; [apply AddUspService_kept| |]|].
    { intros b [<- ?]. split; [exact Hfind|done]. }
    { intros a b Hpost. exact Hpost. }
    intros added. apply triple_keeps_identity. unfold USP_DM_InformInstance.
    identity; apply keeps_identity_mark_has_controller.
Qed.

Lemma HandleRegister_kept usp endpoint mtpc :
  triple (fun b => B (usp_services b) /\ I (usp_services b))
         (USP_BROKER_HandleRegister usp endpoint mtpc)
         (fun _ b => I (usp_services b)).
Proof.
  assert (Hexit : forall err us,
    keeps_identity
      (bind (header_msg_id usp) (fun id =>
         HandleRegister_exit endpoint mtpc (ERROR_RESP_CreateSingle id err) 0 us))).
  { intros err us. unfold header_msg_id.
    identity; apply keeps_identity_HandleRegister_exit. }
  unfold USP_BROKER_HandleRegister.
  repeat case_match; try (apply triple_keeps_identity_within, Hexit).
  eapply triple_bind
    with (Mid := fun b0 b => b0 = b /\ B (usp_services b) /\ I (usp_services b)).
  { intros b b0 b' Hinv [= <- <-]. done. }
  intros b0. destruct (FindUspServiceByEndpoint _ _) as [us|] eqn:Hfind.
  - eapply triple_weaken; [apply triple_keeps_identity| |done].
    + unfold header_msg_id.
      identity; first [apply keeps_identity_HandleRegister_paths
                      | apply keeps_identity_HandleRegister_exit].
    + by intros b (_ & _ & ?).
  - eapply triple_bind; [eapply triple_weaken; [apply AddUspService_kept| |]|].
    { intros b [<- ?]. split; [exact Hfind|done]. }
    { intros a b Hpost. exact Hpost. }
    intros added. apply triple_keeps_identity.
    unfold USP_DM_InformInstance, header_msg_id.
    identity; first [apply keeps_identity_HandleRegister_paths
                    | apply keeps_identity_HandleRegister_exit].
Qed.

Lemma handled_kept b b' :
  handled b b' -> B (usp_services b) -> I (usp_services b) -> I (usp_services b').
Proof.
  intros Hrun Hbound Hinv. pose proof (conj Hbound Hinv) as Hpre. destruct Hrun.
  - eapply USP_BROKER_AddUspService_kept; eauto.
  - eapply triple_keeps_identity; [apply keeps_identity_HandleUspServiceDisconnect|..]; eauto.
  - eapply HandleRegister_kept; eauto.
  - eapply triple_keeps_identity; [apply keeps_identity_HandleNotification|..]; eauto.
  - eapply triple_keeps_identity;
      [apply keeps_identity_AttemptPassThruForNotification|..]; eauto.
  - eapply triple_keeps_identity; [apply keeps_identity_AsyncOperate|..]; eauto.
  - eapply triple_keeps_identity; [apply keeps_identity_SyncOperate|..]; eauto.
  - eapply triple_keeps_identity; [apply keeps_identity_PassThruToUspService|..]; eauto.
  - eapply triple_keeps_identity; [apply keeps_identity_AttemptPassThruForResponse|..]; eauto.
  - eapply triple_keeps_identity; [apply keeps_identity_GetNotifyDest|..]; eauto.
  - eapply triple_keeps_identity; [apply keeps_identity_Stop|..]; eauto.
Qed.
End IdentityInvariant.

Section WellFormed.
Context {P : Platform}.

Lemma well_formed_list_kept l l' :
  Forall2 slot_identity_kept l l' -> well_formed_list l -> well_formed_list l'.
Proof.
  intros Hkept (Hlen & Hdist & Hpos). split_and!.
  - by rewrite <- (list.Forall2_length _ _ _ Hkept).
  - by eapply instances_distinct_kept.
  - by eapply instances_positive_kept.
Qed.

(** The table that a successful [USP_BROKER_Init] leaves has no slot in
    use. *)
Lemma USP_BROKER_Init_OK builtin :
  (USP_BROKER_Init builtin).1 = USP_ERR_OK ->
  usp_services (USP_BROKER_Init builtin).2
    = replicate MAX_USP_SERVICES (set_instance INVALID zero_usp_service).
Proof. unfold USP_BROKER_Init. by case_bool_decide. Qed.

Lemma USP_BROKER_Init_length builtin :
  length (usp_services (USP_BROKER_Init builtin).2) = MAX_USP_SERVICES.
Proof. unfold USP_BROKER_Init. case_bool_decide; apply length_replicate. Qed.

Lemma table_well_formed_Init builtin :
  (USP_BROKER_Init builtin).1 = USP_ERR_OK ->
  table_well_formed (USP_BROKER_Init builtin).2.
Proof.
  intros Hok. unfold table_well_formed. rewrite (USP_BROKER_Init_OK _ Hok).
  split_and!; [apply length_replicate| |].
  - intros i j si sj Hi Hj Hlive _.
    apply lookup_replicate in Hi as [-> _]. done.
  - intros i s Hi Hlive. apply lookup_replicate in Hi as [-> _]. done.
Qed.

(** A new Service gets an instance number that no Service in use has, while
    no instance number in use has reached [INT_MAX]. *)
Lemma instances_distinct_new_service b us s0 endpoint mtpc group :
  usp_services b !! us = Some s0 -> instance s0 = INVALID ->
  instances_below_max (usp_services b) ->
  instances_distinct (usp_services b) ->
  instances_distinct (<[us := new_service b us endpoint mtpc group]> (usp_services b)).
Proof.
  intros Hs0 Hfree Hbelow Hdist i j si sj Hi Hj Hlive Heq.
  assert (Hnew : forall k sk, k <> us -> usp_services b !! k = Some sk ->
            instance sk <> INVALID ->
            instance sk < instance (new_service b us endpoint mtpc group)).
  { intros k sk Hk Hsk Hlivek. cbn.
    apply (CalcNextUspServiceInstanceNumber_above _ k); [|by rewrite list_lookup_insert_ne|done].
    by apply instances_below_max_zeroed. }
  pose proof (new_service_live b us endpoint mtpc group) as Hlive_new.
  destruct (decide (i = us)) as [->|Hi_ne], (decide (j = us)) as [->|Hj_ne]; [done|..].
  - rewrite (lookup_insert_same _ _ _ _ Hs0) in Hi. injection Hi as <-.
    rewrite list_lookup_insert_ne in Hj by done.
    assert (instance sj <> INVALID) by congruence.
    pose proof (Hnew j sj Hj_ne Hj). lia.
  - rewrite (lookup_insert_same _ _ _ _ Hs0) in Hj. injection Hj as <-.
    rewrite list_lookup_insert_ne in Hi by done.
    pose proof (Hnew i si Hi_ne Hi Hlive). lia.
  - rewrite list_lookup_insert_ne in Hi, Hj by done. by eapply Hdist.
Qed.

Lemma well_formed_list_new_service b us s0 endpoint mtpc group :
  usp_services b !! us = Some s0 -> instance s0 = INVALID ->
  FindUspServiceByEndpoint (usp_services b) endpoint = None ->
  instances_below_max (usp_services b) ->
  well_formed_list (usp_services b) ->
  well_formed_list (<[us := new_service b us endpoint mtpc group]> (usp_services b)).
Proof.
  intros Hs0 Hfree _ Hbelow (Hlen & Hdist & Hpos). split_and!.
  - by rewrite length_insert.
  - by eapply instances_distinct_new_service.
  - intros i s Hi Hlive. destruct (decide (i = us)) as [->|Hne].
    + rewrite (lookup_insert_same _ _ _ _ Hs0) in Hi. injection Hi as <-. cbn.
      by apply CalcNextUspServiceInstanceNumber_least, instances_below_max_zeroed.
    + rewrite list_lookup_insert_ne in Hi by done. by apply (Hpos i).
Qed.

Lemma endpoints_distinct_new_service b us s0 endpoint mtpc group :
  usp_services b !! us = Some s0 -> instance s0 = INVALID ->
  FindUspServiceByEndpoint (usp_services b) endpoint = None ->
  True ->
  endpoints_distinct (usp_services b) ->
  endpoints_distinct (<[us := new_service b us endpoint mtpc group]> (usp_services b)).
Proof.
  intros Hs0 Hfree Hnone _ Hdist i j si sj Hi Hj Hlivei Hlivej Heq.
  destruct (decide (i = us)) as [->|Hi_ne], (decide (j = us)) as [->|Hj_ne]; [done|..].
  - rewrite (lookup_insert_same _ _ _ _ Hs0) in Hi. injection Hi as <-.
    rewrite list_lookup_insert_ne in Hj by done. cbn in Heq.
    by destruct (FindUspServiceByEndpoint_None _ _ _ _ Hnone Hj).
  - rewrite (lookup_insert_same _ _ _ _ Hs0) in Hj. injection Hj as <-.
    rewrite list_lookup_insert_ne in Hi by done. cbn in Heq.
    by destruct (FindUspServiceByEndpoint_None _ _ _ _ Hnone Hi).
  - rewrite list_lookup_insert_ne in Hi, Hj by done. by eapply Hdist.
Qed.

(** The steps that are calls of the handlers, and the two others. *)
Lemma step_kept (I B : list usp_service_t -> Prop) :
  (forall l l', Forall2 slot_identity_kept l l' -> I l -> I l') ->
  (forall b us s0 endpoint mtpc group,
     usp_services b !! us = Some s0 -> instance s0 = INVALID ->
     FindUspServiceByEndpoint (usp_services b) endpoint = None ->
     B (usp_services b) -> I (usp_services b) ->
     I (<[us := new_service b us endpoint mtpc group]> (usp_services b))) ->
  (forall l us s s', l !! us = Some s -> instance s' = instance s ->
     I l -> I (<[us := s']> l)) ->
  forall b b', step b b' -> B (usp_services b) -> I (usp_services b) ->
    I (usp_services b').
Proof.
  intros I_kept I_new I_same b b' Hstep Hbound Hinv.
  pose proof (handled_kept I B I_kept I_new) as Hkept.
  destruct Hstep as
    [endpoint mtpc err b b' Hrun | endpoint path_type b b' Hrun
    | usp endpoint mtpc b b' Hrun | usp endpoint mtpc b b' Hrun
    | req args inst err b b' Hrun | us usp endpoint mtpc err b b' Hrun
    | usp endpoint r b b' Hrun | us path err b b' Hlive Hrun
    | b b' Hrun | us index s s' b b' Hs Hb' Hinst Hpaths].
  - apply (Hkept b b'); [by eapply handled_AddUspService|done..].
  - apply (Hkept b b'); [by eapply handled_HandleUspServiceDisconnect|done..].
  - apply (Hkept b b'); [by eapply handled_HandleRegister|done..].
  - apply (Hkept b b'); [by eapply handled_HandleNotification|done..].
  - apply (Hkept b b'); [by eapply handled_AsyncOperate|done..].
  - apply (Hkept b b'); [by eapply handled_PassThruToUspService|done..].
  - apply (Hkept b b'); [by eapply handled_AttemptPassThruForResponse|done..].
  - eapply I_kept; [|exact Hinv].
    by eapply keeps_identity_RegisterUspServicePath.
  - apply (Hkept b b'); [by eapply handled_Stop|done..].
  - rewrite Hb'. by eapply I_same.
Qed.

Lemma well_formed_list_same l us s s' :
  l !! us = Some s -> instance s' = instance s ->
  well_formed_list l -> well_formed_list (<[us := s']> l).
Proof.
  intros Hs Hinst (Hlen & Hdist & Hpos).
  assert (Hsame : forall k sk, <[us := s']> l !! k = Some sk ->
            exists sk0, l !! k = Some sk0 /\ instance sk0 = instance sk).
  { intros k sk Hk. destruct (decide (k = us)) as [->|Hne].
    - rewrite (lookup_insert_same _ _ _ _ Hs) in Hk. injection Hk as <-. eauto.
    - rewrite list_lookup_insert_ne in Hk by done. eauto. }
  split_and!.
  - by rewrite length_insert.
  - intros i j si sj Hi Hj Hlive Heq.
    destruct (Hsame i si Hi) as (si0 & Hi0 & Ei), (Hsame j sj Hj) as (sj0 & Hj0 & Ej).
    apply (Hdist i j si0 sj0); congruence.
  - intros i si Hi Hlive. destruct (Hsame i si Hi) as (si0 & Hi0 & Ei).
    rewrite <- Ei. apply (Hpos i si0 Hi0). congruence.
Qed.

Lemma step_well_formed b b' :
  step b b' -> instances_below_max (usp_services b) ->
  table_well_formed b -> table_well_formed b'.
Proof.
  apply (step_kept well_formed_list instances_below_max).
  - apply well_formed_list_kept.
  - apply well_formed_list_new_service.
  - apply well_formed_list_same.
Qed.

Lemma reachable_length b :
  reachable b -> length (usp_services b) = MAX_USP_SERVICES.
Proof.
  induction 1 as [builtin|b b' _ IH Hstep]; [apply USP_BROKER_Init_length|].
  apply (step_kept (fun l => length l = MAX_USP_SERVICES) (fun _ => True)) with b;
    try done.
  - intros l l' Hkept <-. symmetry. by eapply list.Forall2_length.
  - intros. by rewrite length_insert.
  - intros. by rewrite length_insert.
Qed.

Lemma numbered_well_formed b : numbered b -> table_well_formed b.
Proof.
  induction 1 as [builtin Hok|b b' _ IH Hbelow Hrun].
  - by apply table_well_formed_Init.
  - by apply (handled_kept well_formed_list instances_below_max well_formed_list_kept
                well_formed_list_new_service b b').
Qed.

Lemma served_endpoints_distinct b : served b -> endpoints_distinct (usp_services b).
Proof.
  induction 1 as [builtin Hok|b b' _ IH Hrun].
  - rewrite (USP_BROKER_Init_OK _ Hok).
    intros i j si sj Hi Hj Hlive _ _.
    apply lookup_replicate in Hi as [-> _]. done.
  - by apply (handled_kept endpoints_distinct (fun _ => True) endpoints_distinct_kept
                endpoints_distinct_new_service b b').
Qed.
End WellFormed.
(* ===================================================================== *)
(** * The Service table *)
(* ===================================================================== *)

(** X3. [CalcNextUspServiceInstanceNumber] never gives INVALID.  While no
    instance number in use has reached INT_MAX, it is one more than the
    largest instance number in use, and 1 when no instance number in use is
    positive: it is between 1 and INT_MAX, it is above the instance number
    of every Service in use, and unless it is 1 its predecessor is the
    instance number of a Service in use.  When an instance number in use
    has reached INT_MAX, the [int] wraps and it is INT_MIN. *)
Theorem CalcNextUspServiceInstanceNumber_spec services :
  let next := CalcNextUspServiceInstanceNumber services in
  next <> INVALID /\
  (instances_below_max services ->
   1 <= next <= INT_MAX /\
   (forall i s, services !! i = Some s -> instance s <> INVALID -> instance s < next) /\
   (next = 1 \/
    exists i s, services !! i = Some s /\ instance s <> INVALID /\ next = instance s + 1)) /\
  ((exists i s, services !! i = Some s /\ instance s <> INVALID /\ INT_MAX <= instance s) ->
   next = INT_MIN).
Proof.
  intros next. subst next. split_and!.
  - apply CalcNextUspServiceInstanceNumber_live.
  - intros Hbelow. split_and!.
    + by apply CalcNextUspServiceInstanceNumber_least.
    + rewrite CalcNextUspServiceInstanceNumber_max.
      pose proof (max_instance_below services Hbelow).
      rewrite bool_decide_true by done. lia.
    + intros i s. by apply CalcNextUspServiceInstanceNumber_above.
    + rewrite CalcNextUspServiceInstanceNumber_max.
      rewrite bool_decide_true by (by apply max_instance_below).
      unfold max_instance.
      destruct (max_instance_attained services 0) as [->|(i & s & Hi & Hlive & <-)];
        [by left|right; eauto].
  - intros (i & s & Hi & Hlive & Hmax).
    rewrite CalcNextUspServiceInstanceNumber_max.
    pose proof (max_instance_above services i s Hi Hlive).
    rewrite bool_decide_false by lia. done.
Qed.

Section ServiceTable.
Context {P : Platform}.

(** X4. In every state that the Broker reaches the array has its
    MAX_USP_SERVICES slots.  A [USP_BROKER_Init] that succeeds leaves a
    table in which no two Services in use have the same instance number and
    the instance numbers in use count from 1, and so does every step from
    such a table in which no instance number in use has reached INT_MAX. *)
Theorem service_table_invariant :
  (forall b, reachable b -> length (usp_services b) = MAX_USP_SERVICES) /\
  (forall builtin,
     (USP_BROKER_Init builtin).1 = USP_ERR_OK ->
     instances_distinct (usp_services (USP_BROKER_Init builtin).2) /\
     instances_positive (usp_services (USP_BROKER_Init builtin).2)) /\
  (forall b b',
     step b b' ->
     instances_below_max (usp_services b) ->
     length (usp_services b) = MAX_USP_SERVICES ->
     instances_distinct (usp_services b) -> instances_positive (usp_services b) ->
     instances_distinct (usp_services b') /\ instances_positive (usp_services b')).
Proof.
  split_and!.
  - apply reachable_length.
  - intros builtin Hok. by destruct (table_well_formed_Init builtin Hok) as (_ & ? & ?).
  - intros b b' Hstep Hbelow Hlen Hdist Hpos.
    by destruct (step_well_formed b b' Hstep Hbelow) as (_ & ? & ?).
Qed.

(** X5. In every state that the Broker gets to by calls of its functions
    after a [USP_BROKER_Init] that succeeded, no two Services in use have
    the same endpoint, and the search by endpoint
    ([FindUspServiceByEndpoint]) finds a Service in use where it is.  So
    does the search by instance number ([FindUspServiceByInstance]) in the
    states that the Broker gets to while no instance number in use has
    reached INT_MAX: there no two Services in use have the same instance
    number. *)
Theorem lookups_agree b :
  served b ->
  endpoints_distinct (usp_services b) /\
  (numbered b -> instances_distinct (usp_services b)) /\
  forall us s,
    usp_services b !! us = Some s -> instance s <> INVALID ->
    FindUspServiceByEndpoint (usp_services b) (endpoint_id s) = Some us /\
    (numbered b -> FindUspServiceByInstance (usp_services b) (instance s) = Some us).
Proof.
  intros Hb. pose proof (served_endpoints_distinct b Hb) as Hends.
  split; [exact Hends|]. split.
  { intros Hn. by destruct (numbered_well_formed b Hn) as (_ & ? & _). }
  intros us s Hs Hlive. split.
  - unfold FindUspServiceByEndpoint. apply fmap_Some. exists (us, s). split; [|done].
    apply list_find_Some. split; [done|]. split; [done|].
    intros j y Hj Hlt [Hy Hey]. assert (j = us); [|lia].
    by apply (Hends j us y s).
  - intros Hn. destruct (numbered_well_formed b Hn) as (_ & Hdist & _).
    unfold FindUspServiceByInstance. apply fmap_Some. exists (us, s). split; [|done].
    apply list_find_Some. split; [done|]. split; [done|].
    intros j y Hj Hlt Hy. assert (j = us); [|lia].
    apply (Hdist j us y s); congruence.
Qed.

(** X6. The handlers of disconnects, notifications, commands and passthru,
    and [USP_BROKER_Stop], never change the instance number, the endpoint or
    the group id of a Service: each slot keeps the three of them, or is
    freed.  The array keeps its length. *)
Theorem handlers_keep_identity :
  (forall endpoint path_type,
     keeps_identity (USP_BROKER_HandleUspServiceDisconnect endpoint path_type)) /\
  keeps_identity USP_BROKER_Stop /\
  (forall usp endpoint mtpc,
     keeps_identity (USP_BROKER_HandleNotification usp endpoint mtpc)) /\
  (forall current usp endpoint mtpc,
     keeps_identity (AttemptPassThruForNotification current usp endpoint mtpc)) /\
  (forall req args inst, keeps_identity (Broker_AsyncOperate req args inst)) /\
  (forall req key args, keeps_identity (Broker_SyncOperate req key args)) /\
  (forall us usp endpoint mtpc,
     keeps_identity (PassThruToUspService us usp endpoint mtpc)) /\
  (forall usp endpoint, keeps_identity (AttemptPassThruForResponse usp endpoint)) /\
  (forall endpoint t, keeps_identity (USP_BROKER_GetNotifyDestForEndpoint endpoint t)) /\
  (forall us path, keeps_identity (RegisterUspServicePath us path)).
Proof.
  split_and!; intros.
  - apply keeps_identity_HandleUspServiceDisconnect.
  - apply keeps_identity_Stop.
  - apply keeps_identity_HandleNotification.
  - apply keeps_identity_AttemptPassThruForNotification.
  - apply keeps_identity_AsyncOperate.
  - apply keeps_identity_SyncOperate.
  - apply keeps_identity_PassThruToUspService.
  - apply keeps_identity_AttemptPassThruForResponse.
  - apply keeps_identity_GetNotifyDest.
  - apply keeps_identity_RegisterUspServicePath.
Qed.
End ServiceTable.
(* ===================================================================== *)
(** * Disconnecting *)
(* ===================================================================== *)

Section Disconnect.
Context {P : Platform}.

Lemma for_each_OperationComplete rm err :
  forall b,
    for_each rm (fun rmap => DEVICE_REQUEST_OperationComplete (request_instance rmap) err) b =
    Some (tt,
      set_request_table (requests_completed (request_table b) rm)
        (set_trace
           (trace b ++
              ((fun rmap => Ev_RequestOperationComplete (request_instance rmap) err) <$> rm))
           b)).
Proof.
  induction rm as [|rmap rest IH]; intros b; cbn [for_each].
  - unfold ret, requests_completed. cbn. rewrite app_nil_r. by destruct b.
  - unfold DEVICE_REQUEST_OperationComplete at 1.
    unfold bind at 1 2. rewrite call_run. unfold modify at 1.
    rewrite IH. simpl_state. cbn [fmap list_fmap]. by rewrite <- app_assoc.
Qed.

Lemma for_each_DeRegisterPath paths :
  forall b,
    for_each paths DATA_MODEL_DeRegisterPath b =
    Some (tt,
      set_schema (schema_without (schema b) paths)
        (set_trace (trace b ++ (Ev_DeRegisterPath <$> paths)) b)).
Proof.
  induction paths as [|path rest IH]; intros b; cbn [for_each].
  - unfold ret, schema_without. cbn. rewrite app_nil_r. by destruct b.
  - unfold DATA_MODEL_DeRegisterPath at 1.
    unfold bind at 1 2. rewrite call_run. unfold modify at 1.
    rewrite IH. simpl_state. cbn [fmap list_fmap]. by rewrite <- app_assoc.
Qed.

Lemma MsgMap_Destroy_run b us s :
  usp_services b !! us = Some s ->
  MsgMap_Destroy us b =
    Some (tt,
      set_usp_services (<[us := set_msg_map [] s]> (usp_services b))
        (set_trace
           (trace b ++ ((fun map => Ev_FreeMTPConnection (mtp_conn map)) <$> msg_map s)) b)).
Proof.
  intros Hs. unfold MsgMap_Destroy.
  erewrite (bind_run (get_us _)) by (by apply get_us_run).
  erewrite (bind_run (for_each _ _)) by apply for_each_call.
  erewrite update_us_run by lookup_us Hs. reflexivity.
Qed.

(** [HandleUspServiceAgentDisconnect] on a slot of the array. *)
Lemma HandleUspServiceAgentDisconnect_run b us s flags :
  usp_services b !! us = Some s ->
  HandleUspServiceAgentDisconnect us flags b = Some (tt, agent_disconnected b us s flags).
Proof.
  intros Hs. unfold HandleUspServiceAgentDisconnect, agent_disconnected, agent_gone.
  erewrite (bind_run (get_us _)) by (by apply get_us_run).
  erewrite (bind_run (call _)) by apply call_run.
  erewrite (bind_run (update_us _ _)) by (apply update_us_run; lookup_us Hs).
  destruct (bool_decide (Z.land flags FAIL_USP_COMMANDS_IN_PROGRESS <> 0)).
  - erewrite (bind_run (bind _ _)).
    2: { erewrite (bind_run (for_each _ _)) by apply for_each_OperationComplete.
         apply update_us_run. lookup_us Hs. }
    erewrite (bind_run (MsgMap_Destroy _)) by (apply MsgMap_Destroy_run; lookup_us Hs).
    erewrite (bind_run (for_each _ _)) by apply for_each_DeRegisterPath.
    erewrite update_us_run by lookup_us Hs.
    simpl_state. rewrite !list_insert_insert_eq. cbn. rewrite <- !app_assoc. reflexivity.
  - erewrite (bind_run (ret _)) by reflexivity.
    erewrite (bind_run (MsgMap_Destroy _)) by (apply MsgMap_Destroy_run; lookup_us Hs).
    erewrite (bind_run (for_each _ _)) by apply for_each_DeRegisterPath.
    erewrite update_us_run by lookup_us Hs.
    simpl_state. rewrite !list_insert_insert_eq. cbn. rewrite <- !app_assoc. reflexivity.
Qed.

Lemma GroupVendorHooks_run b group in_use :
  USP_REGISTER_GroupVendorHooks group in_use b =
    Some (tt,
      set_groups_in_use
        (if in_use then group :: groups_in_use b
         else filter (fun g => g <> group) (groups_in_use b))
        (set_trace (trace b ++ [Ev_RegisterGroupVendorHooks group in_use]) b)).
Proof. unfold USP_REGISTER_GroupVendorHooks. by erewrite (bind_run (call _)) by apply call_run. Qed.

(** The tail of [USP_BROKER_HandleUspServiceDisconnect]. *)
Lemma remove_if_unconnected_run b us s :
  usp_services b !! us = Some s ->
  (let* s := get_us us in
   if bool_decide (protocol (controller_mtp s) = kMtpProtocol_None /\
                   protocol (agent_mtp s) = kMtpProtocol_None)
   then
     do* USP_REGISTER_GroupVendorHooks (group_id s) false in
     do* call (Ev_RegisterSubscriptionVendorHooks (group_id s)) in
     do* call (Ev_RegisterMultiDeleteVendorHook (group_id s)) in
     do* call (Ev_RegisterCreateObjectVendorHook (group_id s)) in
     do* call (Ev_NotifyInstanceDeleted
                 (USP_SNPRINTF MAX_DM_PATH
                    (String.append DEVICE_SERVICE_ROOT
                       (String.append "." (string_of_Z (instance s)))))) in
     FreeUspService us
   else ret tt) b = Some (tt, removed_if_unconnected b us s).
Proof.
  intros Hs. unfold removed_if_unconnected, unconnected.
  run_with Hs. case_bool_decide; [|reflexivity].
  erewrite (bind_run (USP_REGISTER_GroupVendorHooks _ _)) by apply GroupVendorHooks_run.
  do 4 run_with Hs.
  erewrite FreeUspService_run by lookup_us Hs.
  unfold service_removed. simpl_state. by rewrite <- !app_assoc.
Qed.

(** The agent of the Service (the connection to the Broker's controller
    socket) disconnects. *)
Lemma HandleUspServiceDisconnect_agent_run b endpoint us s :
  FindUspServiceByEndpoint (usp_services b) endpoint = Some us ->
  usp_services b !! us = Some s ->
  USP_BROKER_HandleUspServiceDisconnect endpoint kUdsPathType_BrokersController b =
    Some (tt,
      removed_if_unconnected
        (agent_disconnected
           (set_trace (trace b ++ [Ev_FreeMTPConnection (controller_mtp s)]) b)
           us (set_controller_mtp (freed_mtp_conn (controller_mtp s)) s)
           FAIL_USP_COMMANDS_IN_PROGRESS)
        us (agent_side_closed s)).
Proof.
  intros Hfind Hs. unfold USP_BROKER_HandleUspServiceDisconnect.
  run_with Hs. rewrite Hfind.
  erewrite (bind_run (bind _ _)).
  2: { erewrite (bind_run (free_controller_mtp _)) by (by apply free_controller_mtp_run).
       apply HandleUspServiceAgentDisconnect_run. lookup_us Hs. }
  erewrite remove_if_unconnected_run.
  2: { unfold agent_disconnected. simpl_state. rewrite list_insert_insert_eq.
       apply list_lookup_insert_eq. by eapply lookup_lt_Some. }
  unfold agent_disconnected, agent_side_closed. simpl_state.
  by rewrite list_insert_insert_eq.
Qed.

(** The controller of the Service (the connection to the Broker's agent
    socket) disconnects. *)
Lemma HandleUspServiceDisconnect_controller_run b endpoint us s :
  FindUspServiceByEndpoint (usp_services b) endpoint = Some us ->
  usp_services b !! us = Some s ->
  USP_BROKER_HandleUspServiceDisconnect endpoint kUdsPathType_BrokersAgent b =
    Some (tt,
      removed_if_unconnected
        (set_usp_services (<[us := controller_side_closed s]> (usp_services b))
           (set_trace (trace b ++ [Ev_FreeMTPConnection (agent_mtp s)]) b))
        us (controller_side_closed s)).
Proof.
  intros Hfind Hs. unfold USP_BROKER_HandleUspServiceDisconnect.
  run_with Hs. rewrite Hfind.
  erewrite (bind_run (bind _ _)).
  2: { erewrite (bind_run (free_agent_mtp _)) by (by apply free_agent_mtp_run).
       apply update_us_run. lookup_us Hs. }
  erewrite remove_if_unconnected_run.
  2: { simpl_state. rewrite list_insert_insert_eq.
       apply list_lookup_insert_eq. by eapply lookup_lt_Some. }
  unfold controller_side_closed. simpl_state. by rewrite list_insert_insert_eq.
Qed.

(** X7. When the agent of a known Service disconnects (its connection to
    the Broker's controller socket), [USP_BROKER_HandleUspServiceDisconnect]
    returns with the Service's controller connection freed, its registered
    paths, subscription map, request map and message map empty, and every
    other slot as it was.  On the way it has called
    [DATA_MODEL_DeRegisterPath] for each registered path,
    [DEVICE_REQUEST_OperationComplete] with USP_ERR_COMMAND_FAILURE for each
    request of the request map, and has freed the connection of each message
    map entry.  The slot is freed (instance INVALID) exactly if the Service
    was not connected to the Broker's agent socket. *)
Theorem HandleUspServiceDisconnect_agent b endpoint us s :
  FindUspServiceByEndpoint (usp_services b) endpoint = Some us ->
  usp_services b !! us = Some s ->
  exists b' s' events,
    USP_BROKER_HandleUspServiceDisconnect endpoint kUdsPathType_BrokersController b =
      Some (tt, b') /\
    usp_services b' = <[us := s']> (usp_services b) /\
    trace b' = trace b ++ events /\
    protocol (controller_mtp s') = kMtpProtocol_None /\
    registered_paths s' = [] /\ subs_map s' = [] /\ req_map s' = [] /\ msg_map s' = [] /\
    instance s' =
      (if bool_decide (protocol (agent_mtp s) = kMtpProtocol_None)
       then INVALID else instance s) /\
    (forall path, path ∈ registered_paths s -> Ev_DeRegisterPath path ∈ events) /\
    (forall rmap, rmap ∈ req_map s ->
       Ev_RequestOperationComplete (request_instance rmap) USP_ERR_COMMAND_FAILURE
         ∈ events) /\
    (forall map, map ∈ msg_map s -> Ev_FreeMTPConnection (mtp_conn map) ∈ events).
Proof.
  intros Hfind Hs.
  rewrite (HandleUspServiceDisconnect_agent_run b endpoint us s Hfind Hs).
  unfold removed_if_unconnected, unconnected, agent_side_closed, agent_gone.
  cbn [controller_mtp agent_mtp set_registered_paths set_msg_map set_req_map
       set_subs_map set_controller_mtp freed_mtp_conn protocol].
  pose (events := fun rest : list event =>
    Ev_FreeMTPConnection (controller_mtp s) ::
    Ev_FreeAllVendorLayerSubsForGroup (group_id s) ::
    ((fun rmap => Ev_RequestOperationComplete (request_instance rmap)
                    USP_ERR_COMMAND_FAILURE) <$> req_map s) ++
    ((fun map => Ev_FreeMTPConnection (mtp_conn map)) <$> msg_map s) ++
    (Ev_DeRegisterPath <$> registered_paths s) ++ rest).
  assert (Hevents : forall rest,
    (forall path, path ∈ registered_paths s -> Ev_DeRegisterPath path ∈ events rest) /\
    (forall rmap, rmap ∈ req_map s ->
       Ev_RequestOperationComplete (request_instance rmap) USP_ERR_COMMAND_FAILURE
         ∈ events rest) /\
    (forall map, map ∈ msg_map s -> Ev_FreeMTPConnection (mtp_conn map) ∈ events rest)).
  { intros rest. unfold events.
    split_and!; intros x Hx; do 2 right; rewrite !elem_of_app.
    - right. right. left. by apply (list_elem_of_fmap_2 Ev_DeRegisterPath).
    - left. by apply (list_elem_of_fmap_2
        (fun rmap => Ev_RequestOperationComplete (request_instance rmap)
                       USP_ERR_COMMAND_FAILURE)).
    - right. left. by apply (list_elem_of_fmap_2
        (fun map => Ev_FreeMTPConnection (mtp_conn map))). }
  case_bool_decide as Hcase.
  - destruct Hcase as [_ Hagent]. rewrite bool_decide_true by done.
    eexists _, _, (events _). split; [reflexivity|].
    unfold service_removed, agent_disconnected, agent_gone. simpl_state.
    rewrite list_insert_insert_eq.
    split; [reflexivity|]. split.
    { rewrite bool_decide_true by done. unfold events.
      rewrite <- !app_assoc. cbn [app]. reflexivity. }
    split_and!; try reflexivity; apply Hevents.
  - assert (Hagent : protocol (agent_mtp s) <> kMtpProtocol_None).
    { intros Hagent. by apply Hcase. }
    rewrite bool_decide_false by done.
    eexists _, _, (events []). split; [reflexivity|].
    unfold agent_disconnected, agent_gone. simpl_state.
    split; [reflexivity|]. split.
    { rewrite bool_decide_true by done. unfold events.
      rewrite <- !app_assoc, app_nil_r. cbn [app]. reflexivity. }
    split_and!; try reflexivity; apply Hevents.
Qed.

(** X8. When the controller of a known Service disconnects (its connection
    to the Broker's agent socket) while the agent of the Service is still
    connected, the Service stays in the table: the connection is freed and
    [has_controller] cleared, and its registered paths, its maps, the other
    slots and the rest of the state are untouched.  The Service is still
    found by its endpoint, and [USP_BROKER_GetUspServiceInstance] gives its
    instance number unless the caller asks for Services with a controller
    only. *)
Theorem HandleUspServiceDisconnect_controller b endpoint us s :
  FindUspServiceByEndpoint (usp_services b) endpoint = Some us ->
  usp_services b !! us = Some s ->
  protocol (controller_mtp s) <> kMtpProtocol_None ->
  exists b',
    USP_BROKER_HandleUspServiceDisconnect endpoint kUdsPathType_BrokersAgent b =
      Some (tt, b') /\
    b' = set_usp_services
           (<[us := set_has_controller false
                      (set_agent_mtp (freed_mtp_conn (agent_mtp s)) s)]> (usp_services b))
           (set_trace (trace b ++ [Ev_FreeMTPConnection (agent_mtp s)]) b) /\
    FindUspServiceByEndpoint (usp_services b') endpoint = Some us /\
    forall flags,
      USP_BROKER_GetUspServiceInstance b' endpoint flags =
        if bool_decide (Z.land (Z.land flags ONLY_CONTROLLER_CONNECTIONS) 1 <> 0)
        then INVALID else instance s.
Proof.
  intros Hfind Hs Hconn.
  rewrite (HandleUspServiceDisconnect_controller_run b endpoint us s Hfind Hs).
  unfold removed_if_unconnected, unconnected, controller_side_closed.
  rewrite bool_decide_false by (intros [? _]; done).
  eexists. split; [reflexivity|]. split; [reflexivity|].
  assert (Hfind' : FindUspServiceByEndpoint
            (<[us := set_has_controller false
                       (set_agent_mtp (freed_mtp_conn (agent_mtp s)) s)]> (usp_services b))
            endpoint = Some us).
  { by erewrite FindUspServiceByEndpoint_insert. }
  split; [exact Hfind'|]. intros flags.
  unfold USP_BROKER_GetUspServiceInstance. simpl_state.
  by rewrite Hfind', (lookup_insert_same _ _ _ _ Hs).
Qed.

Lemma MsgMap_Find_nil id : MsgMap_Find [] id = None.
Proof. reflexivity. Qed.

(** X9. Once the agent of a Service has disconnected, no response from its
    endpoint is passed back to an originator: [AttemptPassThruForResponse]
    returns false and leaves the state as it is, whatever requests had been
    passed through before.  The endpoints of the Services in use are taken
    to be distinct. *)
Theorem AttemptPassThruForResponse_after_disconnect b endpoint b' usp :
  endpoints_distinct (usp_services b) ->
  USP_BROKER_HandleUspServiceDisconnect endpoint kUdsPathType_BrokersController b =
    Some (tt, b') ->
  AttemptPassThruForResponse usp endpoint b' = Some (false, b').
Proof.
  intros Hdist Hrun. unfold AttemptPassThruForResponse.
  destruct (match body usp, header usp with
            | Some (USP__BODY__MSG_BODY_RESPONSE _), Some h
            | Some (USP__BODY__MSG_BODY_ERROR _), Some h => msg_id h
            | _, _ => None
            end) as [id|]; [|reflexivity].
  erewrite (bind_run get_state) by reflexivity.
  destruct (FindUspServiceByEndpoint (usp_services b') endpoint) as [us'|] eqn:Hfind';
    [|reflexivity].
  apply FindUspServiceByEndpoint_Some in Hfind' as (s'' & Hs'' & Hlive'' & Hend'' & _).
  erewrite (bind_run (get_us _)) by (by apply get_us_run).
  enough (msg_map s'' = []) as -> by reflexivity.
  destruct (FindUspServiceByEndpoint (usp_services b) endpoint) as [us|] eqn:Hfind.
  2: { unfold USP_BROKER_HandleUspServiceDisconnect in Hrun.
       erewrite (bind_run get_state) in Hrun by reflexivity.
       rewrite Hfind in Hrun. injection Hrun as <-.
       enough (FindUspServiceByEndpoint (usp_services b) endpoint <> None) by done.
       unfold FindUspServiceByEndpoint.
       destruct (list_find _ _) as [[? ?]|] eqn:Hnone; [done|].
       apply list_find_None in Hnone.
       apply list_elem_of_lookup_2 in Hs''.
       rewrite list.Forall_forall in Hnone. by destruct (Hnone s'' Hs''). }
  pose proof Hfind as (s & Hs & Hlive & Hend & _)%FindUspServiceByEndpoint_Some.
  rewrite (HandleUspServiceDisconnect_agent_run b endpoint us s Hfind Hs) in Hrun.
  injection Hrun as <-.
  assert (Hslots : exists s',
    usp_services
      (removed_if_unconnected
         (agent_disconnected
            (set_trace (trace b ++ [Ev_FreeMTPConnection (controller_mtp s)]) b)
            us (set_controller_mtp (freed_mtp_conn (controller_mtp s)) s)
            FAIL_USP_COMMANDS_IN_PROGRESS)
         us (agent_side_closed s)) = <[us := s']> (usp_services b) /\
    msg_map s' = []).
  { unfold removed_if_unconnected, service_removed, agent_disconnected.
    destruct (unconnected _); simpl_state; rewrite ?list_insert_insert_eq; eauto. }
  destruct Hslots as (s' & Hslots & Hempty). rewrite Hslots in Hs''.
  destruct (decide (us' = us)) as [->|Hne].
  - rewrite (lookup_insert_same _ _ _ _ Hs) in Hs''. by injection Hs'' as <-.
  - rewrite list_lookup_insert_ne in Hs'' by done.
    destruct Hne. apply (Hdist us' us s'' s); congruence.
Qed.
End Disconnect.

(* ===================================================================== *)
(** * Stopping the Broker *)
(* ===================================================================== *)

Section Stop.
Context {P : Platform}.

(** One round of the loop of [USP_BROKER_Stop]. *)
Lemma Stop_slot_run b us s :
  usp_services b !! us = Some s ->
  exists b1 events,
    (let* s := get_us us in
     if bool_decide (instance s <> INVALID) then
       do* HandleUspServiceAgentDisconnect us DONT_FAIL_USP_COMMANDS_IN_PROGRESS in
       FreeUspService us
     else ret tt) b = Some (tt, b1) /\
    usp_services b1 = <[us := stopped s]> (usp_services b) /\
    request_table b1 = request_table b /\
    trace b1 = trace b ++ events /\
    (forall inst err, Ev_RequestOperationComplete inst err ∉ events) /\
    (instance s <> INVALID ->
     forall path, path ∈ registered_paths s -> Ev_DeRegisterPath path ∈ events).
Proof.
  intros Hs. run_with Hs. unfold stopped. case_bool_decide as Hlive.
  - erewrite (bind_run (HandleUspServiceAgentDisconnect _ _))
      by (by apply HandleUspServiceAgentDisconnect_run).
    erewrite FreeUspService_run
      by (unfold agent_disconnected; simpl_state; by apply (lookup_insert_same _ _ s)).
    eexists _, _. split; [reflexivity|].
    unfold agent_disconnected. simpl_state. rewrite list_insert_insert_eq.
    rewrite bool_decide_false by (intros H; by apply H).
    split; [reflexivity|]. split; [reflexivity|]. split.
    { rewrite <- !app_assoc. reflexivity. }
    split.
    + intros inst err Hin. cbn [app] in Hin.
      rewrite !elem_of_cons, !elem_of_app, !elem_of_cons, !list_elem_of_fmap in Hin.
      destruct Hin as [?|[(? & ? & _)|[(? & ? & _)|[?|[?|(? & ? & Hnil)]]]]];
        done.
    + intros _ path Hpath. cbn [app]. right. rewrite !elem_of_app. right. left.
      by apply (list_elem_of_fmap_2 Ev_DeRegisterPath).
  - exists b, []. split; [reflexivity|]. rewrite app_nil_r, list_insert_id by done.
    split_and!; try done. intros inst err Hin. by apply elem_of_nil in Hin.
Qed.

(** The loop of [USP_BROKER_Stop] over the slots [l]. *)
Lemma Stop_loop_run l :
  forall b,
    NoDup l -> (forall us, us ∈ l -> (us < length (usp_services b))%nat) ->
    exists b' events,
      for_each l (fun us =>
        let* s := get_us us in
        if bool_decide (instance s <> INVALID) then
          do* HandleUspServiceAgentDisconnect us DONT_FAIL_USP_COMMANDS_IN_PROGRESS in
          FreeUspService us
        else ret tt) b = Some (tt, b') /\
      (forall i, usp_services b' !! i =
                 if bool_decide (i ∈ l) then stopped <$> usp_services b !! i
                 else usp_services b !! i) /\
      request_table b' = request_table b /\
      trace b' = trace b ++ events /\
      (forall inst err, Ev_RequestOperationComplete inst err ∉ events) /\
      (forall us s path,
         us ∈ l -> usp_services b !! us = Some s -> instance s <> INVALID ->
         path ∈ registered_paths s -> Ev_DeRegisterPath path ∈ events).
Proof.
  induction l as [|us l IH]; intros b Hnd Hlen.
  - exists b, []. split; [reflexivity|]. rewrite app_nil_r. split_and!; try done.
    + intros inst err Hin. by apply elem_of_nil in Hin.
    + intros us s path Hin. by apply elem_of_nil in Hin.
  - apply list.NoDup_cons in Hnd as [Hus Hnd].
    destruct (lookup_lt_is_Some_2 (usp_services b) us) as [s Hs].
    { apply Hlen. by left. }
    destruct (Stop_slot_run b us s Hs)
      as (b1 & ev1 & Hrun1 & Hsv1 & Hreq1 & Htr1 & Hno1 & Hde1).
    destruct (IH b1 Hnd) as (b' & ev & Hrun & Hsv & Hreq & Htr & Hno & Hde).
    { intros i Hi. rewrite Hsv1, length_insert. apply Hlen. by right. }
    exists b', (ev1 ++ ev). split.
    { cbn [for_each]. by erewrite bind_run by exact Hrun1. }
    split_and!.
    + intros i. rewrite Hsv, Hsv1. destruct (decide (i = us)) as [->|Hne].
      * rewrite bool_decide_false by done. rewrite bool_decide_true by by left.
        by rewrite (lookup_insert_same _ _ _ _ Hs), Hs.
      * rewrite list_lookup_insert_ne by done.
        apply (f_equal (fun c : bool => if c then _ else _)).
        apply bool_decide_ext. rewrite elem_of_cons.
        split; [by right | by intros [?|?]].
    + congruence.
    + by rewrite Htr, Htr1, app_assoc.
    + intros inst err [Hin|Hin]%elem_of_app; [by eapply Hno1|by eapply Hno].
    + intros i si path Hi Hsi Hlive Hpath. apply elem_of_app.
      apply elem_of_cons in Hi as [->|Hi].
      * left. rewrite Hs in Hsi. injection Hsi as <-. by apply Hde1.
      * right. apply (Hde i si path); try done.
        rewrite Hsv1, list_lookup_insert_ne; [done|]. intros ->. done.
Qed.

(** X10. [USP_BROKER_Stop] leaves no Service in the table: every slot that
    was in use is freed, with its registered paths and its maps empty, after
    [DATA_MODEL_DeRegisterPath] has been called for each of its registered
    paths; the unused slots are as they were.  The commands in progress are
    not completed: no request is signalled as complete and the Request table
    is unchanged. *)
Theorem USP_BROKER_Stop_frees_all b :
  length (usp_services b) = MAX_USP_SERVICES ->
  exists b' events,
    USP_BROKER_Stop b = Some (tt, b') /\
    trace b' = trace b ++ events /\
    usp_services b' = stopped <$> usp_services b /\
    Forall (fun s' => instance s' = INVALID) (usp_services b') /\
    (forall us s, usp_services b !! us = Some s -> instance s <> INVALID ->
       exists s', usp_services b' !! us = Some s' /\
         registered_paths s' = [] /\ subs_map s' = [] /\ req_map s' = [] /\
         msg_map s' = [] /\ endpoint_id s' = String.EmptyString /\
         forall path, path ∈ registered_paths s -> Ev_DeRegisterPath path ∈ events) /\
    (forall inst err, Ev_RequestOperationComplete inst err ∉ events) /\
    request_table b' = request_table b.
Proof.
  intros Hlen. unfold USP_BROKER_Stop.
  destruct (Stop_loop_run (seq 0 MAX_USP_SERVICES) b)
    as (b' & events & Hrun & Hsv & Hreq & Htr & Hno & Hde).
  { apply NoDup_seq. }
  { intros us Hus. apply elem_of_seq in Hus. lia. }
  assert (Hall : usp_services b' = stopped <$> usp_services b).
  { apply list_eq. intros i. rewrite Hsv, list_lookup_fmap.
    case_bool_decide as Hi; [done|].
    rewrite elem_of_seq in Hi.
    rewrite (lookup_ge_None_2 (usp_services b) i) by lia. done. }
  exists b', events. split_and!; try done.
  - rewrite Hall. apply list.Forall_forall. intros s' Hs'.
    apply list_elem_of_fmap in Hs' as (s & -> & _). unfold stopped.
    case_bool_decide as Hlive; first [done | by apply dec_stable].
  - intros us s Hs Hlive. exists (stopped s). split.
    { by rewrite Hall, list_lookup_fmap, Hs. }
    unfold stopped. rewrite bool_decide_true by done.
    split_and!; try done. intros path Hpath. apply (Hde us s); try done.
    apply elem_of_seq. apply lookup_lt_Some in Hs. lia.
Qed.
End Stop.
(* ===================================================================== *)
(** * Connecting *)
(* ===================================================================== *)

Section Connect.
Context {P : Platform}.

(** [USP_BROKER_AddUspService] for an endpoint that is not in the table,
    when there are an unused slot and an unused group id. *)
Lemma USP_BROKER_AddUspService_new_run b endpoint mtpc us :
  FindUspServiceByEndpoint (usp_services b) endpoint = None ->
  connection_usable mtpc ->
  FindUnusedUspService (usp_services b) = Some us ->
  DATA_MODEL_FindUnusedGroupId b <> INVALID ->
  let group := DATA_MODEL_FindUnusedGroupId b in
  let s := new_service b us endpoint mtpc group in
  let informed :=
    bool_decide (USP_DM_InformInstance_result (service_instance_path (instance s))
                 = USP_ERR_OK) in
  USP_BROKER_AddUspService endpoint mtpc b =
    Some (if informed then USP_ERR_OK else USP_ERR_INTERNAL_ERROR,
      set_usp_services
        (<[us := if informed && on_brokers_agent_socket mtpc
                 then set_has_controller true s else s]> (usp_services b))
        (set_groups_in_use (group :: groups_in_use b)
           (set_trace
              (trace b ++
                 [Ev_RegisterGroupVendorHooks group true;
                  Ev_InformInstance (service_instance_path (instance s))]) b))).
Proof.
  intros Hnone Husable Hfree Hgroup group s informed.
  unfold USP_BROKER_AddUspService.
  erewrite (bind_run get_state) by reflexivity. rewrite Hnone.
  pose proof (AddUspService_run b endpoint mtpc Husable) as Hadd.
  rewrite Hfree in Hadd. cbn zeta in Hadd.
  rewrite bool_decide_false in Hadd by done.
  apply FindUnusedUspService_Some in Hfree as (s0 & Hs0 & Hfree).
  erewrite bind_run by exact Hadd. cbv beta iota.
  erewrite (bind_run (get_us _)) by (apply get_us_run; by apply (lookup_insert_same _ _ s0)).
  unfold USP_DM_InformInstance.
  erewrite (bind_run (bind _ _)).
  2: { erewrite (bind_run (call _)) by apply call_run. reflexivity. }
  fold group. fold s. subst informed. simpl_state.
  destruct (decide (USP_DM_InformInstance_result (service_instance_path (instance s))
                    = USP_ERR_OK)) as [Hinform|Hinform].
  - rewrite bool_decide_false by (intros H; by apply H).
    rewrite bool_decide_true by done.
    unfold mark_has_controller, on_brokers_agent_socket. cbn [andb].
    case_bool_decide as Hsocket.
    + erewrite (bind_run (update_us _ _))
        by (apply update_us_run; simpl_state; by apply (lookup_insert_same _ _ s0)).
      unfold ret. simpl_state. by rewrite list_insert_insert_eq, <- app_assoc.
    + erewrite (bind_run (ret _)) by reflexivity.
      unfold ret. by rewrite <- app_assoc.
  - rewrite bool_decide_true by done. rewrite bool_decide_false by done.
    unfold ret. cbn [andb]. by rewrite <- app_assoc.
Qed.

(** X11. [USP_BROKER_AddUspService] for an endpoint that is not in the
    table: without an unused slot or an unused group id it returns
    USP_ERR_RESOURCES_EXCEEDED and changes nothing.  Otherwise the first
    unused slot holds the new Service, which the search by endpoint then
    finds: its instance number is the one that
    [CalcNextUspServiceInstanceNumber] gives for the table with the slot
    zeroed, which is not INVALID, and which is above those of all Services
    in use while none of them has reached INT_MAX; its group id is marked
    as in use, and it has no registered paths and empty maps.  If the data
    model refuses the new instance the result is USP_ERR_INTERNAL_ERROR and
    the Service stays in the table. *)
Theorem USP_BROKER_AddUspService_new_endpoint b endpoint mtpc :
  FindUspServiceByEndpoint (usp_services b) endpoint = None ->
  connection_usable mtpc ->
  match FindUnusedUspService (usp_services b) with
  | None =>
      USP_BROKER_AddUspService endpoint mtpc b = Some (USP_ERR_RESOURCES_EXCEEDED, b)
  | Some us =>
      if bool_decide (DATA_MODEL_FindUnusedGroupId b = INVALID)
      then USP_BROKER_AddUspService endpoint mtpc b =
             Some (USP_ERR_RESOURCES_EXCEEDED, b)
      else
        exists err b' s,
          USP_BROKER_AddUspService endpoint mtpc b = Some (err, b') /\
          err = (if bool_decide
                     (USP_DM_InformInstance_result (service_instance_path (instance s))
                      <> USP_ERR_OK)
                 then USP_ERR_INTERNAL_ERROR else USP_ERR_OK) /\
          FindUspServiceByEndpoint (usp_services b') endpoint = Some us /\
          usp_services b' !! us = Some s /\
          (forall j, j <> us -> usp_services b' !! j = usp_services b !! j) /\
          endpoint_id s = endpoint /\
          instance s =
            CalcNextUspServiceInstanceNumber
              (<[us := zero_usp_service]> (usp_services b)) /\
          instance s <> INVALID /\
          (instances_below_max (usp_services b) ->
           forall j sj, usp_services b !! j = Some sj -> instance sj <> INVALID ->
                        instance sj < instance s) /\
          group_id s = DATA_MODEL_FindUnusedGroupId b /\
          group_id s ∈ groups_in_use b' /\
          registered_paths s = [] /\ subs_map s = [] /\ req_map s = [] /\
          msg_map s = [] /\
          has_controller s =
            (if bool_decide (err = USP_ERR_OK) then on_brokers_agent_socket mtpc
             else false)
  end.
Proof.
  intros Hnone Husable.
  destruct (FindUnusedUspService _) as [us|] eqn:Hfree.
  2: { unfold USP_BROKER_AddUspService.
       erewrite (bind_run get_state) by reflexivity. rewrite Hnone.
       pose proof (AddUspService_run b endpoint mtpc Husable) as Hadd.
       rewrite Hfree in Hadd. by erewrite bind_run by exact Hadd. }
  case_bool_decide as Hgroup.
  { unfold USP_BROKER_AddUspService.
    erewrite (bind_run get_state) by reflexivity. rewrite Hnone.
    pose proof (AddUspService_run b endpoint mtpc Husable) as Hadd.
    rewrite Hfree in Hadd. cbn zeta in Hadd. rewrite bool_decide_true in Hadd by done.
    by erewrite bind_run by exact Hadd. }
  rewrite (USP_BROKER_AddUspService_new_run b endpoint mtpc us) by done.
  apply FindUnusedUspService_Some in Hfree as (s0 & Hs0 & Hfree).
  set (s := new_service b us endpoint mtpc (DATA_MODEL_FindUnusedGroupId b)).
  assert (Habove : instances_below_max (usp_services b) ->
                   forall j sj, usp_services b !! j = Some sj -> instance sj <> INVALID ->
                     instance sj < instance s).
  { intros Hbelow j sj Hj Hlive. cbn.
    apply (CalcNextUspServiceInstanceNumber_above _ j);
      [by apply instances_below_max_zeroed| |done].
    rewrite list_lookup_insert_ne; [done|]. intros <-. congruence. }
  pose proof (new_service_live b us endpoint mtpc (DATA_MODEL_FindUnusedGroupId b))
    as Hlive_new. fold s in Hlive_new.
  eexists _, _,
    (if bool_decide (USP_DM_InformInstance_result (service_instance_path (instance s))
                     = USP_ERR_OK) && on_brokers_agent_socket mtpc
     then set_has_controller true s else s).
  split; [reflexivity|]. simpl_state.
  assert (Hslot : forall s', <[us := s']> (usp_services b) !! us = Some s').
  { intros s'. by apply (lookup_insert_same _ _ s0). }
  assert (Hfound : forall s',
    instance s' = instance s -> endpoint_id s' = endpoint ->
    FindUspServiceByEndpoint (<[us := s']> (usp_services b)) endpoint = Some us).
  { intros s' Hi He. eapply FindUspServiceByEndpoint_new; eauto.
    rewrite Hi. apply new_service_live. }
  destruct (bool_decide (USP_DM_InformInstance_result _ = _)) eqn:Hinform;
    [apply bool_decide_eq_true in Hinform|apply bool_decide_eq_false in Hinform];
    cbn [andb]; [destruct (on_brokers_agent_socket mtpc) eqn:Hsocket|].
  all: split_and!;
    first [ done | apply Hslot | by apply Hfound
          | by (intros j Hj; rewrite list_lookup_insert_ne)
          | by (cbn; left)
          | by rewrite bool_decide_false by (intros H; by apply H)
          | by rewrite bool_decide_true
          | by rewrite bool_decide_false
          | by (rewrite bool_decide_false by (intros H; by apply H);
                rewrite bool_decide_true)
          | by (rewrite bool_decide_true by done; rewrite bool_decide_false) ].
Qed.

(** X12. After [USP_BROKER_AddUspService] has added a new endpoint,
    [USP_BROKER_GetNotifyDestForEndpoint] gives the connection of the new
    Service for the messages that travel in its direction, if the connection
    has a reply-to, and no destination (NULL) for the others: a Service that
    connected to the Broker's controller socket over UDS is the destination
    of requests, but not of the notifications and responses that the Broker
    sends as an agent, and the other way round.  The state is not changed. *)
Theorem GetNotifyDestForEndpoint_after_connect b endpoint mtpc err b' t :
  FindUspServiceByEndpoint (usp_services b) endpoint = None ->
  connection_usable mtpc ->
  USP_BROKER_AddUspService endpoint mtpc b = Some (err, b') ->
  err <> USP_ERR_RESOURCES_EXCEEDED ->
  t <> USP__HEADER__MSG_TYPE__ERROR ->
  USP_BROKER_GetNotifyDestForEndpoint endpoint t b' =
    Some (if (if sent_from_agent t then stored_as_agent mtpc
              else stored_as_controller mtpc) && is_reply_to_specified mtpc
          then Some mtpc else None, b').
Proof.
  intros Hnone Husable Hrun Herr Ht.
  destruct (FindUnusedUspService (usp_services b)) as [us|] eqn:Hfree.
  2: { unfold USP_BROKER_AddUspService in Hrun.
       erewrite (bind_run get_state) in Hrun by reflexivity. rewrite Hnone in Hrun.
       pose proof (AddUspService_run b endpoint mtpc Husable) as Hadd.
       rewrite Hfree in Hadd. erewrite bind_run in Hrun by exact Hadd.
       by injection Hrun as <- _. }
  destruct (decide (DATA_MODEL_FindUnusedGroupId b = INVALID)) as [Hgroup|Hgroup].
  { unfold USP_BROKER_AddUspService in Hrun.
    erewrite (bind_run get_state) in Hrun by reflexivity. rewrite Hnone in Hrun.
    pose proof (AddUspService_run b endpoint mtpc Husable) as Hadd.
    rewrite Hfree in Hadd. cbn zeta in Hadd. rewrite bool_decide_true in Hadd by done.
    erewrite bind_run in Hrun by exact Hadd. by injection Hrun as <- _. }
  rewrite (USP_BROKER_AddUspService_new_run b endpoint mtpc us) in Hrun by done.
  apply FindUnusedUspService_Some in Hfree as (s0 & Hs0 & Hfree).
  set (s := new_service b us endpoint mtpc (DATA_MODEL_FindUnusedGroupId b)) in *.
  injection Hrun as _ <-.
  unfold USP_BROKER_GetNotifyDestForEndpoint.
  erewrite (bind_run get_state) by reflexivity. simpl_state.
  match goal with
  | |- context [<[us := ?s1]> (usp_services b)] => set (s' := s1)
  end.
  assert (Hs' : controller_mtp s' = controller_mtp s /\ agent_mtp s' = agent_mtp s /\
                instance s' = instance s /\ endpoint_id s' = endpoint).
  { subst s'. by destruct (_ && _). }
  destruct Hs' as (Hc & Ha & Hi & He).
  erewrite FindUspServiceByEndpoint_new; eauto.
  2: { rewrite Hi. apply new_service_live. }
  erewrite (bind_run (get_us _)) by (apply get_us_run; by apply (lookup_insert_same _ _ s0)).
  rewrite Hc, Ha. cbn [controller_mtp agent_mtp s new_service].
  destruct t; try done; cbn [sent_from_agent];
    erewrite (bind_run (ret _)) by reflexivity;
    match goal with
    | |- context [stored_as_agent mtpc] => destruct (stored_as_agent mtpc)
    | |- context [stored_as_controller mtpc] => destruct (stored_as_controller mtpc)
    end; cbn [andb]; try reflexivity;
    by destruct (is_reply_to_specified mtpc).
Qed.
End Connect.
(* ===================================================================== *)
(** * Partial registration *)
(* ===================================================================== *)

Lemma register_answer_fails b earlier path :
  register_answer b earlier path <> USP_ERR_OK <->
  fails_after b earlier [] 0 path.
Proof.
  unfold fails_after. rewrite register_answer_OK, elem_of_app. cbn [take].
  rewrite elem_of_nil. split.
  - intros Hnot.
    destruct (decide (ValidateUspServicePath path = USP_ERR_OK)); [|tauto].
    destruct (PP_EXISTS_IN_SCHEMA b path) eqn:?; [tauto|].
    destruct (decide (path ∈ all_registered_paths b)); [tauto|].
    destruct (decide (path ∈ earlier)); [tauto|].
    destruct Hnot. tauto.
  - intros Hfail (Hfresh & Hval & Hsch).
    destruct Hfail as [?|[?|[?|[?|?]]]]; try tauto. congruence.
Qed.

(** With partial registration every path of the request gets its result,
    and the paths that do not fail are accepted, in the order of the
    request. *)
Lemma register_outcome_partial b paths :
  forall earlier reg_resp cnt,
    exists results accepted,
      register_outcome b true earlier paths reg_resp cnt =
        (inr (reg_resp ++ results, (cnt + length paths)%nat), earlier ++ accepted) /\
      length results = length paths /\
      (forall i p, paths !! i = Some p ->
         exists res, results !! i = Some res /\ requested_path res = p /\
           (fails_after b earlier paths i p ->
              exists err, err <> USP_ERR_OK /\
                          oper_status res = OPER_STATUS_OPER_FAILURE err) /\
           (~ fails_after b earlier paths i p ->
              oper_status res = OPER_STATUS_OPER_SUCCESS p)) /\
      (forall p, p ∈ accepted <->
         exists i, paths !! i = Some p /\ ~ fails_after b earlier paths i p) /\
      sublist accepted paths /\
      (NoDup earlier -> NoDup (earlier ++ accepted)).
Proof.
  induction paths as [|p0 rest IH]; intros earlier reg_resp cnt.
  - exists [], []. cbn [register_outcome length]. rewrite !app_nil_r, Nat.add_0_r.
    split_and!; try done.
    intros p. rewrite elem_of_nil. split; [done|]. by intros (i & ? & _).
  - cbn [register_outcome]. cbn zeta. rewrite andb_false_r.
    set (err := register_answer b earlier p0).
    set (earlier' := if bool_decide (err = USP_ERR_OK) then earlier ++ [p0] else earlier).
    destruct (IH earlier' (AddRegisterResp_RegisteredPathResult reg_resp p0 err) (S cnt))
      as (results & accepted & Hout & Hlen & Hres & Hacc & Hsub & Hnd).
    set (res0 := {| requested_path := p0;
                    oper_status := if bool_decide (err = USP_ERR_OK)
                                   then OPER_STATUS_OPER_SUCCESS p0
                                   else OPER_STATUS_OPER_FAILURE err |}).
    (* how failing later in the request reads from the start of it *)
    assert (Hshift : forall j p,
      fails_after b earlier' rest j p <-> fails_after b earlier (p0 :: rest) (S j) p).
    { intros j p. unfold fails_after. cbn [take]. rewrite elem_of_cons.
      subst earlier'. case_bool_decide as Hok.
      - rewrite elem_of_app, list_elem_of_singleton. tauto.
      - apply register_answer_fails in Hok. unfold fails_after in Hok.
        cbn [take] in Hok. rewrite elem_of_nil in Hok.
        split; [tauto|]. intros [?|[?|[?|[?|[->|?]]]]]; tauto. }
    exists (res0 :: results),
           (if bool_decide (err = USP_ERR_OK) then p0 :: accepted else accepted).
    split_and!.
    + rewrite Hout. unfold AddRegisterResp_RegisteredPathResult. fold res0.
      rewrite <- app_assoc. cbn [app length]. rewrite Nat.add_succ_r.
      subst earlier'. case_bool_decide; [|done]. by rewrite <- app_assoc.
    + cbn. by rewrite Hlen.
    + intros [|j] p Hp; cbn in Hp.
      * injection Hp as <-. exists res0. split; [done|]. split; [done|].
        cbn [oper_status res0]. split.
        -- intros Hfail. exists err. split.
           { apply register_answer_fails. exact Hfail. }
           rewrite bool_decide_false; [done|].
           apply register_answer_fails. exact Hfail.
        -- intros Hgood. rewrite bool_decide_true; [done|].
           destruct (decide (err = USP_ERR_OK)) as [|Hbad]; [done|].
           by apply register_answer_fails in Hbad.
      * destruct (Hres j p Hp) as (res & Hj & Hpath & Hfail & Hgood).
        exists res. split; [done|]. split; [done|]. split.
        -- intros H. by apply Hfail, Hshift.
        -- intros H. apply Hgood. by rewrite Hshift.
    + intros p. split.
      * intros Hin.
        assert (Hcases : (err = USP_ERR_OK /\ p = p0) \/ p ∈ accepted).
        { case_bool_decide; [|tauto].
          apply elem_of_cons in Hin as [->|?]; tauto. }
        destruct Hcases as [[Hok ->]|Hin'].
        -- exists 0%nat. split; [done|]. intros Hfail.
           by apply register_answer_fails in Hfail.
        -- apply Hacc in Hin' as (j & Hj & Hgood). exists (S j). split; [done|].
           by rewrite <- Hshift.
      * intros ([|j] & Hp & Hgood); cbn in Hp.
        -- injection Hp as <-.
           rewrite bool_decide_true; [by left|].
           destruct (decide (err = USP_ERR_OK)) as [|Hbad]; [done|].
           by apply register_answer_fails in Hbad.
        -- assert (p ∈ accepted).
           { apply Hacc. exists j. split; [done|]. by rewrite Hshift. }
           case_bool_decide; [by right|done].
    + case_bool_decide; [by constructor|by apply sublist_cons].
    + intros Hnd0. subst earlier'. case_bool_decide as Hok.
      * replace (earlier ++ p0 :: accepted) with ((earlier ++ [p0]) ++ accepted)
          by (by rewrite <- app_assoc).
        apply Hnd. apply list.NoDup_app. split; [done|]. split.
        -- intros x Hx ->%list_elem_of_singleton.
           apply register_answer_OK in Hok as (Hfresh & _).
           apply Hfresh, elem_of_app. by right.
        -- apply NoDup_singleton.
      * by apply Hnd.
Qed.

Section Partial.
Context {P : Platform}.

(** X13. A Register request with [allow_partial] set, from a Service in the
    table that has no registered paths yet, is never answered by an ERROR
    message: the RegisterResp that is queued has one result for each
    requested path, in the order of the request, a failure with an error
    code for a path that fails (its shape is wrong, the schema has it, a
    Service owns it, or it repeats an earlier path of the request) and a
    success for each other path.  The Service then owns exactly the paths
    that succeeded, in the order of the request and each once. *)
Theorem HandleRegister_partial b id reg endpoint mtpc us s :
  connection_usable mtpc ->
  allow_partial reg = true ->
  reg_paths reg <> [] ->
  FindUspServiceByEndpoint (usp_services b) endpoint = Some us ->
  usp_services b !! us = Some s ->
  registered_paths s = [] ->
  exists b' results evs s',
    USP_BROKER_HandleRegister (Register_msg id reg) endpoint mtpc b = Some (tt, b') /\
    emitted b b' (Ev_QueueMessage endpoint (RegisterResp_msg id results) mtpc :: evs) /\
    length results = length (reg_paths reg) /\
    (forall i p, reg_paths reg !! i = Some p ->
       exists res, results !! i = Some res /\ requested_path res = p /\
         (path_fails b (reg_paths reg) i p ->
            exists err, err <> USP_ERR_OK /\
                        oper_status res = OPER_STATUS_OPER_FAILURE err) /\
         (~ path_fails b (reg_paths reg) i p ->
            oper_status res = OPER_STATUS_OPER_SUCCESS p)) /\
    usp_services b' !! us = Some s' /\
    (forall p, p ∈ registered_paths s' <->
       exists i, reg_paths reg !! i = Some p /\ ~ path_fails b (reg_paths reg) i p) /\
    sublist (registered_paths s') (reg_paths reg) /\
    NoDup (registered_paths s').
Proof.
  intros Hconn Hallow Hpaths Hfind Hs Hnil.
  rewrite (HandleRegister_run b id reg endpoint mtpc Hconn).
  unfold register_handled. rewrite bool_decide_false by done.
  rewrite Hfind, Hs, Hnil. rewrite bool_decide_false by (intros H; by apply H).
  unfold paths_registered. rewrite Hallow.
  destruct (register_outcome_partial b (reg_paths reg) [] [] 0)
    as (results & accepted & -> & Hlen & Hres & Hacc & Hsub & Hnd).
  cbn [app] in *.
  assert (Hfails : forall i p, reg_paths reg !! i = Some p ->
            (path_fails b (reg_paths reg) i p <-> fails_after b [] (reg_paths reg) i p)).
  { intros i p Hp. unfold path_fails, fails_after. rewrite elem_of_nil. tauto. }
  assert (Hrest : forall b' evs s',
    emitted b b' (Ev_QueueMessage endpoint (RegisterResp_msg id results) mtpc :: evs) ->
    usp_services b' !! us = Some s' -> registered_paths s' = accepted ->
    exists b'0 results0 evs0 s'0,
      Some (tt, b') = Some (tt, b'0) /\
      emitted b b'0
        (Ev_QueueMessage endpoint (RegisterResp_msg id results0) mtpc :: evs0) /\
      length results0 = length (reg_paths reg) /\
      (forall i p, reg_paths reg !! i = Some p ->
         exists res, results0 !! i = Some res /\ requested_path res = p /\
           (path_fails b (reg_paths reg) i p ->
              exists err, err <> USP_ERR_OK /\
                          oper_status res = OPER_STATUS_OPER_FAILURE err) /\
           (~ path_fails b (reg_paths reg) i p ->
              oper_status res = OPER_STATUS_OPER_SUCCESS p)) /\
      usp_services b'0 !! us = Some s'0 /\
      (forall p, p ∈ registered_paths s'0 <->
         exists i, reg_paths reg !! i = Some p /\ ~ path_fails b (reg_paths reg) i p) /\
      sublist (registered_paths s'0) (reg_paths reg) /\
      NoDup (registered_paths s'0)).
  { intros b' evs s' Hev Hs' Hreg. exists b', results, evs, s'.
    rewrite Hreg. split_and!; try done.
    - intros i p Hp. destruct (Hres i p Hp) as (res & ? & ? & Hfail & Hgood).
      exists res. split_and!; try done.
      + intros Hf. by apply Hfail, Hfails.
      + intros Hg. apply Hgood. by rewrite <- Hfails.
    - intros p. rewrite Hacc. split; intros (i & Hp & Hgood); exists i; split; try done.
      + by rewrite Hfails.
      + by rewrite <- Hfails.
    - apply Hnd. constructor. }
  case_bool_decide.
  - eapply (Hrest _ []).
    + unfold emitted, replied, set_paths. simpl_state. reflexivity.
    + unfold replied, set_paths. simpl_state. by apply (lookup_insert_same _ _ s).
    + done.
  - eapply Hrest.
    + unfold emitted, gsdm_issued, replied, set_paths. simpl_state.
      rewrite <- app_assoc. cbn [app]. reflexivity.
    + unfold gsdm_issued, replied, set_paths. simpl_state.
      rewrite list_insert_insert_eq. by apply (lookup_insert_same _ _ s).
    + done.
Qed.
End Partial.

(* ===================================================================== *)
(** * Refused Register requests *)
(* ===================================================================== *)

Section Refused.
Context {P : Platform}.

(** X14. [USP_BROKER_HandleRegister] answers with a single ERROR message
    and changes nothing else, whatever the paths and [allow_partial] are,
    when the message is not a Register request
    (USP_ERR_MESSAGE_NOT_UNDERSTOOD), and with USP_ERR_REGISTER_FAILURE when
    the request has no paths, when the Service has registered paths already
    (a second Register message is not supported), or when the endpoint is
    new and the table has no unused slot or no group id is left. *)
Theorem HandleRegister_refusals b usp h id endpoint mtpc err :
  header usp = Some h -> msg_id h = Some id ->
  register_refused b usp endpoint err ->
  USP_BROKER_HandleRegister usp endpoint mtpc b =
    Some (tt, replied b endpoint mtpc (ERROR_RESP_CreateSingle id err)).
Proof.
  intros Hh Hid Href.
  assert (Hexit : forall e,
    bind (header_msg_id usp) (fun id =>
      HandleRegister_exit endpoint mtpc (ERROR_RESP_CreateSingle id e) 0 0) b =
    Some (tt, replied b endpoint mtpc (ERROR_RESP_CreateSingle id e))).
  { intros e. unfold header_msg_id. rewrite Hh, Hid.
    erewrite (bind_run (ret _)) by reflexivity.
    unfold HandleRegister_exit, MSG_HANDLER_QueueMessage.
    erewrite (bind_run (bind _ _)).
    2: { erewrite (bind_run (call _)) by apply call_run. reflexivity. }
    reflexivity. }
  unfold USP_BROKER_HandleRegister.
  destruct Href as [Hbody|reg Hbody Hnil|reg s Hbody Hsvc Hreg|reg Hbody Hnone Hfull].
  - destruct (body usp) as [[|[[[reg|]| | | |]|]| |]|]; try apply Hexit.
    by destruct (Hbody reg).
  - rewrite Hbody. rewrite bool_decide_true by done. apply Hexit.
  - rewrite Hbody. case_bool_decide; [apply Hexit|].
    erewrite (bind_run get_state) by reflexivity.
    apply service_of_Some in Hsvc as (us & -> & Hs).
    erewrite (bind_run (get_us _)) by (by apply get_us_run).
    rewrite bool_decide_true by done. apply Hexit.
  - rewrite Hbody. case_bool_decide; [apply Hexit|].
    erewrite (bind_run get_state) by reflexivity. rewrite Hnone.
    pose proof (AddUspService_outcome b endpoint mtpc) as Hadd.
    destruct (FindUnusedUspService _) as [us|].
    + destruct Hfull as [?|Hgroup]; [done|]. cbn zeta in Hadd.
      rewrite bool_decide_true in Hadd by done.
      erewrite bind_run by exact Hadd. apply Hexit.
    + erewrite bind_run by exact Hadd. apply Hexit.
Qed.
End Refused.
(* ===================================================================== *)
(** * Passthru of notifications *)
(* ===================================================================== *)

Section NotificationPassthru.
Context {P : Platform}.

(** X15. [AttemptPassThruForNotification] either leaves the state as it is
    and returns false, or calls the subscription router once, for the
    notification as it was received and under the Broker instance of the
    first entry of the sender's subscription map with the notification's
    subscription id; it returns true exactly if it did so and the router
    reported no error.  It never routes a notification that
    [USP_BROKER_HandleNotification] would deny, an OperationComplete, an
    OnBoardRequest, or an object creation or deletion while an Add request
    is being processed, and it writes neither the Service table nor the
    Request table. *)
Theorem AttemptPassThruForNotification_spec current id t bd endpoint mtpc b :
  let usp := received id t bd in
  exists r b',
    AttemptPassThruForNotification current usp endpoint mtpc b = Some (r, b') /\
    ((r = false /\ b' = b) \/
     (exists notify s i smap,
        bd = Notify_body notify /\
        left_to_handler current notify = false /\
        notify_accepted b endpoint bd /\
        service_of b endpoint = Some s /\
        SubsMap_FindByUspServiceSubsId (subs_map s) (notify_subscription_id notify)
          = Some (i, smap) /\
        b' = set_trace (trace b ++ [Ev_RouteNotification usp (broker_instance smap)]) b /\
        r = bool_decide
              (DEVICE_SUBSCRIPTION_RouteNotification_result usp (broker_instance smap)
               = USP_ERR_OK))).
Proof.
  intros usp. unfold AttemptPassThruForNotification.
  destruct bd as [[| [[| [notify|] | | |]|] | |]|];
    try (exists false, b; split; [reflexivity|by left]).
  change (body usp) with (Notify_body notify). cbn [Notify_body].
  destruct (send_resp notify) eqn:Hsend.
  { exists false, b. split; [reflexivity|by left]. }
  assert (Hrouted :
    exists r b',
      (let* b0 := get_state in
       match FindUspServiceByEndpoint (usp_services b0) endpoint with
       | None => ret false
       | Some us =>
           let* s := get_us us in
           match SubsMap_FindByUspServiceSubsId
                   (subs_map s) (notify_subscription_id notify) with
           | None => ret false
           | Some (_, smap) =>
               let* err := DEVICE_SUBSCRIPTION_RouteNotification
                             usp (broker_instance smap) in
               if bool_decide (err <> USP_ERR_OK) then ret false else ret true
           end
       end) b = Some (r, b') /\
      ((r = false /\ b' = b) \/
       (exists s i smap,
          notify_accepted b endpoint (Notify_body notify) /\
          service_of b endpoint = Some s /\
          SubsMap_FindByUspServiceSubsId (subs_map s) (notify_subscription_id notify)
            = Some (i, smap) /\
          b' = set_trace
                 (trace b ++ [Ev_RouteNotification usp (broker_instance smap)]) b /\
          r = bool_decide
                (DEVICE_SUBSCRIPTION_RouteNotification_result usp (broker_instance smap)
                 = USP_ERR_OK)))).
  { erewrite (bind_run get_state) by reflexivity.
    destruct (FindUspServiceByEndpoint _ _) as [us|] eqn:Hfind.
    2: { exists false, b. split; [reflexivity|by left]. }
    destruct (FindUspServiceByEndpoint_Some _ _ _ Hfind) as (s & Hs & _).
    erewrite (bind_run (get_us _)) by (by apply get_us_run).
    destruct (SubsMap_FindByUspServiceSubsId _ _) as [[i smap]|] eqn:Hsub.
    2: { exists false, b. split; [reflexivity|by left]. }
    unfold DEVICE_SUBSCRIPTION_RouteNotification.
    erewrite (bind_run (bind _ _)).
    2: { erewrite (bind_run (call _)) by apply call_run. reflexivity. }
    exists (bool_decide (DEVICE_SUBSCRIPTION_RouteNotification_result usp
                           (broker_instance smap) = USP_ERR_OK)),
           (set_trace (trace b ++ [Ev_RouteNotification usp (broker_instance smap)]) b).
    split.
    { destruct (decide (DEVICE_SUBSCRIPTION_RouteNotification_result usp
                          (broker_instance smap) = USP_ERR_OK)) as [Hok|Hbad].
      - rewrite bool_decide_false by (intros H; by apply H).
        by rewrite bool_decide_true.
      - rewrite bool_decide_true by done. by rewrite bool_decide_false. }
    right. exists s, i, smap.
    assert (Hsvc : service_of b endpoint = Some s).
    { unfold service_of. by rewrite Hfind. }
    split_and!; try done.
    exists notify, s, smap. split_and!; try done.
    - apply list_find_Some in Hsub as (? & _). apply list_elem_of_lookup; eauto.
    - by apply list_find_Some in Hsub as (_ & ? & _). }
  assert (Hleft : left_to_handler current notify = true ->
    exists r b', ret false b = Some (r, b') /\
      ((r = false /\ b' = b) \/
       (exists notify0 s i smap,
          Notify_body notify = Notify_body notify0 /\
          left_to_handler current notify0 = false /\
          notify_accepted b endpoint (Notify_body notify) /\
          service_of b endpoint = Some s /\
          SubsMap_FindByUspServiceSubsId (subs_map s) (notify_subscription_id notify0)
            = Some (i, smap) /\
          b' = set_trace
                 (trace b ++ [Ev_RouteNotification usp (broker_instance smap)]) b /\
          r = bool_decide
                (DEVICE_SUBSCRIPTION_RouteNotification_result usp (broker_instance smap)
                 = USP_ERR_OK)))).
  { intros _. exists false, b. split; [reflexivity|by left]. }
  destruct (left_to_handler current notify) eqn:Hheld.
  - unfold left_to_handler in Hheld. rewrite Hsend in Hheld. cbn [orb] in Hheld.
    destruct (notification notify); try discriminate Hheld;
      try rewrite Hheld; by apply Hleft.
  - unfold left_to_handler in Hheld. rewrite Hsend in Hheld. cbn [orb] in Hheld.
    destruct Hrouted as (r & b' & Hrun & Hpost).
    exists r, b'. split.
    { destruct (notification notify); try discriminate Hheld;
        try rewrite Hheld; exact Hrun. }
    destruct Hpost as [?|(s & i & smap & ? & ? & ? & ? & ?)]; [by left|].
    right. exists notify, s, i, smap. split_and!; try done.
    unfold left_to_handler. by rewrite Hsend.
Qed.
End NotificationPassthru.

(* ===================================================================== *)
(** * An asynchronous command from its start to its completion *)
(* ===================================================================== *)

Section CommandRoundTrip.
Context {P : Platform}.

(** [Broker_AsyncOperate] when the Service answers that the command is
    running. *)
Lemma Broker_AsyncOperate_active_run b req args inst us s key resp res p :
  FindUspServiceByGroupId (usp_services b) (req_group_id req) = Some us ->
  usp_services b !! us = Some s ->
  SubsMap_FindByPath (subs_map s) (req_path req) <> None ->
  DATA_MODEL_GetParameterValue_result (request_command_key_path inst) = (USP_ERR_OK, key) ->
  ReqMap_Find (req_map s) (req_path req) key = None ->
  protocol (controller_mtp s) <> kMtpProtocol_None ->
  operate_answer b s (req_path req) key args = Some resp ->
  MSG_UTILS_ValidateUspResponse_result resp = USP_ERR_OK ->
  carries_result resp res -> executed_command res = req_path req ->
  operation_resp res = OPERATION_RESP_REQ_OBJ_PATH p ->
  let entry := ReqMapEntry inst (req_path req) key in
  let sent := operate_sent b s (req_path req) key args in
  Broker_AsyncOperate req args inst b =
    Some (USP_ERR_OK,
          set_trace (trace sent ++ [Ev_SignalOperationStatus inst "Active"])
            (with_request sent us s entry)).
Proof.
  intros Hfind Hs Hsub Hkey Hnew Hup Hans Hval Hres Hcmd Hp entry sent.
  rewrite (Broker_AsyncOperate_guards b req args inst us s Hfind Hs).
  destruct (SubsMap_FindByPath _ _) as [m|]; [|done].
  rewrite Hkey, Hnew. rewrite bool_decide_false by (intros H; by apply H).
  cbn zeta. fold entry.
  set (b1 := with_request b us s entry).
  assert (Hfind1 : FindUspServiceByGroupId (usp_services b1) (req_group_id req) = Some us).
  { subst b1. unfold with_request. simpl_state.
    erewrite FindUspServiceByGroupId_insert; eauto. }
  assert (Hs1 : usp_services b1 !! us = Some (set_req_map (req_map s ++ [entry]) s)).
  { subst b1. unfold with_request. lookup_us Hs. }
  rewrite (SendOperateAndProcessResponse_run b1 _ (req_path req) key args us _ Hfind1 Hs1).
  cbn [controller_mtp set_req_map]. rewrite bool_decide_false by done.
  change (operate_answer b1 (set_req_map (req_map s ++ [entry]) s) (req_path req) key args)
    with (operate_answer b s (req_path req) key args).
  rewrite Hans. erewrite ProcessOperateResponse_result by done. rewrite Hp.
  rewrite bool_decide_false by (intros H; by apply H). reflexivity.
Qed.

(** X16. An asynchronous command from start to completion.
    [Broker_AsyncOperate] puts the command into the request map of the
    Service when the Service answers that the command is running.  When the
    Service then sends the OperationComplete notification for that command
    path and command key, [USP_BROKER_HandleNotification] routes the
    notification to the Broker instance of the subscription, deletes the row
    of the command from the Request table and takes the entry out of the
    request map again: the Service table is what it was before the command. *)
Theorem AsyncOperate_then_OperationComplete
    b req args inst us s key resp res p endpoint mtpc id t notify op i smap :
  FindUspServiceByGroupId (usp_services b) (req_group_id req) = Some us ->
  FindUspServiceByEndpoint (usp_services b) endpoint = Some us ->
  usp_services b !! us = Some s ->
  SubsMap_FindByPath (subs_map s) (req_path req) <> None ->
  DATA_MODEL_GetParameterValue_result (request_command_key_path inst) = (USP_ERR_OK, key) ->
  ReqMap_Find (req_map s) (req_path req) key = None ->
  protocol (controller_mtp s) <> kMtpProtocol_None ->
  operate_answer b s (req_path req) key args = Some resp ->
  MSG_UTILS_ValidateUspResponse_result resp = USP_ERR_OK ->
  carries_result resp res -> executed_command res = req_path req ->
  operation_resp res = OPERATION_RESP_REQ_OBJ_PATH p ->
  send_resp notify = false ->
  notification notify = USP__NOTIFY__NOTIFICATION_OPER_COMPLETE op ->
  command_path_of (obj_path op) (command_name op) = req_path req ->
  oc_command_key op = key ->
  SubsMap_FindByUspServiceSubsId (subs_map s) (notify_subscription_id notify)
    = Some (i, smap) ->
  let usp := received id t (Notify_body notify) in
  exists b1 b2 evs,
    Broker_AsyncOperate req args inst b = Some (USP_ERR_OK, b1) /\
    (exists s1, usp_services b1 !! us = Some s1 /\
       ReqMap_Find (req_map s1) (req_path req) key
         = Some (length (req_map s), ReqMapEntry inst (req_path req) key)) /\
    USP_BROKER_HandleNotification usp endpoint mtpc b1 = Some (tt, b2) /\
    emitted b1 b2
      (Ev_RouteNotification usp (broker_instance smap) ::
       Ev_RequestDeleteInstance inst :: evs) /\
    (evs = [] \/ exists err, err <> USP_ERR_OK /\
                             evs = [Ev_QueueErrorMessage err endpoint mtpc id]) /\
    usp_services b2 = usp_services b /\
    request_table b2 = filter (fun r => r <> inst) (request_table b).
Proof.
  intros Hgroup Hfind Hs Hsub Hkey Hnew Hup Hans Hval Hres Hcmd Hp
         Hsend Hnot Hpath Hck Hsmap usp.
  rewrite (Broker_AsyncOperate_active_run b req args inst us s key resp res p) by done.
  set (entry := ReqMapEntry inst (req_path req) key).
  set (sent := operate_sent b s (req_path req) key args).
  set (s1 := set_req_map (req_map s ++ [entry]) s).
  set (b1 := set_trace (trace sent ++ [Ev_SignalOperationStatus inst "Active"])
               (with_request sent us s entry)).
  assert (Hs1 : usp_services b1 !! us = Some s1).
  { subst b1 s1. unfold with_request. simpl_state. by apply (lookup_insert_same _ _ s). }
  assert (Hentry : ReqMap_Find (req_map s1) (req_path req) key
                   = Some (length (req_map s), entry)).
  { subst s1. cbn [req_map set_req_map]. apply list_find_Some. split; [|split].
    - by apply list_lookup_middle.
    - done.
    - intros j y Hj Hlt Hy. rewrite lookup_app_l in Hj by done.
      apply list_find_None in Hnew. rewrite list.Forall_forall in Hnew.
      apply (Hnew y); [|done]. apply list_elem_of_lookup. eauto. }
  assert (Hfind1 : FindUspServiceByEndpoint (usp_services b1) endpoint = Some us).
  { subst b1. unfold with_request. simpl_state.
    erewrite FindUspServiceByEndpoint_insert; eauto. }
  pose proof (DeleteMatchingOperateRequest_run
                (set_trace (trace b1 ++ [Ev_RouteNotification usp (broker_instance smap)]) b1)
                us s1 (obj_path op) (command_name op) (oc_command_key op) Hs1) as Hdel.
  rewrite Hpath, Hck, Hentry in Hdel.
  set (err := DEVICE_SUBSCRIPTION_RouteNotification_result usp (broker_instance smap)).
  assert (Hback : alter (fun s0 => set_req_map (ReqMap_Remove (req_map s0) (length (req_map s))) s0)
                    us (usp_services b1) = usp_services b).
  { erewrite alter_insert by exact Hs1. subst b1 s1. unfold with_request. simpl_state.
    rewrite list_insert_insert_eq. cbn [req_map set_req_map]. unfold ReqMap_Remove.
    rewrite delete_middle, app_nil_r. apply list_insert_id. rewrite Hs. by destruct s. }
  match type of Hdel with _ = Some (tt, ?st) => set (b2 := st) in * end.
  exists b1,
    (if bool_decide (err <> USP_ERR_OK)
     then set_trace (trace b2 ++ [Ev_QueueErrorMessage err endpoint mtpc id]) b2 else b2),
    (if bool_decide (err <> USP_ERR_OK)
     then [Ev_QueueErrorMessage err endpoint mtpc id] else []).
  split; [reflexivity|]. split; [by exists s1|].
  split.
  { unfold USP_BROKER_HandleNotification.
    change (body usp) with (Notify_body notify). cbn [Notify_body]. rewrite Hsend.
    erewrite (bind_run (bind _ _)).
    2: { erewrite (bind_run get_state) by reflexivity. rewrite Hfind1.
         erewrite (bind_run (get_us _)) by (by apply get_us_run).
         change (subs_map s1) with (subs_map s). rewrite Hsmap.
         unfold DEVICE_SUBSCRIPTION_RouteNotification.
         erewrite (bind_run (bind _ _)).
         2: { erewrite (bind_run (call _)) by apply call_run. reflexivity. }
         rewrite Hnot, Hck. erewrite bind_run by exact Hdel. reflexivity. }
    fold err. destruct (bool_decide (err <> USP_ERR_OK)) eqn:Herr.
    - unfold header_msg_id. cbn [usp received header msg_id].
      erewrite (bind_run (ret _)) by reflexivity.
      unfold MSG_HANDLER_QueueErrorMessage. rewrite call_run. reflexivity.
    - reflexivity. }
  destruct (bool_decide (err <> USP_ERR_OK)) eqn:Herr.
  - apply bool_decide_eq_true in Herr. split_and!.
    + unfold emitted. subst b2. simpl_state. by rewrite <- !app_assoc.
    + right. eauto.
    + subst b2. simpl_state. exact Hback.
    + done.
  - split_and!.
    + unfold emitted. subst b2. simpl_state. by rewrite <- !app_assoc.
    + by left.
    + subst b2. simpl_state. exact Hback.
    + done.
Qed.
End CommandRoundTrip.
(* ===================================================================== *)
(** * The synchronous Operate vendor hook *)
(* ===================================================================== *)

Section SyncCommands.
Context {P : Platform}.

Lemma Broker_SyncOperate_run b req key args us s :
  FindUspServiceByGroupId (usp_services b) (req_group_id req) = Some us ->
  usp_services b !! us = Some s ->
  Broker_SyncOperate req key args b =
    if bool_decide (protocol (controller_mtp s) = kMtpProtocol_None)
    then Some ((USP_ERR_INTERNAL_ERROR, []), b)
    else match operate_answer b s (req_path req) key args with
         | None =>
             Some ((USP_ERR_INTERNAL_ERROR, []), operate_sent b s (req_path req) key args)
         | Some resp =>
             match ProcessOperateResponse resp (req_path req) true
                     (operate_sent b s (req_path req) key args) with
             | Some (r, b') => Some ((r.1.1, r.1.2), b')
             | None => None
             end
         end.
Proof.
  intros Hfind Hs. unfold Broker_SyncOperate, SendOperateAndProcessResponse.
  unfold bind at 1. unfold bind at 1. unfold get_state at 1. rewrite Hfind.
  unfold bind at 1. rewrite (get_us_run b us s Hs).
  case_bool_decide; [done|].
  unfold CreateBroker_OperateReq, CalcBrokerMessageId.
  unfold bind at 1 2 3. unfold get_state, modify, ret, call. simpl.
  unfold operate_answer, operate_sent, next_message_id, Operate_msg, bind, modify.
  destruct (DM_EXEC_SendRequestAndWaitForResponse_result _ _ _); [|done].
  simpl. by destruct (ProcessOperateResponse _ _ _ _) as [[? ?]|].
Qed.

(** X17. [Broker_SyncOperate] sends one Operate request to the Service that
    owns the command and waits for the answer; it writes neither the Service
    table nor the Request table.  Without a connection to the Service
    nothing is sent and the result is USP_ERR_INTERNAL_ERROR; so it is when
    no response arrives, when the response is for another command, and when
    the Service answers with a Request table path, which only an
    asynchronous command may do; and when the response has no OperateResp
    or not exactly one operation result.  Output arguments are returned
    with USP_ERR_OK, and a command failure with the error code of the
    Service, a [uint32] that is returned as an [int]: a code of 2^31 or
    more comes back negative. *)
Theorem Broker_SyncOperate_spec b req key args us s :
  FindUspServiceByGroupId (usp_services b) (req_group_id req) = Some us ->
  usp_services b !! us = Some s ->
  let path := req_path req in
  let sent := operate_sent b s path key args in
  (protocol (controller_mtp s) = kMtpProtocol_None ->
   Broker_SyncOperate req key args b = Some ((USP_ERR_INTERNAL_ERROR, []), b)) /\
  (protocol (controller_mtp s) <> kMtpProtocol_None ->
   (operate_answer b s path key args = None ->
    Broker_SyncOperate req key args b = Some ((USP_ERR_INTERNAL_ERROR, []), sent)) /\
   (forall resp, operate_answer b s path key args = Some resp ->
      (forall err, MSG_UTILS_ValidateUspResponse_result resp = err ->
         err <> USP_ERR_OK ->
         Broker_SyncOperate req key args b = Some ((err, []), sent)) /\
      (forall oper,
         MSG_UTILS_ValidateUspResponse_result resp = USP_ERR_OK ->
         body resp = Some (USP__BODY__MSG_BODY_RESPONSE
                             (Some (USP__RESPONSE__RESP_TYPE_OPERATE_RESP oper))) ->
         (forall results, oper = Some results -> length results <> 1%nat) ->
         Broker_SyncOperate req key args b = Some ((USP_ERR_INTERNAL_ERROR, []), sent)) /\
      (forall res,
         MSG_UTILS_ValidateUspResponse_result resp = USP_ERR_OK ->
         carries_result resp res ->
         (executed_command res <> path ->
          Broker_SyncOperate req key args b = Some ((USP_ERR_INTERNAL_ERROR, []), sent)) /\
         (executed_command res = path ->
          Broker_SyncOperate req key args b =
            Some (match operation_resp res with
                  | OPERATION_RESP_REQ_OBJ_PATH _ => (USP_ERR_INTERNAL_ERROR, [])
                  | OPERATION_RESP_REQ_OUTPUT_ARGS out => (USP_ERR_OK, out)
                  | OPERATION_RESP_CMD_FAILURE code =>
                      (if bool_decide (code mod 2 ^ 32 < 2 ^ 31)
                       then code mod 2 ^ 32 else code mod 2 ^ 32 - 2 ^ 32, [])
                  | OPERATION_RESP__NOT_SET => (USP_ERR_OK, [])
                  end, sent))))) /\
  (forall r b', Broker_SyncOperate req key args b = Some (r, b') ->
     usp_services b' = usp_services b /\ request_table b' = request_table b /\
     schema b' = schema b).
Proof.
  intros Hfind Hs path sent.
  pose proof (Broker_SyncOperate_run b req key args us s Hfind Hs) as Hrun.
  fold path in Hrun. fold sent in Hrun.
  split; [|split].
  - intros Hdown. by rewrite Hrun, bool_decide_true.
  - intros Hup. rewrite bool_decide_false in Hrun by done. split.
    + intros Hnone. by rewrite Hrun, Hnone.
    + intros resp Hresp. rewrite Hresp in Hrun. split; [|split].
      * intros err Hv Herr. rewrite Hrun.
        by erewrite ProcessOperateResponse_invalid.
      * intros oper Hv Hbody Hodd. rewrite Hrun.
        erewrite ProcessOperateResponse_unexpected; [done..|].
        intros results ->. left. by apply Hodd.
      * intros res Hv Hres. split.
        -- intros Hcmd. rewrite Hrun.
           erewrite ProcessOperateResponse_unexpected; [done|done|exact Hres|].
           intros results [= <-]. right. by exists res.
        -- intros Hcmd. rewrite Hrun.
           erewrite ProcessOperateResponse_result by done.
           by destruct (operation_resp res).
  - intros r b'. rewrite Hrun. case_bool_decide; [by intros [= _ <-]|].
    destruct (operate_answer _ _ _ _ _) as [resp|]; [|by intros [= _ <-]].
    destruct (ProcessOperateResponse _ _ _ _) as [[r0 b0]|] eqn:Hproc; [|done].
    apply ProcessOperateResponse_state in Hproc as ->. by intros [= _ <-].
Qed.
End SyncCommands.
(* ===================================================================== *)
(** * The subscription map *)
(* ===================================================================== *)

(** Searching a list that got an entry at its tail. *)
Lemma list_find_snoc {A} (Q : A -> Prop) `{!forall x, Decision (Q x)} (l : list A) (x : A) :
  list_find Q (l ++ [x]) =
    match list_find Q l with
    | Some r => Some r
    | None => if decide (Q x) then Some (length l, x) else None
    end.
Proof.
  destruct (list_find Q l) as [[i y]|] eqn:Hl.
  - apply list_find_Some in Hl as (Hi & Hy & Hfirst).
    apply list_find_Some. split_and!; [by apply lookup_app_l_Some|done|].
    intros j z Hj Hlt. apply (Hfirst j z); [|done].
    rewrite lookup_app_l in Hj; [done|]. apply lookup_lt_Some in Hi. lia.
  - apply list_find_None in Hl. rewrite list.Forall_forall in Hl.
    case_decide as Hx.
    + apply list_find_Some. split_and!; [by apply list_lookup_middle|done|].
      intros j z Hj Hlt. rewrite lookup_app_l in Hj by done.
      apply Hl. apply list_elem_of_lookup. eauto.
    + apply list_find_None, list.Forall_forall. intros z Hz.
      apply elem_of_app in Hz as [Hz|Hz%list_elem_of_singleton]; [by apply Hl|].
      by subst.
Qed.

Section SubscriptionMap.
Context {P : Platform}.

(** X18. The subscription map as a Service keeps it.  An entry added with
    [SubsMap_Add] goes to the tail: the three searches keep finding the
    entries they found before, and find the new entry where they found none
    (by subscription id, by Broker instance and path, and by a path that
    matches the path of the entry).  [SubsMap_Remove] of the new entry gives
    the map back, and once the entry that a search by subscription id found
    is removed, a map without repeated subscription ids holds no entry with
    that id. *)
Theorem SubsMap_Add_Find_Remove sm service_inst path id broker_inst :
  let new := {| broker_instance := broker_inst; smap_path := path;
                service_instance := service_inst; subscription_id := id |} in
  let sm' := SubsMap_Add sm service_inst path id broker_inst in
  (forall id',
     SubsMap_FindByUspServiceSubsId sm' id' =
       match SubsMap_FindByUspServiceSubsId sm id' with
       | Some r => Some r
       | None => if decide (id = id') then Some (length sm, new) else None
       end) /\
  (forall bi p,
     SubsMap_FindByBrokerInstanceAndPath sm' bi p =
       match SubsMap_FindByBrokerInstanceAndPath sm bi p with
       | Some r => Some r
       | None => if decide (broker_inst = bi /\ path = p)
                 then Some (length sm, new) else None
       end) /\
  (forall p,
     SubsMap_FindByPath sm' p =
       match SubsMap_FindByPath sm p with
       | Some r => Some r
       | None => if TEXT_UTILS_IsPathMatch p path then Some (length sm, new) else None
       end) /\
  SubsMap_Remove sm' (length sm) = sm /\
  (forall id' i e,
     NoDup (subscription_id <$> sm) ->
     SubsMap_FindByUspServiceSubsId sm id' = Some (i, e) ->
     SubsMap_FindByUspServiceSubsId (SubsMap_Remove sm i) id' = None /\
     length (SubsMap_Remove sm i) = pred (length sm)).
Proof.
  intros new sm'. subst sm'. unfold SubsMap_Add. fold new. split_and!.
  - intros id'. unfold SubsMap_FindByUspServiceSubsId. rewrite list_find_snoc.
    destruct (list_find _ sm); [done|]. cbn [subscription_id new].
    by repeat case_decide.
  - intros bi p. unfold SubsMap_FindByBrokerInstanceAndPath. rewrite list_find_snoc.
    destruct (list_find _ sm); [done|]. cbn [broker_instance smap_path new].
    by repeat case_decide.
  - intros p. unfold SubsMap_FindByPath. rewrite list_find_snoc.
    destruct (list_find _ sm); [done|]. cbn [smap_path new].
    destruct (TEXT_UTILS_IsPathMatch p path); by case_decide.
  - unfold SubsMap_Remove. by rewrite delete_middle, app_nil_r.
  - intros id' i e Hnd Hfind. unfold SubsMap_FindByUspServiceSubsId, SubsMap_Remove in *.
    apply list_find_Some in Hfind as (Hi & Hid & _). split.
    + apply list_find_None, list.Forall_forall.
      intros e' [k Hk]%list_elem_of_lookup Hid'.
      rewrite list_lookup_delete in Hk. case_decide.
      * assert (k = i); [|lia].
        eapply (NoDup_fmap_lookup_inj subscription_id); eauto. congruence.
      * assert (S k = i); [|lia].
        eapply (NoDup_fmap_lookup_inj subscription_id); eauto. congruence.
    + rewrite length_delete; [lia|]. eauto.
Qed.
End SubscriptionMap.
(* ===================================================================== *)
(** * Message ids of the Broker *)
(* ===================================================================== *)

Lemma string_of_uint_digits d :
  all_chars is_digit (NilEmpty.string_of_uint d) = true.
Proof. induction d; cbn; done. Qed.

Lemma string_of_uint_nonempty d :
  d <> Decimal.Nil -> NilEmpty.string_of_uint d <> EmptyString.
Proof. by destruct d. Qed.

(** "%d" of a number that is not negative is its digits; of a negative
    number, a minus sign and its digits. *)
Lemma string_of_Z_shape z :
  exists digits,
    digits <> EmptyString /\ all_chars is_digit digits = true /\
    string_of_Z z = if bool_decide (0 <= z) then digits else String "-" digits.
Proof.
  unfold string_of_Z. destruct z as [|p|p]; cbn.
  - exists "0"%string. done.
  - exists (NilEmpty.string_of_uint (Pos.to_uint p)).
    pose proof (DecimalPos.Unsigned.to_uint_nonnil p) as Hnil.
    split; [by apply string_of_uint_nonempty|]. split; [apply string_of_uint_digits|].
    unfold NilZero.string_of_uint. by destruct (Pos.to_uint p).
  - exists (NilEmpty.string_of_uint (Pos.to_uint p)).
    pose proof (DecimalPos.Unsigned.to_uint_nonnil p) as Hnil.
    split; [by apply string_of_uint_nonempty|]. split; [apply string_of_uint_digits|].
    unfold NilZero.string_of_uint. by destruct (Pos.to_uint p).
Qed.

Lemma string_of_Z_inj z z' : string_of_Z z = string_of_Z z' -> z = z'.
Proof.
  unfold string_of_Z. intros Heq.
  assert (Hnorm : forall y, NilZero.int_of_string (NilZero.string_of_int (Z.to_int y))
                            = Some (Z.to_int y)).
  { intros y. apply NilZero.isi; destruct y; cbn; try discriminate.
    - intros [= H]. by apply DecimalPos.Unsigned.to_uint_nonnil in H.
    - intros [= H]. by apply DecimalPos.Unsigned.to_uint_nonnil in H. }
  apply (f_equal NilZero.int_of_string) in Heq. rewrite !Hnorm in Heq.
  injection Heq as Heq. apply (f_equal Z.of_int) in Heq.
  by rewrite !DecimalZ.of_to in Heq.
Qed.

(** Digits in front of a minus sign are read back from the text. *)
Lemma digits_before_dash d :
  forall d' r r',
    all_chars is_digit d = true -> all_chars is_digit d' = true ->
    String.append d (String "-" r) = String.append d' (String "-" r') ->
    d = d'.
Proof.
  induction d as [|a d IH]; intros [|a' d'] r r' Hd Hd' Heq; cbn in *.
  - done.
  - injection Heq as <- _. discriminate Hd'.
  - injection Heq as -> _. discriminate Hd.
  - injection Heq as -> Heq. f_equal.
    destruct (is_digit a'); [|discriminate]. by eapply IH.
Qed.

Lemma number_before_dash z z' r r' :
  String.append (string_of_Z z) (String "-" r) =
  String.append (string_of_Z z') (String "-" r') ->
  z = z'.
Proof.
  intros Heq. apply string_of_Z_inj.
  destruct (string_of_Z_shape z) as (d & Hne & Hd & Hz).
  destruct (string_of_Z_shape z') as (d' & Hne' & Hd' & Hz').
  rewrite Hz, Hz' in *.
  destruct (bool_decide (0 <= z)), (bool_decide (0 <= z')).
  - f_equal. by eapply digits_before_dash.
  - destruct d as [|a d]; [done|]. cbn in Heq. injection Heq as -> _. discriminate Hd.
  - destruct d' as [|a d']; [done|]. cbn in Heq. injection Heq as <- _. discriminate Hd'.
  - cbn in Heq. injection Heq as Heq. f_equal. by eapply digits_before_dash.
Qed.

Section MessageIds.
Context {P : Platform}.

(** A message id that is not cut is the whole text, from which the counter
    is read back. *)
Lemma broker_message_id_whole len c :
  (String.length (broker_message_id_text c) < len)%nat ->
  broker_message_id len c = broker_message_id_text c.
Proof.
  intros Hfit. unfold broker_message_id, USP_SNPRINTF.
  change (String.append "BROKER-" _) with (broker_message_id_text c).
  apply substring_all. lia.
Qed.

Lemma broker_message_id_text_counter c c' :
  0 <= c < 2 ^ 32 -> 0 <= c' < 2 ^ 32 ->
  broker_message_id_text c = broker_message_id_text c' -> c = c'.
Proof.
  intros Hc Hc' Heq. unfold broker_message_id_text in Heq.
  cbn [String.append] in Heq. injection Heq as Heq.
  apply number_before_dash in Heq.
  unfold as_int in Heq. repeat case_bool_decide; lia.
Qed.

(** X21. The message ids that [CalcBrokerMessageId] forms for two values
    of its counter differ, whatever the time is, as long as neither is cut
    by the buffer: the decimal text of the counter is read back from the
    id. *)
Theorem broker_message_id_injective len c c' :
  0 <= c < 2 ^ 32 -> 0 <= c' < 2 ^ 32 ->
  (String.length (broker_message_id_text c) < len)%nat ->
  (String.length (broker_message_id_text c') < len)%nat ->
  broker_message_id len c = broker_message_id len c' ->
  c = c'.
Proof.
  intros Hc Hc' Hfit Hfit' Heq.
  unfold broker_message_id, USP_SNPRINTF in Heq.
  change (String.append "BROKER-" _) with (broker_message_id_text c) in Heq at 1.
  change (String.append "BROKER-" _) with (broker_message_id_text c') in Heq at 1.
  rewrite !substring_all in Heq by lia.
  unfold broker_message_id_text in Heq. cbn [String.append] in Heq.
  injection Heq as Heq. apply number_before_dash in Heq.
  unfold as_int in Heq. repeat case_bool_decide; lia.
Qed.
End MessageIds.
(* ===================================================================== *)
(** * A Service comes and goes *)
(* ===================================================================== *)

Lemma prefix_refl (s : string) : String.prefix s s = true.
Proof. induction s as [|c s IH]; cbn; [done|]. by destruct (ascii_dec c c). Qed.

Lemma elem_of_schema_without paths :
  forall sch n, n ∈ schema_without sch paths ->
    n ∈ sch /\ forall p, p ∈ paths -> String.prefix p (node_path n) = false.
Proof.
  unfold schema_without.
  induction paths as [|p0 rest IH]; intros sch n Hn; cbn [fold_left] in Hn.
  - split; [done|]. intros p Hp. by apply elem_of_nil in Hp.
  - apply IH in Hn as [Hn Hrest]. apply list_elem_of_filter in Hn as [Hp0 Hn].
    split; [done|]. intros p [->|Hp]%elem_of_cons; [done|by apply Hrest].
Qed.

Lemma filter_all {A} (Q : A -> Prop) `{!forall x, Decision (Q x)} (l : list A) :
  (forall x, x ∈ l -> Q x) -> filter Q l = l.
Proof.
  induction l as [|x l IH]; intros Hall; [done|].
  rewrite filter_cons_True by (apply Hall; by left).
  f_equal. apply IH. intros y Hy. apply Hall. by right.
Qed.

Section ComeAndGo.
Context {P : Platform}.

Lemma FindUnusedGroupId_unused b :
  DATA_MODEL_FindUnusedGroupId b <> INVALID ->
  DATA_MODEL_FindUnusedGroupId b ∉ groups_in_use b.
Proof.
  unfold DATA_MODEL_FindUnusedGroupId.
  destruct (list_find _ _) as [[i g]|] eqn:Hfind; [|done].
  intros _. by apply list_find_Some in Hfind as (_ & ? & _).
Qed.

(** X22. When the agent of a Service disconnects, the paths that the
    Service had registered are free again: no Service owns them, the
    schema has no node for them, and [RegisterUspServicePath] accepts each
    of them for any Service.  No path is owned twice beforehand. *)
Theorem paths_released_on_disconnect b endpoint us s b' path :
  paths_owned_once b ->
  FindUspServiceByEndpoint (usp_services b) endpoint = Some us ->
  usp_services b !! us = Some s ->
  USP_BROKER_HandleUspServiceDisconnect endpoint kUdsPathType_BrokersController b =
    Some (tt, b') ->
  path ∈ registered_paths s ->
  ~ owned_by_a_service b' path /\
  PP_EXISTS_IN_SCHEMA b' path = false /\
  (ValidateUspServicePath path = USP_ERR_OK ->
   forall us2 s2, usp_services b' !! us2 = Some s2 ->
     RegisterUspServicePath us2 path b' =
       Some (USP_ERR_OK, set_paths b' us2 s2 (registered_paths s2 ++ [path]))).
Proof.
  intros Hnd Hfind Hs Hrun Hpath.
  rewrite (HandleUspServiceDisconnect_agent_run b endpoint us s Hfind Hs) in Hrun.
  injection Hrun as <-.
  match goal with |- context [owned_by_a_service ?st _] => set (b' := st) end.
  assert (Hslots : exists s', usp_services b' = <[us := s']> (usp_services b) /\
                              registered_paths s' = []).
  { subst b'. unfold removed_if_unconnected, service_removed, agent_disconnected.
    destruct (unconnected _); simpl_state; rewrite ?list_insert_insert_eq; eauto. }
  assert (Hschema : schema b' = schema_without (schema b) (registered_paths s)).
  { subst b'. unfold removed_if_unconnected, service_removed, agent_disconnected.
    by destruct (unconnected _). }
  clearbody b'. destruct Hslots as (s' & Hslots & Hnil).
  assert (Hfree : path ∉ all_registered_paths b').
  { unfold all_registered_paths. rewrite Hslots, list_fmap_insert, Hnil.
    intros Hin. unfold paths_owned_once in Hnd.
    rewrite (all_registered_paths_lookup b us s Hs) in Hnd.
    apply list.NoDup_app in Hnd as (_ & Hdisj & _). by apply (Hdisj path). }
  assert (Hnode : PP_EXISTS_IN_SCHEMA b' path = false).
  { unfold PP_EXISTS_IN_SCHEMA. apply bool_decide_eq_false.
    intros (n & -> & Hn)%list_elem_of_fmap. rewrite Hschema in Hn.
    apply elem_of_schema_without in Hn as [_ Hn].
    specialize (Hn _ Hpath). by rewrite prefix_refl in Hn. }
  split; [by rewrite <- elem_of_all_registered_paths|]. split; [exact Hnode|].
  intros Hvalid us2 s2 Hs2.
  rewrite (RegisterUspServicePath_outcome b' us2 s2 path Hs2).
  assert (Hok : register_answer b' [] path = USP_ERR_OK).
  { apply register_answer_OK. by rewrite app_nil_r. }
  rewrite Hok. by rewrite bool_decide_true.
Qed.

(** X23. A Service that connects to one of the Broker's UDS sockets and
    disconnects from it again, without having connected to the other,
    leaves the table as it found it: its endpoint is unknown again, the
    slot it had is unused and the first unused slot again, the other
    slots, the schema and the Request table are untouched, and its group
    id is no longer in use. *)
Theorem connect_then_disconnect b endpoint mtpc err b1 :
  FindUspServiceByEndpoint (usp_services b) endpoint = None ->
  protocol mtpc = kMtpProtocol_UDS ->
  uds_path_type mtpc <> kUdsPathType_Invalid ->
  USP_BROKER_AddUspService endpoint mtpc b = Some (err, b1) ->
  err <> USP_ERR_RESOURCES_EXCEEDED ->
  exists b2 us s2,
    USP_BROKER_HandleUspServiceDisconnect endpoint (uds_path_type mtpc) b1 =
      Some (tt, b2) /\
    FindUnusedUspService (usp_services b) = Some us /\
    FindUspServiceByEndpoint (usp_services b1) endpoint = Some us /\
    FindUspServiceByEndpoint (usp_services b2) endpoint = None /\
    FindUnusedUspService (usp_services b2) = Some us /\
    usp_services b2 = <[us := s2]> (usp_services b) /\
    instance s2 = INVALID /\ registered_paths s2 = [] /\ subs_map s2 = [] /\
    req_map s2 = [] /\ msg_map s2 = [] /\
    groups_in_use b2 = groups_in_use b /\
    schema b2 = schema b /\ request_table b2 = request_table b.
Proof.
  intros Hnone Huds Hpath Hrun Herr.
  assert (Husable : connection_usable mtpc) by (by intros [_ ?]).
  destruct (FindUnusedUspService (usp_services b)) as [us|] eqn:Hfree.
  2: { unfold USP_BROKER_AddUspService in Hrun.
       erewrite (bind_run get_state) in Hrun by reflexivity. rewrite Hnone in Hrun.
       pose proof (AddUspService_run b endpoint mtpc Husable) as Hadd.
       rewrite Hfree in Hadd. erewrite bind_run in Hrun by exact Hadd.
       by injection Hrun as <- _. }
  destruct (decide (DATA_MODEL_FindUnusedGroupId b = INVALID)) as [Hgroup|Hgroup].
  { unfold USP_BROKER_AddUspService in Hrun.
    erewrite (bind_run get_state) in Hrun by reflexivity. rewrite Hnone in Hrun.
    pose proof (AddUspService_run b endpoint mtpc Husable) as Hadd.
    rewrite Hfree in Hadd. cbn zeta in Hadd. rewrite bool_decide_true in Hadd by done.
    erewrite bind_run in Hrun by exact Hadd. by injection Hrun as <- _. }
  rewrite (USP_BROKER_AddUspService_new_run b endpoint mtpc us) in Hrun by done.
  pose proof Hfree as (s0 & Hs0 & Hunused)%FindUnusedUspService_Some.
  set (group := DATA_MODEL_FindUnusedGroupId b) in *.
  set (s := new_service b us endpoint mtpc group) in *.
  injection Hrun as _ <-.
  match goal with
  | |- context [<[us := ?s1']> (usp_services b)] => set (s1 := s1')
  end.
  assert (Hs1 : instance s1 = instance s /\ endpoint_id s1 = endpoint /\
                group_id s1 = group /\ registered_paths s1 = [] /\ req_map s1 = [] /\
                msg_map s1 = [] /\ controller_mtp s1 = controller_mtp s /\
                agent_mtp s1 = agent_mtp s).
  { subst s1. by destruct (_ && _). }
  destruct Hs1 as (Hi1 & He1 & Hg1 & Hp1 & Hr1 & Hm1 & Hc1 & Ha1).
  match goal with
  | |- context [USP_BROKER_HandleUspServiceDisconnect _ _ ?st] => set (b1 := st)
  end.
  assert (Hlook1 : usp_services b1 !! us = Some s1).
  { subst b1. simpl_state. by apply (lookup_insert_same _ _ s0). }
  assert (Hfind1 : FindUspServiceByEndpoint (usp_services b1) endpoint = Some us).
  { subst b1. simpl_state. eapply FindUspServiceByEndpoint_new; eauto.
    rewrite Hi1. apply new_service_live. }
  assert (Hgone : forall s2, instance s2 = INVALID ->
    FindUspServiceByEndpoint (<[us := s2]> (usp_services b)) endpoint = None /\
    FindUnusedUspService (<[us := s2]> (usp_services b)) = Some us).
  { intros s2 Hinv. split.
    - unfold FindUspServiceByEndpoint. apply fmap_None, list_find_None, list.Forall_forall.
      intros y [j Hj]%list_elem_of_lookup. destruct (decide (j = us)) as [->|Hne].
      + rewrite (lookup_insert_same _ _ _ _ Hs0) in Hj. injection Hj as <-.
        intros [? _]. done.
      + rewrite list_lookup_insert_ne in Hj by done.
        by eapply FindUspServiceByEndpoint_None.
    - unfold FindUnusedUspService in *. apply fmap_Some in Hfree as [[i x] [Hfree Hi]].
      cbn in Hi. subst i.
      apply list_find_Some in Hfree as (_ & _ & Hfirst).
      apply fmap_Some. exists (us, s2). split; [|done].
      apply list_find_Some. split; [by apply (lookup_insert_same _ _ s0)|].
      split; [done|]. intros j y Hj Hlt. rewrite list_lookup_insert_ne in Hj by lia.
      by apply (Hfirst j). }
  assert (Hgroups : filter (fun g => g <> group) (group :: groups_in_use b)
                    = groups_in_use b).
  { rewrite filter_cons_False by (intros H; by apply H).
    apply filter_all. intros g Hg ->. by apply (FindUnusedGroupId_unused b). }
  destruct (uds_path_type mtpc) eqn:Htype; [done| |].
  - (* the Broker's agent socket *)
    rewrite (HandleUspServiceDisconnect_controller_run b1 endpoint us s1 Hfind1 Hlook1).
    assert (Hun : unconnected (controller_side_closed s1) = true).
    { assert (Hzero : controller_mtp s = zero_mtp_conn).
      { subst s. cbn. unfold stored_as_controller. rewrite Huds, Htype.
        by rewrite bool_decide_false by (intros [?|?]; done). }
      unfold unconnected, controller_side_closed. cbn. rewrite Hc1, Hzero.
      apply bool_decide_eq_true. done. }
    unfold removed_if_unconnected. rewrite Hun.
    eexists _, us, (freed_service (controller_side_closed s1)).
    split; [reflexivity|].
    unfold service_removed. subst b1. simpl_state.
    rewrite !list_insert_insert_eq.
    destruct (Hgone (freed_service (controller_side_closed s1)) eq_refl) as [Hg2 Hu2].
    split_and!; try done.
    cbn [group_id controller_side_closed set_has_controller set_agent_mtp].
    by rewrite Hg1.
  - (* the Broker's controller socket *)
    rewrite (HandleUspServiceDisconnect_agent_run b1 endpoint us s1 Hfind1 Hlook1).
    assert (Hun : unconnected (agent_side_closed s1) = true).
    { assert (Hzero : agent_mtp s = zero_mtp_conn).
      { subst s. cbn. unfold stored_as_agent. rewrite Huds, Htype.
        by rewrite bool_decide_false by (intros [?|?]; done). }
      unfold unconnected, agent_side_closed, agent_gone. cbn. rewrite Ha1, Hzero.
      apply bool_decide_eq_true. done. }
    unfold removed_if_unconnected. rewrite Hun.
    eexists _, us, (freed_service (agent_side_closed s1)).
    split; [reflexivity|].
    unfold service_removed, agent_disconnected. subst b1. simpl_state.
    rewrite !list_insert_insert_eq.
    destruct (Hgone (freed_service (agent_side_closed s1)) eq_refl) as [Hg2 Hu2].
    split_and!; try done.
    + cbn [group_id agent_side_closed agent_gone set_registered_paths set_msg_map
           set_req_map set_subs_map set_controller_mtp]. by rewrite Hg1.
    + cbn [registered_paths set_controller_mtp]. by rewrite Hp1.
    + rewrite bool_decide_true by done.
      cbn [req_map set_controller_mtp]. by rewrite Hr1.
Qed.
End ComeAndGo.
(* ===================================================================== *)
(** * The message ids in the message maps *)
(* ===================================================================== *)

Lemma msg_maps_kept_refl l : msg_maps_kept l l.
Proof.
  apply Forall2_same_length_lookup. split; [done|].
  intros i x y ? ?. by simplify_eq.
Qed.

Lemma msg_maps_kept_trans l1 l2 l3 :
  msg_maps_kept l1 l2 -> msg_maps_kept l2 l3 -> msg_maps_kept l1 l3.
Proof.
  intros H12 H23. apply Forall2_same_length_lookup. split.
  - etrans; by eapply list.Forall2_length.
  - intros i x z Hx Hz.
    destruct (Forall2_lookup_l _ _ _ _ _ H12 Hx) as (y & Hy & Hxy).
    destruct (Forall2_lookup_l _ _ _ _ _ H23 Hy) as (z' & Hz' & Hyz).
    simplify_eq. by etrans.
Qed.

Lemma msg_maps_kept_alter l us f :
  (forall s, sublist (msg_map (f s)) (msg_map s)) ->
  msg_maps_kept l (alter f us l).
Proof.
  intros Hf. apply Forall2_same_length_lookup. split; [by rewrite length_alter|].
  intros i x y Hx Hy. destruct (decide (i = us)) as [->|Hne].
  - rewrite list_lookup_alter_eq, Hx in Hy. cbn in Hy. simplify_eq. apply Hf.
  - rewrite list_lookup_alter_ne in Hy by done. by simplify_eq.
Qed.

Lemma uses_no_id_ret {A} (a : A) : uses_no_id (ret a).
Proof. intros b r b' [= _ <-]. split; [done|apply msg_maps_kept_refl]. Qed.

Lemma uses_no_id_terminate {A} : uses_no_id (@terminate A).
Proof. intros b r b' [=]. Qed.

Lemma uses_no_id_bind {A B} (m : M A) (k : A -> M B) :
  uses_no_id m -> (forall a, uses_no_id (k a)) -> uses_no_id (bind m k).
Proof.
  intros Hm Hk b r b'. unfold bind.
  destruct (m b) as [[a b1]|] eqn:Hmb; [|done]. intros Hkb.
  destruct (Hm _ _ _ Hmb) as [Hc1 Hm1], (Hk _ _ _ _ Hkb) as [Hc2 Hm2].
  split; [congruence|by eapply msg_maps_kept_trans].
Qed.

Lemma uses_no_id_get_state : uses_no_id get_state.
Proof. intros b r b' [= _ <-]. split; [done|apply msg_maps_kept_refl]. Qed.

Lemma uses_no_id_get_us us : uses_no_id (get_us us).
Proof.
  intros b r b'. unfold get_us. destruct (_ !! _); [|done].
  intros [= _ <-]. split; [done|apply msg_maps_kept_refl].
Qed.

Lemma uses_no_id_modify f :
  (forall b, count (f b) = count b /\ usp_services (f b) = usp_services b) ->
  uses_no_id (modify f).
Proof.
  intros Hf b r b' [= _ <-]. destruct (Hf b) as [-> ->].
  split; [done|apply msg_maps_kept_refl].
Qed.

Lemma uses_no_id_call e : uses_no_id (call e).
Proof. by apply uses_no_id_modify. Qed.

Lemma uses_no_id_update_us us f :
  (forall s, sublist (msg_map (f s)) (msg_map s)) -> uses_no_id (update_us us f).
Proof. intros Hf b r b' [= _ <-]. split; [done|by apply msg_maps_kept_alter]. Qed.

Lemma uses_no_id_for_each {A} (l : list A) (body : A -> M unit) :
  (forall x, uses_no_id (body x)) -> uses_no_id (for_each l body).
Proof.
  intros Hbody. induction l as [|x l IH]; simpl.
  - apply uses_no_id_ret.
  - apply uses_no_id_bind; [apply Hbody | intros _; apply IH].
Qed.

Create HintDb no_id discriminated.
#[global] Hint Resolve uses_no_id_ret uses_no_id_terminate
  uses_no_id_get_state uses_no_id_get_us uses_no_id_call : no_id.

(** Decompose a computation along its binds and case distinctions. *)
Ltac no_id_step :=
  match goal with
  | |- uses_no_id (bind _ _) => apply uses_no_id_bind; [|intros ?]
  | |- uses_no_id (for_each _ _) => apply uses_no_id_for_each; intros ?
  | |- uses_no_id (modify _) => apply uses_no_id_modify; intros ?; split; reflexivity
  | |- uses_no_id (update_us _ _) =>
      apply uses_no_id_update_us; intros ?; cbn;
      first [reflexivity | apply sublist_nil_l | apply sublist_delete]
  | |- uses_no_id (if ?c then _ else _) => destruct c
  | |- uses_no_id (match ?x with _ => _ end) => destruct x
  | |- uses_no_id (let '(_, _) := ?x in _) => destruct x
  | |- _ => solve [auto with no_id]
  end.

Ltac no_id := repeat no_id_step.

Section NoId.
Context {P : Platform}.

Lemma uses_no_id_QueueMessage e m c : uses_no_id (MSG_HANDLER_QueueMessage e m c).
Proof. unfold MSG_HANDLER_QueueMessage. no_id. Qed.

Lemma uses_no_id_DeleteMatchingOperateRequest us o c k :
  uses_no_id (DeleteMatchingOperateRequest us o c k).
Proof. unfold DeleteMatchingOperateRequest, DEVICE_REQUEST_DeleteInstance. no_id. Qed.

Lemma uses_no_id_HandleNotification usp endpoint mtpc :
  uses_no_id (USP_BROKER_HandleNotification usp endpoint mtpc).
Proof.
  unfold USP_BROKER_HandleNotification, DEVICE_SUBSCRIPTION_RouteNotification,
    header_msg_id, MSG_HANDLER_QueueErrorMessage.
  no_id; apply uses_no_id_DeleteMatchingOperateRequest.
Qed.

Lemma uses_no_id_AttemptPassThruForNotification current usp endpoint mtpc :
  uses_no_id (AttemptPassThruForNotification current usp endpoint mtpc).
Proof.
  unfold AttemptPassThruForNotification, DEVICE_SUBSCRIPTION_RouteNotification.
  no_id.
Qed.

Lemma uses_no_id_AttemptPassThruForResponse usp e :
  uses_no_id (AttemptPassThruForResponse usp e).
Proof.
  unfold AttemptPassThruForResponse. no_id; apply uses_no_id_QueueMessage.
Qed.

Lemma uses_no_id_GetNotifyDest endpoint t :
  uses_no_id (USP_BROKER_GetNotifyDestForEndpoint endpoint t).
Proof. unfold USP_BROKER_GetNotifyDestForEndpoint. no_id. Qed.

Lemma uses_no_id_free_controller us : uses_no_id (free_controller_mtp us).
Proof. unfold free_controller_mtp. no_id. Qed.

Lemma uses_no_id_free_agent us : uses_no_id (free_agent_mtp us).
Proof. unfold free_agent_mtp. no_id. Qed.

Lemma uses_no_id_UpdateUspServiceMRT us mtpc :
  uses_no_id (UpdateUspServiceMRT us mtpc).
Proof.
  unfold UpdateUspServiceMRT.
  no_id; first [apply uses_no_id_free_controller | apply uses_no_id_free_agent].
Qed.

Lemma uses_no_id_MsgMap_Destroy us : uses_no_id (MsgMap_Destroy us).
Proof. unfold MsgMap_Destroy. no_id. Qed.

Lemma uses_no_id_AgentDisconnect us flags :
  uses_no_id (HandleUspServiceAgentDisconnect us flags).
Proof.
  unfold HandleUspServiceAgentDisconnect, DEVICE_REQUEST_OperationComplete,
    DATA_MODEL_DeRegisterPath.
  no_id; apply uses_no_id_MsgMap_Destroy.
Qed.

Lemma uses_no_id_FreeUspService us : uses_no_id (FreeUspService us).
Proof.
  unfold FreeUspService.
  no_id; first [ apply uses_no_id_free_controller | apply uses_no_id_free_agent
               | apply uses_no_id_MsgMap_Destroy ].
Qed.

Lemma uses_no_id_GroupVendorHooks group in_use :
  uses_no_id (USP_REGISTER_GroupVendorHooks group in_use).
Proof. unfold USP_REGISTER_GroupVendorHooks. no_id. Qed.

Lemma uses_no_id_HandleUspServiceDisconnect endpoint path_type :
  uses_no_id (USP_BROKER_HandleUspServiceDisconnect endpoint path_type).
Proof.
  unfold USP_BROKER_HandleUspServiceDisconnect.
  no_id; first [ apply uses_no_id_free_agent | apply uses_no_id_free_controller
               | apply uses_no_id_AgentDisconnect | apply uses_no_id_FreeUspService
               | apply uses_no_id_GroupVendorHooks ].
Qed.

Lemma uses_no_id_Stop : uses_no_id USP_BROKER_Stop.
Proof.
  unfold USP_BROKER_Stop.
  no_id; first [apply uses_no_id_AgentDisconnect | apply uses_no_id_FreeUspService].
Qed.

Lemma uses_no_id_RegisterUspServicePath us path :
  uses_no_id (RegisterUspServicePath us path).
Proof. unfold RegisterUspServicePath. no_id. Qed.

Lemma uses_no_id_HandleRegister_paths us allow paths :
  forall reg_resp cnt, uses_no_id (HandleRegister_paths us allow paths reg_resp cnt).
Proof.
  induction paths as [|rp rest IH]; intros reg_resp cnt; cbn [HandleRegister_paths].
  - no_id.
  - apply uses_no_id_bind; [apply uses_no_id_RegisterUspServicePath|].
    intros err. destruct (_ && _); [no_id|apply IH].
Qed.

Lemma uses_no_id_mark_has_controller us mtpc :
  uses_no_id (mark_has_controller us mtpc).
Proof. unfold mark_has_controller. no_id. Qed.

Lemma uses_no_id_AddUspService endpoint mtpc : uses_no_id (AddUspService endpoint mtpc).
Proof.
  unfold AddUspService.
  no_id; first [apply uses_no_id_GroupVendorHooks | apply uses_no_id_UpdateUspServiceMRT].
Qed.

Lemma uses_no_id_USP_BROKER_AddUspService endpoint mtpc :
  uses_no_id (USP_BROKER_AddUspService endpoint mtpc).
Proof.
  unfold USP_BROKER_AddUspService, USP_DM_InformInstance.
  no_id; first [ apply uses_no_id_UpdateUspServiceMRT | apply uses_no_id_mark_has_controller
               | apply uses_no_id_AddUspService ].
Qed.
End NoId.

#[global] Hint Resolve uses_no_id_QueueMessage uses_no_id_DeleteMatchingOperateRequest
  uses_no_id_free_controller uses_no_id_free_agent uses_no_id_UpdateUspServiceMRT
  uses_no_id_MsgMap_Destroy uses_no_id_AgentDisconnect uses_no_id_FreeUspService
  uses_no_id_GroupVendorHooks uses_no_id_RegisterUspServicePath
  uses_no_id_HandleRegister_paths uses_no_id_mark_has_controller
  uses_no_id_AddUspService : no_id.

(** ** Calls that use one message id *)

Section OneId.
Context {P : Platform}.

Lemma uses_one_id_no_id {A} (m : M A) : uses_no_id m -> uses_one_id m.
Proof. intros Hm b r b' Hrun. left. by eapply Hm. Qed.

Lemma slot_id_added_before id s1 s2 s3 :
  sublist (msg_map s2) (msg_map s1) -> slot_id_added id s2 s3 ->
  slot_id_added id s1 s3.
Proof.
  intros H12 [H23|(kept & e & Hmap & Hkept & Hid)].
  - left. by etrans.
  - right. exists kept, e. split; [done|]. split; [by etrans|done].
Qed.

Lemma slot_id_added_after id s1 s2 s3 :
  slot_id_added id s1 s2 -> sublist (msg_map s3) (msg_map s2) ->
  slot_id_added id s1 s3.
Proof.
  intros [H12|(kept & e & Hmap & Hkept & Hid)] H23.
  - left. by etrans.
  - rewrite Hmap in H23. apply sublist_app_r in H23 as (l1 & l2 & Hl & Hl1 & Hl2).
    apply sublist_cons_r in Hl2 as [Hnil|(l2' & -> & Hnil)].
    + apply sublist_nil_r in Hnil as ->. rewrite app_nil_r in Hl.
      left. rewrite Hl. by etrans.
    + apply sublist_nil_r in Hnil as ->.
      right. exists l1, e. split; [done|]. split; [by etrans|done].
Qed.

Lemma Forall2_compose {A} (R1 R2 R3 : A -> A -> Prop) l1 l2 l3 :
  (forall x y z, R1 x y -> R2 y z -> R3 x z) ->
  Forall2 R1 l1 l2 -> Forall2 R2 l2 l3 -> Forall2 R3 l1 l3.
Proof.
  intros HR H12 H23. apply Forall2_same_length_lookup. split.
  - etrans; by eapply list.Forall2_length.
  - intros i x z Hx Hz.
    destruct (Forall2_lookup_l _ _ _ _ _ H12 Hx) as (y & Hy & Hxy).
    destruct (Forall2_lookup_l _ _ _ _ _ H23 Hy) as (z' & Hz' & Hyz).
    simplify_eq. by eapply HR.
Qed.

Lemma uses_one_id_bind_l {A B} (m : M A) (k : A -> M B) :
  uses_no_id m -> (forall a, uses_one_id (k a)) -> uses_one_id (bind m k).
Proof.
  intros Hm Hk b r b'. unfold bind.
  destruct (m b) as [[a b1]|] eqn:Hmb; [|done]. intros Hkb.
  destruct (Hm _ _ _ Hmb) as [Hc1 Hm1].
  destruct (Hk _ _ _ _ Hkb) as [[Hc2 Hm2]|[Hc2 Hm2]].
  - left. split; [congruence|by eapply msg_maps_kept_trans].
  - right. split; [congruence|].
    unfold next_message_id in *. rewrite Hc1 in Hm2.
    eapply Forall2_compose; [|exact Hm1|exact Hm2].
    intros x y z Hxy Hyz. exact (slot_id_added_before _ x y z Hxy Hyz).
Qed.

Lemma uses_one_id_bind_r {A B} (m : M A) (k : A -> M B) :
  uses_one_id m -> (forall a, uses_no_id (k a)) -> uses_one_id (bind m k).
Proof.
  intros Hm Hk b r b'. unfold bind.
  destruct (m b) as [[a b1]|] eqn:Hmb; [|done]. intros Hkb.
  destruct (Hk _ _ _ _ Hkb) as [Hc2 Hm2].
  destruct (Hm _ _ _ Hmb) as [[Hc1 Hm1]|[Hc1 Hm1]].
  - left. split; [congruence|by eapply msg_maps_kept_trans].
  - right. split; [congruence|].
    eapply Forall2_compose; [|exact Hm1|exact Hm2].
    intros x y z Hxy Hyz. exact (slot_id_added_after _ x y z Hxy Hyz).
Qed.

Lemma uses_one_id_CalcBrokerMessageId :
  uses_one_id (CalcBrokerMessageId MAX_MSG_ID_LEN).
Proof.
  intros b r b'. unfold CalcBrokerMessageId, bind, get_state, modify, ret.
  intros [= _ <-]. right. split; [done|]. cbn.
  apply Forall2_same_length_lookup. split; [done|].
  intros i x y ? ?. simplify_eq. by left.
Qed.

Lemma uses_no_id_ProcessOperateResponse resp path is_sync :
  uses_no_id (ProcessOperateResponse resp path is_sync).
Proof. unfold ProcessOperateResponse. no_id. Qed.
End OneId.

#[global] Hint Resolve uses_no_id_ProcessOperateResponse : no_id.

Create HintDb one_id discriminated.
#[global] Hint Resolve uses_one_id_CalcBrokerMessageId : one_id.

(** Decompose a computation that uses one id: it is used on one side of a
    bind, and the other side uses none. *)
Ltac one_id_step :=
  match goal with
  | |- uses_one_id (bind _ _) =>
      first [ apply uses_one_id_bind_l; [solve [no_id]|intros ?]
            | apply uses_one_id_bind_r; [|intros ?; solve [no_id]] ]
  | |- uses_one_id (if ?c then _ else _) => destruct c
  | |- uses_one_id (match ?x with _ => _ end) => destruct x
  | |- uses_one_id (let '(_, _) := ?x in _) => destruct x
  | |- _ => solve [auto with one_id | apply uses_one_id_no_id; no_id]
  end.

Ltac one_id := repeat one_id_step.

Section OneIdHandlers.
Context {P : Platform}.

Lemma uses_one_id_SendOperate g p sy k a :
  uses_one_id (SendOperateAndProcessResponse g p sy k a).
Proof.
  unfold SendOperateAndProcessResponse, CreateBroker_OperateReq. one_id.
Qed.

Lemma uses_one_id_AsyncOperate req args inst :
  uses_one_id (Broker_AsyncOperate req args inst).
Proof.
  unfold Broker_AsyncOperate, Broker_AsyncOperate_sending.
  one_id; apply uses_one_id_SendOperate.
Qed.

Lemma uses_one_id_SyncOperate req key args :
  uses_one_id (Broker_SyncOperate req key args).
Proof. unfold Broker_SyncOperate. one_id; apply uses_one_id_SendOperate. Qed.

Lemma uses_one_id_QueueGetSupportedDMToUspService us :
  uses_one_id (QueueGetSupportedDMToUspService us).
Proof.
  unfold QueueGetSupportedDMToUspService, DM_PRIV_AddSchemaPath_and_tag. one_id.
Qed.

Lemma uses_one_id_HandleRegister_exit endpoint mtpc resp cnt us :
  uses_one_id (HandleRegister_exit endpoint mtpc resp cnt us).
Proof.
  unfold HandleRegister_exit.
  one_id; apply uses_one_id_QueueGetSupportedDMToUspService.
Qed.

Lemma uses_one_id_HandleRegister usp endpoint mtpc :
  uses_one_id (USP_BROKER_HandleRegister usp endpoint mtpc).
Proof.
  unfold USP_BROKER_HandleRegister, header_msg_id, USP_DM_InformInstance.
  one_id; apply uses_one_id_HandleRegister_exit.
Qed.

(** [PassThruToUspService] is the one that adds an entry, with the id that
    it has just taken. *)
Lemma uses_one_id_PassThruToUspService us usp endpoint mtpc :
  uses_one_id (PassThruToUspService us usp endpoint mtpc).
Proof.
  intros b r b'.
  unfold PassThruToUspService, CalcBrokerMessageId, MSG_HANDLER_QueueMessage,
    bind, get_state, get_us, call, modify, update_us, ret, terminate.
  destruct (usp_services b !! us) as [s|] eqn:Hs; [|done]. cbn.
  destruct (header usp) as [h|]; [|done]. cbn.
  case_bool_decide.
  - intros [= _ <-]. right. split; [done|]. cbn.
    apply Forall2_same_length_lookup. split; [done|].
    intros i x y ? ?. simplify_eq. by left.
  - destruct (msg_id h) as [original|]; [|done].
    intros [= _ <-]. right. split; [done|]. cbn.
    apply Forall2_same_length_lookup. split; [by rewrite length_alter|].
    intros i x y Hx Hy. destruct (decide (i = us)) as [->|Hne].
    + rewrite list_lookup_alter_eq, Hx in Hy. cbn in Hy. simplify_eq.
      right. eexists _, _. split; [reflexivity|]. done.
    + rewrite list_lookup_alter_ne in Hy by done. simplify_eq. by left.
Qed.

Lemma handled_one_id b b' : handled b b' -> one_id_used b b'.
Proof.
  intros [].
  - left. by eapply uses_no_id_USP_BROKER_AddUspService.
  - left. by eapply uses_no_id_HandleUspServiceDisconnect.
  - by eapply uses_one_id_HandleRegister.
  - left. by eapply uses_no_id_HandleNotification.
  - left. by eapply uses_no_id_AttemptPassThruForNotification.
  - by eapply uses_one_id_AsyncOperate.
  - by eapply uses_one_id_SyncOperate.
  - by eapply uses_one_id_PassThruToUspService.
  - left. by eapply uses_no_id_AttemptPassThruForResponse.
  - left. by eapply uses_no_id_GetNotifyDest.
  - left. by eapply uses_no_id_Stop.
Qed.

(** The ids in a map that was in order stay in order. *)
Lemma message_ids_kept (n n' : Z) (l l' : list msg_map_t) :
  n <= n' -> sublist l' l ->
  NoDup (broker_msg_id <$> l) /\
  (forall e, e ∈ l -> exists c, 1 <= c <= n /\ id_fits c /\
                broker_msg_id e = broker_message_id MAX_MSG_ID_LEN c) ->
  NoDup (broker_msg_id <$> l') /\
  (forall e, e ∈ l' -> exists c, 1 <= c <= n' /\ id_fits c /\
                broker_msg_id e = broker_message_id MAX_MSG_ID_LEN c).
Proof.
  intros Hn Hsub [Hnd Hall]. split.
  - eapply sublist_NoDup; [exact Hnd|]. by apply fmap_sublist.
  - intros e He. destruct (Hall e) as (c & Hc & Hfit & Hid).
    + by eapply elem_of_sublist.
    + exists c. split; [lia|done].
Qed.

Lemma one_id_used_counted b b' :
  one_id_used b b' -> next_id_whole b ->
  message_ids_counted b -> message_ids_counted b'.
Proof.
  intros Hstep [Hwrap Hfit] [Hcount Hmaps].
  destruct Hstep as [[Hc Hkept]|[Hc Hadded]].
  - split; [by rewrite Hc|]. intros us s' Hs'.
    destruct (Forall2_lookup_r _ _ _ _ _ Hkept Hs') as (s & Hs & Hsub).
    rewrite Hc. eapply message_ids_kept; [reflexivity|exact Hsub|by apply (Hmaps us)].
  - rewrite Z.mod_small in Hc by lia.
    split; [lia|]. intros us s' Hs'.
    destruct (Forall2_lookup_r _ _ _ _ _ Hadded Hs') as (s & Hs & Hslot).
    destruct (Hmaps us s Hs) as [Hnd Hall].
    destruct Hslot as [Hsub|(kept & e & Hmap & Hsub & Hid)].
    + eapply message_ids_kept; [|exact Hsub|by apply (Hmaps us)]. lia.
    + destruct (message_ids_kept (count b) (count b') _ kept ltac:(lia) Hsub
                  (conj Hnd Hall)) as [Hnd' Hall'].
      unfold next_message_id in Hid. rewrite Z.mod_small in Hid by lia.
      rewrite Hmap. split.
      * rewrite fmap_app. apply list.NoDup_app. split; [exact Hnd'|].
        split; [|apply NoDup_singleton].
        intros id0 Hin Hnew. apply list_elem_of_singleton in Hnew as ->.
        apply list_elem_of_fmap in Hin as (e0 & Heq & He0).
        destruct (Hall e0) as (c & Hcb & Hfitc & Hidc); [by eapply elem_of_sublist|].
        assert (c = count b + 1); [|lia].
        apply broker_message_id_text_counter; [lia..|].
        rewrite <- !(broker_message_id_whole MAX_MSG_ID_LEN) by done. congruence.
      * intros e0 [He0|He0]%elem_of_app; [by apply Hall'|].
        apply list_elem_of_singleton in He0 as ->.
        exists (count b + 1). rewrite Hc. split; [lia|done].
Qed.

Lemma counted_message_ids b : counted b -> message_ids_counted b.
Proof.
  induction 1 as [builtin Hok|b b' _ IH Hwhole Hrun].
  - split.
    + unfold USP_BROKER_Init. case_bool_decide; cbn; lia.
    + intros us s Hs. rewrite (USP_BROKER_Init_OK _ Hok) in Hs.
      apply lookup_replicate in Hs as [-> _]. cbn.
      split; [constructor|]. intros e He. inversion He.
  - eapply one_id_used_counted; [by apply handled_one_id|done..].
Qed.

(** The next message id is in no message map. *)
Lemma next_message_id_fresh b us s :
  message_ids_counted b -> next_id_whole b ->
  usp_services b !! us = Some s ->
  next_message_id b ∉ broker_msg_id <$> msg_map s.
Proof.
  intros [Hcount Hmaps] [Hwrap Hfit] Hs Hin.
  destruct (Hmaps us s Hs) as [_ Hall].
  apply list_elem_of_fmap in Hin as (e & Heq & He).
  destruct (Hall e He) as (c & Hc & Hfitc & Hid).
  unfold next_message_id in Heq. rewrite Z.mod_small in Heq by lia.
  assert (c = count b + 1); [|lia].
  apply broker_message_id_text_counter; [lia..|].
  rewrite <- !(broker_message_id_whole MAX_MSG_ID_LEN) by done. congruence.
Qed.

(** X24. In every state that the Broker gets to by calls of its functions
    after a [USP_BROKER_Init] that succeeded, as long as the message
    counter has not wrapped and no message id has been cut by its buffer:
    the entries of a message map have message ids of their own, each the
    message id of a value that the counter has had, and the message id that
    [CalcBrokerMessageId] gives next, if it is whole, is in no message
    map. *)
Theorem message_ids_distinct b :
  counted b ->
  0 <= count b < 2 ^ 32 /\
  forall us s,
    usp_services b !! us = Some s ->
    NoDup (broker_msg_id <$> msg_map s) /\
    (forall e, e ∈ msg_map s ->
       exists c, 1 <= c <= count b /\
                 broker_msg_id e = broker_message_id MAX_MSG_ID_LEN c) /\
    (next_id_whole b -> next_message_id b ∉ broker_msg_id <$> msg_map s).
Proof.
  intros Hb. pose proof (counted_message_ids b Hb) as Hids.
  split; [apply Hids|]. intros us s Hs.
  destruct (proj2 Hids us s Hs) as [Hnd Hall].
  split; [exact Hnd|]. split.
  - intros e He. destruct (Hall e He) as (c & Hc & _ & Hid). eauto.
  - intros Hwhole. by eapply next_message_id_fresh.
Qed.
End OneIdHandlers.
(* ===================================================================== *)
(** * Passthru of requests *)
(* ===================================================================== *)

Section RequestPassthru.
Context {P : Platform}.

(** X19. In a state that the Broker has got to with its message ids whole,
    and whose next message id is whole, a request that
    [PassThruToUspService] passes to a Service goes out under a message id
    of the Broker that no entry of the Service's message map has; the map
    remembers it together with the originator, the originator's message id
    and its connection.  The response or ERROR of the Service under the
    Broker's message id is then queued by [AttemptPassThruForResponse] to
    the originator, on the connection the request came in on and under the
    originator's own message id; the entry is removed and the connection
    freed: the Service table is what it was before the request. *)
Theorem PassThru_request_response b us s id t bd endpoint mtpc t' bd' :
  counted b -> next_id_whole b ->
  usp_services b !! us = Some s ->
  FindUspServiceByEndpoint (usp_services b) (endpoint_id s) = Some us ->
  let c := (count b + 1) mod 2 ^ 32 in
  let broker_id := broker_message_id MAX_MSG_ID_LEN c in
  MSG_HANDLER_QueueMessage_result
    (endpoint_id s) (received broker_id t bd) (controller_mtp s) = USP_ERR_OK ->
  is_response_or_error bd' ->
  (broker_id ∉ broker_msg_id <$> msg_map s) /\
  exists b1 b2 s1,
    PassThruToUspService us (received id t bd) endpoint mtpc b = Some (USP_ERR_OK, b1) /\
    emitted b b1
      [Ev_QueueMessage (endpoint_id s) (received broker_id t bd) (controller_mtp s)] /\
    usp_services b1 !! us = Some s1 /\
    MsgMap_Find (msg_map s1) broker_id =
      Some (length (msg_map s),
            {| broker_msg_id := broker_id; original_msg_id := id;
               originator := endpoint; mtp_conn := mtpc |}) /\
    NoDup (broker_msg_id <$> msg_map s1) /\
    AttemptPassThruForResponse (received broker_id t' bd') (endpoint_id s) b1
      = Some (true, b2) /\
    emitted b1 b2
      [Ev_QueueMessage endpoint (received id t' bd') mtpc; Ev_FreeMTPConnection mtpc] /\
    usp_services b2 = usp_services b.
Proof.
  intros Hcounted Hwhole Hs Hfind c broker_id Hq Hbd'.
  pose proof (counted_message_ids b Hcounted) as Hids.
  pose proof (next_message_id_fresh b us s Hids Hwhole Hs) as Hfresh.
  change (next_message_id b) with broker_id in Hfresh.
  split; [exact Hfresh|].
  set (entry := {| broker_msg_id := broker_id; original_msg_id := id;
                   originator := endpoint; mtp_conn := mtpc |}).
  set (s1 := set_msg_map (MsgMap_Add (msg_map s) id broker_id endpoint mtpc) s).
  assert (Hmap : MsgMap_Find (msg_map s1) broker_id = Some (length (msg_map s), entry)).
  { subst s1. cbn [msg_map set_msg_map].
    unfold MsgMap_Find, MsgMap_Add. apply list_find_Some. split; [|split].
    - by apply list_lookup_middle.
    - done.
    - intros j y Hj Hlt Hy. apply Hfresh.
      rewrite lookup_app_l in Hj by done.
      apply list_elem_of_fmap. exists y. split; [done|].
      apply list_elem_of_lookup. eauto. }
  eexists _, _, s1. split; [by apply PassThruToUspService_run|].
  split; [reflexivity|]. simpl_state.
  split; [by apply (lookup_insert_same _ _ s)|].
  split; [exact Hmap|]. split.
  { subst s1. cbn [msg_map set_msg_map]. unfold MsgMap_Add.
    rewrite fmap_app. apply list.NoDup_app.
    split; [by apply (proj2 Hids us s Hs)|]. split; [|apply NoDup_singleton].
    intros id0 Hin Hnew. apply list_elem_of_singleton in Hnew as ->. by apply Hfresh. }
  split.
  { apply AttemptPassThruForResponse_hit
      with (us := us) (s := s1) (i := length (msg_map s)) (map := entry);
      [done| | |exact Hmap].
    - simpl. erewrite FindUspServiceByEndpoint_insert; eauto.
    - simpl. apply list_lookup_insert_eq. by eapply lookup_lt_Some. }
  split; [done|]. simpl.
  rewrite list_insert_insert_eq. unfold MsgMap_Add.
  rewrite delete_middle, app_nil_r.
  apply list_insert_id. rewrite Hs. by destruct s.
Qed.

(** X20. In a state that the Broker has got to with its message ids whole,
    and whose next message id is whole: when the request cannot be queued
    to the Service, [PassThruToUspService] returns the error of the queue
    and records nothing.  The Service table is unchanged, only a message id
    of the Broker is used up; no entry of the Service's message map has
    it, so that a response under that id is not passed back to anybody. *)
Theorem PassThruToUspService_queue_failure b us s id t bd endpoint mtpc err :
  counted b -> next_id_whole b ->
  usp_services b !! us = Some s ->
  FindUspServiceByEndpoint (usp_services b) (endpoint_id s) = Some us ->
  let c := (count b + 1) mod 2 ^ 32 in
  let broker_id := broker_message_id MAX_MSG_ID_LEN c in
  MSG_HANDLER_QueueMessage_result
    (endpoint_id s) (received broker_id t bd) (controller_mtp s) = err ->
  err <> USP_ERR_OK ->
  exists b1,
    PassThruToUspService us (received id t bd) endpoint mtpc b = Some (err, b1) /\
    b1 = set_trace
           (trace b ++
              [Ev_QueueMessage (endpoint_id s) (received broker_id t bd) (controller_mtp s)])
           (set_count c b) /\
    (broker_id ∉ broker_msg_id <$> msg_map s) /\
    forall t' bd',
      AttemptPassThruForResponse (received broker_id t' bd') (endpoint_id s) b1
        = Some (false, b1).
Proof.
  intros Hcounted Hwhole Hs Hfind c broker_id Hq Herr.
  pose proof (next_message_id_fresh b us s (counted_message_ids b Hcounted) Hwhole Hs)
    as Hfresh.
  change (next_message_id b) with broker_id in Hfresh.
  eexists. split; [|split; [reflexivity|split; [exact Hfresh|]]].
  - unfold PassThruToUspService, CalcBrokerMessageId, MSG_HANDLER_QueueMessage,
      bind, get_state, get_us, call, modify, update_us, ret.
    rewrite Hs. simpl. fold c. fold broker_id.
    change (set_msg_id broker_id (received id t bd)) with (received broker_id t bd).
    rewrite Hq. by rewrite bool_decide_true.
  - intros t' bd'.
    apply AttemptPassThruForResponse_miss with (us := us) (s := s); try done.
    apply list_find_None, list.Forall_forall. intros e He Hid. apply Hfresh.
    apply list_elem_of_fmap. eauto.
Qed.
End RequestPassthru.

(* ===================================================================== *)
(** * More runs on the example configuration *)
(* ===================================================================== *)

Local Open Scope string_scope.

Lemma CheckPassThruPermissions_monotone_example :
  CheckPassThruPermissions example_permissions 2 3 = true /\
  CheckPassThruPermissions example_permissions 1 1 = true /\
  CheckPassThruPermissions example_permissions 3 3 = false.
Proof.
  split; [reflexivity|]. split; [|reflexivity].
  apply (CheckPassThruPermissions_monotone example_permissions 2 1 3 1).
  - lia.
  - reflexivity.
  - reflexivity.
Defined.

Section MoreRuns.
#[local] Existing Instance example_platform.

Lemma example_connected_handled : handled example_initial example_connected.
Proof.
  apply (handled_AddUspService "svc1" brokers_controller_socket USP_ERR_OK).
  vm_compute. reflexivity.
Qed.

Lemma example_registered_served : served example_registered.
Proof.
  eapply served_handled;
    [eapply served_handled; [by apply (served_Init example_builtin)|]|].
  - apply example_connected_handled.
  - eapply handled_HandleRegister. apply example_registered_run.
Qed.

Lemma example_registered_numbered : numbered example_registered.
Proof.
  eapply numbered_handled;
    [eapply numbered_handled; [by apply (numbered_Init example_builtin)| |]| |].
  - intros i s Hi Hlive. destruct i as [|[|i]]; vm_compute in Hi; simplify_eq;
      by (exfalso; apply Hlive).
  - apply example_connected_handled.
  - intros i s Hi Hlive. destruct i as [|[|i]]; vm_compute in Hi; simplify_eq;
      first [by (exfalso; apply Hlive) | (vm_compute; reflexivity)].
  - eapply handled_HandleRegister. apply example_registered_run.
Qed.

Lemma example_passed_through_served : served example_passed_through.
Proof.
  eapply served_handled; [apply example_registered_served|].
  eapply handled_PassThruToUspService. apply example_passed_through_run.
Qed.

Lemma lookups_agree_example :
  FindUspServiceByEndpoint (usp_services example_registered) "svc1" = Some 0%nat /\
  FindUspServiceByInstance (usp_services example_registered) 1 = Some 0%nat.
Proof.
  destruct (lookups_agree example_registered example_registered_served)
    as (_ & _ & Hfind).
  edestruct (Hfind 0%nat) as [Hend Hinst].
  - vm_compute. reflexivity.
  - vm_compute. discriminate.
  - split; [exact Hend|]. apply Hinst, example_registered_numbered.
Defined.

(** The agent of "svc1" disconnects while a Get request is with it: the
    Service leaves the table. *)
Lemma HandleUspServiceDisconnect_agent_example :
  exists b' s',
    USP_BROKER_HandleUspServiceDisconnect "svc1" kUdsPathType_BrokersController
      example_passed_through = Some (tt, b') /\
    usp_services b' !! 0%nat = Some s' /\
    instance s' = INVALID /\ registered_paths s' = [] /\ msg_map s' = [] /\
    Ev_DeRegisterPath "Device.Foo." ∈ trace b' /\
    Ev_FreeMTPConnection controller_websocket ∈ trace b'.
Proof.
  edestruct (HandleUspServiceDisconnect_agent example_passed_through "svc1" 0%nat)
    as (b' & s' & events & Hrun & Hslots & Htrace & _ & Hpaths & _ & _ & Hmsg &
        Hinst & Hdereg & _ & Hfree).
  - vm_compute. reflexivity.
  - vm_compute. reflexivity.
  - exists b', s'. split; [exact Hrun|]. split.
    { rewrite Hslots. apply list_lookup_insert_eq. vm_compute. lia. }
    split; [exact Hinst|]. split; [exact Hpaths|]. split; [exact Hmsg|].
    rewrite Htrace. split; apply elem_of_app; right.
    + apply Hdereg. vm_compute. constructor.
    + apply (Hfree {| broker_msg_id := "BROKER-2-1700000000";
                      original_msg_id := "ctrl-42"; originator := "controller1";
                      mtp_conn := controller_websocket |}).
      vm_compute. constructor.
Defined.

Lemma HandleUspServiceDisconnect_controller_example :
  exists b',
    USP_BROKER_HandleUspServiceDisconnect "svc1" kUdsPathType_BrokersAgent
      example_both_connected = Some (tt, b') /\
    FindUspServiceByEndpoint (usp_services b') "svc1" = Some 0%nat /\
    USP_BROKER_GetUspServiceInstance b' "svc1" 1 = INVALID /\
    USP_BROKER_GetUspServiceInstance b' "svc1" 0 = 1.
Proof.
  edestruct (HandleUspServiceDisconnect_controller example_both_connected "svc1" 0%nat)
    as (b' & Hrun & _ & Hfind & Hinst).
  - vm_compute. reflexivity.
  - vm_compute. reflexivity.
  - vm_compute. discriminate.
  - exists b'. split; [exact Hrun|]. split; [exact Hfind|].
    rewrite !Hinst. split; vm_compute; reflexivity.
Defined.

Lemma AttemptPassThruForResponse_after_disconnect_example :
  AttemptPassThruForResponse
    (received "BROKER-2-1700000000" USP__HEADER__MSG_TYPE__GET_RESP example_get_resp_body)
    "svc1"
    (state_after
       (USP_BROKER_HandleUspServiceDisconnect "svc1" kUdsPathType_BrokersController
          example_passed_through) example_passed_through)
  = Some (false,
          state_after
            (USP_BROKER_HandleUspServiceDisconnect "svc1" kUdsPathType_BrokersController
               example_passed_through) example_passed_through).
Proof.
  apply (AttemptPassThruForResponse_after_disconnect example_passed_through).
  - apply served_endpoints_distinct, example_passed_through_served.
  - vm_compute. reflexivity.
Defined.

Lemma USP_BROKER_Stop_frees_all_example :
  exists b',
    USP_BROKER_Stop example_passed_through = Some (tt, b') /\
    Forall (fun s' => instance s' = INVALID) (usp_services b') /\
    request_table b' = request_table example_passed_through.
Proof.
  destruct (USP_BROKER_Stop_frees_all example_passed_through)
    as (b' & events & Hrun & _ & _ & Hall & _ & _ & Hreq).
  - vm_compute. reflexivity.
  - exists b'. split; [exact Hrun|]. split; [exact Hall|exact Hreq].
Defined.

Lemma USP_BROKER_AddUspService_new_endpoint_example :
  exists err b',
    USP_BROKER_AddUspService "svc2" brokers_controller_socket example_registered
      = Some (err, b') /\
    FindUspServiceByEndpoint (usp_services b') "svc2" = Some 1%nat /\
    USP_BROKER_AddUspService "svc3" brokers_controller_socket example_second_connected
      = Some (USP_ERR_RESOURCES_EXCEEDED, example_second_connected).
Proof.
  pose proof (USP_BROKER_AddUspService_new_endpoint example_registered "svc2"
                brokers_controller_socket) as Hnew.
  pose proof (USP_BROKER_AddUspService_new_endpoint example_second_connected "svc3"
                brokers_controller_socket) as Hfull.
  assert (Hfree : FindUnusedUspService (usp_services example_registered) = Some 1%nat)
    by (vm_compute; reflexivity).
  assert (Hnone : FindUnusedUspService (usp_services example_second_connected) = None)
    by (vm_compute; reflexivity).
  rewrite Hfree in Hnew. rewrite Hnone in Hfull.
  rewrite bool_decide_false in Hnew by (vm_compute; discriminate).
  destruct Hnew as (err & b' & s & Hrun & _ & Hfind & _).
  - vm_compute. reflexivity.
  - apply brokers_controller_socket_usable.
  - exists err, b'. split; [exact Hrun|]. split; [exact Hfind|].
    apply Hfull; [vm_compute; reflexivity|apply brokers_controller_socket_usable].
Defined.

Lemma controller_websocket_usable : connection_usable controller_websocket.
Proof. intros [H _]. discriminate H. Qed.

Lemma GetNotifyDestForEndpoint_after_connect_example :
  USP_BROKER_GetNotifyDestForEndpoint "svc3" USP__HEADER__MSG_TYPE__NOTIFY
    example_websocket_connected
  = Some (Some controller_websocket, example_websocket_connected).
Proof.
  apply (GetNotifyDestForEndpoint_after_connect example_initial "svc3"
           controller_websocket USP_ERR_OK example_websocket_connected
           USP__HEADER__MSG_TYPE__NOTIFY).
  - vm_compute. reflexivity.
  - apply controller_websocket_usable.
  - vm_compute. reflexivity.
  - discriminate.
  - discriminate.
Defined.

Lemma HandleRegister_partial_example :
  exists b' (results : list Usp__RegisterResp__RegisteredPathResult) s',
    USP_BROKER_HandleRegister (Register_msg "reg-3" example_register_partial)
      "svc1" brokers_controller_socket example_connected = Some (tt, b') /\
    List.length results = 2%nat /\
    usp_services b' !! 0%nat = Some s' /\
    "Device.Bar." ∈ registered_paths s' /\
    "Device.Baz" ∉ registered_paths s'.
Proof.
  edestruct (HandleRegister_partial example_connected "reg-3" example_register_partial
               "svc1" brokers_controller_socket 0%nat)
    as (b' & results & evs & s' & Hrun & _ & Hlen & _ & Hs' & Hacc & _ & _).
  - apply brokers_controller_socket_usable.
  - reflexivity.
  - discriminate.
  - vm_compute. reflexivity.
  - vm_compute. reflexivity.
  - reflexivity.
  - exists b', results, s'. split; [exact Hrun|]. split; [exact Hlen|].
    split; [exact Hs'|]. split.
    + apply Hacc. exists 0%nat. split; [reflexivity|].
      intros [_ [Hval|[Hsch|[Hown|Hdup]]]].
      * vm_compute in Hval. by apply Hval.
      * vm_compute in Hsch. discriminate Hsch.
      * vm_compute in Hown. inversion Hown.
      * cbn in Hdup. inversion Hdup.
    + intros Hin. apply Hacc in Hin as (i & Hi & Hgood). apply Hgood.
      split; [exact Hi|]. left. vm_compute. discriminate.
Defined.

Lemma HandleRegister_refusals_example :
  USP_BROKER_HandleRegister (Register_msg "reg-2" example_register)
    "svc1" brokers_controller_socket example_registered
  = Some (tt, replied example_registered "svc1" brokers_controller_socket
                (ERROR_RESP_CreateSingle "reg-2" USP_ERR_REGISTER_FAILURE)).
Proof.
  eapply (HandleRegister_refusals example_registered).
  - reflexivity.
  - reflexivity.
  - eapply refused_registered_before.
    + reflexivity.
    + vm_compute. reflexivity.
    + discriminate.
Defined.

Lemma Broker_SyncOperate_example :
  Broker_SyncOperate example_request "key1" [] (example_broker [] [])
    = Some ((USP_ERR_INTERNAL_ERROR, []),
            operate_sent (example_broker [] []) (example_service [])
              example_reboot "key1" []).
Proof.
  destruct (Broker_SyncOperate_spec (example_broker [] []) example_request "key1" []
              0%nat (example_service []))
    as (_ & Hup & _); [vm_compute; reflexivity|reflexivity|].
  destruct Hup as [Hsilent _]; [vm_compute; discriminate|].
  apply Hsilent. reflexivity.
Defined.

Lemma example_initial_whole : next_id_whole example_initial.
Proof. split; [vm_compute; reflexivity|vm_compute; lia]. Qed.

Lemma example_connected_whole : next_id_whole example_connected.
Proof. split; [vm_compute; reflexivity|vm_compute; lia]. Qed.

Lemma example_registered_whole : next_id_whole example_registered.
Proof. split; [vm_compute; reflexivity|vm_compute; lia]. Qed.

Lemma example_registered_counted : counted example_registered.
Proof.
  eapply counted_handled;
    [eapply counted_handled; [by apply (counted_Init example_builtin)| |]| |].
  - apply example_initial_whole.
  - apply example_connected_handled.
  - apply example_connected_whole.
  - eapply handled_HandleRegister. apply example_registered_run.
Qed.

Lemma example_passed_through_counted : counted example_passed_through.
Proof.
  eapply counted_handled;
    [apply example_registered_counted|apply example_registered_whole|].
  eapply handled_PassThruToUspService. apply example_passed_through_run.
Qed.

Lemma PassThru_request_response_example :
  exists b1 b2,
    PassThruToUspService 0 example_get "controller1" controller_websocket
      example_registered = Some (USP_ERR_OK, b1) /\
    AttemptPassThruForResponse
      (received "BROKER-2-1700000000" USP__HEADER__MSG_TYPE__GET_RESP
         example_get_resp_body) "svc1" b1 = Some (true, b2) /\
    usp_services b2 = usp_services example_registered.
Proof.
  edestruct (PassThru_request_response example_registered 0%nat
               (default zero_usp_service (usp_services example_registered !! 0%nat))
               "ctrl-42"
               USP__HEADER__MSG_TYPE__GET
               (Some (USP__BODY__MSG_BODY_REQUEST
                        (Some (USP__REQUEST__REQ_TYPE_OTHER "Device.Foo.Enable"))))
               "controller1" controller_websocket
               USP__HEADER__MSG_TYPE__GET_RESP example_get_resp_body)
    as (_ & b1 & b2 & s1 & Hrun & _ & _ & _ & _ & Hresp & _ & Hback).
  - apply example_registered_counted.
  - apply example_registered_whole.
  - vm_compute. reflexivity.
  - vm_compute. reflexivity.
  - reflexivity.
  - left. eexists. reflexivity.
  - exists b1, b2. split; [exact Hrun|]. split; [exact Hresp|exact Hback].
Defined.

(** The message map of "svc1" after the Get request went to it. *)
Lemma message_ids_distinct_example :
  (broker_msg_id <$> msg_map
     (default zero_usp_service (usp_services example_passed_through !! 0%nat)))
    = ["BROKER-2-1700000000"] /\
  next_message_id example_passed_through = "BROKER-3-1700000000" /\
  next_message_id example_passed_through ∉
    broker_msg_id <$> msg_map
      (default zero_usp_service (usp_services example_passed_through !! 0%nat)).
Proof.
  split; [vm_compute; reflexivity|]. split; [vm_compute; reflexivity|].
  destruct (message_ids_distinct example_passed_through example_passed_through_counted)
    as [_ Hmaps].
  destruct (Hmaps 0%nat
              (default zero_usp_service (usp_services example_passed_through !! 0%nat)))
    as (_ & _ & Hfresh); [vm_compute; reflexivity|].
  apply Hfresh. split; [vm_compute; reflexivity|vm_compute; lia].
Defined.

Lemma broker_message_id_injective_example :
  broker_message_id 64 1 <> broker_message_id 64 2.
Proof.
  intros Heq. apply (broker_message_id_injective 64 1 2) in Heq.
  - discriminate Heq.
  - lia.
  - lia.
  - vm_compute. lia.
  - vm_compute. lia.
Defined.

(** After the agent of "svc1" has gone, "svc2" may register
    "Device.Foo.". *)
Lemma paths_released_on_disconnect_example :
  PP_EXISTS_IN_SCHEMA
    (state_after
       (USP_BROKER_HandleUspServiceDisconnect "svc1" kUdsPathType_BrokersController
          example_second_connected) example_second_connected) "Device.Foo." = false /\
  exists b'',
    RegisterUspServicePath 1 "Device.Foo."
      (state_after
         (USP_BROKER_HandleUspServiceDisconnect "svc1" kUdsPathType_BrokersController
            example_second_connected) example_second_connected)
    = Some (USP_ERR_OK, b'').
Proof.
  edestruct (paths_released_on_disconnect example_second_connected "svc1" 0%nat)
    as (_ & Hnode & Hregister).
  - vm_compute. apply NoDup_singleton.
  - vm_compute. reflexivity.
  - vm_compute. reflexivity.
  - vm_compute. reflexivity.
  - vm_compute. constructor.
  - split; [exact Hnode|]. eexists. apply Hregister.
    + reflexivity.
    + vm_compute. reflexivity.
Defined.

Lemma connect_then_disconnect_example :
  exists b2,
    USP_BROKER_HandleUspServiceDisconnect "svc1" kUdsPathType_BrokersController
      example_connected = Some (tt, b2) /\
    FindUspServiceByEndpoint (usp_services b2) "svc1" = None /\
    FindUnusedUspService (usp_services b2) = Some 0%nat /\
    groups_in_use b2 = groups_in_use example_initial.
Proof.
  destruct (connect_then_disconnect example_initial "svc1" brokers_controller_socket
              USP_ERR_OK example_connected)
    as (b2 & us & s2 & Hrun & Hslot & _ & Hgone & Hfree & _ & _ & _ & _ & _ & _ &
        Hgroups & _).
  - vm_compute. reflexivity.
  - reflexivity.
  - discriminate.
  - vm_compute. reflexivity.
  - discriminate.
  - exists b2. split; [exact Hrun|]. split; [exact Hgone|].
    split; [|exact Hgroups].
    assert (us = 0%nat) as <-; [|exact Hfree].
    vm_compute in Hslot. by injection Hslot.
Defined.
End MoreRuns.

Section BusyRuns.
#[local] Existing Instance busy_platform.

(** The command "Device.Foo.Reboot()" is started as request 6 and the
    Service reports its completion. *)
Lemma AsyncOperate_then_OperationComplete_example :
  exists b1 b2,
    Broker_AsyncOperate example_request [] 6 (example_broker [] [6])
      = Some (USP_ERR_OK, b1) /\
    USP_BROKER_HandleNotification
      (received "n-1" USP__HEADER__MSG_TYPE__NOTIFY (Notify_body example_operation_complete))
      "svc1" brokers_controller_socket b1 = Some (tt, b2) /\
    usp_services b2 = usp_services (example_broker [] [6]) /\
    request_table b2 = [].
Proof.
  edestruct (AsyncOperate_then_OperationComplete (example_broker [] [6]) example_request
               [] 6 0%nat (example_service []) "key1" example_operate_resp
               example_operation_result "Device.LocalAgent.Request.1." "svc1" brokers_controller_socket "n-1"
               USP__HEADER__MSG_TYPE__NOTIFY example_operation_complete)
    as (b1 & b2 & evs & Hrun & _ & Hnotify & _ & _ & Hback & Hrows).
  - vm_compute. reflexivity.
  - vm_compute. reflexivity.
  - reflexivity.
  - vm_compute. discriminate.
  - reflexivity.
  - vm_compute. reflexivity.
  - vm_compute. discriminate.
  - reflexivity.
  - reflexivity.
  - reflexivity.
  - reflexivity.
  - reflexivity.
  - reflexivity.
  - reflexivity.
  - vm_compute. reflexivity.
  - reflexivity.
  - vm_compute. reflexivity.
  - exists b1, b2. split; [exact Hrun|]. split; [exact Hnotify|].
    split; [exact Hback|]. rewrite Hrows. vm_compute. reflexivity.
Defined.

Lemma busy_connected_counted : counted busy_connected.
Proof.
  eapply counted_handled; [by apply (counted_Init [])| |].
  - split; [vm_compute; reflexivity|vm_compute; lia].
  - apply (handled_AddUspService "svc1" brokers_controller_socket USP_ERR_OK).
    vm_compute. reflexivity.
Qed.

Lemma PassThruToUspService_queue_failure_example :
  exists b1,
    PassThruToUspService 0 example_get "controller1" controller_websocket
      busy_connected = Some (USP_ERR_INTERNAL_ERROR, b1) /\
    usp_services b1 = usp_services busy_connected /\
    AttemptPassThruForResponse
      (received "BROKER-1-1700000000" USP__HEADER__MSG_TYPE__GET_RESP
         example_get_resp_body) "svc1" b1 = Some (false, b1).
Proof.
  edestruct (PassThruToUspService_queue_failure busy_connected 0%nat
               (default zero_usp_service (usp_services busy_connected !! 0%nat))
               "ctrl-42" USP__HEADER__MSG_TYPE__GET
               (Some (USP__BODY__MSG_BODY_REQUEST
                        (Some (USP__REQUEST__REQ_TYPE_OTHER "Device.Foo.Enable"))))
               "controller1" controller_websocket USP_ERR_INTERNAL_ERROR)
    as (b1 & Hrun & Hb1 & _ & Hstale).
  - apply busy_connected_counted.
  - split; [vm_compute; reflexivity|vm_compute; lia].
  - vm_compute. reflexivity.
  - vm_compute. reflexivity.
  - reflexivity.
  - discriminate.
  - exists b1. split; [exact Hrun|]. split; [by rewrite Hb1|].
    apply (Hstale USP__HEADER__MSG_TYPE__GET_RESP example_get_resp_body).
Defined.
End BusyRuns.

Local Close Scope string_scope.
